(** * AI Counsellor: a shallow embedding of the application layer

  The development follows the repository file by file:

  - [Js]           the few JavaScript string and array primitives the code uses;
  - the row types of [types.ts] ([Profile], [University], ...);
  - [Prog]         asynchronous code that awaits remote table operations and
                   may throw, as a tree of requests;
  - [Api]          the data-access functions of [db/api.ts];
  - [Postgres]     the tables and constraints of the SQL migration, as the
                   client that answers the requests;
  - [Counsellor], [UniversitiesPage], [ApplicationPage], [OnboardingPage]
                   the page code that the properties are about.

  Modelling conventions.  Strings are the UTF-8 bytes of their text.
  [toLowerCase] folds the ASCII letters, which is what JavaScript does on
  ASCII text; the statements that depend on the folding of other text say
  that they are about ASCII text.  [trim] strips the white space and the
  line terminators of JavaScript, the ones outside ASCII included.  A
  number typed into a form is the finite decimal that JSON carries;
  [numeric(p,2)] columns are integers counting hundredths, rounded on the
  way in.  Server defaults ([gen_random_uuid()], [now()]) are drawn from a
  counter kept in the store.  Row-level security is not modelled: every
  request is issued by the owner of the rows it names.  Toasts, console
  output, navigation and dialog state are left out.

  Handlers are asynchronous and the pages do not disable their buttons
  while a request is in flight.  [run] and [App.step] take one body to its
  end with nothing else in flight; [overlap] lets the requests of two
  bodies reach the service in any order. *)

From Stdlib Require Import String Ascii ZArith List Bool Arith Lia.
From Stdlib Require Import DecimalString DecimalNat Sorted.
Import ListNotations.
Open Scope string_scope.

(* ================================================================== *)
(** * JavaScript primitives                                            *)
(* ================================================================== *)

Module Js.

(** [c.toLowerCase()] on one ASCII code unit; the bytes of other
    characters are left as they are. *)
Definition lower_ascii (c : ascii) : ascii :=
  let n := nat_of_ascii c in
  if (Nat.leb 65 n) && (Nat.leb n 90) then ascii_of_nat (n + 32) else c.

(** [s.toLowerCase()] on ASCII text. *)
Fixpoint toLowerCase (s : string) : string :=
  match s with
  | EmptyString => EmptyString
  | String c r => String (lower_ascii c) (toLowerCase r)
  end.

(** [s.includes(t)]: [t] occurs in [s] as a contiguous substring. *)
Fixpoint includes (s t : string) : bool :=
  if String.prefix t s then true
  else match s with
       | EmptyString => false
       | String _ r => includes r t
       end.

(** [xs.join(sep)] *)
Fixpoint join (sep : string) (xs : list string) : string :=
  match xs with
  | [] => ""
  | [x] => x
  | x :: r => x ++ sep ++ join sep r
  end.

(** [xs.slice(a, b)] for constant non-negative bounds. *)
Definition slice {A} (a b : nat) (xs : list A) : list A :=
  firstn (b - a) (skipn a xs).

(** A string is truthy when it is not empty. *)
Definition truthy_string (s : string) : bool :=
  match s with EmptyString => false | _ => true end.

(** [s || null] for an optional string. *)
Definition or_null (s : option string) : option string :=
  match s with
  | Some v => if truthy_string v then Some v else None
  | None => None
  end.

(** [String(n)] for an integer. *)
Definition show_Z (z : Z) : string := NilZero.string_of_int (Z.to_int z).

Definition nl : string := String "010" EmptyString.

(** The bytes of a string, given by their values. *)
Definition utf8 (bytes : list nat) : string :=
  string_of_list_ascii (map ascii_of_nat bytes).

(** The white space and the line terminators of JavaScript, each as the
    UTF-8 encoding of its code point: U+0009 to U+000D, U+0020, U+00A0,
    U+1680, U+2000 to U+200A, U+2028, U+2029, U+202F, U+205F, U+3000 and
    U+FEFF. *)
Definition white_space : list string :=
  map utf8
    [ [9]; [10]; [11]; [12]; [13]; [32];
      [194; 160];
      [225; 154; 128];
      [226; 128; 128]; [226; 128; 129]; [226; 128; 130]; [226; 128; 131];
      [226; 128; 132]; [226; 128; 133]; [226; 128; 134]; [226; 128; 135];
      [226; 128; 136]; [226; 128; 137]; [226; 128; 138];
      [226; 128; 168]; [226; 128; 169]; [226; 128; 175];
      [226; 129; 159];
      [227; 128; 128];
      [239; 187; 191] ].

(** [s] is one character of white space. *)
Definition is_white_space (s : string) : bool :=
  existsb (String.eqb s) white_space.

(** [s.trimStart()]: a character of white space is one, two or three
    bytes long. *)
Fixpoint trimStart (s : string) : string :=
  match s with
  | EmptyString => EmptyString
  | String a r1 =>
      if is_white_space (String a EmptyString) then trimStart r1
      else
        match r1 with
        | EmptyString => s
        | String b r2 =>
            if is_white_space (String a (String b EmptyString)) then trimStart r2
            else
              match r2 with
              | EmptyString => s
              | String c r3 =>
                  if is_white_space (String a (String b (String c EmptyString)))
                  then trimStart r3
                  else s
              end
        end
  end.

(** [s.trimEnd()]: going from the right, a character is dropped when what
    is left of the string after it is nothing but its own last bytes. *)
Fixpoint trimEnd (s : string) : string :=
  match s with
  | EmptyString => EmptyString
  | String c r =>
      let r' := trimEnd r in
      if is_white_space (String c r') then EmptyString else String c r'
  end.

(** [s.trim()] *)
Definition trim (s : string) : string := trimEnd (trimStart s).

(** A finite JavaScript number as JSON carries it: the decimal
    [digits / 10^places]. *)
Record number := mkNumber {
  digits : Z;
  places : nat
}.

(** [xs.includes(x)] on an array of strings. *)
Definition array_includes (xs : list string) (x : string) : bool :=
  existsb (String.eqb x) xs.

(** [Array.from(new Set(xs))]: the values in the order of their first
    occurrence. *)
Definition unique (xs : list string) : list string :=
  fold_left (fun seen x => if array_includes seen x then seen else seen ++ [x])%list
            xs [].

(** [xs.sort()] on strings: ascending by code units. *)
Fixpoint insert_sorted (x : string) (l : list string) : list string :=
  match l with
  | [] => [x]
  | y :: r => if String.leb x y then x :: y :: r else y :: insert_sorted x r
  end.

Definition sort (xs : list string) : list string :=
  fold_right insert_sorted [] xs.

(** [xs.indexOf(x)], with [-1] when [x] does not occur. *)
Fixpoint indexOf {A} (eqb : A -> A -> bool) (xs : list A) (x : A) : Z :=
  match xs with
  | [] => (-1)%Z
  | y :: r => if eqb y x then 0%Z
              else match indexOf eqb r x with
                   | Zneg _ => (-1)%Z
                   | i => (i + 1)%Z
                   end
  end.

End Js.

(* ================================================================== *)
(** * Row types ([types.ts] and the SQL migration)                     *)
(* ================================================================== *)

Inductive UserRole := role_user | role_admin.

Inductive UserStage :=
| not_started
| onboarding
| exploring
| shortlisting
| committed
| applying.

Inductive UniversityCategory := dream | target | safe.

(** A [numeric(p,2)] value, counted in hundredths. *)
Definition Numeric2 := Z.

(** What a [numeric(p,2)] column keeps of a number: its hundredths,
    rounded half away from zero. *)
Definition to_numeric2 (x : Js.number) : Numeric2 :=
let unit := (10 ^ Z.of_nat (Js.places x))%Z in
let hundredths := (Z.abs (Js.digits x) * 100)%Z in
(Z.sgn (Js.digits x) * ((2 * hundredths + unit) / (2 * unit)))%Z.

(** [timestamptz] values are ticks of the server clock. *)
Definition Timestamp := nat.

(** [jsonb] documents are kept as their text. *)
Definition Json := string.

Definition UserStage_eqb (a b : UserStage) : bool :=
match a, b with
| not_started, not_started | onboarding, onboarding | exploring, exploring
| shortlisting, shortlisting | committed, committed | applying, applying => true
| _, _ => false
end.

(** Position of a stage in the declared order of the enum. *)
Definition stage_rank (s : UserStage) : nat :=
match s with
| not_started => 0
| onboarding => 1
| exploring => 2
| shortlisting => 3
| committed => 4
| applying => 5
end.

(** [String(x)] for a [numeric(p,2)] value read back as a JS number:
  the shortest decimal, without trailing zeros. *)
Definition show_numeric2 (x : Numeric2) : string :=
let a := Z.abs x in
let ip := (a / 100)%Z in
let fp := (a mod 100)%Z in
let sign := if (x <? 0)%Z then "-" else "" in
let frac :=
  if (fp =? 0)%Z then ""
  else if (fp mod 10 =? 0)%Z then "." ++ Js.show_Z (fp / 10)
  else if (fp <? 10)%Z then ".0" ++ Js.show_Z fp
  else "." ++ Js.show_Z fp in
sign ++ Js.show_Z ip ++ frac.

Module Profile.
Record t := mk {
  id : string;
  email : option string;
  role : UserRole;
  full_name : option string;
  current_stage : UserStage;
  onboarding_completed : bool;
  current_education_level : option string;
  field_of_study : option string;
  gpa : option Numeric2;
  test_scores : list (string * Z);
  target_degree : option string;
  preferred_countries : list string;
  preferred_fields : list string;
  budget_min : option Z;
  budget_max : option Z;
  exams_taken : list string;
  exams_planned : list string;
  created_at : Timestamp;
  updated_at : Timestamp
}.

(** One entry of a [Partial<Profile>] object literal.  The GPA is the
    number as it is sent; the column rounds it. *)
Inductive assign :=
| set_email (v : option string)
| set_role (v : UserRole)
| set_full_name (v : option string)
| set_current_stage (v : UserStage)
| set_onboarding_completed (v : bool)
| set_current_education_level (v : option string)
| set_field_of_study (v : option string)
| set_gpa (v : option Js.number)
| set_test_scores (v : list (string * Z))
| set_target_degree (v : option string)
| set_preferred_countries (v : list string)
| set_preferred_fields (v : list string)
| set_budget_min (v : option Z)
| set_budget_max (v : option Z)
| set_exams_taken (v : list string)
| set_exams_planned (v : list string).

Definition apply1 (a : assign) (p : t) : t :=
  match a with
  | set_email v => mk (id p) v (role p) (full_name p) (current_stage p) (onboarding_completed p) (current_education_level p) (field_of_study p) (gpa p) (test_scores p) (target_degree p) (preferred_countries p) (preferred_fields p) (budget_min p) (budget_max p) (exams_taken p) (exams_planned p) (created_at p) (updated_at p)
  | set_role v => mk (id p) (email p) v (full_name p) (current_stage p) (onboarding_completed p) (current_education_level p) (field_of_study p) (gpa p) (test_scores p) (target_degree p) (preferred_countries p) (preferred_fields p) (budget_min p) (budget_max p) (exams_taken p) (exams_planned p) (created_at p) (updated_at p)
  | set_full_name v => mk (id p) (email p) (role p) v (current_stage p) (onboarding_completed p) (current_education_level p) (field_of_study p) (gpa p) (test_scores p) (target_degree p) (preferred_countries p) (preferred_fields p) (budget_min p) (budget_max p) (exams_taken p) (exams_planned p) (created_at p) (updated_at p)
  | set_current_stage v => mk (id p) (email p) (role p) (full_name p) v (onboarding_completed p) (current_education_level p) (field_of_study p) (gpa p) (test_scores p) (target_degree p) (preferred_countries p) (preferred_fields p) (budget_min p) (budget_max p) (exams_taken p) (exams_planned p) (created_at p) (updated_at p)
  | set_onboarding_completed v => mk (id p) (email p) (role p) (full_name p) (current_stage p) v (current_education_level p) (field_of_study p) (gpa p) (test_scores p) (target_degree p) (preferred_countries p) (preferred_fields p) (budget_min p) (budget_max p) (exams_taken p) (exams_planned p) (created_at p) (updated_at p)
  | set_current_education_level v => mk (id p) (email p) (role p) (full_name p) (current_stage p) (onboarding_completed p) v (field_of_study p) (gpa p) (test_scores p) (target_degree p) (preferred_countries p) (preferred_fields p) (budget_min p) (budget_max p) (exams_taken p) (exams_planned p) (created_at p) (updated_at p)
  | set_field_of_study v => mk (id p) (email p) (role p) (full_name p) (current_stage p) (onboarding_completed p) (current_education_level p) v (gpa p) (test_scores p) (target_degree p) (preferred_countries p) (preferred_fields p) (budget_min p) (budget_max p) (exams_taken p) (exams_planned p) (created_at p) (updated_at p)
  | set_gpa v => mk (id p) (email p) (role p) (full_name p) (current_stage p) (onboarding_completed p) (current_education_level p) (field_of_study p) (option_map to_numeric2 v) (test_scores p) (target_degree p) (preferred_countries p) (preferred_fields p) (budget_min p) (budget_max p) (exams_taken p) (exams_planned p) (created_at p) (updated_at p)
  | set_test_scores v => mk (id p) (email p) (role p) (full_name p) (current_stage p) (onboarding_completed p) (current_education_level p) (field_of_study p) (gpa p) v (target_degree p) (preferred_countries p) (preferred_fields p) (budget_min p) (budget_max p) (exams_taken p) (exams_planned p) (created_at p) (updated_at p)
  | set_target_degree v => mk (id p) (email p) (role p) (full_name p) (current_stage p) (onboarding_completed p) (current_education_level p) (field_of_study p) (gpa p) (test_scores p) v (preferred_countries p) (preferred_fields p) (budget_min p) (budget_max p) (exams_taken p) (exams_planned p) (created_at p) (updated_at p)
  | set_preferred_countries v => mk (id p) (email p) (role p) (full_name p) (current_stage p) (onboarding_completed p) (current_education_level p) (field_of_study p) (gpa p) (test_scores p) (target_degree p) v (preferred_fields p) (budget_min p) (budget_max p) (exams_taken p) (exams_planned p) (created_at p) (updated_at p)
  | set_preferred_fields v => mk (id p) (email p) (role p) (full_name p) (current_stage p) (onboarding_completed p) (current_education_level p) (field_of_study p) (gpa p) (test_scores p) (target_degree p) (preferred_countries p) v (budget_min p) (budget_max p) (exams_taken p) (exams_planned p) (created_at p) (updated_at p)
  | set_budget_min v => mk (id p) (email p) (role p) (full_name p) (current_stage p) (onboarding_completed p) (current_education_level p) (field_of_study p) (gpa p) (test_scores p) (target_degree p) (preferred_countries p) (preferred_fields p) v (budget_max p) (exams_taken p) (exams_planned p) (created_at p) (updated_at p)
  | set_budget_max v => mk (id p) (email p) (role p) (full_name p) (current_stage p) (onboarding_completed p) (current_education_level p) (field_of_study p) (gpa p) (test_scores p) (target_degree p) (preferred_countries p) (preferred_fields p) (budget_min p) v (exams_taken p) (exams_planned p) (created_at p) (updated_at p)
  | set_exams_taken v => mk (id p) (email p) (role p) (full_name p) (current_stage p) (onboarding_completed p) (current_education_level p) (field_of_study p) (gpa p) (test_scores p) (target_degree p) (preferred_countries p) (preferred_fields p) (budget_min p) (budget_max p) v (exams_planned p) (created_at p) (updated_at p)
  | set_exams_planned v => mk (id p) (email p) (role p) (full_name p) (current_stage p) (onboarding_completed p) (current_education_level p) (field_of_study p) (gpa p) (test_scores p) (target_degree p) (preferred_countries p) (preferred_fields p) (budget_min p) (budget_max p) (exams_taken p) v (created_at p) (updated_at p)
  end.

(** The entries of an object literal apply in order; a later entry for
    the same key wins. *)
Definition apply (patch : list assign) (p : t) : t :=
  fold_left (fun acc a => apply1 a acc) patch p.

(** The [BEFORE UPDATE] trigger of the migration. *)
Definition touch (now : Timestamp) (p : t) : t :=
  mk (id p) (email p) (role p) (full_name p) (current_stage p) (onboarding_completed p) (current_education_level p) (field_of_study p) (gpa p) (test_scores p) (target_degree p) (preferred_countries p) (preferred_fields p) (budget_min p) (budget_max p) (exams_taken p) (exams_planned p) (created_at p) now.
End Profile.

Module University.
Record t := mk {
  id : string;
  name : string;
  country : string;
  city : option string;
  ranking : option Z;
  acceptance_rate : option Numeric2;
  tuition_fee_min : option Z;
  tuition_fee_max : option Z;
  currency : string;
  programs : list string;
  requirements : Json;
  description : option string;
  website : option string;
  created_at : Timestamp
}.
End University.

Module ShortlistedUniversity.
Record t := mk {
  id : string;
  user_id : string;
  university_id : string;
  category : UniversityCategory;
  notes : option string;
  created_at : Timestamp;
  university : option University.t
}.
End ShortlistedUniversity.

Module LockedUniversity.
Record t := mk {
  id : string;
  user_id : string;
  university_id : string;
  locked_at : Timestamp;
  university : option University.t
}.
End LockedUniversity.

Module Task.
Record t := mk {
  id : string;
  user_id : string;
  university_id : option string;
  title : string;
  description : option string;
  completed : bool;
  due_date : option string;
  priority : string;
  created_at : Timestamp;
  updated_at : Timestamp;
  university : option University.t
}.

(** One entry of a [Partial<Task>] object literal. *)
Inductive assign :=
| set_university_id (v : option string)
| set_title (v : string)
| set_description (v : option string)
| set_completed (v : bool)
| set_due_date (v : option string)
| set_priority (v : string).

Definition apply1 (a : assign) (k : t) : t :=
  match a with
  | set_university_id v => mk (id k) (user_id k) v (title k) (description k) (completed k) (due_date k) (priority k) (created_at k) (updated_at k) (university k)
  | set_title v => mk (id k) (user_id k) (university_id k) v (description k) (completed k) (due_date k) (priority k) (created_at k) (updated_at k) (university k)
  | set_description v => mk (id k) (user_id k) (university_id k) (title k) v (completed k) (due_date k) (priority k) (created_at k) (updated_at k) (university k)
  | set_completed v => mk (id k) (user_id k) (university_id k) (title k) (description k) v (due_date k) (priority k) (created_at k) (updated_at k) (university k)
  | set_due_date v => mk (id k) (user_id k) (university_id k) (title k) (description k) (completed k) v (priority k) (created_at k) (updated_at k) (university k)
  | set_priority v => mk (id k) (user_id k) (university_id k) (title k) (description k) (completed k) (due_date k) v (created_at k) (updated_at k) (university k)
  end.

Definition apply (patch : list assign) (k : t) : t :=
  fold_left (fun acc a => apply1 a acc) patch k.

Definition touch (now : Timestamp) (k : t) : t :=
  mk (id k) (user_id k) (university_id k) (title k) (description k) (completed k) (due_date k) (priority k) (created_at k) now (university k).
End Task.

Inductive ChatRole := chat_user | chat_assistant.

Module ChatMessage.
Record t := mk {
  id : string;
  user_id : string;
  role : ChatRole;
  content : string;
  metadata : Json;
  created_at : Timestamp
}.
End ChatMessage.

Module OnboardingData.
Record t := mk {
  full_name : string;
  current_education_level : string;
  field_of_study : string;
  gpa : Js.number;
  test_scores : list (string * Z);
  target_degree : string;
  preferred_countries : list string;
  preferred_fields : list string;
  budget_min : Z;
  budget_max : Z;
  exams_taken : list string;
  exams_planned : list string
}.

(** [...onboardingData] inside an object literal. *)
Definition spread (d : t) : list Profile.assign :=
  [ Profile.set_full_name (Some (full_name d));
    Profile.set_current_education_level (Some (current_education_level d));
    Profile.set_field_of_study (Some (field_of_study d));
    Profile.set_gpa (Some (gpa d));
    Profile.set_test_scores (test_scores d);
    Profile.set_target_degree (Some (target_degree d));
    Profile.set_preferred_countries (preferred_countries d);
    Profile.set_preferred_fields (preferred_fields d);
    Profile.set_budget_min (Some (budget_min d));
    Profile.set_budget_max (Some (budget_max d));
    Profile.set_exams_taken (exams_taken d);
    Profile.set_exams_planned (exams_planned d) ].
End OnboardingData.

(* ================================================================== *)
(** * Remote table operations                                          *)
(* ================================================================== *)

(** The error object a table operation may report. *)
Record PostgrestError := mkError {
  code : string;
  message : string
}.

(** The argument of [createTask]. *)
Module TaskInput.
Record t := mk {
  title : string;
  description : option string;
  university_id : option string;
  due_date : option string;
  priority : option string
}.
End TaskInput.

(** The optional argument of [getUniversities]. *)
Module Filters.
Record t := mk {
  countries : option (list string);
  programs : option (list string);
  budgetMax : option Z
}.
End Filters.

(** One query-builder chain of [db/api.ts], as it is sent. *)
Inductive Request :=
(* from('profiles').select(<all columns>).eq('id', userId).maybeSingle() *)
| profiles_select (userId : string)
(* from('profiles').update(updates).eq('id', userId).select().maybeSingle() *)
| profiles_update_returning (userId : string) (updates : list Profile.assign)
(* from('profiles').update(updates).eq('id', userId) *)
| profiles_update (userId : string) (updates : list Profile.assign)
(* from('universities').select(<all columns>).order('ranking') [.in] [.overlaps] [.lte] *)
| universities_select (in_country : option (list string))
                      (overlaps_programs : option (list string))
                      (lte_tuition_fee_min : option Z)
(* from('universities').select(<all columns>).eq('id', id).maybeSingle() *)
| universities_select_one (id : string)
(* from('universities').select(<all columns>).or(ilike ...).order('ranking').limit(20) *)
| universities_search (searchTerm : string)
(* from('user_shortlisted_universities').select(<all columns, university embedded>).eq('user_id', userId).order('created_at', desc) *)
| shortlisted_select (userId : string)
(* from('user_shortlisted_universities').insert({...}) *)
| shortlisted_insert (userId universityId : string) (category : UniversityCategory)
                     (notes : option string)
(* from('user_shortlisted_universities').delete().eq('user_id', ..).eq('university_id', ..) *)
| shortlisted_delete (userId universityId : string)
(* from('user_shortlisted_universities').update({ category }).eq(..).eq(..) *)
| shortlisted_update (userId universityId : string) (category : UniversityCategory)
(* from('user_locked_universities').select(<all columns, university embedded>).eq('user_id', userId).order('locked_at', desc) *)
| locked_select (userId : string)
(* from('user_locked_universities').insert({...}) *)
| locked_insert (userId universityId : string)
(* from('user_locked_universities').delete().eq(..).eq(..) *)
| locked_delete (userId universityId : string)
(* from('tasks').select(<all columns, university embedded>).eq('user_id', userId).order('due_date').order('created_at', desc) *)
| tasks_select (userId : string)
(* from('tasks').insert({...}).select().maybeSingle() *)
| tasks_insert_returning (userId title : string) (description university_id due_date : option string)
                         (priority : string)
(* from('tasks').update(updates).eq('id', taskId) *)
| tasks_update (taskId : string) (updates : list Task.assign)
(* from('tasks').delete().eq('id', taskId) *)
| tasks_delete (taskId : string)
(* from('chat_messages').select(<all columns>).eq('user_id', userId).order('created_at').limit(limit) *)
| chat_select (userId : string) (limit : nat)
(* from('chat_messages').insert({...}).select().maybeSingle() *)
| chat_insert_returning (userId : string) (role : ChatRole) (content : string) (metadata : Json).

(** What [data] holds when it is not [null]. *)
Definition payload (q : Request) : Type :=
match q with
| profiles_select _ | profiles_update_returning _ _ => Profile.t
| universities_select _ _ _ | universities_search _ => list University.t
| universities_select_one _ => University.t
| shortlisted_select _ => list ShortlistedUniversity.t
| locked_select _ => list LockedUniversity.t
| tasks_select _ => list Task.t
| tasks_insert_returning _ _ _ _ _ _ => Task.t
| chat_select _ _ => list ChatMessage.t
| chat_insert_returning _ _ _ _ => ChatMessage.t
| profiles_update _ _
| shortlisted_insert _ _ _ _ | shortlisted_delete _ _ | shortlisted_update _ _ _
| locked_insert _ _ | locked_delete _ _
| tasks_update _ _ | tasks_delete _ => unit
end.

(** The [{ data, error }] object a request resolves to. [data = None] is
    [null] (or, for a list payload, anything that is not an array). *)
Record Response (q : Request) := mkResponse {
  data : option (payload q);
  error : option PostgrestError
}.
Arguments mkResponse {q} & _ _.
Arguments data {q} _.
Arguments error {q} _.

(* ================================================================== *)
(** * Asynchronous code                                                *)
(* ================================================================== *)

(** What a [throw] carries: the error object of a table operation, or a
    [TypeError] raised by the runtime. *)
Inductive Exn :=
| DbError (e : PostgrestError)
| TypeError (msg : string).

(** An [async] function body: it returns, throws, or awaits a request and
    goes on with the response. *)
Inductive Prog (A : Type) : Type :=
| Ret (a : A)
| Throw (e : Exn)
| Call (q : Request) (k : Response q -> Prog A).
Arguments Ret {A} _.
Arguments Throw {A} _.
Arguments Call {A} _ _.

Fixpoint bind {A B} (p : Prog A) (f : A -> Prog B) : Prog B :=
match p with
| Ret a => f a
| Throw e => Throw e
| Call q k => Call q (fun r => bind (k r) f)
end.

Notation "x <- p ;; k" := (bind p (fun x => k))
  (at level 61, p at next level, right associativity).
Notation "p ;;; k" := (bind p (fun _ => k))
  (at level 61, right associativity).

(** [await supabase.from(...)...] *)
Definition await (q : Request) : Prog (Response q) := Call q (fun r => Ret r).

(** [try { p } catch (error) { h }] *)
Fixpoint try_catch {A} (p : Prog A) (h : Exn -> Prog A) : Prog A :=
match p with
| Ret a => Ret a
| Throw e => h e
| Call q k => Call q (fun r => try_catch (k r) h)
end.

(** How an [async] call settles. *)
Inductive Outcome (A : Type) : Type :=
| Fulfilled (a : A)
| Rejected (e : Exn).
Arguments Fulfilled {A} _.
Arguments Rejected {A} _.

(** The promise of [p], observed without letting a rejection escape. *)
Definition settle {A} (p : Prog A) : Prog (Outcome A) :=
try_catch (a <- p ;; Ret (Fulfilled a)) (fun e => Ret (Rejected e)).

(** [await Promise.all([p1, p2])]: both bodies issue their requests; the
    result rejects with the first rejection in array order. *)
Definition promise_all2 {A B} (p1 : Prog A) (p2 : Prog B) : Prog (A * B) :=
o1 <- settle p1 ;;
o2 <- settle p2 ;;
match o1, o2 with
| Fulfilled a, Fulfilled b => Ret (a, b)
| Rejected e, _ => Throw e
| _, Rejected e => Throw e
end.

Definition promise_all3 {A B C} (p1 : Prog A) (p2 : Prog B) (p3 : Prog C)
  : Prog (A * B * C) :=
o1 <- settle p1 ;;
o2 <- settle p2 ;;
o3 <- settle p3 ;;
match o1, o2, o3 with
| Fulfilled a, Fulfilled b, Fulfilled c => Ret (a, b, c)
| Rejected e, _, _ => Throw e
| _, Rejected e, _ => Throw e
| _, _, Rejected e => Throw e
end.

(** Every request the body can send, whatever the answers, satisfies [P]. *)
Fixpoint all_calls {A} (P : Request -> Prop) (p : Prog A) : Prop :=
match p with
| Ret _ => True
| Throw _ => True
| Call q k => P q /\ forall r, all_calls P (k r)
end.

(** A client answers every request and may change its own state. *)
Definition Client (S : Type) : Type := forall q : Request, S -> Response q * S.

(** One request and the error it reported, if any. *)
Record Exchange := mkExchange {
  request : Request;
  reported : option PostgrestError
}.

(** The result of running a body against a client: how it settled, the
    client's final state, and the exchanges with the client, in order. *)
Record Run (S A : Type) := mkRun {
  outcome : Outcome A;
  final : S;
  log : list Exchange
}.
Arguments mkRun {S A} _ _ _.
Arguments outcome {S A} _.
Arguments final {S A} _.
Arguments log {S A} _.

Fixpoint run {S A} (c : Client S) (p : Prog A) (s : S) : Run S A :=
match p with
| Ret a => mkRun (Fulfilled a) s []
| Throw e => mkRun (Rejected e) s []
| Call q k =>
    let r := fst (c q s) in
    let rest := run c (k r) (snd (c q s)) in
    mkRun (outcome rest) (final rest) (mkExchange q (error r) :: log rest)
end.

(** The requests a run sent, in order. *)
Definition sent {S A} (r : Run S A) : list Request := map request (log r).

(** Extend a run by what was exchanged before it. *)
Definition after {S A} (before : list Exchange) (r : Run S A) : Run S A :=
mkRun (outcome r) (final r) (before ++ log r)%list.

(** Two bodies in flight at the same time, as when a second handler is
    started before the first has come back.  Each body sends its next
    request only after the answer to its last one, but the requests of
    the two reach the service in any order: [turns] lists whose request
    is received next ([true] for the first body).  A turn of a body that
    has settled is skipped, and when the turns are used up the first body
    goes to its end and then the second. *)
Fixpoint overlap {A B} (turns : list bool) (p1 : Prog A) (p2 : Prog B)
  : Prog (Outcome A * Outcome B) :=
match turns with
| [] => o1 <- settle p1 ;; o2 <- settle p2 ;; Ret (o1, o2)
| true :: rest =>
    match p1 with
    | Call q k => Call q (fun r => overlap rest (k r) p2)
    | _ => overlap rest p1 p2
    end
| false :: rest =>
    match p2 with
    | Call q k => Call q (fun r => overlap rest p1 (k r))
    | _ => overlap rest p1 p2
    end
end.

(* ================================================================== *)
(** * [db/api.ts]                                                      *)
(* ================================================================== *)

Module Api.

(** [Array.isArray(data) ? data : []] *)
Definition array_or_empty {A} (d : option (list A)) : list A :=
match d with
| Some rows => rows
| None => []
end.

(* Profile APIs *)

Definition getProfile (userId : string) : Prog (option Profile.t) :=
r <- await (profiles_select userId) ;;
match error r with
| Some e => Throw (DbError e)
| None => Ret (data r)
end.

Definition updateProfile (userId : string) (updates : list Profile.assign)
  : Prog (option Profile.t) :=
r <- await (profiles_update_returning userId updates) ;;
match error r with
| Some e => Throw (DbError e)
| None => Ret (data r)
end.

Definition completeOnboarding (userId : string) (onboardingData : OnboardingData.t)
  : Prog (option Profile.t) :=
r <- await (profiles_update_returning userId
              (OnboardingData.spread onboardingData ++
               [ Profile.set_onboarding_completed true;
                 Profile.set_current_stage exploring ])%list) ;;
match error r with
| Some e => Throw (DbError e)
| None => Ret (data r)
end.

Definition updateUserStage (userId : string) (stage : UserStage) : Prog unit :=
r <- await (profiles_update userId [ Profile.set_current_stage stage ]) ;;
match error r with
| Some e => Throw (DbError e)
| None => Ret tt
end.

(* University APIs *)

(** [filters?.xs && filters.xs.length > 0] *)
Definition nonempty_filter (xs : option (list string)) : option (list string) :=
match xs with
| Some l => if (0 <? List.length l)%nat then Some l else None
| None => None
end.

(** [filters?.budgetMax], kept when truthy. *)
Definition truthy_number (n : option Z) : option Z :=
match n with
| Some z => if (z =? 0)%Z then None else Some z
| None => None
end.

Definition getUniversities (filters : option Filters.t) : Prog (list University.t) :=
let in_country :=
  match filters with
  | Some f => nonempty_filter (Filters.countries f)
  | None => None
  end in
let overlaps_programs :=
  match filters with
  | Some f => nonempty_filter (Filters.programs f)
  | None => None
  end in
let lte_fee :=
  match filters with
  | Some f => truthy_number (Filters.budgetMax f)
  | None => None
  end in
r <- await (universities_select in_country overlaps_programs lte_fee) ;;
match error r with
| Some e => Throw (DbError e)
| None => Ret (array_or_empty (data r))
end.

Definition getUniversity (id : string) : Prog (option University.t) :=
r <- await (universities_select_one id) ;;
match error r with
| Some e => Throw (DbError e)
| None => Ret (data r)
end.

Definition searchUniversities (searchTerm : string) : Prog (list University.t) :=
r <- await (universities_search searchTerm) ;;
match error r with
| Some e => Throw (DbError e)
| None => Ret (array_or_empty (data r))
end.

(* Shortlist APIs *)

Definition getShortlistedUniversities (userId : string)
  : Prog (list ShortlistedUniversity.t) :=
r <- await (shortlisted_select userId) ;;
match error r with
| Some e => Throw (DbError e)
| None => Ret (array_or_empty (data r))
end.

Definition addToShortlist (userId universityId : string)
  (category : UniversityCategory) (notes : option string) : Prog unit :=
r <- await (shortlisted_insert userId universityId category (Js.or_null notes)) ;;
match error r with
| Some e => Throw (DbError e)
| None => Ret tt
end.

Definition removeFromShortlist (userId universityId : string) : Prog unit :=
r <- await (shortlisted_delete userId universityId) ;;
match error r with
| Some e => Throw (DbError e)
| None => Ret tt
end.

Definition updateShortlistCategory (userId universityId : string)
  (category : UniversityCategory) : Prog unit :=
r <- await (shortlisted_update userId universityId category) ;;
match error r with
| Some e => Throw (DbError e)
| None => Ret tt
end.

(* Locked Universities APIs *)

Definition getLockedUniversities (userId : string) : Prog (list LockedUniversity.t) :=
r <- await (locked_select userId) ;;
match error r with
| Some e => Throw (DbError e)
| None => Ret (array_or_empty (data r))
end.

Definition lockUniversity (userId universityId : string) : Prog unit :=
r <- await (locked_insert userId universityId) ;;
match error r with
| Some e => Throw (DbError e)
| None =>
    (* Update user stage to committed if not already *)
    profile <- getProfile userId ;;
    match profile with
    | Some p =>
        if negb (UserStage_eqb (Profile.current_stage p) committed)
           && negb (UserStage_eqb (Profile.current_stage p) applying)
        then updateUserStage userId committed
        else Ret tt
    | None => Ret tt
    end
end.

Definition unlockUniversity (userId universityId : string) : Prog unit :=
r <- await (locked_delete userId universityId) ;;
match error r with
| Some e => Throw (DbError e)
| None => Ret tt
end.

(* Tasks APIs *)

Definition getTasks (userId : string) : Prog (list Task.t) :=
r <- await (tasks_select userId) ;;
match error r with
| Some e => Throw (DbError e)
| None => Ret (array_or_empty (data r))
end.

Definition createTask (userId : string) (task : TaskInput.t) : Prog (option Task.t) :=
r <- await (tasks_insert_returning userId
              (TaskInput.title task)
              (Js.or_null (TaskInput.description task))
              (Js.or_null (TaskInput.university_id task))
              (Js.or_null (TaskInput.due_date task))
              (match Js.or_null (TaskInput.priority task) with
               | Some p => p
               | None => "medium"
               end)) ;;
match error r with
| Some e => Throw (DbError e)
| None => Ret (data r)
end.

Definition updateTask (taskId : string) (updates : list Task.assign) : Prog unit :=
r <- await (tasks_update taskId updates) ;;
match error r with
| Some e => Throw (DbError e)
| None => Ret tt
end.

Definition toggleTaskCompletion (taskId : string) (completed : bool) : Prog unit :=
r <- await (tasks_update taskId [ Task.set_completed completed ]) ;;
match error r with
| Some e => Throw (DbError e)
| None => Ret tt
end.

Definition deleteTask (taskId : string) : Prog unit :=
r <- await (tasks_delete taskId) ;;
match error r with
| Some e => Throw (DbError e)
| None => Ret tt
end.

(* Chat Messages APIs *)

Definition getChatMessages (userId : string) (limit : option nat)
  : Prog (list ChatMessage.t) :=
let limit := match limit with Some n => n | None => 50 end in
r <- await (chat_select userId limit) ;;
match error r with
| Some e => Throw (DbError e)
| None => Ret (array_or_empty (data r))
end.

Definition createChatMessage (userId : string) (role : ChatRole) (content : string)
  (metadata : option Json) : Prog (option ChatMessage.t) :=
r <- await (chat_insert_returning userId role content
              (match metadata with Some m => m | None => "{}" end)) ;;
match error r with
| Some e => Throw (DbError e)
| None => Ret (data r)
end.

End Api.

(* ================================================================== *)
(** * The tables of the SQL migration                                  *)
(* ================================================================== *)

Module Postgres.

Record Db := mkDb {
  profiles : list Profile.t;
  universities : list University.t;
  user_shortlisted_universities : list ShortlistedUniversity.t;
  user_locked_universities : list LockedUniversity.t;
  tasks : list Task.t;
  chat_messages : list ChatMessage.t
}.

Definition unique_violation : PostgrestError :=
mkError "23505" "duplicate key value violates unique constraint".
Definition foreign_key_violation : PostgrestError :=
mkError "23503" "insert or update on table violates foreign key constraint".
Definition numeric_value_out_of_range : PostgrestError :=
mkError "22003" "numeric field overflow".
Definition multiple_rows : PostgrestError :=
mkError "PGRST116" "JSON object requested, multiple (or no) rows returned".

(** [DEFAULT gen_random_uuid()], drawn from the store's counter. *)
Definition gen_random_uuid (tick : nat) : string :=
"uuid-" ++ NilZero.string_of_uint (Nat.to_uint tick).

(** Stable insertion sort, for [ORDER BY]. *)
Fixpoint insert_by {A} (le : A -> A -> bool) (x : A) (l : list A) : list A :=
match l with
| [] => [x]
| y :: r => if le x y then x :: y :: r else y :: insert_by le x r
end.

Definition order_by {A} (le : A -> A -> bool) (l : list A) : list A :=
fold_right (insert_by le) [] l.

(** Ascending, [NULL]s last. *)
Definition le_nulls_last (a b : option Z) : bool :=
match a, b with
| Some x, Some y => (x <=? y)%Z
| Some _, None => true
| None, Some _ => false
| None, None => true
end.

Definition by_ranking (a b : University.t) : bool :=
le_nulls_last (University.ranking a) (University.ranking b).

(** [.maybeSingle()]: no row is [null], one row is that row, more is an
    error. *)
Definition maybeSingle {A} (rows : list A) : option A * option PostgrestError :=
match rows with
| [] => (None, None)
| [r] => (Some r, None)
| _ => (None, Some multiple_rows)
end.

Definition has_profile (d : Db) (uid : string) : bool :=
existsb (fun p => String.eqb (Profile.id p) uid) (profiles d).

Definition has_university (d : Db) (unid : string) : bool :=
existsb (fun u => String.eqb (University.id u) unid) (universities d).

Definition find_university (d : Db) (unid : string) : option University.t :=
find (fun u => String.eqb (University.id u) unid) (universities d).

(** [integer] is 32 bits wide. *)
Definition int4_in_range (x : option Z) : bool :=
match x with
| Some z => ((- 2147483648 <=? z) && (z <=? 2147483647))%Z
| None => true
end.

(** A value assigned to a column has to fit its type: [numeric(3,2)] holds
    absolute values below 10 after rounding, [integer] is 32 bits wide. *)
Definition assign_in_range (a : Profile.assign) : bool :=
match a with
| Profile.set_gpa (Some g) => (Z.abs (to_numeric2 g) <? 1000)%Z
| Profile.set_budget_min x => int4_in_range x
| Profile.set_budget_max x => int4_in_range x
| _ => true
end.

(** [UPDATE profiles SET ... WHERE id = uid], with the [updated_at] trigger. *)
Definition update_profiles (uid : string) (updates : list Profile.assign)
  (now : Timestamp) (rows : list Profile.t) : list Profile.t :=
map (fun p => if String.eqb (Profile.id p) uid
              then Profile.touch now (Profile.apply updates p)
              else p) rows.

Definition set_profiles (d : Db) (v : list Profile.t) : Db :=
mkDb v (universities d) (user_shortlisted_universities d)
  (user_locked_universities d) (tasks d) (chat_messages d).

Definition set_shortlisted (d : Db) (v : list ShortlistedUniversity.t) : Db :=
mkDb (profiles d) (universities d) v
  (user_locked_universities d) (tasks d) (chat_messages d).

Definition set_locked (d : Db) (v : list LockedUniversity.t) : Db :=
mkDb (profiles d) (universities d) (user_shortlisted_universities d)
  v (tasks d) (chat_messages d).

Definition set_tasks (d : Db) (v : list Task.t) : Db :=
mkDb (profiles d) (universities d) (user_shortlisted_universities d)
  (user_locked_universities d) v (chat_messages d).

Definition set_chat_messages (d : Db) (v : list ChatMessage.t) : Db :=
mkDb (profiles d) (universities d) (user_shortlisted_universities d)
  (user_locked_universities d) (tasks d) v.

(** The [WHERE] clause built by [getUniversities]. *)
Definition university_matches (in_country overlaps_programs : option (list string))
  (lte_fee : option Z) (u : University.t) : bool :=
(match in_country with
 | Some cs => existsb (String.eqb (University.country u)) cs
 | None => true
 end)
&& (match overlaps_programs with
    | Some ps => existsb (fun p => existsb (String.eqb p) ps) (University.programs u)
    | None => true
    end)
&& (match lte_fee with
    | Some b => match University.tuition_fee_min u with
                | Some f => (f <=? b)%Z
                | None => false
                end
    | None => true
    end).

(** [col ILIKE '%term%'] for a term of ASCII letters, digits and spaces.
    Any other term is outside the model: the code splices the term into
    the filter string unescaped, where [%] and [_] are wildcards and a
    comma or a parenthesis changes the filter or makes it unreadable. *)
Definition ilike (col term : string) : bool :=
Js.includes (Js.toLowerCase col) (Js.toLowerCase term).

Definition search_matches (term : string) (u : University.t) : bool :=
ilike (University.name u) term
|| ilike (University.country u) term
|| match University.city u with
   | Some c => ilike c term
   | None => false
   end.

Definition shortlisted_key (uid unid : string) (s : ShortlistedUniversity.t) : bool :=
String.eqb (ShortlistedUniversity.user_id s) uid
&& String.eqb (ShortlistedUniversity.university_id s) unid.

Definition locked_key (uid unid : string) (l : LockedUniversity.t) : bool :=
String.eqb (LockedUniversity.user_id l) uid
&& String.eqb (LockedUniversity.university_id l) unid.

(** The [university] row a select embeds through the foreign key. *)
Definition embed_shortlisted (d : Db) (s : ShortlistedUniversity.t)
  : ShortlistedUniversity.t :=
ShortlistedUniversity.mk (ShortlistedUniversity.id s) (ShortlistedUniversity.user_id s)
  (ShortlistedUniversity.university_id s) (ShortlistedUniversity.category s)
  (ShortlistedUniversity.notes s) (ShortlistedUniversity.created_at s)
  (find_university d (ShortlistedUniversity.university_id s)).

Definition embed_locked (d : Db) (l : LockedUniversity.t) : LockedUniversity.t :=
LockedUniversity.mk (LockedUniversity.id l) (LockedUniversity.user_id l)
  (LockedUniversity.university_id l) (LockedUniversity.locked_at l)
  (find_university d (LockedUniversity.university_id l)).

Definition embed_task (d : Db) (k : Task.t) : Task.t :=
Task.mk (Task.id k) (Task.user_id k) (Task.university_id k) (Task.title k)
  (Task.description k) (Task.completed k) (Task.due_date k) (Task.priority k)
  (Task.created_at k) (Task.updated_at k)
  (match Task.university_id k with
   | Some unid => find_university d unid
   | None => None
   end).

(** [ORDER BY due_date ASC NULLS LAST, created_at DESC] *)
Definition by_due_date (a b : Task.t) : bool :=
match Task.due_date a, Task.due_date b with
| Some x, Some y =>
    match String.compare x y with
    | Lt => true
    | Gt => false
    | Eq => (Task.created_at b <=? Task.created_at a)%nat
    end
| Some _, None => true
| None, Some _ => false
| None, None => (Task.created_at b <=? Task.created_at a)%nat
end.

Definition task_fk_ok (d : Db) (k : Task.t) : bool :=
match Task.university_id k with
| Some unid => has_university d unid
| None => true
end.

(** The pair of the [{ data, error }] answer and the tables after it. *)
Definition reply {q : Request} (x : option (payload q)) (e : option PostgrestError)
  (d : Db) : Response q * Db :=
(mkResponse x e, d).
Arguments reply {q} & _ _ _.

(** What the database answers to a request at server time [now]. *)
Definition exec (q : Request) (d : Db) (now : nat) : Response q * Db :=
match q as q0 return Response q0 * Db with
| profiles_select uid =>
    let (row, err) := maybeSingle (filter (fun p => String.eqb (Profile.id p) uid) (profiles d)) in
    (reply row err d)
| profiles_update_returning uid updates =>
    let rows := update_profiles uid updates now (profiles d) in
    if forallb assign_in_range updates then
      match maybeSingle (filter (fun p => String.eqb (Profile.id p) uid) rows) with
      | (_, Some e) => (reply None (Some e) d)
      | (row, None) => (reply row None
       (set_profiles d rows))
      end
    else (reply None (Some numeric_value_out_of_range) d)
| profiles_update uid updates =>
    let rows := update_profiles uid updates now (profiles d) in
    if forallb assign_in_range updates
    then (reply None None
       (set_profiles d rows))
    else (reply None (Some numeric_value_out_of_range) d)
| universities_select in_country overlaps_programs lte_fee =>
    (reply
       (Some (order_by by_ranking
                (filter (university_matches in_country overlaps_programs lte_fee)
                        (universities d))))
       None d)
| universities_select_one unid =>
    let (row, err) := maybeSingle (filter (fun u => String.eqb (University.id u) unid) (universities d)) in
    (reply row err d)
| universities_search term =>
    (reply
       (Some (firstn 20 (order_by by_ranking (filter (search_matches term) (universities d)))))
       None d)
| shortlisted_select uid =>
    (reply
       (Some (map (embed_shortlisted d)
                (order_by (fun a b => (ShortlistedUniversity.created_at b
                                       <=? ShortlistedUniversity.created_at a)%nat)
                   (filter (fun s => String.eqb (ShortlistedUniversity.user_id s) uid)
                           (user_shortlisted_universities d)))))
       None d)
| shortlisted_insert uid unid category notes =>
    if negb (has_profile d uid) || negb (has_university d unid)
    then (reply None (Some foreign_key_violation) d)
    else if existsb (shortlisted_key uid unid) (user_shortlisted_universities d)
            || existsb (fun s => String.eqb (ShortlistedUniversity.id s) (gen_random_uuid now))
                       (user_shortlisted_universities d)
    then (reply None (Some unique_violation) d)
    else (reply None None
       (set_shortlisted d
            (user_shortlisted_universities d ++
             [ ShortlistedUniversity.mk (gen_random_uuid now) uid unid category notes now None ])%list))
| shortlisted_delete uid unid =>
    (reply None None
       (set_shortlisted d
       (filter (fun s => negb (shortlisted_key uid unid s)) (user_shortlisted_universities d))))
| shortlisted_update uid unid category =>
    (reply None None
       (set_shortlisted d
       (map (fun s => if shortlisted_key uid unid s
                      then ShortlistedUniversity.mk (ShortlistedUniversity.id s)
                             (ShortlistedUniversity.user_id s)
                             (ShortlistedUniversity.university_id s) category
                             (ShortlistedUniversity.notes s)
                             (ShortlistedUniversity.created_at s)
                             (ShortlistedUniversity.university s)
                      else s)
            (user_shortlisted_universities d))))
| locked_select uid =>
    (reply
       (Some (map (embed_locked d)
                (order_by (fun a b => (LockedUniversity.locked_at b
                                       <=? LockedUniversity.locked_at a)%nat)
                   (filter (fun l => String.eqb (LockedUniversity.user_id l) uid)
                           (user_locked_universities d)))))
       None d)
| locked_insert uid unid =>
    if negb (has_profile d uid) || negb (has_university d unid)
    then (reply None (Some foreign_key_violation) d)
    else if existsb (locked_key uid unid) (user_locked_universities d)
            || existsb (fun l => String.eqb (LockedUniversity.id l) (gen_random_uuid now))
                       (user_locked_universities d)
    then (reply None (Some unique_violation) d)
    else (reply None None
       (set_locked d
            (user_locked_universities d ++
             [ LockedUniversity.mk (gen_random_uuid now) uid unid now None ])%list))
| locked_delete uid unid =>
    (reply None None
       (set_locked d
       (filter (fun l => negb (locked_key uid unid l)) (user_locked_universities d))))
| tasks_select uid =>
    (reply
       (Some (map (embed_task d)
                (order_by by_due_date
                   (filter (fun k => String.eqb (Task.user_id k) uid) (tasks d)))))
       None d)
| tasks_insert_returning uid title description university_id due_date priority =>
    let row := Task.mk (gen_random_uuid now) uid university_id title description
                 false due_date priority now now None in
    if negb (has_profile d uid) || negb (task_fk_ok d row)
    then (reply None (Some foreign_key_violation) d)
    else if existsb (fun k => String.eqb (Task.id k) (gen_random_uuid now)) (tasks d)
    then (reply None (Some unique_violation) d)
    else (reply (Some row) None
       (set_tasks d (tasks d ++ [ row ])%list))
| tasks_update taskId updates =>
    let rows := map (fun k => if String.eqb (Task.id k) taskId
                              then Task.touch now (Task.apply updates k)
                              else k) (tasks d) in
    if forallb (task_fk_ok d) rows
    then (reply None None
       (set_tasks d rows))
    else (reply None (Some foreign_key_violation) d)
| tasks_delete taskId =>
    (reply None None
       (set_tasks d (filter (fun k => negb (String.eqb (Task.id k) taskId)) (tasks d))))
| chat_select uid limit =>
    (reply
       (Some (firstn limit
                (order_by (fun a b => (ChatMessage.created_at a
                                       <=? ChatMessage.created_at b)%nat)
                   (filter (fun m => String.eqb (ChatMessage.user_id m) uid)
                           (chat_messages d)))))
       None d)
| chat_insert_returning uid role content metadata =>
    let row := ChatMessage.mk (gen_random_uuid now) uid role content metadata now in
    if negb (has_profile d uid)
    then (reply None (Some foreign_key_violation) d)
    else if existsb (fun m => String.eqb (ChatMessage.id m) (gen_random_uuid now))
                    (chat_messages d)
    then (reply None (Some unique_violation) d)
    else (reply (Some row) None
       (set_chat_messages d (chat_messages d ++ [ row ])%list))
end.

(** The hosted service as the client sees it: the tables, the server
    clock, the transport faults still to come (one entry per request;
    [Some e] makes that request fail with [e] before it reaches the
    tables), and the requests received so far. *)
Record World := mkWorld {
  db : Db;
  clock : nat;
  faults : list (option PostgrestError);
  received : list Request
}.

Definition supabase : Client World :=
fun q w =>
  match hd None (faults w) with
  | Some e =>
      (mkResponse None (Some e),
       mkWorld (db w) (S (clock w)) (tl (faults w)) (received w ++ [q])%list)
  | None =>
      let (r, d) := exec q (db w) (clock w) in
      (r, mkWorld d (S (clock w)) (tl (faults w)) (received w ++ [q])%list)
  end.

(** The service after it has received the requests [qs] in that order,
    whoever sent them and whatever handlers they belong to. *)
Definition serve (qs : list Request) (w : World) : World :=
fold_left (fun w q => snd (supabase q w)) qs w.

(** The stage stored for a user, when the user has exactly one profile row. *)
Definition stored_stage (d : Db) (uid : string) : option UserStage :=
match filter (fun p => String.eqb (Profile.id p) uid) (profiles d) with
| [p] => Some (Profile.current_stage p)
| _ => None
end.

Definition is_shortlisted (d : Db) (uid unid : string) : bool :=
existsb (shortlisted_key uid unid) (user_shortlisted_universities d).

Definition is_locked (d : Db) (uid unid : string) : bool :=
existsb (locked_key uid unid) (user_locked_universities d).

(** The trigger function [handle_new_user()], fired when the user
    [new_id] is confirmed, statement by statement.  Its first statement,
    [SELECT COUNT( * ) INTO user_count FROM profiles]: *)
Definition count_profiles (d : Db) : nat := List.length (profiles d).

(** Its second statement, the [INSERT] with the count read before: the
    other columns take their defaults, and the primary key is checked. *)
Definition insert_profile (user_count : nat) (new_id : string)
  (new_email : option string) (now : Timestamp) (d : Db) : option PostgrestError * Db :=
let row :=
  Profile.mk new_id new_email
    (if (user_count =? 0)%nat then role_admin else role_user)
    None not_started false None None None [] None [] [] None None [] [] now now in
if has_profile d new_id
then (Some unique_violation, d)
else (None, set_profiles d (profiles d ++ [row])%list).

(** The trigger in a transaction that runs alone: nothing is written
    between its two statements. *)
Definition handle_new_user (new_id : string) (new_email : option string)
  (now : Timestamp) (d : Db) : option PostgrestError * Db :=
insert_profile (count_profiles d) new_id new_email now d.

(** Two confirmations whose transactions overlap.  The function takes no
    lock, so both counts can be read before either row is inserted. *)
Definition handle_new_users_overlapping (id1 id2 : string) (email1 email2 : option string)
  (now : Timestamp) (d : Db) : Db :=
let count1 := count_profiles d in
let count2 := count_profiles d in
let d1 := snd (insert_profile count1 id1 email1 now d) in
snd (insert_profile count2 id2 email2 now d1).

End Postgres.

(* ================================================================== *)
(** * [pages/CounsellorPage.tsx]: the simulated counsellor             *)
(* ================================================================== *)

Module Counsellor.

(** [${profile.gpa || 'N/A'}] *)
Definition gpa_or_na (p : Profile.t) : string :=
match Profile.gpa p with
| Some g => if (g =? 0)%Z then "N/A" else show_numeric2 g
| None => "N/A"
end.

(** [${x || 0}] for a nullable integer. *)
Definition number_or_zero (x : option Z) : string :=
match x with
| Some z => if (z =? 0)%Z then "0" else Js.show_Z z
| None => "0"
end.

(** [${uni.acceptance_rate}] *)
Definition show_acceptance_rate (u : University.t) : string :=
match University.acceptance_rate u with
| Some r => show_numeric2 r
| None => "null"
end.

(** [profile.field_of_study || 'background'] *)
Definition field_or_background (p : Profile.t) : string :=
match Js.or_null (Profile.field_of_study p) with
| Some f => f
| None => "background"
end.

(** [profile.gpa && profile.gpa >= 3.5] *)
Definition strong_gpa (p : Profile.t) : bool :=
match Profile.gpa p with
| Some g => negb (g =? 0)%Z && (350 <=? g)%Z
| None => false
end.

(** [!profile.gpa || profile.gpa < 3.5] *)
Definition weak_gpa (p : Profile.t) : bool :=
match Profile.gpa p with
| Some g => (g =? 0)%Z || (g <? 350)%Z
| None => true
end.

Definition trouble_reply : string :=
"I'm having trouble accessing your profile. Please try again.".

Definition broaden_reply : string :=
"I couldn't find universities matching your exact criteria. Let me broaden the search. Could you tell me more about what's most important to you - location, program, or budget?".

Definition dream_line (p : Profile.t) (uni : University.t) : string :=
"- **" ++ University.name uni ++ "** (" ++ University.country uni
  ++ "): Acceptance rate " ++ show_acceptance_rate uni
  ++ "%. This is a reach school but your " ++ field_or_background p
  ++ " makes you competitive." ++ Js.nl.

Definition target_line (uni : University.t) : string :=
"- **" ++ University.name uni ++ "** (" ++ University.country uni
  ++ "): Acceptance rate " ++ show_acceptance_rate uni
  ++ "%. Your profile aligns well with their requirements." ++ Js.nl.

Definition safe_line (uni : University.t) : string :=
"- **" ++ University.name uni ++ "** (" ++ University.country uni
  ++ "): Acceptance rate " ++ show_acceptance_rate uni
  ++ "%. Strong likelihood of admission." ++ Js.nl.

(** [xs.forEach(uni => { response += line(uni) })] *)
Definition append_each (line : University.t -> string) (xs : list University.t)
  (response : string) : string :=
fold_left (fun acc uni => acc ++ line uni) xs response.

Definition recommendation_reply (profile : Profile.t) (universities : list University.t)
  : string :=
let dream := Js.slice 0 2 universities in
let target := Js.slice 2 5 universities in
let safe := Js.slice 5 8 universities in
let response :=
  "Based on your profile (GPA: " ++ gpa_or_na profile ++ ", Budget: $"
  ++ number_or_zero (Profile.budget_min profile) ++ "-"
  ++ number_or_zero (Profile.budget_max profile)
  ++ "), here are my recommendations:" ++ Js.nl ++ Js.nl in
let response := response ++ "🌟 **Dream Schools** (Reach):" ++ Js.nl in
let response := append_each (dream_line profile) dream response in
let response := response ++ Js.nl ++ "🎯 **Target Schools** (Match):" ++ Js.nl in
let response := append_each target_line target response in
let response := response ++ Js.nl ++ "✅ **Safe Schools** (Likely):" ++ Js.nl in
let response := append_each safe_line safe response in
response ++ Js.nl ++ "Would you like me to add any of these to your shortlist?".

Definition profile_reply (profile : Profile.t) : string :=
let response := "Let me analyze your profile:" ++ Js.nl ++ Js.nl in
let response := response ++ "**Strengths:**" ++ Js.nl in
let response :=
  if strong_gpa profile
  then response ++ "- Strong GPA of "
         ++ match Profile.gpa profile with Some g => show_numeric2 g | None => "null" end
         ++ " - this is competitive for most universities" ++ Js.nl
  else response in
let response :=
  if (0 <? List.length (Profile.exams_taken profile))%nat
  then response ++ "- You've completed " ++ Js.join ", " (Profile.exams_taken profile)
         ++ " - great preparation!" ++ Js.nl
  else response in
let response :=
  response ++ "- Clear focus on " ++ Js.join ", " (Profile.preferred_fields profile)
    ++ Js.nl in
let response := response ++ Js.nl ++ "**Areas to Strengthen:**" ++ Js.nl in
let response :=
  if (0 <? List.length (Profile.exams_planned profile))%nat
  then response ++ "- Complete your planned exams: "
         ++ Js.join ", " (Profile.exams_planned profile) ++ Js.nl
  else response in
let response :=
  if weak_gpa profile
  then response ++ "- Consider ways to improve your academic standing" ++ Js.nl
  else response in
response ++ Js.nl ++ "Your profile is "
  ++ (if strong_gpa profile then "strong" else "developing")
  ++ ". Would you like specific advice on improving your application?".

Definition budget_reply (profile : Profile.t) : string :=
"Based on your budget of $" ++ number_or_zero (Profile.budget_min profile) ++ "-"
  ++ number_or_zero (Profile.budget_max profile)
  ++ " per year, I can help you find affordable options. Countries like Germany and some European nations offer low or no tuition fees. Would you like me to show you universities within your budget range?".

Definition timeline_reply : string :=
"Here's a typical application timeline:" ++ Js.nl ++ Js.nl
  ++ "- **Now**: Research universities and prepare documents" ++ Js.nl
  ++ "- **3-6 months before**: Complete standardized tests" ++ Js.nl
  ++ "- **2-4 months before**: Write essays and get recommendations" ++ Js.nl
  ++ "- **1-2 months before**: Submit applications" ++ Js.nl ++ Js.nl
  ++ "Most universities have deadlines between November and February. Would you like me to create a personalized task list?".

Definition next_exploring_reply : string :=
"Your next step is to explore universities! I recommend:" ++ Js.nl
  ++ "1. Review my university recommendations" ++ Js.nl
  ++ "2. Add 6-10 universities to your shortlist (mix of Dream, Target, and Safe)" ++ Js.nl
  ++ "3. Research each university's specific requirements" ++ Js.nl ++ Js.nl
  ++ "Would you like me to recommend some universities now?".

Definition next_shortlisting_reply : string :=
"You're building your shortlist! Make sure to:" ++ Js.nl
  ++ "1. Include a balanced mix of Dream, Target, and Safe schools" ++ Js.nl
  ++ "2. Consider location, program quality, and budget" ++ Js.nl
  ++ "3. Lock at least one university when you're ready to commit" ++ Js.nl ++ Js.nl
  ++ "Need help deciding which universities to add?".

Definition next_committed_reply : string :=
"Great! You've locked your choices. Now:" ++ Js.nl
  ++ "1. Review application requirements for each university" ++ Js.nl
  ++ "2. Start working on your tasks" ++ Js.nl
  ++ "3. Prepare documents like transcripts and recommendations" ++ Js.nl ++ Js.nl
  ++ "Shall I create some tasks to get you started?".

Definition default_reply : string :=
"I'm here to help you with your university applications! I can:" ++ Js.nl ++ Js.nl
  ++ "- Recommend universities based on your profile" ++ Js.nl
  ++ "- Analyze your strengths and weaknesses" ++ Js.nl
  ++ "- Explain admission requirements" ++ Js.nl
  ++ "- Help you build a balanced shortlist" ++ Js.nl
  ++ "- Create application tasks and timelines" ++ Js.nl ++ Js.nl
  ++ "What would you like to know?".

(** The filter object handed to [getUniversities]. *)
Definition profile_filters (profile : Profile.t) : Filters.t :=
Filters.mk
  (if (0 <? List.length (Profile.preferred_countries profile))%nat
   then Some (Profile.preferred_countries profile) else None)
  (if (0 <? List.length (Profile.preferred_fields profile))%nat
   then Some (Profile.preferred_fields profile) else None)
  (Api.truthy_number (Profile.budget_max profile)).

(** Simulated AI responses based on user input *)
Definition generateAIResponse (userMessage userId : string) : Prog string :=
let lowerMessage := Js.toLowerCase userMessage in
(* Get user profile for context *)
profile <- Api.getProfile userId ;;
match profile with
| None => Ret trouble_reply
| Some profile =>
  (* Recommendation requests *)
  if Js.includes lowerMessage "recommend" || Js.includes lowerMessage "suggest"
     || Js.includes lowerMessage "university" || Js.includes lowerMessage "universities"
  then
    universities <- Api.getUniversities (Some (profile_filters profile)) ;;
    if (List.length universities =? 0)%nat
    then Ret broaden_reply
    else Ret (recommendation_reply profile universities)
  (* Profile analysis *)
  else if Js.includes lowerMessage "profile" || Js.includes lowerMessage "chances"
          || Js.includes lowerMessage "strength"
  then Ret (profile_reply profile)
  (* Budget questions *)
  else if Js.includes lowerMessage "budget" || Js.includes lowerMessage "cost"
          || Js.includes lowerMessage "afford" || Js.includes lowerMessage "expensive"
  then Ret (budget_reply profile)
  (* Timeline questions *)
  else if Js.includes lowerMessage "timeline" || Js.includes lowerMessage "when"
          || Js.includes lowerMessage "deadline"
  then Ret timeline_reply
  (* Help with next steps *)
  else if Js.includes lowerMessage "next" || Js.includes lowerMessage "what should"
          || Js.includes lowerMessage "help"
  then
    match Profile.current_stage profile with
    | exploring => Ret next_exploring_reply
    | shortlisting => Ret next_shortlisting_reply
    | committed => Ret next_committed_reply
    | _ => Ret default_reply
    end
  (* Default helpful response *)
  else Ret default_reply
end.

(** ** The keyword groups, as a table *)

Inductive KeywordGroup :=
| recommendation_group
| profile_group
| budget_group
| timeline_group
| next_steps_group.

(** The groups in the order in which they are tried. *)
Definition keyword_table : list (KeywordGroup * list string) :=
[ (recommendation_group, ["recommend"; "suggest"; "university"; "universities"]);
  (profile_group, ["profile"; "chances"; "strength"]);
  (budget_group, ["budget"; "cost"; "afford"; "expensive"]);
  (timeline_group, ["timeline"; "when"; "deadline"]);
  (next_steps_group, ["next"; "what should"; "help"]) ].

Definition first_matching_group (userMessage : string) : option KeywordGroup :=
option_map fst
  (find (fun g => existsb (Js.includes (Js.toLowerCase userMessage)) (snd g))
        keyword_table).

(** The six families of canned replies. *)
Inductive Family :=
| recommendation_family
| profile_family
| budget_family
| timeline_family
| next_steps_family
| default_family.

Definition in_family (f : Family) (reply : string) : Prop :=
match f with
| recommendation_family =>
    reply = broaden_reply \/ exists p us, reply = recommendation_reply p us
| profile_family => exists p, reply = profile_reply p
| budget_family => exists p, reply = budget_reply p
| timeline_family => reply = timeline_reply
| next_steps_family =>
    reply = next_exploring_reply \/ reply = next_shortlisting_reply
    \/ reply = next_committed_reply
| default_family => reply = default_reply
end.

(** The family the first matching group stands for. *)
Definition family_of_group (g : option KeywordGroup) : Family :=
match g with
| Some recommendation_group => recommendation_family
| Some profile_group => profile_family
| Some budget_group => budget_family
| Some timeline_group => timeline_family
| Some next_steps_group => next_steps_family
| None => default_family
end.

(** The family the code answers from, for a profile that was found: the
    next-steps group has a reply for three stages only. *)
Definition family_answered (profile : Profile.t) (g : option KeywordGroup) : Family :=
match g with
| Some next_steps_group =>
    match Profile.current_stage profile with
    | exploring | shortlisting | committed => next_steps_family
    | _ => default_family
    end
| _ => family_of_group g
end.

End Counsellor.

(* ================================================================== *)
(** * Component code: handlers over component state                    *)
(* ================================================================== *)

(** An event handler of a component: an [async] body that also sets
    component state.  The state threaded through is what the next render
    will see; what the running handler itself reads ([user], [profile]) are
    the values its closure captured, passed as the argument [ctx].  A
    rejection keeps the state set so far, as a [catch] block sees it. *)
Definition Handler (U A : Type) : Type := U -> Prog (Outcome A * U).

Definition hret {U A} (a : A) : Handler U A :=
fun u => Ret (Fulfilled a, u).

(** How a handler body settled and the state it left, whether the
    rejection was carried in the result or thrown by the body itself. *)
Definition flatten {U A} (u : U) (o : Outcome (Outcome A * U)) : Outcome A * U :=
match o with
| Fulfilled r => r
| Rejected e => (Rejected e, u)
end.

(** A handler body observed to the end: it always comes back with how it
    settled. *)
Definition settled {U A} (h : Handler U A) : Handler U A :=
fun u => o <- settle (h u) ;; Ret (flatten u o).

Definition hbind {U A B} (m : Handler U A) (f : A -> Handler U B) : Handler U B :=
fun u =>
  r <- settled m u ;;
  match fst r with
  | Fulfilled a => settled (f a) (snd r)
  | Rejected e => Ret (Rejected e, snd r)
  end.

Notation "x <~ m ;; k" := (hbind m (fun x => k))
  (at level 61, m at next level, right associativity).
Notation "m ~;; k" := (hbind m (fun _ => k))
  (at level 61, right associativity).

(** [await p] inside a handler. *)
Definition lift {U A} (p : Prog A) : Handler U A :=
fun u => o <- settle p ;; Ret (o, u).

(** A [setState] call. *)
Definition modify {U} (f : U -> U) : Handler U unit :=
fun u => Ret (Fulfilled tt, f u).

(** [try { m } catch (error) { h }] *)
Definition htry {U A} (m : Handler U A) (h : Exn -> Handler U A) : Handler U A :=
fun u =>
  r <- settled m u ;;
  match fst r with
  | Fulfilled a => Ret (Fulfilled a, snd r)
  | Rejected e => settled (h e) (snd r)
  end.

(** [try { m } finally { fin }] *)
Definition hfinally {U A} (m : Handler U A) (fin : Handler U unit) : Handler U A :=
fun u =>
  r <- settled m u ;;
  r2 <- settled fin (snd r) ;;
  match fst r2 with
  | Fulfilled _ => Ret (fst r, snd r2)
  | Rejected e => Ret (Rejected e, snd r2)
  end.

(** [for (const x of xs) { await body(x) }] *)
Fixpoint hfor_each {U X} (xs : list X) (body : X -> Handler U unit) : Handler U unit :=
match xs with
| [] => hret tt
| x :: rest => body x ~;; hfor_each rest body
end.

(** A handler run to the end against a client: how it settled, the
    component state it left, and the client's final state. *)
Definition hrun {S U A} (c : Client S) (h : Handler U A) (u : U) (s : S)
  : Outcome A * U * S :=
(flatten u (outcome (run c (h u) s)), final (run c (h u) s)).

(** The values of [useAuth()]. *)
Module Auth.
Record t := mk {
  user : option string;
  profile : option Profile.t
}.

(** Modelled from the spec: [refreshProfile] of the auth context is not
    among the sources.  Following the spec's description of the pages
    (one mutation per user action followed by a full refetch), it reads
    the signed-in user's profile row again with [getProfile] and stores
    it in the context. *)
Definition refreshProfile {S} : Handler (t * S) unit :=
fun u =>
  match user (fst u) with
  | Some userId =>
      o <- settle (Api.getProfile userId) ;;
      match o with
      | Fulfilled p => Ret (Fulfilled tt, (mk (Some userId) p, snd u))
      | Rejected e => Ret (Rejected e, u)
      end
  | None => Ret (Fulfilled tt, (mk None None, snd u))
  end.

(** [profile?.current_stage === stage] *)
Definition stage_is (a : t) (stage : UserStage) : bool :=
match profile a with
| Some p => UserStage_eqb (Profile.current_stage p) stage
| None => false
end.
End Auth.

(* ================================================================== *)
(** * [pages/OnboardingPage.tsx]                                       *)
(* ================================================================== *)

Module OnboardingPage.

Definition handleSubmit (ctx : Auth.t) (formData : OnboardingData.t)
  : Handler (Auth.t * unit) unit :=
match Auth.user ctx with
| None => hret tt
| Some userId =>
    htry
      (lift (Api.completeOnboarding userId formData) ~;;
       Auth.refreshProfile)
      (fun _ => hret tt)
end.

(** [STEPS] *)
Definition STEPS : list (nat * string * string) :=
[ (1, "Personal Information", "Tell us about yourself");
  (2, "Academic Background", "Your education and achievements");
  (3, "Goals & Preferences", "What are you looking for?");
  (4, "Budget & Exams", "Financial planning and test preparation") ].

(** The fields that hold an array of strings, the ones
    [toggleArrayItem] is called with. *)
Inductive ArrayField :=
| preferred_countries
| preferred_fields
| exams_taken
| exams_planned.

(** [formData[field] as string[]] *)
Definition array_of (field : ArrayField) (d : OnboardingData.t) : list string :=
match field with
| preferred_countries => OnboardingData.preferred_countries d
| preferred_fields => OnboardingData.preferred_fields d
| exams_taken => OnboardingData.exams_taken d
| exams_planned => OnboardingData.exams_planned d
end.

(** [updateField(field, value)] at an array field: the state updater
    [(prev) => ({ ...prev, [field]: value })]. *)
Definition updateField (field : ArrayField) (value : list string)
  (prev : OnboardingData.t) : OnboardingData.t :=
match field with
| preferred_countries =>
    OnboardingData.mk (OnboardingData.full_name prev)
      (OnboardingData.current_education_level prev) (OnboardingData.field_of_study prev)
      (OnboardingData.gpa prev) (OnboardingData.test_scores prev)
      (OnboardingData.target_degree prev) value (OnboardingData.preferred_fields prev)
      (OnboardingData.budget_min prev) (OnboardingData.budget_max prev)
      (OnboardingData.exams_taken prev) (OnboardingData.exams_planned prev)
| preferred_fields =>
    OnboardingData.mk (OnboardingData.full_name prev)
      (OnboardingData.current_education_level prev) (OnboardingData.field_of_study prev)
      (OnboardingData.gpa prev) (OnboardingData.test_scores prev)
      (OnboardingData.target_degree prev) (OnboardingData.preferred_countries prev) value
      (OnboardingData.budget_min prev) (OnboardingData.budget_max prev)
      (OnboardingData.exams_taken prev) (OnboardingData.exams_planned prev)
| exams_taken =>
    OnboardingData.mk (OnboardingData.full_name prev)
      (OnboardingData.current_education_level prev) (OnboardingData.field_of_study prev)
      (OnboardingData.gpa prev) (OnboardingData.test_scores prev)
      (OnboardingData.target_degree prev) (OnboardingData.preferred_countries prev)
      (OnboardingData.preferred_fields prev)
      (OnboardingData.budget_min prev) (OnboardingData.budget_max prev)
      value (OnboardingData.exams_planned prev)
| exams_planned =>
    OnboardingData.mk (OnboardingData.full_name prev)
      (OnboardingData.current_education_level prev) (OnboardingData.field_of_study prev)
      (OnboardingData.gpa prev) (OnboardingData.test_scores prev)
      (OnboardingData.target_degree prev) (OnboardingData.preferred_countries prev)
      (OnboardingData.preferred_fields prev)
      (OnboardingData.budget_min prev) (OnboardingData.budget_max prev)
      (OnboardingData.exams_taken prev) value
end.

(** [toggleArrayItem(field, item)]: the array is read from the [formData]
    of the render, the update is applied to the state at that time. *)
Definition toggleArrayItem (formData : OnboardingData.t) (field : ArrayField)
  (item : string) : OnboardingData.t -> OnboardingData.t :=
let currentArray := array_of field formData in
if Js.array_includes currentArray item
then updateField field (filter (fun i => negb (String.eqb i item)) currentArray)
else updateField field (currentArray ++ [item])%list.

(** [handleNext] and [handleBack], as the new [currentStep]. *)
Definition handleNext (currentStep : nat) : nat :=
if (currentStep <? List.length STEPS)%nat then currentStep + 1 else currentStep.

Definition handleBack (currentStep : nat) : nat :=
if (1 <? currentStep)%nat then currentStep - 1 else currentStep.

(** The clicks on the two buttons below the form. *)
Inductive Click := Next | Back.

Definition click (c : Click) (currentStep : nat) : nat :=
match c with
| Next => handleNext currentStep
| Back => handleBack currentStep
end.

(** [STEPS[currentStep - 1]], read by the card's header. *)
Definition current_step_info (currentStep : nat) : option (nat * string * string) :=
nth_error STEPS (currentStep - 1).

End OnboardingPage.

(* ================================================================== *)
(** * [pages/UniversitiesPage.tsx]                                     *)
(* ================================================================== *)

Module UniversitiesPage.

Record State := mkState {
  universities : list University.t;
  shortlisted : list ShortlistedUniversity.t;
  locked : list LockedUniversity.t;
  loading : bool;
  searchTerm : string;
  countryFilter : string
}.

(** The state of a freshly mounted page. *)
Definition initial : State := mkState [] [] [] true "" "all".

Definition loadData (ctx : Auth.t) : Handler (Auth.t * State) unit :=
match Auth.user ctx with
| None => hret tt
| Some userId =>
    hfinally
      (htry
         (r <~ lift (promise_all3 (Api.getUniversities None)
                       (Api.getShortlistedUniversities userId)
                       (Api.getLockedUniversities userId)) ;;
          let '(unis, short, lock) := r in
          modify (fun v => (fst v, mkState unis short lock (loading (snd v))
                                     (searchTerm (snd v)) (countryFilter (snd v)))))
         (fun _ => hret tt))
      (modify (fun v => (fst v, mkState (universities (snd v)) (shortlisted (snd v))
                                  (locked (snd v)) false
                                  (searchTerm (snd v)) (countryFilter (snd v)))))
end.

Definition isShortlisted (st : State) (universityId : string) : bool :=
existsb (fun s => String.eqb (ShortlistedUniversity.university_id s) universityId)
        (shortlisted st).

Definition isLocked (st : State) (universityId : string) : bool :=
existsb (fun l => String.eqb (LockedUniversity.university_id l) universityId)
        (locked st).

Definition getShortlistCategory (st : State) (universityId : string)
  : option UniversityCategory :=
match find (fun s => String.eqb (ShortlistedUniversity.university_id s) universityId)
           (shortlisted st) with
| Some item => Some (ShortlistedUniversity.category item)
| None => None
end.

Definition handleAddToShortlist (ctx : Auth.t) (university : University.t)
  (category : UniversityCategory) : Handler (Auth.t * State) unit :=
match Auth.user ctx with
| None => hret tt
| Some userId =>
    htry
      (lift (Api.addToShortlist userId (University.id university) category None) ~;;
       loadData ctx ~;;
       (* Update stage if needed *)
       if Auth.stage_is ctx exploring
       then lift (Api.updateUserStage userId shortlisting) ~;; Auth.refreshProfile
       else hret tt)
      (fun _ => hret tt)
end.

Definition handleRemoveFromShortlist (ctx : Auth.t) (universityId : string)
  : Handler (Auth.t * State) unit :=
match Auth.user ctx with
| None => hret tt
| Some userId =>
    htry
      (lift (Api.removeFromShortlist userId universityId) ~;; loadData ctx)
      (fun _ => hret tt)
end.

Definition handleLock (ctx : Auth.t) (universityId : string)
  : Handler (Auth.t * State) unit :=
match Auth.user ctx with
| None => hret tt
| Some userId =>
    htry
      (lift (Api.lockUniversity userId universityId) ~;;
       loadData ctx ~;;
       Auth.refreshProfile)
      (fun _ => hret tt)
end.

(** [handleUnlock], with the id held by the confirmation dialog. *)
Definition handleUnlock (ctx : Auth.t) (dialogUniversityId : option string)
  : Handler (Auth.t * State) unit :=
match Auth.user ctx, dialogUniversityId with
| Some userId, Some universityId =>
    htry
      (lift (Api.unlockUniversity userId universityId) ~;; loadData ctx)
      (fun _ => hret tt)
| _, _ => hret tt
end.






(** ** What a [UniversityCard] offers *)

(** Some card on the page (in any tab) shows the university. *)
Definition card_shown (st : State) (universityId : string) : bool :=
existsb (fun u => String.eqb (University.id u) universityId) (universities st)
|| existsb (fun s => match ShortlistedUniversity.university s with
                     | Some u => String.eqb (University.id u) universityId
                     | None => false
                     end) (shortlisted st)
|| existsb (fun l => match LockedUniversity.university l with
                     | Some u => String.eqb (University.id u) universityId
                     | None => false
                     end) (locked st).

(** [!shortlistedItem && !lockedItem]: the card has "Add to Shortlist". *)
Definition offers_add (st : State) (universityId : string) : bool :=
negb (isShortlisted st universityId) && negb (isLocked st universityId).

(** [shortlistedItem && !lockedItem]: the card has "Remove" and "Lock Choice". *)
Definition offers_remove_and_lock (st : State) (universityId : string) : bool :=
isShortlisted st universityId && negb (isLocked st universityId).

(** [lockedItem]: the card has "Unlock". *)
Definition offers_unlock (st : State) (universityId : string) : bool :=
isLocked st universityId.

(** The entries of the country filter. *)
Definition countries (st : State) : list string :=
Js.sort (Js.unique (map University.country (universities st))).

End UniversitiesPage.

(* ================================================================== *)
(** * [pages/ApplicationPage.tsx]                                      *)
(* ================================================================== *)

Module ApplicationPage.

Record State := mkState {
  tasks : list Task.t;
  lockedUniversities : list LockedUniversity.t;
  loading : bool
}.

(** The state of a freshly mounted page. *)
Definition initial : State := mkState [] [] true.

(** Whether a call chain came back, or the model's recursion budget ran out. *)
Inductive Completion := completed | out_of_fuel.

Definition defaultTasks : list (string * string * string) :=
[ ("Request Academic Transcripts",
   "Contact your institution to request official transcripts", "high");
  ("Prepare Statement of Purpose",
   "Write a compelling SOP explaining your goals and motivation", "high");
  ("Request Letters of Recommendation",
   "Ask professors or employers for recommendation letters", "high");
  ("Prepare Financial Documents",
   "Gather bank statements and financial proof documents", "medium");
  ("Complete Application Forms",
   "Fill out online application forms for each university", "medium") ].

(** [generateDefaultTasks], with the [loadData] it calls back as a parameter. *)
Definition generateDefaultTasks (loadData : Handler (Auth.t * State) Completion)
  (userId : string) (locked : list LockedUniversity.t)
  : Handler (Auth.t * State) Completion :=
htry
  (hfor_each defaultTasks
     (fun task =>
        let '(title, description, priority) := task in
        match locked with
        | first :: _ =>
            lift (Api.createTask userId
                    (TaskInput.mk title (Some description)
                       (Some (LockedUniversity.university_id first)) None (Some priority)))
            ~;; hret tt
        | [] =>
            lift (Throw (TypeError "Cannot read properties of undefined (reading 'university_id')"))
        end) ~;;
   loadData)
  (fun _ => hret completed).

Fixpoint loadData (ctx : Auth.t) (fuel : nat) : Handler (Auth.t * State) Completion :=
match fuel with
| O => hret out_of_fuel
| S fuel' =>
  match Auth.user ctx with
  | None => hret completed
  | Some userId =>
    hfinally
      (htry
         (r <~ lift (promise_all2 (Api.getTasks userId)
                       (Api.getLockedUniversities userId)) ;;
          let '(tasksList, locked) := r in
          modify (fun v => (fst v, mkState tasksList locked (loading (snd v)))) ~;;
          (* Update stage to applying if user has locked universities and tasks *)
          (if (0 <? List.length locked)%nat && Auth.stage_is ctx committed
           then lift (Api.updateUserStage userId applying) ~;; Auth.refreshProfile
           else hret tt) ~;;
          (* Generate default tasks if none exist and user has locked universities *)
          if (List.length tasksList =? 0)%nat && (0 <? List.length locked)%nat
          then generateDefaultTasks (loadData ctx fuel') userId locked
          else hret completed)
         (fun _ => hret completed))
      (modify (fun v => (fst v, mkState (tasks (snd v)) (lockedUniversities (snd v)) false)))
  end
end.

(** The fields of the "new task" dialog. *)
Record NewTask := mkNewTask {
  title : string;
  description : string;
  university_id : string;
  due_date : string;
  priority : string
}.

Definition handleCreateTask (ctx : Auth.t) (fuel : nat) (newTask : NewTask)
  : Handler (Auth.t * State) Completion :=
match Auth.user ctx with
| None => hret completed
| Some userId =>
    if negb (Js.truthy_string (title newTask)) then hret completed
    else
      htry
        (lift (Api.createTask userId
                 (TaskInput.mk (title newTask)
                    (Js.or_null (Some (description newTask)))
                    (if Js.truthy_string (university_id newTask)
                        && negb (String.eqb (university_id newTask) "all")
                     then Some (university_id newTask) else None)
                    (Js.or_null (Some (due_date newTask)))
                    (Some (priority newTask)))) ~;;
         loadData ctx fuel)
        (fun _ => hret completed)
end.

Definition handleToggleTask (ctx : Auth.t) (fuel : nat) (taskId : string)
  (completed_now : bool) : Handler (Auth.t * State) Completion :=
htry
  (lift (Api.toggleTaskCompletion taskId (negb completed_now)) ~;; loadData ctx fuel)
  (fun _ => hret completed).

Definition handleDeleteTask (ctx : Auth.t) (fuel : nat) (taskId : string)
  : Handler (Auth.t * State) Completion :=
htry
  (lift (Api.deleteTask taskId) ~;; loadData ctx fuel)
  (fun _ => hret completed).

End ApplicationPage.

(* ================================================================== *)
(** * [pages/CounsellorPage.tsx]: the chat component                   *)
(* ================================================================== *)

Module CounsellorPage.

Record State := mkState {
  messages : list ChatMessage.t;
  input : string;
  loading : bool;
  initialLoading : bool
}.

(** The state of a freshly mounted page. *)
Definition initial : State := mkState [] "" false true.

Definition setMessages (f : list ChatMessage.t -> list ChatMessage.t)
  (v : Auth.t * State) : Auth.t * State :=
(fst v, mkState (f (messages (snd v))) (input (snd v)) (loading (snd v))
          (initialLoading (snd v))).

Definition setInput (x : string) (v : Auth.t * State) : Auth.t * State :=
(fst v, mkState (messages (snd v)) x (loading (snd v)) (initialLoading (snd v))).

Definition setLoading (b : bool) (v : Auth.t * State) : Auth.t * State :=
(fst v, mkState (messages (snd v)) (input (snd v)) b (initialLoading (snd v))).

Definition setInitialLoading (b : bool) (v : Auth.t * State) : Auth.t * State :=
(fst v, mkState (messages (snd v)) (input (snd v)) (loading (snd v)) b).

(** [profile?.full_name || 'there'] *)
Definition name_or_there (profile : option Profile.t) : string :=
match profile with
| Some p => match Js.or_null (Profile.full_name p) with
            | Some n => n
            | None => "there"
            end
| None => "there"
end.

Definition welcome (profile : option Profile.t) : string :=
"Hello " ++ name_or_there profile
  ++ "! 👋 I'm your AI Counsellor, here to guide you through your university application journey."
  ++ Js.nl ++ Js.nl
  ++ "I've reviewed your profile and I'm ready to help you find the perfect universities. What would you like to know?".

(** [loadMessages], the body of the effect keyed on [user, profile]: it is
    started when the page mounts and again whenever either value changes,
    and a run that is still in flight is not cancelled. *)
Definition loadMessages (ctx : Auth.t) : Handler (Auth.t * State) unit :=
match Auth.user ctx with
| None => hret tt
| Some userId =>
    hfinally
      (htry
         (msgs <~ lift (Api.getChatMessages userId None) ;;
          modify (setMessages (fun _ => msgs)) ~;;
          (* If no messages, send welcome message *)
          if (List.length msgs =? 0)%nat
          then
            welcomeMsg <~ lift (Api.createChatMessage userId chat_assistant
                                  (welcome (Auth.profile ctx)) None) ;;
            match welcomeMsg with
            | Some m => modify (setMessages (fun _ => [m]))
            | None => hret tt
            end
          else hret tt)
         (fun _ => hret tt))
      (modify (setInitialLoading false))
end.

(** [handleSend], with the [input] its render holds. *)
Definition handleSend (ctx : Auth.t) (input : string) : Handler (Auth.t * State) unit :=
match Js.truthy_string (Js.trim input), Auth.user ctx with
| true, Some userId =>
    let userMessage := Js.trim input in
    modify (setInput "") ~;;
    modify (setLoading true) ~;;
    hfinally
      (htry
         ((* Save user message *)
          userMsg <~ lift (Api.createChatMessage userId chat_user userMessage None) ;;
          match userMsg with
          | Some m => modify (setMessages (fun prev => prev ++ [m])%list)
          | None => hret tt
          end ~;;
          (* Generate AI response *)
          aiResponse <~ lift (Counsellor.generateAIResponse userMessage userId) ;;
          (* Save AI message *)
          aiMsg <~ lift (Api.createChatMessage userId chat_assistant aiResponse None) ;;
          match aiMsg with
          | Some m => modify (setMessages (fun prev => prev ++ [m])%list)
          | None => hret tt
          end)
         (fun _ => hret tt))
      (modify (setLoading false))
| _, _ => hret tt
end.

(** [handleKeyPress]: Enter without Shift sends. *)
Definition handleKeyPress (ctx : Auth.t) (input : string) (key : string)
  (shiftKey : bool) : Handler (Auth.t * State) unit :=
if String.eqb key "Enter" && negb shiftKey then handleSend ctx input else hret tt.

(** [disabled={!input.trim() || loading}] on the send button. *)
Definition send_disabled (st : State) : bool :=
negb (Js.truthy_string (Js.trim (input st))) || loading st.

End CounsellorPage.

(* ================================================================== *)
(** * [pages/DashboardPage.tsx]                                        *)
(* ================================================================== *)

Module DashboardPage.

Record State := mkState {
  shortlistCount : nat;
  lockedCount : nat;
  taskStats_total : nat;
  taskStats_completed : nat;
  loading : bool
}.

(** The state of a freshly mounted page. *)
Definition initial : State := mkState 0 0 0 0 true.

(** Where the effect leaves the user. *)
Inductive Navigation := stay | to_onboarding.

Definition loadData (profile : Profile.t) : Handler State unit :=
hfinally
  (htry
     (r <~ lift (promise_all3 (Api.getShortlistedUniversities (Profile.id profile))
                   (Api.getLockedUniversities (Profile.id profile))
                   (Api.getTasks (Profile.id profile))) ;;
      let '(shortlisted, locked, tasks) := r in
      modify (fun v => mkState (List.length shortlisted) (List.length locked)
                         (List.length tasks)
                         (List.length (filter Task.completed tasks))
                         (loading v)))
     (fun _ => hret tt))
  (modify (fun v => mkState (shortlistCount v) (lockedCount v) (taskStats_total v)
                      (taskStats_completed v) false)).

(** The effect on [profile]. *)
Definition effect (profile : option Profile.t) : Handler State Navigation :=
match profile with
| None => hret stay
| Some p =>
    if negb (Profile.onboarding_completed p) then hret to_onboarding
    else loadData p ~;; hret stay
end.

Definition stages : list UserStage := [exploring; shortlisting; committed; applying].

(** [stages.indexOf(currentStage)] *)
Definition currentStageIndex (currentStage : UserStage) : Z :=
Js.indexOf UserStage_eqb stages currentStage.

(** The flags of the journey step at [index]. *)
Definition isCompleted (currentStage : UserStage) (index : nat) : bool :=
(Z.of_nat index <? currentStageIndex currentStage)%Z.

Definition isCurrent (currentStage : UserStage) (index : nat) : bool :=
match nth_error stages index with
| Some s => UserStage_eqb s currentStage
| None => false
end.

Definition isLocked (currentStage : UserStage) (index : nat) : bool :=
(currentStageIndex currentStage <? Z.of_nat index)%Z.

End DashboardPage.

(* ================================================================== *)
(** * A user session                                                   *)
(* ================================================================== *)

Module App.

Record t := mk {
  auth : Auth.t;
  universitiesPage : UniversitiesPage.State;
  applicationPage : ApplicationPage.State
}.

(** What the signed-in user can do on the pages above. *)
Inductive Event :=
| SubmitOnboarding (formData : OnboardingData.t)
| OpenUniversities
| ClickAddToShortlist (university : University.t) (category : UniversityCategory)
| ClickRemove (universityId : string)
| ClickLockChoice (universityId : string)
| ConfirmUnlock (universityId : string)
| OpenApplication
| SubmitNewTask (newTask : ApplicationPage.NewTask)
| ToggleTask (taskId : string) (completed_now : bool)
| DeleteTask (taskId : string).

(** Recursion budget handed to [ApplicationPage.loadData]. *)
Definition fuel : nat := 2.

(** Run a handler to the end against the hosted service. *)
Definition perform {S A} (h : Handler (Auth.t * S) A) (a : Auth.t) (s : S)
  (w : Postgres.World) : Auth.t * S * Postgres.World :=
let r := hrun Postgres.supabase h (a, s) w in
(fst (snd (fst r)), snd (snd (fst r)), snd r).

Definition on_universities (h : Handler (Auth.t * UniversitiesPage.State) unit)
  (app : t) (w : Postgres.World) : t * Postgres.World :=
let '(a, st, w') := perform h (auth app) (universitiesPage app) w in
(mk a st (applicationPage app), w').

Definition on_application
  (h : Handler (Auth.t * ApplicationPage.State) ApplicationPage.Completion)
  (app : t) (w : Postgres.World) : t * Postgres.World :=
let '(a, st, w') := perform h (auth app) (applicationPage app) w in
(mk a (universitiesPage app) st, w').

(** One event, handled to its end with no other handler in flight.  A
    click on a button that the page does not show does nothing. *)
Definition step (ev : Event) (app : t) (w : Postgres.World) : t * Postgres.World :=
match ev with
| SubmitOnboarding formData =>
    let '(a, _, w') := perform (OnboardingPage.handleSubmit (auth app) formData) (auth app) tt w in
    (mk a (universitiesPage app) (applicationPage app), w')
| OpenUniversities =>
    on_universities (UniversitiesPage.loadData (auth app))
      (mk (auth app) UniversitiesPage.initial (applicationPage app)) w
| ClickAddToShortlist university category =>
    if UniversitiesPage.card_shown (universitiesPage app) (University.id university)
       && UniversitiesPage.offers_add (universitiesPage app) (University.id university)
    then on_universities (UniversitiesPage.handleAddToShortlist (auth app) university category) app w
    else (app, w)
| ClickRemove universityId =>
    if UniversitiesPage.card_shown (universitiesPage app) universityId
       && UniversitiesPage.offers_remove_and_lock (universitiesPage app) universityId
    then on_universities (UniversitiesPage.handleRemoveFromShortlist (auth app) universityId) app w
    else (app, w)
| ClickLockChoice universityId =>
    if UniversitiesPage.card_shown (universitiesPage app) universityId
       && UniversitiesPage.offers_remove_and_lock (universitiesPage app) universityId
    then on_universities (UniversitiesPage.handleLock (auth app) universityId) app w
    else (app, w)
| ConfirmUnlock universityId =>
    if UniversitiesPage.card_shown (universitiesPage app) universityId
       && UniversitiesPage.offers_unlock (universitiesPage app) universityId
    then on_universities (UniversitiesPage.handleUnlock (auth app) (Some universityId)) app w
    else (app, w)
| OpenApplication =>
    on_application (ApplicationPage.loadData (auth app) fuel)
      (mk (auth app) (universitiesPage app) ApplicationPage.initial) w
| SubmitNewTask newTask =>
    on_application (ApplicationPage.handleCreateTask (auth app) fuel newTask) app w
| ToggleTask taskId completed_now =>
    on_application (ApplicationPage.handleToggleTask (auth app) fuel taskId completed_now) app w
| DeleteTask taskId =>
    on_application (ApplicationPage.handleDeleteTask (auth app) fuel taskId) app w
end.

(** A session in which every event is handled to its end, the reload it
    ends with included, before the next event.  The pages do not enforce
    this: their buttons stay enabled while a handler is in flight, which
    is what [overlap] is for. *)
Fixpoint steps (evs : list Event) (app : t) (w : Postgres.World) : t * Postgres.World :=
match evs with
| [] => (app, w)
| ev :: rest => let (app', w') := step ev app w in steps rest app' w'
end.

(** A session that has just signed in: the context holds the profile row
    as stored, and no page is mounted yet. *)
Definition start (a : Auth.t) : t :=
mk a UniversitiesPage.initial ApplicationPage.initial.

End App.

(* ================================================================== *)
(** * The properties, as predicates                                    *)
(* ================================================================== *)

(** [p] sends the one request [q] and settles from its answer alone: it
    throws the error the answer reports, and otherwise returns
    [result data]. *)
Definition single_round_trip {A} (p : Prog A) (q : Request)
  (result : option (payload q) -> A) : Prop :=
forall (S : Type) (c : Client S) (s : S),
  run c p s =
  mkRun (match error (fst (c q s)) with
         | Some e => Rejected (DbError e)
         | None => Fulfilled (result (data (fst (c q s))))
         end)
        (snd (c q s))
        [ mkExchange q (error (fst (c q s))) ].

(** The request [getUniversities] builds from its filters. *)
Definition universities_request (filters : option Filters.t) : Request :=
universities_select
  (match filters with Some f => Api.nonempty_filter (Filters.countries f) | None => None end)
  (match filters with Some f => Api.nonempty_filter (Filters.programs f) | None => None end)
  (match filters with Some f => Api.truthy_number (Filters.budgetMax f) | None => None end).

(** The row [createTask] inserts. *)
Definition task_request (userId : string) (task : TaskInput.t) : Request :=
tasks_insert_returning userId (TaskInput.title task)
  (Js.or_null (TaskInput.description task))
  (Js.or_null (TaskInput.university_id task))
  (Js.or_null (TaskInput.due_date task))
  (match Js.or_null (TaskInput.priority task) with Some p => p | None => "medium" end).

(** The row [createChatMessage] inserts. *)
Definition chat_request (userId : string) (role : ChatRole) (content : string)
  (metadata : option Json) : Request :=
chat_insert_returning userId role content
  (match metadata with Some m => m | None => "{}" end).

(** A request that only reads. *)
Definition is_read (q : Request) : bool :=
match q with
| profiles_select _ | universities_select _ _ _ | universities_select_one _
| universities_search _ | shortlisted_select _ | locked_select _ | tasks_select _
| chat_select _ _ => true
| _ => false
end.

(** The lines a [forEach] appends, one per university. *)
Definition lines (line : University.t -> string) (xs : list University.t) : string :=
fold_right (fun uni rest => line uni ++ rest) "" xs.

(** The recommendation reply, laid out section by section. *)
Definition recommendation_layout (profile : Profile.t)
  (dream target safe : list University.t) : string :=
("Based on your profile (GPA: " ++ Counsellor.gpa_or_na profile ++ ", Budget: $"
   ++ Counsellor.number_or_zero (Profile.budget_min profile) ++ "-"
   ++ Counsellor.number_or_zero (Profile.budget_max profile)
   ++ "), here are my recommendations:" ++ Js.nl ++ Js.nl)
++ ("🌟 **Dream Schools** (Reach):" ++ Js.nl)
++ lines (Counsellor.dream_line profile) dream
++ (Js.nl ++ "🎯 **Target Schools** (Match):" ++ Js.nl)
++ lines Counsellor.target_line target
++ (Js.nl ++ "✅ **Safe Schools** (Likely):" ++ Js.nl)
++ lines Counsellor.safe_line safe
++ (Js.nl ++ "Would you like me to add any of these to your shortlist?").

(** An entry of a recommendation names its university: a line with the
    name in bold, the country in parentheses and the acceptance rate,
    followed by a remark. *)
Definition entry_of (remark : string) (uni : University.t) : string :=
"- **" ++ University.name uni ++ "** (" ++ University.country uni
  ++ "): Acceptance rate "
  ++ match University.acceptance_rate uni with
     | Some rate => show_numeric2 rate
     | None => "null"
     end
  ++ "%. " ++ remark ++ Js.nl.

(** A section of a recommendation: the heading with its label, then one
    entry for each of its universities, in their order. *)
Definition section_of (heading remark : string) (unis : list University.t) : string :=
heading ++ Js.nl ++ fold_right append EmptyString (map (entry_of remark) unis).

(** The reply the table of keyword groups calls for, once the profile is
    known. *)
Definition reply_for (profile : Profile.t) (g : option Counsellor.KeywordGroup)
  : Prog string :=
match g with
| Some Counsellor.recommendation_group =>
    universities <- Api.getUniversities (Some (Counsellor.profile_filters profile)) ;;
    if (List.length universities =? 0)%nat
    then Ret Counsellor.broaden_reply
    else Ret (Counsellor.recommendation_reply profile universities)
| Some Counsellor.profile_group => Ret (Counsellor.profile_reply profile)
| Some Counsellor.budget_group => Ret (Counsellor.budget_reply profile)
| Some Counsellor.timeline_group => Ret Counsellor.timeline_reply
| Some Counsellor.next_steps_group =>
    match Profile.current_stage profile with
    | exploring => Ret Counsellor.next_exploring_reply
    | shortlisting => Ret Counsellor.next_shortlisting_reply
    | committed => Ret Counsellor.next_committed_reply
    | _ => Ret Counsellor.default_reply
    end
| None => Ret Counsellor.default_reply
end.

(** Text made of ASCII characters only. *)
Definition ascii_text (s : string) : Prop :=
Forall (fun c => nat_of_ascii c < 128) (list_ascii_of_string s).

(** Two characters are the same letter when case is ignored: they are
    equal, or one is a capital, [A] to [Z], and the other is the small
    letter, which comes 32 places after it. *)
Definition same_letter (a b : ascii) : bool :=
let x := nat_of_ascii a in
let y := nat_of_ascii b in
(x =? y)%nat
|| ((65 <=? x)%nat && (x <=? 90)%nat && (y =? x + 32)%nat)
|| ((65 <=? y)%nat && (y <=? 90)%nat && (x =? y + 32)%nat).

(** Two strings are the same text when case is ignored: they have the same
    length and the same letters, place by place. *)
Fixpoint same_text (s t : string) : bool :=
match s, t with
| EmptyString, EmptyString => true
| String a s', String b t' => same_letter a b && same_text s' t'
| _, _ => false
end.

(** [s] contains [t] case-insensitively: some stretch of [s] is the same
    text as [t]. *)
Definition contains_ci (s t : string) : Prop :=
exists pre mid post,
  s = pre ++ mid ++ post /\ same_text mid t = true.

(** A search term of ASCII letters, digits and spaces: one that the
    filter string of [searchUniversities] carries unchanged. *)
Definition plain_term (term : string) : bool :=
forallb (fun c => let n := nat_of_ascii c in
                  (n =? 32)%nat
                  || ((48 <=? n)%nat && (n <=? 57)%nat)
                  || ((65 <=? n)%nat && (n <=? 90)%nat)
                  || ((97 <=? n)%nat && (n <=? 122)%nat))
        (list_ascii_of_string term).

(** The name, the country or the city of the university contains the
    term case-insensitively. *)
Definition term_found (term : string) (u : University.t) : Prop :=
contains_ci (University.name u) term
\/ contains_ci (University.country u) term
\/ exists city, University.city u = Some city /\ contains_ci city term.

(** The names, countries and cities of the stored universities are ASCII
    text. *)
Definition universities_ascii (d : Postgres.Db) : Prop :=
forall u, In u (Postgres.universities d) ->
  ascii_text (University.name u) /\ ascii_text (University.country u)
  /\ forall city, University.city u = Some city -> ascii_text city.

(** [UNIQUE(user_id, university_id)] on the shortlist table. *)
Definition shortlist_key (s : ShortlistedUniversity.t) : string * string :=
(ShortlistedUniversity.user_id s, ShortlistedUniversity.university_id s).

Definition shortlist_unique (d : Postgres.Db) : Prop :=
NoDup (map shortlist_key (Postgres.user_shortlisted_universities d)).

(** [PRIMARY KEY (id)] on the profiles table. *)
Definition profiles_keyed (d : Postgres.Db) : Prop :=
NoDup (map Profile.id (Postgres.profiles d)).

(** Every locked university of every user is in that user's shortlist. *)
Definition locked_within_shortlist (d : Postgres.Db) : Prop :=
forall uid unid,
  Postgres.is_locked d uid unid = true -> Postgres.is_shortlisted d uid unid = true.

(** A request that writes [current_stage]. *)
Definition is_stage_update (q : Request) : bool :=
match q with
| profiles_update _ updates | profiles_update_returning _ updates =>
    existsb (fun a => match a with Profile.set_current_stage _ => true | _ => false end)
            updates
| _ => false
end.

(** A request that writes the profiles table. *)
Definition writes_profiles (q : Request) : bool :=
match q with
| profiles_update _ _ | profiles_update_returning _ _ => true
| _ => false
end.

(** Running [p] keeps the property [I] of the hosted service. *)
Definition keeps {A} (I : Postgres.World -> Prop) (p : Prog A) : Prop :=
forall w, I w -> I (final (run Postgres.supabase p w)).

Definition hkeeps {U A} (I : Postgres.World -> Prop) (h : Handler U A) : Prop :=
forall u, keeps I (h u).

(** The stage stored for [userId], if any, is [floor] or a later one. *)
Definition stage_at_least (userId : string) (floor : UserStage) (w : Postgres.World)
  : Prop :=
forall stage,
  Postgres.stored_stage (Postgres.db w) userId = Some stage ->
  stage_rank floor <= stage_rank stage.

(** A handler started in a state satisfying [P] ends in one satisfying [Q]. *)
Definition hhoare {U A} (P : U -> Postgres.World -> Prop) (h : Handler U A)
  (Q : Outcome A -> U -> Postgres.World -> Prop) : Prop :=
forall u w, P u w ->
  Q (fst (fst (hrun Postgres.supabase h u w)))
    (snd (fst (hrun Postgres.supabase h u w)))
    (snd (hrun Postgres.supabase h u w)).

(** The rows a successful read of one user's locked universities returns. *)
Definition locked_rows (d : Postgres.Db) (userId : string) : list LockedUniversity.t :=
map (Postgres.embed_locked d)
    (Postgres.order_by
       (fun a b => (LockedUniversity.locked_at b <=? LockedUniversity.locked_at a)%nat)
       (filter (fun l => String.eqb (LockedUniversity.user_id l) userId)
               (Postgres.user_locked_universities d))).

(** The rows a successful read of one user's shortlist returns. *)
Definition shortlisted_rows (d : Postgres.Db) (userId : string)
  : list ShortlistedUniversity.t :=
map (Postgres.embed_shortlisted d)
    (Postgres.order_by
       (fun a b => (ShortlistedUniversity.created_at b
                    <=? ShortlistedUniversity.created_at a)%nat)
       (filter (fun s => String.eqb (ShortlistedUniversity.user_id s) userId)
               (Postgres.user_shortlisted_universities d))).

(** The rows a successful read of one user's tasks returns. *)
Definition tasks_rows (d : Postgres.Db) (userId : string) : list Task.t :=
map (Postgres.embed_task d)
    (Postgres.order_by Postgres.by_due_date
       (filter (fun k => String.eqb (Task.user_id k) userId) (Postgres.tasks d))).

(** The user has a task on file. *)
Definition has_tasks (userId : string) (w : Postgres.World) : bool :=
existsb (fun k => String.eqb (Task.user_id k) userId) (Postgres.tasks (Postgres.db w)).

(** The applications page's load succeeds and finds a locked university:
    neither of its two reads fails in transport, and the user has a locked
    university on file. *)
Definition load_finds_locked (userId : string) (w : Postgres.World) : bool :=
match hd None (Postgres.faults w), hd None (tl (Postgres.faults w)) with
| None, None =>
    existsb (fun l => String.eqb (LockedUniversity.user_id l) userId)
            (Postgres.user_locked_universities (Postgres.db w))
| _, _ => false
end.

(** The part of the applications page's load that may set the stage. *)
Definition stage_part (userId : string) (ctx : Auth.t)
  (locked : list LockedUniversity.t)
  : Handler (Auth.t * ApplicationPage.State) unit :=
if (0 <? List.length locked)%nat && Auth.stage_is ctx committed
then lift (Api.updateUserStage userId applying) ~;; Auth.refreshProfile
else hret tt.

(** The requests received since [before] include no write of a stage. *)
Definition no_stage_update_since (before : list Request) (w : Postgres.World) : Prop :=
exists new,
  Postgres.received w = (before ++ new)%list
  /\ Forall (fun q => is_stage_update q = false) new.

(** Since the world [w0], the applications page's load has sent its two
    reads and then the update of the stage to [applying]; and if that
    update was not lost in transport, the user's stage is [applying]. *)
Definition applying_since (userId : string) (w0 w : Postgres.World) : Prop :=
(exists rest,
   Postgres.received w
   = (Postgres.received w0
      ++ tasks_select userId :: locked_select userId
         :: profiles_update userId [Profile.set_current_stage applying] :: rest)%list)
/\ (hd None (tl (tl (Postgres.faults w0))) = None ->
    forall stage,
      Postgres.stored_stage (Postgres.db w0) userId = Some stage ->
      Postgres.stored_stage (Postgres.db w) userId = Some applying).

Definition locked_key_of (l : LockedUniversity.t) : string * string :=
(LockedUniversity.user_id l, LockedUniversity.university_id l).

(** The two tables of the users' choices. *)
Definition choices (d : Postgres.Db)
  : list ShortlistedUniversity.t * list LockedUniversity.t :=
(Postgres.user_shortlisted_universities d, Postgres.user_locked_universities d).

(** The buttons the page shows can be trusted: a university offered for
    removal or locking is on the user's stored shortlist and is not
    stored as locked. *)
Definition view_trusts (userId : string) (st : UniversitiesPage.State)
  (d : Postgres.Db) : Prop :=
forall unid,
  UniversitiesPage.offers_remove_and_lock st unid = true ->
  Postgres.is_shortlisted d userId unid = true
  /\ Postgres.is_locked d userId unid = false.

(** A request that writes the shortlist or the locked table. *)
Definition writes_choices (q : Request) : bool :=
match q with
| shortlisted_insert _ _ _ _ | shortlisted_delete _ _ | shortlisted_update _ _ _
| locked_insert _ _ | locked_delete _ _ => true
| _ => false
end.

(** The requests that write the tables of the users' choices keep [I]. *)
Definition choices_keep (I : Postgres.World -> Prop) : Prop :=
forall q w, writes_choices q = true -> I w -> I (snd (Postgres.supabase q w)).

(** A request other than the two after which the page has to load the
    tables again before its buttons can be trusted: the removal of a
    shortlist row and the insertion of a locked row. *)
Definition harmless (q : Request) : bool :=
match q with
| shortlisted_delete _ _ | locked_insert _ _ => false
| _ => true
end.

(** What a session relies on in the hosted service: requests are not lost
    in transport, profile ids are unique, and every locked university is
    shortlisted. *)
Definition tables_ok (w : Postgres.World) : Prop :=
Postgres.faults w = []
/\ profiles_keyed (Postgres.db w)
/\ locked_within_shortlist (Postgres.db w).

(** The user [userId] is signed in, and [I] holds of the service. *)
Definition signed_in (userId : string) {S} (I : Postgres.World -> Prop)
  (u : Auth.t * S) (w : Postgres.World) : Prop :=
Auth.user (fst u) = Some userId /\ I w.

(** A session on the universities page in good order: the user is signed
    in, the tables are in order, and the page's buttons can be trusted. *)
Definition session_ok (userId : string) (u : Auth.t * UniversitiesPage.State)
  (w : Postgres.World) : Prop :=
signed_in userId
  (fun w => tables_ok w /\ view_trusts userId (snd u) (Postgres.db w)) u w.

(** The session [app] of the user [userId] is in good order. *)
Definition app_ok (userId : string) (app : App.t) (w : Postgres.World) : Prop :=
session_ok userId (App.auth app, App.universitiesPage app) w.

(** The handler keeps the property [P] of the component state and the
    service, however it settles. *)
Definition hinv {U A} (P : U -> Postgres.World -> Prop) (h : Handler U A) : Prop :=
hhoare P h (fun _ => P).

(** The stage held by the auth context is the stored one. *)
Definition context_agrees (a : Auth.t) (stored : UserStage) : Prop :=
forall p, Auth.profile a = Some p -> Profile.current_stage p = stored.

(** The auth context holds a copy of the profile, and the stage of the
    copy is [stored]. *)
Definition context_current (a : Auth.t) (stored : UserStage) : Prop :=
exists p, Auth.profile a = Some p /\ Profile.current_stage p = stored.

(** What [getUniversities] asks of a university: a country among
    [countries], a program among [programs], and a lowest tuition fee that
    is known and at most [budgetMax]; an absent or empty list and an absent
    or zero budget ask nothing. *)
Definition passes_filters (filters : option Filters.t) (u : University.t) : Prop :=
match filters with
| None => True
| Some f =>
    match Filters.countries f with
    | Some (c :: cs) => In (University.country u) (c :: cs)
    | _ => True
    end
    /\ match Filters.programs f with
       | Some (p :: ps) => exists x, In x (University.programs u) /\ In x (p :: ps)
       | _ => True
       end
    /\ match Filters.budgetMax f with
       | Some b =>
           b = 0%Z
           \/ exists fee, University.tuition_fee_min u = Some fee /\ (fee <= b)%Z
       | None => True
       end
end.

(** [a] is not ranked after [b]: rankings ascend and the unranked come last. *)
Definition ranked_before (a b : University.t) : Prop :=
match University.ranking a, University.ranking b with
| Some x, Some y => (x <= y)%Z
| Some _, None => True
| None, Some _ => False
| None, None => True
end.

(** The messages stored for a user. *)
Definition messages_of (d : Postgres.Db) (userId : string) : list ChatMessage.t :=
filter (fun m => String.eqb (ChatMessage.user_id m) userId) (Postgres.chat_messages d).

Definition not_newer (a b : ChatMessage.t) : Prop :=
ChatMessage.created_at a <= ChatMessage.created_at b.

(** [UNIQUE(user_id, university_id)] on the locked table. *)
Definition locked_unique (d : Postgres.Db) : Prop :=
NoDup (map locked_key_of (Postgres.user_locked_universities d)).

(** The profile row of a user who has exactly one. *)
Definition the_profile (d : Postgres.Db) (userId : string) : option Profile.t :=
match filter (fun p => String.eqb (Profile.id p) userId) (Postgres.profiles d) with
| [p] => Some p
| _ => None
end.

(** The numbers of the onboarding form fit their columns: the GPA,
    rounded to hundredths, fits [numeric(3,2)] and the two budgets fit
    [integer]. *)
Definition fits_columns (form : OnboardingData.t) : Prop :=
(Z.abs (to_numeric2 (OnboardingData.gpa form)) < 1000)%Z
/\ (- 2147483648 <= OnboardingData.budget_min form <= 2147483647)%Z
/\ (- 2147483648 <= OnboardingData.budget_max form <= 2147483647)%Z.

(** The task row [createTask] asks the database to insert: empty strings
    count as absent, an absent priority is ["medium"], and the database
    fills in the id, [completed] and the two times. *)
Definition new_task_row (userId : string) (task : TaskInput.t) (id : string)
  (now : Timestamp) : Task.t :=
Task.mk id userId (Js.or_null (TaskInput.university_id task)) (TaskInput.title task)
  (Js.or_null (TaskInput.description task)) false (Js.or_null (TaskInput.due_date task))
  (match Js.or_null (TaskInput.priority task) with Some p => p | None => "medium" end)
  now now None.

(** Every stored task that names a university names a stored one. *)
Definition tasks_refer (d : Postgres.Db) : Prop :=
forallb (Postgres.task_fk_ok d) (Postgres.tasks d) = true.

(** A task with a due date is not listed after one without. *)
Definition dated_first (a b : Task.t) : Prop :=
Task.due_date a = None -> Task.due_date b = None.

(** The tables other than [chat_messages]. *)
Definition other_tables (d : Postgres.Db) :=
(Postgres.profiles d, Postgres.universities d, Postgres.user_shortlisted_universities d,
 Postgres.user_locked_universities d, Postgres.tasks d).

(** Since [w0], nothing was written but messages of [userId], appended to
    [chat_messages]. *)
Definition only_chat_appended (userId : string) (w0 w : Postgres.World) : Prop :=
other_tables (Postgres.db w) = other_tables (Postgres.db w0)
/\ exists new,
     Postgres.chat_messages (Postgres.db w)
     = (Postgres.chat_messages (Postgres.db w0) ++ new)%list
     /\ Forall (fun m => ChatMessage.user_id m = userId) new.

(** A request that reads, or inserts a message of [userId]. *)
Definition chat_page_request (userId : string) (q : Request) : bool :=
is_read q
|| match q with
   | chat_insert_returning uid _ _ _ => String.eqb uid userId
   | _ => false
   end.

(** The message [m] of [userId], written by [role]. *)
Definition message_by (userId : string) (role : ChatRole) (m : ChatMessage.t) : Prop :=
ChatMessage.user_id m = userId /\ ChatMessage.role m = role.

(** What one [handleSend] adds to the messages shown: nothing, the user's
    message, or the user's message and then the assistant's. *)
Definition sent_rows (userId text : string) (new : list ChatMessage.t) : Prop :=
new = []
\/ exists mu,
     message_by userId chat_user mu /\ ChatMessage.content mu = text
     /\ (new = [mu] \/ exists ma, message_by userId chat_assistant ma /\ new = [mu; ma]).

(** Every message the page shows is a stored one. *)
Definition shown_stored (st : CounsellorPage.State) (w : Postgres.World) : Prop :=
forall m, In m (CounsellorPage.messages st) ->
          In m (Postgres.chat_messages (Postgres.db w)).

(** The step of the onboarding form after a sequence of clicks on "Next"
    and "Back", starting from the first step. *)
Definition step_after (clicks : list OnboardingPage.Click) : nat :=
fold_left (fun step c => OnboardingPage.click c step) clicks 1.

(** The category stored for a pair on the shortlist. *)
Definition stored_category (d : Postgres.Db) (userId universityId : string)
  : option UniversityCategory :=
match find (Postgres.shortlisted_key userId universityId)
           (Postgres.user_shortlisted_universities d) with
| Some s => Some (ShortlistedUniversity.category s)
| None => None
end.

(** The profiles with the role [admin]. *)
Definition admins (d : Postgres.Db) : list Profile.t :=
filter (fun p => match Profile.role p with role_admin => true | role_user => false end)
       (Postgres.profiles d).

(** No stored task carries an id that [gen_random_uuid()] will draw at
    the time [now] or later. *)
Definition task_ids_fresh (rows : list Task.t) (now : nat) : Prop :=
forall k, In k rows -> forall t, now <= t -> Task.id k <> Postgres.gen_random_uuid t.

(** The row of a default task: it belongs to the user and to the given
    university, is not completed and has no due date. *)
Definition default_row (userId universityId : string) (task : string * string * string)
  (row : Task.t) : Prop :=
Task.user_id row = userId
/\ Task.title row = fst (fst task)
/\ Task.description row = Js.or_null (Some (snd (fst task)))
/\ Task.priority row = snd task
/\ Task.university_id row = Js.or_null (Some universityId)
/\ Task.completed row = false
/\ Task.due_date row = None.

(** What the load of the applications page relies on when it generates
    the default tasks: no request is lost; the user has a profile, the
    only one with that id; the user has no task; and ids are fresh. *)
Definition ready_for_defaults (userId : string) (w : Postgres.World) : Prop :=
Postgres.faults w = []
/\ Postgres.has_profile (Postgres.db w) userId = true
/\ profiles_keyed (Postgres.db w)
/\ tasks_rows (Postgres.db w) userId = []
/\ task_ids_fresh (Postgres.tasks (Postgres.db w)) (Postgres.clock w).

(** While the default tasks are generated, since the world [w0]: no
    request is lost, the stored tasks are [T], the locked table and the
    universities are as in [w0], the user has a profile, profile ids are
    unique and the ids of the tasks are fresh. *)
Definition generating (userId : string) (w0 : Postgres.World) (T : list Task.t)
  (w : Postgres.World) : Prop :=
Postgres.faults w = []
/\ Postgres.tasks (Postgres.db w) = T
/\ Postgres.user_locked_universities (Postgres.db w)
   = Postgres.user_locked_universities (Postgres.db w0)
/\ Postgres.universities (Postgres.db w) = Postgres.universities (Postgres.db w0)
/\ Postgres.has_profile (Postgres.db w) userId = true
/\ profiles_keyed (Postgres.db w)
/\ task_ids_fresh T (Postgres.clock w).

(** A request that writes neither tasks nor locked universities. *)
Definition keeps_tasks_and_locks (q : Request) : bool :=
match q with
| tasks_insert_returning _ _ _ _ _ _ | tasks_update _ _ | tasks_delete _
| locked_insert _ _ | locked_delete _ _ => false
| _ => true
end.

(** The rows a read of the user's tasks returns when the stored tasks are
    [T] and the universities are those of [d]. *)
Definition task_rows_of (d : Postgres.Db) (userId : string) (T : list Task.t)
  : list Task.t :=
map (Postgres.embed_task d)
    (Postgres.order_by Postgres.by_due_date
       (filter (fun k => String.eqb (Task.user_id k) userId) T)).

(* ================================================================== *)
(** * Sample data                                                      *)
(* ================================================================== *)

Module Sample.

Definition ann (stage : UserStage) : Profile.t :=
Profile.mk "u1" (Some "ann@example.org") role_user (Some "Ann") stage true
  (Some "Bachelor") (Some "Physics") (Some 380%Z) [] (Some "Master")
  ["Germany"] ["Physics"] (Some 1000%Z) (Some 40000%Z) ["GRE"] ["TOEFL"] 0 0.

Definition uni (id name country : string) (city : option string) (ranking : Z)
  : University.t :=
University.mk id name country city (Some ranking) (Some 1250%Z) (Some 100%Z)
  (Some 200%Z) "USD" ["Physics"] "{}" None None 0.

Definition alpha : University.t := uni "a" "Alpha" "Germany" (Some "Bonn") 2.
Definition beta : University.t := uni "b" "Beta" "Germany" None 1.
Definition gamma : University.t := uni "c" "Gamma" "France" (Some "Lyon") 3.

Definition nine : list University.t :=
map (fun i => uni (Js.show_Z i) ("U" ++ Js.show_Z i) "Germany" None i)
    [1; 2; 3; 4; 5; 6; 7; 8; 9]%Z.

Definition db (stage : UserStage) : Postgres.Db :=
Postgres.mkDb [ann stage] [alpha; beta; gamma] [] [] [] [].

Definition world (stage : UserStage) (faults : list (option PostgrestError))
  : Postgres.World :=
Postgres.mkWorld (db stage) 0 faults [].

(** The sample store after Ann has shortlisted Alpha. *)
Definition db_with_alpha_shortlisted (stage : UserStage) : Postgres.Db :=
Postgres.mkDb [ann stage] [alpha; beta; gamma]
  [ShortlistedUniversity.mk "s1" "u1" "a" dream None 0 None] [] [] [].

Definition signed_in (stage : UserStage) : Auth.t :=
Auth.mk (Some "u1") (Some (ann stage)).

Definition network_error : PostgrestError := mkError "" "TypeError: Failed to fetch".

Definition form : OnboardingData.t :=
OnboardingData.mk "Ann" "Bachelor" "Physics" (Js.mkNumber 38 1) [] "Master" ["Germany"]
  ["Physics"] 1000%Z 40000%Z ["GRE"] ["TOEFL"].

End Sample.

(* ================================================================== *)
(** * Running asynchronous code: general facts                         *)
(* ================================================================== *)

Section RunFacts.

Context {S : Type} (c : Client S).

Lemma run_bind {A B} (p : Prog A) (f : A -> Prog B) (s : S) :
  run c (bind p f) s =
  match outcome (run c p s) with
  | Fulfilled a => after (log (run c p s)) (run c (f a) (final (run c p s)))
  | Rejected e => mkRun (Rejected e) (final (run c p s)) (log (run c p s))
  end.
Proof.
  revert s. induction p as [a | e | q k IH]; intros s; simpl.
  - unfold after. simpl. destruct (run c (f a) s); reflexivity.
  - reflexivity.
  - rewrite IH. destruct (outcome (run c (k (fst (c q s))) (snd (c q s)))); reflexivity.
Qed.

Lemma run_try_catch {A} (p : Prog A) (h : Exn -> Prog A) (s : S) :
  run c (try_catch p h) s =
  match outcome (run c p s) with
  | Fulfilled a => run c p s
  | Rejected e => after (log (run c p s)) (run c (h e) (final (run c p s)))
  end.
Proof.
  revert s. induction p as [a | e | q k IH]; intros s; simpl.
  - reflexivity.
  - unfold after. simpl. destruct (run c (h e) s); reflexivity.
  - rewrite IH.
    destruct (run c (k (fst (c q s))) (snd (c q s))) as [o fin lg]; simpl.
    destruct o; reflexivity.
Qed.

Lemma run_settle {A} (p : Prog A) (s : S) :
  run c (settle p) s =
  mkRun (Fulfilled (outcome (run c p s))) (final (run c p s)) (log (run c p s)).
Proof.
  unfold settle. rewrite run_try_catch, run_bind.
  destruct (outcome (run c p s)) eqn:E; unfold after; simpl;
    rewrite ?app_nil_r; reflexivity.
Qed.

End RunFacts.

(* ================================================================== *)
(** * The data-access layer                                            *)
(* ================================================================== *)

Section DataAccess.

Local Ltac one_round_trip :=
  intros; red; intros;
  unfold universities_request, task_request, chat_request;
  simpl;
  match goal with
  | |- context [error (fst (?c ?q ?s))] => destruct (error (fst (c q s)))
  end; reflexivity.

Lemma getProfile_round_trip userId :
  single_round_trip (Api.getProfile userId)
    (profiles_select userId) (fun d => d).
Proof. one_round_trip. Qed.

Lemma updateProfile_round_trip userId updates :
  single_round_trip (Api.updateProfile userId updates)
    (profiles_update_returning userId updates) (fun d => d).
Proof. one_round_trip. Qed.

Lemma completeOnboarding_round_trip userId onboardingData :
  single_round_trip (Api.completeOnboarding userId onboardingData)
    (profiles_update_returning userId
       (OnboardingData.spread onboardingData
        ++ [Profile.set_onboarding_completed true;
            Profile.set_current_stage exploring])%list)
    (fun d => d).
Proof. one_round_trip. Qed.

Lemma updateUserStage_round_trip userId stage :
  single_round_trip (Api.updateUserStage userId stage)
    (profiles_update userId [Profile.set_current_stage stage]) (fun _ => tt).
Proof. one_round_trip. Qed.

Lemma getUniversities_round_trip filters :
  single_round_trip (Api.getUniversities filters)
    (universities_request filters)
    Api.array_or_empty.
Proof. one_round_trip. Qed.

Lemma getUniversity_round_trip id :
  single_round_trip (Api.getUniversity id)
    (universities_select_one id) (fun d => d).
Proof. one_round_trip. Qed.

Lemma searchUniversities_round_trip searchTerm :
  single_round_trip (Api.searchUniversities searchTerm)
    (universities_search searchTerm)
    Api.array_or_empty.
Proof. one_round_trip. Qed.

Lemma getShortlistedUniversities_round_trip userId :
  single_round_trip (Api.getShortlistedUniversities userId)
    (shortlisted_select userId)
    Api.array_or_empty.
Proof. one_round_trip. Qed.

Lemma addToShortlist_round_trip userId universityId category notes :
  single_round_trip (Api.addToShortlist userId universityId category notes)
    (shortlisted_insert userId universityId category (Js.or_null notes)) (fun _ => tt).
Proof. one_round_trip. Qed.

Lemma removeFromShortlist_round_trip userId universityId :
  single_round_trip (Api.removeFromShortlist userId universityId)
    (shortlisted_delete userId universityId) (fun _ => tt).
Proof. one_round_trip. Qed.

Lemma updateShortlistCategory_round_trip userId universityId category :
  single_round_trip (Api.updateShortlistCategory userId universityId category)
    (shortlisted_update userId universityId category) (fun _ => tt).
Proof. one_round_trip. Qed.

Lemma getLockedUniversities_round_trip userId :
  single_round_trip (Api.getLockedUniversities userId)
    (locked_select userId)
    Api.array_or_empty.
Proof. one_round_trip. Qed.

Lemma unlockUniversity_round_trip userId universityId :
  single_round_trip (Api.unlockUniversity userId universityId)
    (locked_delete userId universityId) (fun _ => tt).
Proof. one_round_trip. Qed.

Lemma getTasks_round_trip userId :
  single_round_trip (Api.getTasks userId)
    (tasks_select userId) Api.array_or_empty.
Proof. one_round_trip. Qed.

Lemma createTask_round_trip userId task :
  single_round_trip (Api.createTask userId task)
    (task_request userId task) (fun d => d).
Proof. one_round_trip. Qed.

Lemma updateTask_round_trip taskId updates :
  single_round_trip (Api.updateTask taskId updates)
    (tasks_update taskId updates) (fun _ => tt).
Proof. one_round_trip. Qed.

Lemma toggleTaskCompletion_round_trip taskId completed :
  single_round_trip (Api.toggleTaskCompletion taskId completed)
    (tasks_update taskId [Task.set_completed completed]) (fun _ => tt).
Proof. one_round_trip. Qed.

Lemma deleteTask_round_trip taskId :
  single_round_trip (Api.deleteTask taskId)
    (tasks_delete taskId) (fun _ => tt).
Proof. one_round_trip. Qed.

Lemma getChatMessages_round_trip userId limit :
  single_round_trip (Api.getChatMessages userId limit)
    (chat_select userId (match limit with Some n => n | None => 50 end))
    Api.array_or_empty.
Proof. one_round_trip. Qed.

Lemma createChatMessage_round_trip userId role content metadata :
  single_round_trip (Api.createChatMessage userId role content metadata)
    (chat_request userId role content metadata) (fun d => d).
Proof. one_round_trip. Qed.

(** What [lockUniversity] exchanges with an arbitrary client. *)
Lemma lockUniversity_run {S} (c : Client S) (s : S) userId universityId :
  let q1 := locked_insert userId universityId in
  let q2 := profiles_select userId in
  let q3 := profiles_update userId [Profile.set_current_stage committed] in
  let r1 := fst (c q1 s) in
  let s1 := snd (c q1 s) in
  let r2 := fst (c q2 s1) in
  let s2 := snd (c q2 s1) in
  let r3 := fst (c q3 s2) in
  let s3 := snd (c q3 s2) in
  let x1 := mkExchange q1 (error r1) in
  let x2 := mkExchange q2 (error r2) in
  let x3 := mkExchange q3 (error r3) in
  run c (Api.lockUniversity userId universityId) s =
  match error r1 with
  | Some e => mkRun (Rejected (DbError e)) s1 [x1]
  | None =>
    match error r2 with
    | Some e => mkRun (Rejected (DbError e)) s2 [x1; x2]
    | None =>
      match data r2 with
      | Some p =>
        if negb (UserStage_eqb (Profile.current_stage p) committed)
           && negb (UserStage_eqb (Profile.current_stage p) applying)
        then match error r3 with
             | Some e => mkRun (Rejected (DbError e)) s3 [x1; x2; x3]
             | None => mkRun (Fulfilled tt) s3 [x1; x2; x3]
             end
        else mkRun (Fulfilled tt) s2 [x1; x2]
      | None => mkRun (Fulfilled tt) s2 [x1; x2]
      end
    end
  end.
Proof.
  cbv zeta. unfold Api.lockUniversity. simpl.
  destruct (error (fst (c (locked_insert userId universityId) s))); [reflexivity|].
  simpl.
  destruct (error (fst (c (profiles_select userId) _))); [reflexivity|].
  simpl.
  destruct (data (fst (c (profiles_select userId) _))) as [p|]; [|reflexivity].
  destruct (negb (UserStage_eqb (Profile.current_stage p) committed)
            && negb (UserStage_eqb (Profile.current_stage p) applying)); [|reflexivity].
  simpl.
  destruct (error (fst (c (profiles_update userId _) _))); reflexivity.
Qed.

(** C7, as the code has it: every data-access function other than
    [lockUniversity] sends exactly one request, throws exactly the error
    that request reports, and otherwise returns its data unchanged (the
    rows, the empty list when [data] is not an array, the row or [null], or
    nothing), with no retry and no fallback.  [lockUniversity] sends its
    insert, then reads the profile, then updates the stage unless the
    profile is missing or its stage is [committed] or [applying]; it throws
    the first error any of these reports. *)
Theorem C7_data_access_round_trips :
  (forall userId,
     single_round_trip (Api.getProfile userId) (profiles_select userId) (fun d => d))
  /\ (forall userId updates,
        single_round_trip (Api.updateProfile userId updates)
          (profiles_update_returning userId updates) (fun d => d))
  /\ (forall userId onboardingData,
        single_round_trip (Api.completeOnboarding userId onboardingData)
          (profiles_update_returning userId
             (OnboardingData.spread onboardingData
              ++ [Profile.set_onboarding_completed true;
                  Profile.set_current_stage exploring])%list)
          (fun d => d))
  /\ (forall userId stage,
        single_round_trip (Api.updateUserStage userId stage)
          (profiles_update userId [Profile.set_current_stage stage]) (fun _ => tt))
  /\ (forall filters,
        single_round_trip (Api.getUniversities filters) (universities_request filters)
          Api.array_or_empty)
  /\ (forall id,
        single_round_trip (Api.getUniversity id) (universities_select_one id) (fun d => d))
  /\ (forall searchTerm,
        single_round_trip (Api.searchUniversities searchTerm)
          (universities_search searchTerm) Api.array_or_empty)
  /\ (forall userId,
        single_round_trip (Api.getShortlistedUniversities userId)
          (shortlisted_select userId) Api.array_or_empty)
  /\ (forall userId universityId category notes,
        single_round_trip (Api.addToShortlist userId universityId category notes)
          (shortlisted_insert userId universityId category (Js.or_null notes))
          (fun _ => tt))
  /\ (forall userId universityId,
        single_round_trip (Api.removeFromShortlist userId universityId)
          (shortlisted_delete userId universityId) (fun _ => tt))
  /\ (forall userId universityId category,
        single_round_trip (Api.updateShortlistCategory userId universityId category)
          (shortlisted_update userId universityId category) (fun _ => tt))
  /\ (forall userId,
        single_round_trip (Api.getLockedUniversities userId)
          (locked_select userId) Api.array_or_empty)
  /\ (forall userId universityId,
        single_round_trip (Api.unlockUniversity userId universityId)
          (locked_delete userId universityId) (fun _ => tt))
  /\ (forall userId,
        single_round_trip (Api.getTasks userId) (tasks_select userId) Api.array_or_empty)
  /\ (forall userId task,
        single_round_trip (Api.createTask userId task) (task_request userId task)
          (fun d => d))
  /\ (forall taskId updates,
        single_round_trip (Api.updateTask taskId updates)
          (tasks_update taskId updates) (fun _ => tt))
  /\ (forall taskId completed,
        single_round_trip (Api.toggleTaskCompletion taskId completed)
          (tasks_update taskId [Task.set_completed completed]) (fun _ => tt))
  /\ (forall taskId,
        single_round_trip (Api.deleteTask taskId) (tasks_delete taskId) (fun _ => tt))
  /\ (forall userId limit,
        single_round_trip (Api.getChatMessages userId limit)
          (chat_select userId (match limit with Some n => n | None => 50 end))
          Api.array_or_empty)
  /\ (forall userId role content metadata,
        single_round_trip (Api.createChatMessage userId role content metadata)
          (chat_request userId role content metadata) (fun d => d))
  /\ (forall userId universityId (S : Type) (c : Client S) (s : S),
        let r := run c (Api.lockUniversity userId universityId) s in
        (sent r = [locked_insert userId universityId]
         \/ sent r = [locked_insert userId universityId; profiles_select userId]
         \/ sent r = [locked_insert userId universityId; profiles_select userId;
                      profiles_update userId [Profile.set_current_stage committed]])
        /\ Forall (fun x => reported x = None) (removelast (log r))
        /\ (forall e, outcome r = Rejected e <->
                      exists x, e = DbError x
                                /\ reported (last (log r) (mkExchange (profiles_select userId) None))
                                   = Some x)).
Proof.
  repeat match goal with |- _ /\ _ => split end;
    try solve [one_round_trip].
  (* the remaining conjunct is lockUniversity *)
  intros userId universityId S c s r. subst r.
  rewrite lockUniversity_run. cbv zeta.
  destruct (error (fst (c (locked_insert userId universityId) s))) as [e1|] eqn:E1.
  { unfold sent; simpl. split; [auto|]. split; [constructor|].
    intros e; split.
    - intros H; inversion H; subst. eexists; split; reflexivity.
    - intros [x [-> Hx]]. simpl in Hx. inversion Hx. reflexivity. }
  destruct (error (fst (c (profiles_select userId) _))) as [e2|] eqn:E2.
  { unfold sent; simpl. split; [auto|]. split; [repeat constructor; simpl; assumption|].
    intros e; split.
    - intros H; inversion H; subst. eexists; split; reflexivity.
    - intros [x [-> Hx]]. simpl in Hx. inversion Hx. reflexivity. }
  assert (Hquiet :
    forall st : S,
      (sent (mkRun (Fulfilled tt) st
               [mkExchange (locked_insert userId universityId) None;
                mkExchange (profiles_select userId) None])
       = [locked_insert userId universityId; profiles_select userId])
      /\ Forall (fun x => reported x = None)
           (removelast [mkExchange (locked_insert userId universityId) None;
                        mkExchange (profiles_select userId) None])
      /\ (forall e, @Fulfilled unit tt = Rejected e <->
            exists x, e = DbError x /\ @None PostgrestError = Some x)).
  { intros st. split; [reflexivity|]. split; [repeat constructor|].
    intros e; split; [discriminate|]. intros [x [_ Hx]]; discriminate. }
  destruct (data (fst (c (profiles_select userId) _))) as [p|].
  2:{ destruct (Hquiet (snd (c (profiles_select userId)
                               (snd (c (locked_insert userId universityId) s)))))
        as [Ha [Hb Hc]].
      split; [right; left; exact Ha|]. split; [exact Hb|]. exact Hc. }
  destruct (negb (UserStage_eqb (Profile.current_stage p) committed)
            && negb (UserStage_eqb (Profile.current_stage p) applying)).
  2:{ destruct (Hquiet (snd (c (profiles_select userId)
                               (snd (c (locked_insert userId universityId) s)))))
        as [Ha [Hb Hc]].
      split; [right; left; exact Ha|]. split; [exact Hb|]. exact Hc. }
  destruct (error (fst (c (profiles_update userId _) _))) as [e3|] eqn:E3.
  - unfold sent; simpl. split; [auto|]. split; [repeat constructor|].
    intros e; split.
    + intros H; inversion H; subst. eexists; split; reflexivity.
    + intros [x [-> Hx]]. simpl in Hx. inversion Hx. reflexivity.
  - unfold sent; simpl. split; [auto|]. split; [repeat constructor|].
    intros e; split; [discriminate|].
    intros [x [_ Hx]]. simpl in Hx. discriminate.
Qed.

(** C7 as stated fails for [lockUniversity]: locking university [a] for
    the sample user takes three table operations, so no single request
    accounts for the call. *)
Lemma C7_lockUniversity_is_not_single :
  sent (run Postgres.supabase (Api.lockUniversity "u1" "a") (Sample.world exploring []))
  = [ locked_insert "u1" "a"; profiles_select "u1";
      profiles_update "u1" [Profile.set_current_stage committed] ]
  /\ ~ exists q result, single_round_trip (Api.lockUniversity "u1" "a") q result.
Proof.
  split; [vm_compute; reflexivity|].
  intros [q [result H]].
  specialize (H _ Postgres.supabase (Sample.world exploring [])).
  apply (f_equal (fun r => List.length (log r))) in H.
  vm_compute in H. discriminate.
Qed.

End DataAccess.

(* ================================================================== *)
(** * Strings                                                          *)
(* ================================================================== *)

Section Strings.

Lemma append_assoc (a b c : string) : (a ++ b) ++ c = a ++ b ++ c.
Proof. induction a as [|x a IH]; simpl; [reflexivity | now rewrite IH]. Qed.

Lemma append_nil_r (a : string) : a ++ "" = a.
Proof. induction a as [|x a IH]; simpl; [reflexivity | now rewrite IH]. Qed.

Lemma prefix_spec (t s : string) :
  String.prefix t s = true <-> exists post, s = t ++ post.
Proof.
  revert s. induction t as [|x t IH]; intros s.
  - destruct s; simpl; split; try reflexivity; intros _; eexists; reflexivity.
  - destruct s as [|y s]; simpl.
    + split; [discriminate | intros [post H]; discriminate].
    + destruct (ascii_dec x y) as [->|Hxy].
      * rewrite IH. split; intros [post H]; exists post; congruence.
      * split; [discriminate|]. intros [post H]. congruence.
Qed.

Lemma includes_nil (t : string) : Js.includes "" t = String.prefix t "".
Proof. cbn [Js.includes]. destruct (String.prefix t ""); reflexivity. Qed.

Lemma includes_cons (x : ascii) (s t : string) :
  Js.includes (String x s) t = String.prefix t (String x s) || Js.includes s t.
Proof. cbn [Js.includes]. destruct (String.prefix t (String x s)); reflexivity. Qed.

Lemma includes_spec (s t : string) :
  Js.includes s t = true <-> exists pre post, s = pre ++ t ++ post.
Proof.
  induction s as [|x s IH].
  - rewrite includes_nil, prefix_spec. split.
    + intros [post E]. exists "", post. exact E.
    + intros [pre [post H]]. destruct pre; [|discriminate]. exists post. exact H.
  - rewrite includes_cons, orb_true_iff, IH, prefix_spec. split.
    + intros [[post E] | [pre [post E]]].
      * exists "", post. exact E.
      * exists (String x pre), post. simpl. now rewrite E.
    + intros [pre [post H]]. destruct pre as [|y pre].
      * left. exists post. exact H.
      * right. simpl in H. inversion H. eauto.
Qed.

Lemma toLowerCase_app (a b : string) :
  Js.toLowerCase (a ++ b) = Js.toLowerCase a ++ Js.toLowerCase b.
Proof. induction a as [|x a IH]; simpl; [reflexivity | now rewrite IH]. Qed.

Lemma toLowerCase_split (s x y : string) :
  Js.toLowerCase s = x ++ y ->
  exists a b, s = a ++ b /\ Js.toLowerCase a = x /\ Js.toLowerCase b = y.
Proof.
  revert s. induction x as [|c x IH]; intros s H.
  - exists "", s. auto.
  - destruct s as [|d s]; simpl in H; [discriminate|].
    inversion H as [[Hc Hx]]. destruct (IH _ Hx) as [a [b [-> [Ha Hb]]]].
    exists (String d a), b. simpl. rewrite Ha. auto.
Qed.

Lemma nat_of_lower_ascii (c : ascii) :
  nat_of_ascii (Js.lower_ascii c)
  = if ((65 <=? nat_of_ascii c) && (nat_of_ascii c <=? 90))%nat
    then nat_of_ascii c + 32 else nat_of_ascii c.
Proof.
  unfold Js.lower_ascii. cbv zeta.
  destruct ((65 <=? nat_of_ascii c) && (nat_of_ascii c <=? 90))%nat eqn:E; [|reflexivity].
  apply nat_ascii_embedding. apply andb_true_iff in E. rewrite !Nat.leb_le in E. lia.
Qed.

Ltac letter_cases :=
  repeat match goal with
         | |- context [(?a <=? ?b)%nat] => destruct (Nat.leb_spec a b)
         | H : context [(?a <=? ?b)%nat] |- _ => destruct (Nat.leb_spec a b)
         | |- context [(?a =? ?b)%nat] => destruct (Nat.eqb_spec a b)
         | H : context [(?a =? ?b)%nat] |- _ => destruct (Nat.eqb_spec a b)
         end.

(** Two characters fold to the same one exactly when they are the same
    letter. *)
Lemma same_letter_spec (a b : ascii) :
  Js.lower_ascii a = Js.lower_ascii b <-> same_letter a b = true.
Proof.
  unfold same_letter. cbv zeta. split.
  - intros H. apply (f_equal nat_of_ascii) in H. rewrite !nat_of_lower_ascii in H.
    letter_cases; cbn in *; try reflexivity; lia.
  - intros H.
    rewrite <- (ascii_nat_embedding (Js.lower_ascii a)),
            <- (ascii_nat_embedding (Js.lower_ascii b)).
    f_equal. rewrite !nat_of_lower_ascii.
    letter_cases; cbn in *; try discriminate; lia.
Qed.

Lemma same_text_spec (s t : string) :
  Js.toLowerCase s = Js.toLowerCase t <-> same_text s t = true.
Proof.
  revert t. induction s as [|a s IH]; intros [|b t]; cbn [Js.toLowerCase same_text];
    try (split; [discriminate | discriminate]); [tauto|].
  rewrite andb_true_iff, <- IH, <- same_letter_spec. split.
  - intros H. inversion H. auto.
  - intros [-> ->]. reflexivity.
Qed.

(** Lowering both sides and searching is containment up to case. *)
Lemma includes_lower_spec (s t : string) :
  Js.includes (Js.toLowerCase s) (Js.toLowerCase t) = true <-> contains_ci s t.
Proof.
  rewrite includes_spec. unfold contains_ci. split.
  - intros [pre [post H]].
    destruct (toLowerCase_split _ _ _ H) as [a [r [-> [Ha Hr]]]].
    destruct (toLowerCase_split _ _ _ Hr) as [m [b [-> [Hm Hb]]]].
    exists a, m, b. split; [reflexivity|]. now apply same_text_spec.
  - intros [pre [mid [post [-> H]]]]. apply same_text_spec in H.
    exists (Js.toLowerCase pre), (Js.toLowerCase post).
    now rewrite !toLowerCase_app, H.
Qed.

End Strings.

(* ================================================================== *)
(** * The universities page: the filtered list                         *)
(* ================================================================== *)

Section FilteredList.




End FilteredList.

(* ================================================================== *)
(** * The simulated counsellor                                         *)
(* ================================================================== *)

Section CounsellorFacts.

Lemma append_each_lines line xs response :
  Counsellor.append_each line xs response = response ++ lines line xs.
Proof.
  unfold Counsellor.append_each. revert response.
  induction xs as [|x xs IH]; intros response; simpl.
  - now rewrite append_nil_r.
  - rewrite IH. now rewrite append_assoc.
Qed.

Lemma recommendation_reply_layout profile universities :
  Counsellor.recommendation_reply profile universities =
  recommendation_layout profile (firstn 2 universities)
    (firstn 3 (skipn 2 universities)) (firstn 3 (skipn 5 universities)).
Proof.
  unfold Counsellor.recommendation_reply, recommendation_layout, Js.slice.
  cbv zeta. rewrite !append_each_lines.
  change (skipn 0 universities) with universities.
  change (2 - 0) with 2. change (5 - 2) with 3. change (8 - 5) with 3.
  rewrite !append_assoc. reflexivity.
Qed.

Lemma firstn_plus {A} (n m : nat) (l : list A) :
  firstn (n + m) l = (firstn n l ++ firstn m (skipn n l))%list.
Proof.
  revert l. induction n as [|n IH]; intros l; simpl; [reflexivity|].
  destruct l as [|x l]; simpl.
  - now rewrite firstn_nil.
  - now rewrite IH.
Qed.

Lemma skipn_plus {A} (n m : nat) (l : list A) :
  skipn (n + m) l = skipn m (skipn n l).
Proof.
  revert l. induction n as [|n IH]; intros l; simpl; [reflexivity|].
  destruct l as [|x l]; simpl; [now rewrite skipn_nil | apply IH].
Qed.

Lemma NoDup_app_apart {A} (a b : list A) (x : A) :
  NoDup (a ++ b) -> In x a -> ~ In x b.
Proof.
  induction a as [|y a IH]; simpl; intros Hnd Hin; [contradiction|].
  inversion Hnd as [|? ? Hy Hnd']; subst.
  destruct Hin as [->|Hin]; [|auto].
  intros Hb. apply Hy. apply in_or_app. now right.
Qed.

Lemma NoDup_skipn {A} (n : nat) (l : list A) : NoDup l -> NoDup (skipn n l).
Proof.
  revert l. induction n as [|n IH]; intros l H; simpl; [exact H|].
  destruct l; [constructor|]. inversion H; auto.
Qed.

Lemma In_firstn {A} (n : nat) (l : list A) (x : A) : In x (firstn n l) -> In x l.
Proof.
  intros H. rewrite <- (firstn_skipn n l). apply in_or_app. now left.
Qed.

Lemma In_skipn {A} (n : nat) (l : list A) (x : A) : In x (skipn n l) -> In x l.
Proof.
  intros H. rewrite <- (firstn_skipn n l). apply in_or_app. now right.
Qed.

(** The three slices are the first eight universities, cut 2/3/3. *)
Lemma slices_cover {A} (l : list A) :
  (firstn 2 l ++ firstn 3 (skipn 2 l) ++ firstn 3 (skipn 5 l))%list = firstn 8 l.
Proof.
  change 8 with (2 + 6). rewrite firstn_plus. f_equal.
  change 6 with (3 + 3). rewrite firstn_plus. f_equal.
  change 5 with (2 + 3). now rewrite skipn_plus.
Qed.

Lemma slices_apart {A} (l : list A) :
  NoDup l ->
  (forall x, In x (firstn 2 l) ->
             ~ In x (firstn 3 (skipn 2 l)) /\ ~ In x (firstn 3 (skipn 5 l)))
  /\ (forall x, In x (firstn 3 (skipn 2 l)) -> ~ In x (firstn 3 (skipn 5 l))).
Proof.
  intros Hnd. split.
  - intros x Hx.
    assert (Hout : ~ In x (skipn 2 l)).
    { apply (NoDup_app_apart (firstn 2 l)); [now rewrite firstn_skipn | exact Hx]. }
    split; intros H; apply Hout.
    + eapply In_firstn; eauto.
    + apply In_firstn in H. change 5 with (2 + 3) in H. rewrite skipn_plus in H.
      eapply In_skipn; eauto.
  - intros x Hx H. apply In_firstn in H.
    change 5 with (2 + 3) in H. rewrite skipn_plus in H.
    revert H. apply (NoDup_app_apart (firstn 3 (skipn 2 l))); [|exact Hx].
    rewrite firstn_skipn. now apply NoDup_skipn.
Qed.

(** The chain of keyword tests is a lookup in the table of groups. *)
Lemma generateAIResponse_run {S} (c : Client S) (s : S) userMessage userId :
  let a1 := c (profiles_select userId) s in
  let x1 := mkExchange (profiles_select userId) (error (fst a1)) in
  run c (Counsellor.generateAIResponse userMessage userId) s =
  match error (fst a1) with
  | Some e => mkRun (Rejected (DbError e)) (snd a1) [x1]
  | None =>
    match data (fst a1) with
    | None => mkRun (Fulfilled Counsellor.trouble_reply) (snd a1) [x1]
    | Some profile =>
        after [x1]
          (run c (reply_for profile (Counsellor.first_matching_group userMessage))
               (snd a1))
    end
  end.
Proof.
  cbv zeta. unfold Counsellor.generateAIResponse.
  rewrite run_bind, (getProfile_round_trip userId _ c s). cbn [outcome final log].
  destruct (error (fst (c (profiles_select userId) s))); [reflexivity|].
  destruct (data (fst (c (profiles_select userId) s))) as [profile|];
    [|reflexivity].
  f_equal. f_equal.
  unfold Counsellor.first_matching_group, Counsellor.keyword_table.
  cbn [find existsb snd fst option_map].
  repeat match goal with
  | |- context [Js.includes (Js.toLowerCase userMessage) ?k] =>
      destruct (Js.includes (Js.toLowerCase userMessage) k);
      cbn [orb find existsb snd fst option_map reply_for]; try reflexivity
  end.
Qed.

End CounsellorFacts.

Section CounsellorClaims.

(** C2, as the code has it.  The profile is read first: an error of that
    read is thrown, and a missing profile gets the fixed
    profile-access-trouble reply whatever the message says.  With a profile,
    the lowercased message is tried against the keyword groups in their fixed
    order and the reply comes from the family of the first group that
    matches, the default family when none does; a next-steps match has a
    reply of its own only for the stages exploring, shortlisting and
    committed and gets the default reply for the other stages.  Only the
    recommendation group sends a second request, and only its error can make
    the call throw. *)
Theorem C2_counsellor_keyword_groups {S} (c : Client S) (s : S) userMessage userId :
  let r := run c (Counsellor.generateAIResponse userMessage userId) s in
  let answer := fst (c (profiles_select userId) s) in
  match error answer, data answer with
  | Some e, _ => outcome r = Rejected (DbError e)
  | None, None => outcome r = Fulfilled Counsellor.trouble_reply
  | None, Some profile =>
      match outcome r with
      | Fulfilled reply =>
          Counsellor.in_family
            (Counsellor.family_answered profile
               (Counsellor.first_matching_group userMessage)) reply
      | Rejected _ =>
          Counsellor.first_matching_group userMessage
          = Some Counsellor.recommendation_group
      end
  end.
Proof.
  cbv zeta. rewrite generateAIResponse_run. cbv zeta.
  destruct (error (fst (c (profiles_select userId) s))); [reflexivity|].
  destruct (data (fst (c (profiles_select userId) s))) as [profile|];
    [|reflexivity].
  destruct (Counsellor.first_matching_group userMessage) as [[| | | |]|];
    cbn [reply_for Counsellor.family_answered Counsellor.family_of_group].
  - rewrite run_bind, (getUniversities_round_trip _ _ c). cbn [outcome final log after].
    destruct (error (fst (c (universities_request _) _))); [reflexivity|].
    destruct (List.length _ =? 0)%nat; cbn [run outcome after Counsellor.in_family].
    + now left.
    + right. eauto.
  - cbn. eauto.
  - cbn. eauto.
  - cbn. reflexivity.
  - destruct (Profile.current_stage profile); cbn; auto.
  - cbn. reflexivity.
Qed.

(** No family of canned replies contains the profile-access-trouble reply. *)
Lemma trouble_reply_in_no_family (f : Counsellor.Family) :
  ~ Counsellor.in_family f Counsellor.trouble_reply.
Proof.
  destruct f; cbn [Counsellor.in_family].
  - intros [H | [p [us H]]]; [discriminate H|].
    rewrite recommendation_reply_layout in H. discriminate H.
  - intros [p H]. unfold Counsellor.profile_reply in H. cbv zeta in H.
    destruct (Counsellor.strong_gpa p), (0 <? List.length (Profile.exams_taken p))%nat,
      (0 <? List.length (Profile.exams_planned p))%nat, (Counsellor.weak_gpa p);
      discriminate H.
  - intros [p H]. discriminate H.
  - intros H. discriminate H.
  - intros [H | [H | H]]; discriminate H.
  - intros H. discriminate H.
Qed.

(** C2 as stated fails when the signed-in user has no profile row: the
    message matches the budget group, and the reply is the
    profile-access-trouble text, which belongs to none of the six
    families. *)
Lemma C2_missing_profile_reply :
  Counsellor.first_matching_group "What is my budget?" = Some Counsellor.budget_group
  /\ outcome (run Postgres.supabase
                (Counsellor.generateAIResponse "What is my budget?" "u2")
                (Sample.world exploring []))
     = Fulfilled Counsellor.trouble_reply
  /\ forall f, ~ Counsellor.in_family f Counsellor.trouble_reply.
Proof.
  split; [vm_compute; reflexivity|].
  split; [vm_compute; reflexivity|].
  exact trouble_reply_in_no_family.
Qed.

Lemma lines_entries (line : University.t -> string) (remark : string)
  (unis : list University.t) :
  (forall uni, line uni = entry_of remark uni) ->
  lines line unis = fold_right append EmptyString (map (entry_of remark) unis).
Proof.
  intros H. unfold lines. induction unis as [|uni unis IH]; cbn [fold_right map];
    [reflexivity|]. now rewrite H, IH.
Qed.

Lemma dream_line_entry profile uni :
  Counsellor.dream_line profile uni
  = entry_of ("This is a reach school but your " ++ Counsellor.field_or_background profile
              ++ " makes you competitive.") uni.
Proof.
  unfold Counsellor.dream_line, entry_of, Counsellor.show_acceptance_rate.
  rewrite !append_assoc. reflexivity.
Qed.

Lemma target_line_entry uni :
  Counsellor.target_line uni
  = entry_of "Your profile aligns well with their requirements." uni.
Proof. reflexivity. Qed.

Lemma safe_line_entry uni :
  Counsellor.safe_line uni = entry_of "Strong likelihood of admission." uni.
Proof. reflexivity. Qed.

(** C9: on a recommendation request with a profile, the reply over a
    non-empty match list is an introduction followed by three sections.
    The section headed Dream has an entry naming each of the first two
    universities of the list, the section headed Target one for each of
    the next three, and the section headed Safe one for each of the three
    after those, all in list order.  The three groups are consecutive
    stretches of the list that do not overlap: together they are its first
    eight entries at most, each in one group, and when the list has no
    university twice no university is in two groups.  Over the empty match
    list the reply is the broaden-the-search text. *)
Theorem C9_recommendation_sections {S} (c : Client S) (s : S) userMessage userId
  (profile : Profile.t) (universities : list University.t) :
  Counsellor.first_matching_group userMessage = Some Counsellor.recommendation_group ->
  error (fst (c (profiles_select userId) s)) = None ->
  data (fst (c (profiles_select userId) s)) = Some profile ->
  error (fst (c (universities_request (Some (Counsellor.profile_filters profile)))
                (snd (c (profiles_select userId) s)))) = None ->
  data (fst (c (universities_request (Some (Counsellor.profile_filters profile)))
               (snd (c (profiles_select userId) s)))) = Some universities ->
  let dream := firstn 2 universities in
  let target := firstn 3 (skipn 2 universities) in
  let safe := firstn 3 (skipn 5 universities) in
  outcome (run c (Counsellor.generateAIResponse userMessage userId) s)
  = Fulfilled
      (match universities with
       | [] =>
           "I couldn't find universities matching your exact criteria. Let me broaden the search. Could you tell me more about what's most important to you - location, program, or budget?"
       | _ :: _ =>
           "Based on your profile (GPA: " ++ Counsellor.gpa_or_na profile ++ ", Budget: $"
           ++ Counsellor.number_or_zero (Profile.budget_min profile) ++ "-"
           ++ Counsellor.number_or_zero (Profile.budget_max profile)
           ++ "), here are my recommendations:" ++ Js.nl ++ Js.nl
           ++ section_of "🌟 **Dream Schools** (Reach):"
                ("This is a reach school but your "
                 ++ Counsellor.field_or_background profile ++ " makes you competitive.")
                dream
           ++ Js.nl
           ++ section_of "🎯 **Target Schools** (Match):"
                "Your profile aligns well with their requirements." target
           ++ Js.nl
           ++ section_of "✅ **Safe Schools** (Likely):"
                "Strong likelihood of admission." safe
           ++ Js.nl ++ "Would you like me to add any of these to your shortlist?"
       end)
  /\ (dream ++ target ++ safe)%list = firstn 8 universities
  /\ List.length dream = Nat.min 2 (List.length universities)
  /\ List.length target = Nat.min 3 (List.length universities - 2)
  /\ List.length safe = Nat.min 3 (List.length universities - 5)
  /\ (NoDup universities ->
      (forall uni, In uni dream -> ~ In uni target /\ ~ In uni safe)
      /\ (forall uni, In uni target -> ~ In uni safe)).
Proof.
  intros Hgroup He1 Hd1 He2 Hd2 dream target safe.
  split.
  - rewrite generateAIResponse_run. cbv zeta. rewrite He1, Hd1, Hgroup.
    cbn [reply_for]. rewrite run_bind, (getUniversities_round_trip _ _ c).
    cbn [outcome final log after]. rewrite He2, Hd2.
    cbn [Api.array_or_empty].
    destruct universities as [|u us] eqn:E; [reflexivity|].
    cbn [List.length Nat.eqb run outcome].
    rewrite recommendation_reply_layout. unfold recommendation_layout, section_of.
    rewrite (lines_entries _ _ _ (dream_line_entry profile)),
            (lines_entries _ _ _ target_line_entry),
            (lines_entries _ _ _ safe_line_entry).
    fold dream. fold target. fold safe.
    rewrite !append_assoc. reflexivity.
  - split; [apply slices_cover|].
    unfold dream, target, safe. rewrite !length_firstn, !length_skipn.
    split; [reflexivity|]. split; [reflexivity|]. split; [reflexivity|].
    apply slices_apart.
Qed.

(** C9 on the sample store.  Ann asks for suggestions; Beta and Alpha, in
    Germany, match her profile, in that order of ranking, and the reply
    names both under Dream and nobody under Target and Safe. *)
Lemma C9_recommendation_sections_witness :
  outcome (run Postgres.supabase (Counsellor.generateAIResponse "Any suggestions?" "u1")
             (Sample.world exploring []))
  = Fulfilled
      ("Based on your profile (GPA: 3.8, Budget: $1000-40000), here are my recommendations:"
       ++ Js.nl ++ Js.nl
       ++ "🌟 **Dream Schools** (Reach):" ++ Js.nl
       ++ "- **Beta** (Germany): Acceptance rate 12.5%. This is a reach school but your Physics makes you competitive."
       ++ Js.nl
       ++ "- **Alpha** (Germany): Acceptance rate 12.5%. This is a reach school but your Physics makes you competitive."
       ++ Js.nl ++ Js.nl
       ++ "🎯 **Target Schools** (Match):" ++ Js.nl ++ Js.nl
       ++ "✅ **Safe Schools** (Likely):" ++ Js.nl ++ Js.nl
       ++ "Would you like me to add any of these to your shortlist?").
Proof.
  destruct (C9_recommendation_sections Postgres.supabase (Sample.world exploring [])
              "Any suggestions?" "u1" (Sample.ann exploring) [Sample.beta; Sample.alpha]
              eq_refl eq_refl eq_refl eq_refl eq_refl) as [H _].
  rewrite H. reflexivity.
Defined.

End CounsellorClaims.

(* ================================================================== *)
(** * The hosted service: what single requests do                      *)
(* ================================================================== *)

Section Requests.

Import Postgres.

Lemma all_calls_bind {A B} (P : Request -> Prop) (p : Prog A) (f : A -> Prog B) :
  all_calls P p -> (forall a, all_calls P (f a)) -> all_calls P (bind p f).
Proof.
  induction p as [a | e | q k IH]; simpl; intros Hp Hf; auto.
  destruct Hp as [Hq Hk]. split; [exact Hq|]. intros r. apply IH; auto.
Qed.

Lemma all_calls_try_catch {A} (P : Request -> Prop) (p : Prog A) (h : Exn -> Prog A) :
  all_calls P p -> (forall e, all_calls P (h e)) -> all_calls P (try_catch p h).
Proof.
  induction p as [a | e | q k IH]; simpl; intros Hp Hh; auto.
  destruct Hp as [Hq Hk]. split; [exact Hq|]. intros r. apply IH; auto.
Qed.

Lemma all_calls_settle {A} (P : Request -> Prop) (p : Prog A) :
  all_calls P p -> all_calls P (settle p).
Proof.
  intros H. unfold settle. apply all_calls_try_catch; [|simpl; auto].
  apply all_calls_bind; [exact H | simpl; auto].
Qed.

Lemma all_calls_weaken {A} (P Q : Request -> Prop) (p : Prog A) :
  (forall q, P q -> Q q) -> all_calls P p -> all_calls Q p.
Proof.
  intros HPQ. induction p as [a | e | q k IH]; simpl; auto.
  intros [Hq Hk]. split; auto.
Qed.

(** The requests a run sent are among those the body can send. *)
Lemma all_calls_sent {S A} (c : Client S) (P : Request -> Prop) (p : Prog A) (s : S) :
  all_calls P p -> Forall P (sent (run c p s)).
Proof.
  revert s. induction p as [a | e | q k IH]; intros s Hp; simpl;
    try (unfold sent; simpl; constructor).
  - destruct Hp as [Hq Hk]. exact Hq.
  - destruct Hp as [Hq Hk]. apply IH. apply Hk.
Qed.

(** A property of the service's state that every request of a class keeps
    is kept by every body that sends only such requests. *)
Lemma all_calls_invariant {A} (P : Request -> Prop) (I : World -> Prop) (p : Prog A) :
  (forall q w, P q -> I w -> I (snd (supabase q w))) ->
  all_calls P p -> forall w, I w -> I (final (run supabase p w)).
Proof.
  intros Hstep. induction p as [a | e | q k IH]; simpl; intros Hp w Hw; auto.
  destruct Hp as [Hq Hk]. apply IH; [apply Hk|]. now apply Hstep.
Qed.

Lemma supabase_no_faults q d t h :
  supabase q (mkWorld d t [] h) =
  (fst (exec q d t), mkWorld (snd (exec q d t)) (S t) [] (h ++ [q])%list).
Proof. unfold supabase. simpl. destruct (exec q d t); reflexivity. Qed.

(** A read leaves the tables alone and does not depend on the clock. *)
Lemma exec_read q d t :
  is_read q = true ->
  snd (exec q d t) = d /\ forall t', fst (exec q d t) = fst (exec q d t').
Proof.
  destruct q; try discriminate; intros _; simpl;
    try (split; [reflexivity | intros; reflexivity]);
    match goal with
    | |- context [maybeSingle ?l] => destruct (maybeSingle l)
    end; split; reflexivity || (intros; reflexivity).
Qed.

Lemma read_only_run {A} (p : Prog A) :
  all_calls (fun q => is_read q = true) p ->
  forall d t1 t2 h1 h2,
    outcome (run supabase p (mkWorld d t1 [] h1))
    = outcome (run supabase p (mkWorld d t2 [] h2))
    /\ db (final (run supabase p (mkWorld d t1 [] h1))) = d.
Proof.
  induction p as [a | e | q k IH]; simpl; intros Hp d t1 t2 h1 h2; auto.
  destruct Hp as [Hq Hk].
  rewrite !supabase_no_faults. cbn [fst snd].
  destruct (exec_read q d t1 Hq) as [Hd Hr].
  rewrite Hd. rewrite (Hr t2).
  destruct (exec_read q d t2 Hq) as [Hd2 _]. rewrite Hd2.
  apply IH. apply Hk.
Qed.

End Requests.

Section CounsellorDeterminism.

Lemma getProfile_reads userId :
  all_calls (fun q => is_read q = true) (Api.getProfile userId).
Proof.
  simpl. split; [reflexivity|]. intros r. destruct (error r); simpl; exact I.
Qed.

Lemma getUniversities_reads filters :
  all_calls (fun q => is_read q = true) (Api.getUniversities filters).
Proof.
  simpl. split; [reflexivity|]. intros r. destruct (error r); simpl; exact I.
Qed.

Lemma generateAIResponse_reads userMessage userId :
  all_calls (fun q => is_read q = true)
            (Counsellor.generateAIResponse userMessage userId).
Proof.
  unfold Counsellor.generateAIResponse.
  apply all_calls_bind; [apply getProfile_reads|].
  intros [profile|]; [|exact I].
  repeat match goal with
  | |- context [Js.includes (Js.toLowerCase userMessage) ?k] =>
      destruct (Js.includes (Js.toLowerCase userMessage) k); cbn [orb]
  end;
  try exact I;
  try (apply all_calls_bind; [apply getUniversities_reads|];
       intros us; destruct (List.length us =? 0)%nat; exact I);
  destruct (Profile.current_stage profile); exact I.
Qed.

(** C8: against fixed tables (and a transport that does not fail), the
    counsellor changes nothing in the tables, and a second evaluation on
    the same message and user, at any later time, settles exactly as the
    first did: with the same reply. *)
Theorem C8_counsellor_deterministic (d : Postgres.Db) (t1 t2 : nat)
  (h1 h2 : list Request) (userMessage userId : string) :
  let first := run Postgres.supabase (Counsellor.generateAIResponse userMessage userId)
                   (Postgres.mkWorld d t1 [] h1) in
  let second := run Postgres.supabase (Counsellor.generateAIResponse userMessage userId)
                    (Postgres.mkWorld (Postgres.db (final first)) t2 [] h2) in
  Postgres.db (final first) = d /\ outcome second = outcome first.
Proof.
  cbv zeta.
  destruct (read_only_run _ (generateAIResponse_reads userMessage userId) d t1 t2 h1 h2)
    as [Hout Hdb].
  rewrite Hdb. split; [reflexivity | symmetry; exact Hout].
Qed.

End CounsellorDeterminism.

(* ================================================================== *)
(** * The tables: constraints and what requests keep                   *)
(* ================================================================== *)

Ltac break_exec :=
  repeat first
    [ progress cbn [snd fst Postgres.reply Postgres.set_profiles Postgres.set_shortlisted Postgres.set_locked Postgres.set_tasks
                    Postgres.set_chat_messages Postgres.profiles Postgres.universities
                    Postgres.user_shortlisted_universities Postgres.user_locked_universities Postgres.tasks
                    Postgres.chat_messages data error]
    | match goal with
      | |- context [let (_, _) := ?x in _] => destruct x eqn:?
      | |- context [if ?b then _ else _] => destruct b eqn:?
      | |- context [match Postgres.maybeSingle ?l with _ => _ end] =>
          destruct (Postgres.maybeSingle l) as [? [?|]] eqn:?
      | |- context [match ?x with Some _ => _ | None => _ end] => is_var x; destruct x
      end ].

Section Tables.

Import Postgres.

Lemma shortlisted_key_false_not_in uid unid l :
  existsb (shortlisted_key uid unid) l = false ->
  ~ In (uid, unid) (map shortlist_key l).
Proof.
  induction l as [|s l IH]; simpl; [tauto|].
  rewrite orb_false_iff. intros [Hs Hl] [H|H]; [|now apply IH].
  unfold shortlist_key in H. inversion H; subst.
  unfold shortlisted_key in Hs. now rewrite !String.eqb_refl in Hs.
Qed.

Lemma NoDup_map_filter {A B} (key : A -> B) (f : A -> bool) (l : list A) :
  NoDup (map key l) -> NoDup (map key (filter f l)).
Proof.
  induction l as [|x l IH]; simpl; intros H; [constructor|].
  inversion H as [|? ? Hx Hl]; subst.
  destruct (f x); simpl; [|auto].
  constructor; [|auto].
  intros Hin. apply Hx. apply in_map_iff in Hin. destruct Hin as [y [Hy Hin]].
  apply filter_In in Hin. apply in_map_iff. exists y. tauto.
Qed.

Lemma exec_keeps_shortlist_unique q d t :
  shortlist_unique d -> shortlist_unique (snd (exec q d t)).
Proof.
  unfold shortlist_unique.
  intros H. destruct q; cbn [exec]; break_exec; try exact H.
  - (* insert *)
    rewrite map_app. apply NoDup_app; [exact H | repeat constructor; simpl; tauto |].
    intros a Ha [Hb|[]]. subst a.
    apply orb_false_iff in Heqb0. destruct Heqb0 as [Hk _].
    revert Ha. now apply shortlisted_key_false_not_in.
  - (* delete *)
    now apply NoDup_map_filter.
  - (* update *)
    rewrite map_map.
    erewrite map_ext; [exact H|].
    intros s. destruct (shortlisted_key userId universityId s); reflexivity.
Qed.

Lemma supabase_cases q w :
  (exists e, hd None (faults w) = Some e
             /\ supabase q w
                = (mkResponse None (Some e),
                   mkWorld (db w) (S (clock w)) (tl (faults w)) (received w ++ [q])%list))
  \/ (hd None (faults w) = None
      /\ supabase q w
         = (fst (exec q (db w) (clock w)),
            mkWorld (snd (exec q (db w) (clock w))) (S (clock w)) (tl (faults w))
              (received w ++ [q])%list)).
Proof.
  unfold supabase. destruct (hd None (faults w)) as [e|].
  - left. eauto.
  - right. split; [reflexivity|]. destruct (exec q (db w) (clock w)); reflexivity.
Qed.

(** The tables after a request: untouched by a transport fault, else as
    the database leaves them. *)
Lemma supabase_db q w :
  db (snd (supabase q w)) = db w
  \/ db (snd (supabase q w)) = snd (exec q (db w) (clock w)).
Proof.
  destruct (supabase_cases q w) as [[e [_ H]] | [_ H]]; rewrite H; simpl; auto.
Qed.

Lemma supabase_keeps_shortlist_unique q w :
  shortlist_unique (db w) -> shortlist_unique (db (snd (supabase q w))).
Proof.
  intros H. destruct (supabase_db q w) as [E|E]; rewrite E; [exact H|].
  now apply exec_keeps_shortlist_unique.
Qed.

Lemma all_calls_true {A} (p : Prog A) : all_calls (fun _ => True) p.
Proof. induction p; simpl; auto. Qed.

(** What every request keeps, every body keeps. *)
Lemma run_invariant {A} (I : World -> Prop) (p : Prog A) :
  (forall q w, I w -> I (snd (supabase q w))) ->
  forall w, I w -> I (final (run supabase p w)).
Proof.
  intros Hstep. apply (all_calls_invariant (fun _ => True)); [auto | apply all_calls_true].
Qed.

(** What every request keeps, every sequence of requests keeps. *)
Lemma serve_invariant (I : World -> Prop) :
  (forall q w, I w -> I (snd (supabase q w))) ->
  forall qs w, I w -> I (serve qs w).
Proof.
  intros Hstep qs. unfold serve.
  induction qs as [|q qs IH]; intros w Hw; cbn [fold_left]; [exact Hw|].
  apply IH, Hstep, Hw.
Qed.

Lemma perform_world {S A} (h : Handler (Auth.t * S) A) a s w :
  snd (App.perform h a s w) = final (run supabase (h (a, s)) w).
Proof.
  reflexivity.
Qed.

Lemma on_universities_world h app w :
  snd (App.on_universities h app w)
  = final (run supabase (h (App.auth app, App.universitiesPage app)) w).
Proof.
  unfold App.on_universities. rewrite <- perform_world.
  destruct (App.perform h (App.auth app) (App.universitiesPage app) w) as [[a st] w'].
  reflexivity.
Qed.

Lemma on_application_world h app w :
  snd (App.on_application h app w)
  = final (run supabase (h (App.auth app, App.applicationPage app)) w).
Proof.
  unfold App.on_application. rewrite <- perform_world.
  destruct (App.perform h (App.auth app) (App.applicationPage app) w) as [[a st] w'].
  reflexivity.
Qed.

(** What every request keeps, every event of a session keeps. *)
Lemma step_invariant (I : World -> Prop) :
  (forall q w, I w -> I (snd (supabase q w))) ->
  forall ev app w, I w -> I (snd (App.step ev app w)).
Proof.
  intros Hstep ev app w Hw.
  destruct ev; cbn [App.step];
    repeat match goal with
    | |- context [if ?b then _ else _] => destruct b
    end;
    try exact Hw;
    rewrite ?on_universities_world, ?on_application_world;
    try (apply run_invariant; assumption).
  (* onboarding *)
  match goal with
  | |- context [App.perform ?h ?a ?s ?w] =>
      pose proof (perform_world h a s w) as E;
      destruct (App.perform h a s w) as [[a' s'] w']
  end.
  cbn [snd] in *. rewrite E. apply run_invariant; assumption.
Qed.

Lemma steps_invariant (I : World -> Prop) :
  (forall q w, I w -> I (snd (supabase q w))) ->
  forall evs app w, I w -> I (snd (App.steps evs app w)).
Proof.
  intros Hstep evs. induction evs as [|ev evs IH]; intros app w Hw; [exact Hw|].
  cbn [App.steps].
  pose proof (step_invariant I Hstep ev app w Hw) as H1.
  destruct (App.step ev app w) as [app' w']. apply IH. exact H1.
Qed.

End Tables.


Section ShortlistClaims.

Import Postgres.

(** C6: with the uniqueness constraint of the migration, the shortlist
    holds at most one entry per user and university.  From any
    duplicate-free shortlist, the empty one included: [addToShortlist]
    leaves the shortlist duplicate-free, and for a pair that is already
    there it is rejected with an error and leaves the table as it was; and
    no body of requests, no sequence of requests in whatever order they
    reach the service (so no overlap of handlers either), and no sequence
    of session events leads to a shortlist with duplicates. *)
Theorem C6_shortlist_is_a_set (w : World) (userId universityId : string)
  (category : UniversityCategory) (notes : option string) :
  shortlist_unique (db w) ->
  let r := run supabase (Api.addToShortlist userId universityId category notes) w in
  shortlist_unique (db (final r))
  /\ (is_shortlisted (db w) userId universityId = true ->
      (exists e, outcome r = Rejected (DbError e))
      /\ user_shortlisted_universities (db (final r)) = user_shortlisted_universities (db w))
  /\ (forall (A : Type) (p : Prog A), shortlist_unique (db (final (run supabase p w))))
  /\ (forall requests, shortlist_unique (db (serve requests w)))
  /\ (forall evs app, shortlist_unique (db (snd (App.steps evs app w)))).
Proof.
  intros Hu r.
  assert (Hstep : forall q w0, shortlist_unique (db w0) ->
                               shortlist_unique (db (snd (supabase q w0))))
    by (intros q w0; apply supabase_keeps_shortlist_unique).
  split; [|split; [|split; [|split]]].
  - apply (run_invariant (fun w => shortlist_unique (db w))); assumption.
  - intros Hin.
    assert (E : r = _)
      by apply (addToShortlist_round_trip userId universityId category notes _ supabase w).
    clearbody r. subst r. cbn [outcome final].
    destruct (supabase_cases (shortlisted_insert userId universityId category
                                (Js.or_null notes)) w) as [[e [_ H]] | [_ H]];
      rewrite H; cbn [fst snd error db]; [eauto|].
    cbn [exec]. unfold is_shortlisted in Hin. rewrite Hin. cbn [orb].
    destruct (negb (has_profile (db w) userId) || negb (has_university (db w) universityId));
      cbn [fst snd reply error]; eauto.
  - intros A p. apply (run_invariant (fun w => shortlist_unique (db w))); assumption.
  - intros requests. apply (serve_invariant (fun w => shortlist_unique (db w))); assumption.
  - intros evs app. apply (steps_invariant (fun w => shortlist_unique (db w))); assumption.
Qed.

(** C6 on the sample store.  Alpha is on Ann's shortlist, and adding it
    again is rejected.  And from the empty shortlist: Ann opens the page
    and shortlists Alpha, and whatever requests follow, here a second and
    a third insert of the same pair, the shortlist holds Alpha once. *)
Lemma C6_shortlist_is_a_set_witness :
  let w := Postgres.mkWorld (Sample.db_with_alpha_shortlisted exploring) 0 [] [] in
  let added := App.steps [App.OpenUniversities; App.ClickAddToShortlist Sample.alpha dream]
                 (App.start (Sample.signed_in exploring)) (Sample.world exploring []) in
  let again := serve [shortlisted_insert "u1" "a" dream None;
                      shortlisted_insert "u1" "a" safe None] (snd added) in
  (exists e, outcome (run supabase (Api.addToShortlist "u1" "a" target None) w)
             = Rejected (DbError e))
  /\ shortlist_unique (db (snd added))
  /\ shortlist_unique (db again)
  /\ List.length (user_shortlisted_universities (db again)) = 1.
Proof.
  intros w added again.
  assert (Hu : shortlist_unique (db w)).
  { unfold shortlist_unique. cbn. constructor; [cbn; tauto | constructor]. }
  assert (Hempty : shortlist_unique (db (Sample.world exploring []))) by constructor.
  destruct (C6_shortlist_is_a_set w "u1" "a" target None Hu) as [_ [H1 _]].
  destruct (C6_shortlist_is_a_set (Sample.world exploring []) "u1" "a" target None Hempty)
    as [_ [_ [_ [_ H5]]]].
  pose proof (H5 [App.OpenUniversities; App.ClickAddToShortlist Sample.alpha dream]
                (App.start (Sample.signed_in exploring))) as Hadded.
  fold added in Hadded.
  destruct (C6_shortlist_is_a_set (snd added) "u1" "a" target None Hadded)
    as [_ [_ [_ [H4 _]]]].
  split; [exact (proj1 (H1 eq_refl))|]. split; [exact Hadded|].
  split; [apply H4 | vm_compute; reflexivity].
Defined.

End ShortlistClaims.

Section LockClaims.

Import Postgres.

Lemma supabase_ok q w :
  error (fst (supabase q w)) = None ->
  fst (supabase q w) = fst (exec q (db w) (clock w))
  /\ db (snd (supabase q w)) = snd (exec q (db w) (clock w)).
Proof.
  destruct (supabase_cases q w) as [[e [_ H]] | [_ H]]; rewrite H; cbn [fst snd db error].
  - discriminate.
  - auto.
Qed.

Lemma apply1_id a p : Profile.id (Profile.apply1 a p) = Profile.id p.
Proof. destruct a; reflexivity. Qed.

Lemma apply_id updates p : Profile.id (Profile.apply updates p) = Profile.id p.
Proof.
  unfold Profile.apply. revert p.
  induction updates as [|a updates IH]; intros p; simpl; [reflexivity|].
  now rewrite IH, apply1_id.
Qed.

Lemma filter_update_profiles (uid : string) updates now rows :
  filter (fun p => String.eqb (Profile.id p) uid) (update_profiles uid updates now rows)
  = map (fun p => Profile.touch now (Profile.apply updates p))
        (filter (fun p => String.eqb (Profile.id p) uid) rows).
Proof.
  unfold update_profiles. induction rows as [|p rows IH]; simpl; [reflexivity|].
  destruct (String.eqb (Profile.id p) uid) eqn:E; simpl.
  - rewrite apply_id, E. simpl. now rewrite IH.
  - rewrite E. exact IH.
Qed.

Lemma filter_update_profiles_other (uid uid' : string) updates now rows :
  uid' <> uid ->
  filter (fun p => String.eqb (Profile.id p) uid') (update_profiles uid updates now rows)
  = filter (fun p => String.eqb (Profile.id p) uid') rows.
Proof.
  intros Hne. unfold update_profiles. induction rows as [|p rows IH]; simpl; [reflexivity|].
  destruct (String.eqb_spec (Profile.id p) uid) as [E|E]; simpl.
  - rewrite apply_id.
    destruct (String.eqb_spec (Profile.id p) uid') as [E'|E']; [congruence | exact IH].
  - destruct (String.eqb (Profile.id p) uid'); [now rewrite IH | exact IH].
Qed.

(** The tables after a successful [locked_insert]. *)
Lemma exec_locked_insert (uid unid : string) d t :
  error (fst (exec (locked_insert uid unid) d t)) = None ->
  has_profile d uid = true
  /\ is_locked d uid unid = false
  /\ snd (exec (locked_insert uid unid) d t)
     = set_locked d (user_locked_universities d
                     ++ [LockedUniversity.mk (gen_random_uuid t) uid unid t None])%list.
Proof.
  cbn [exec]. unfold is_locked.
  destruct (has_profile d uid); cbn [negb orb]; [|discriminate].
  destruct (has_university d unid); cbn [negb]; [|discriminate].
  destruct (existsb (locked_key uid unid) (user_locked_universities d)); cbn [orb];
    [discriminate|].
  destruct (existsb _ (user_locked_universities d)); [discriminate|].
  auto.
Qed.

Lemma has_profile_filter d (uid : string) :
  has_profile d uid = true ->
  filter (fun p => String.eqb (Profile.id p) uid) (profiles d) <> [].
Proof.
  unfold has_profile. induction (profiles d) as [|p rows IH]; simpl; [discriminate|].
  destruct (String.eqb (Profile.id p) uid); [discriminate | exact IH].
Qed.

(** What a successful profile read returns when the user has a row. *)
Lemma exec_profiles_select (uid : string) d t :
  error (fst (exec (profiles_select uid) d t)) = None ->
  has_profile d uid = true ->
  exists p,
    filter (fun p => String.eqb (Profile.id p) uid) (profiles d) = [p]
    /\ data (fst (exec (profiles_select uid) d t)) = Some p.
Proof.
  intros Herr Hhas. apply has_profile_filter in Hhas. revert Herr.
  cbn [exec].
  destruct (filter (fun p => String.eqb (Profile.id p) uid) (profiles d))
    as [|p [|p' rest]]; cbn; [congruence | eauto | discriminate].
Qed.

Lemma exec_read_tables q d t : is_read q = true -> snd (exec q d t) = d.
Proof. intros H. now destruct (exec_read q d t H). Qed.

Lemma stage_after_update stage now p :
  Profile.current_stage
    (Profile.touch now (Profile.apply [Profile.set_current_stage stage] p)) = stage.
Proof. reflexivity. Qed.

Context (userId universityId : string).

Local Abbreviation q1 := (locked_insert userId universityId).
Local Abbreviation q2 := (profiles_select userId).
Local Abbreviation q3 := (profiles_update userId [Profile.set_current_stage committed]).

(** C3: when [lockUniversity] returns without throwing, the pair was not
    locked before and is locked now; the insert came first, then the read
    of the profile, and then, unless the stored stage was already
    [committed] or [applying], the update that sets it to [committed].
    In the two excepted cases no update is sent and the stage stays as it
    was. *)
Theorem C3_lock_then_commit (w : World) :
  let r := run supabase (Api.lockUniversity userId universityId) w in
  outcome r = Fulfilled tt ->
  is_locked (db w) userId universityId = false
  /\ is_locked (db (final r)) userId universityId = true
  /\ exists stage,
       stored_stage (db w) userId = Some stage
       /\ stored_stage (db (final r)) userId
          = Some (match stage with
                  | committed | applying => stage
                  | _ => committed
                  end)
       /\ sent r
          = locked_insert userId universityId :: profiles_select userId
            :: match stage with
               | committed | applying => []
               | _ => [profiles_update userId [Profile.set_current_stage committed]]
               end.
Proof.
  cbv zeta. rewrite lockUniversity_run. cbv zeta.
  destruct (error (fst (supabase q1 w))) eqn:E1; [discriminate|].
  destruct (supabase_ok q1 w E1) as [R1 D1].
  rewrite R1 in E1. destruct (exec_locked_insert _ _ _ _ E1) as [Hhas [Hfresh Hdb1]].
  rewrite Hdb1 in D1.
  set (w1 := snd (supabase q1 w)) in *.
  assert (Hhas1 : has_profile (db w1) userId = true) by (rewrite D1; exact Hhas).
  assert (Hprof1 : profiles (db w1) = profiles (db w)) by (rewrite D1; reflexivity).
  assert (Hlocked1 : is_locked (db w1) userId universityId = true).
  { rewrite D1. unfold is_locked. cbn [set_locked user_locked_universities].
    rewrite existsb_app. cbn [existsb]. unfold locked_key at 2.
    cbn [LockedUniversity.user_id LockedUniversity.university_id].
    rewrite !String.eqb_refl. cbn. now rewrite orb_true_r. }
  destruct (error (fst (supabase q2 w1))) eqn:E2; [discriminate|].
  destruct (supabase_ok q2 w1 E2) as [R2 D2].
  rewrite R2 in E2. destruct (exec_profiles_select _ _ _ E2 Hhas1) as [p [Hrow Hdata]].
  rewrite R2, Hdata.
  rewrite (exec_read_tables q2) in D2 by reflexivity.
  set (w2 := snd (supabase q2 w1)) in *.
  assert (Hstage0 : stored_stage (db w) userId = Some (Profile.current_stage p)).
  { unfold stored_stage. rewrite <- Hprof1, Hrow. reflexivity. }
  destruct (negb (UserStage_eqb (Profile.current_stage p) committed)
            && negb (UserStage_eqb (Profile.current_stage p) applying)) eqn:Econd.
  - destruct (error (fst (supabase q3 w2))) eqn:E3; [discriminate|].
    intros _. destruct (supabase_ok q3 w2 E3) as [R3 D3].
    cbn [final]. split; [exact Hfresh|]. split.
    + rewrite D3. cbn [exec forallb assign_in_range andb reply snd].
      unfold is_locked. cbn [set_profiles user_locked_universities].
      rewrite D2. exact Hlocked1.
    + exists (Profile.current_stage p). split; [exact Hstage0|]. split.
      * rewrite D3. cbn [exec forallb assign_in_range andb reply snd].
        unfold stored_stage. cbn [set_profiles profiles].
        rewrite filter_update_profiles, D2, Hrow. cbn [map].
        rewrite stage_after_update.
        destruct (Profile.current_stage p); try reflexivity; discriminate Econd.
      * unfold sent. cbn [log map request].
        destruct (Profile.current_stage p); try reflexivity; discriminate Econd.
  - intros _. cbn [final]. split; [exact Hfresh|]. split.
    + rewrite D2. exact Hlocked1.
    + exists (Profile.current_stage p). split; [exact Hstage0|]. split.
      * unfold stored_stage. rewrite D2, Hrow.
        destruct (Profile.current_stage p); try reflexivity; discriminate Econd.
      * unfold sent. cbn [log map request].
        destruct (Profile.current_stage p); try reflexivity; discriminate Econd.
Qed.

End LockClaims.

(** C3 on the sample store: Ann, exploring, locks Alpha and is committed. *)
Lemma C3_lock_then_commit_witness :
  let r := run Postgres.supabase (Api.lockUniversity "u1" "a")
               (Sample.world exploring []) in
  Postgres.is_locked (Postgres.db (final r)) "u1" "a" = true
  /\ Postgres.stored_stage (Postgres.db (final r)) "u1" = Some committed.
Proof.
  intros r.
  destruct (C3_lock_then_commit "u1" "a" (Sample.world exploring []) eq_refl)
    as [_ [H2 [stage [H3 [H4 _]]]]].
  split; [exact H2|].
  vm_compute in H3. inversion H3; subst stage. exact H4.
Defined.

(* ================================================================== *)
(** * What running a body keeps                                        *)
(* ================================================================== *)

Section Keeps.

Import Postgres.

Context (I : World -> Prop).

Lemma keeps_ret {A} (a : A) : keeps I (Ret a).
Proof. intros w Hw. exact Hw. Qed.

Lemma keeps_throw {A} (e : Exn) : keeps I (@Throw A e).
Proof. intros w Hw. exact Hw. Qed.

Lemma keeps_bind {A B} (p : Prog A) (f : A -> Prog B) :
  keeps I p -> (forall a, keeps I (f a)) -> keeps I (bind p f).
Proof.
  intros Hp Hf w Hw. rewrite run_bind.
  destruct (outcome (run supabase p w)) eqn:E; cbn [final after].
  - apply Hf. now apply Hp.
  - now apply Hp.
Qed.

Lemma keeps_try_catch {A} (p : Prog A) (h : Exn -> Prog A) :
  keeps I p -> (forall e, keeps I (h e)) -> keeps I (try_catch p h).
Proof.
  intros Hp Hh w Hw. rewrite run_try_catch.
  destruct (outcome (run supabase p w)) eqn:E; cbn [final after].
  - now apply Hp.
  - apply Hh. now apply Hp.
Qed.

Lemma keeps_settle {A} (p : Prog A) : keeps I p -> keeps I (settle p).
Proof. intros Hp w Hw. rewrite run_settle. cbn [final]. now apply Hp. Qed.

Lemma keeps_await (q : Request) :
  (forall w, I w -> I (snd (supabase q w))) -> keeps I (await q).
Proof. intros Hq w Hw. cbn. now apply Hq. Qed.

Lemma keeps_promise_all2 {A B} (p1 : Prog A) (p2 : Prog B) :
  keeps I p1 -> keeps I p2 -> keeps I (promise_all2 p1 p2).
Proof.
  intros H1 H2. unfold promise_all2.
  apply keeps_bind; [now apply keeps_settle|]. intros o1.
  apply keeps_bind; [now apply keeps_settle|]. intros o2.
  destruct o1, o2; (apply keeps_ret || apply keeps_throw).
Qed.

Lemma keeps_promise_all3 {A B C} (p1 : Prog A) (p2 : Prog B) (p3 : Prog C) :
  keeps I p1 -> keeps I p2 -> keeps I p3 -> keeps I (promise_all3 p1 p2 p3).
Proof.
  intros H1 H2 H3. unfold promise_all3.
  apply keeps_bind; [now apply keeps_settle|]. intros o1.
  apply keeps_bind; [now apply keeps_settle|]. intros o2.
  apply keeps_bind; [now apply keeps_settle|]. intros o3.
  destruct o1, o2, o3; (apply keeps_ret || apply keeps_throw).
Qed.

Lemma hkeeps_hret {U A} (a : A) : hkeeps I (@hret U A a).
Proof. intros u. apply keeps_ret. Qed.

Lemma hkeeps_modify {U} (f : U -> U) : hkeeps I (modify f).
Proof. intros u. apply keeps_ret. Qed.

Lemma hkeeps_lift {U A} (p : Prog A) : keeps I p -> hkeeps I (@lift U A p).
Proof.
  intros Hp u. unfold lift. apply keeps_bind; [now apply keeps_settle|].
  intros o. apply keeps_ret.
Qed.

Lemma keeps_settled {U A} (h : Handler U A) (u : U) :
  keeps I (h u) -> keeps I (settled h u).
Proof.
  intros H. unfold settled. apply keeps_bind; [now apply keeps_settle|].
  intros o. apply keeps_ret.
Qed.

Lemma hkeeps_hbind {U A B} (m : Handler U A) (f : A -> Handler U B) :
  hkeeps I m -> (forall a, hkeeps I (f a)) -> hkeeps I (hbind m f).
Proof.
  intros Hm Hf u. unfold hbind. apply keeps_bind; [apply keeps_settled, Hm|].
  intros [[a|e] u']; cbn [fst snd]; [apply keeps_settled, Hf | apply keeps_ret].
Qed.

Lemma hkeeps_htry {U A} (m : Handler U A) (h : Exn -> Handler U A) :
  hkeeps I m -> (forall e, hkeeps I (h e)) -> hkeeps I (htry m h).
Proof.
  intros Hm Hh u. unfold htry. apply keeps_bind; [apply keeps_settled, Hm|].
  intros [[a|e] u']; cbn [fst snd]; [apply keeps_ret | apply keeps_settled, Hh].
Qed.

Lemma hkeeps_hfinally {U A} (m : Handler U A) (fin : Handler U unit) :
  hkeeps I m -> hkeeps I fin -> hkeeps I (hfinally m fin).
Proof.
  intros Hm Hf u. unfold hfinally. apply keeps_bind; [apply keeps_settled, Hm|].
  intros r. apply keeps_bind; [apply keeps_settled, Hf|].
  intros [[a|e] u']; cbn [fst snd]; apply keeps_ret.
Qed.

Lemma hkeeps_hfor_each {U X} (xs : list X) (body : X -> Handler U unit) :
  (forall x, hkeeps I (body x)) -> hkeeps I (hfor_each xs body).
Proof.
  intros Hb. induction xs as [|x xs IH]; cbn [hfor_each].
  - apply hkeeps_hret.
  - apply hkeeps_hbind; [apply Hb | intros _; exact IH].
Qed.

(** A body of one request keeps what that request keeps. *)
Lemma keeps_round_trip {A} (p : Prog A) (q : Request) result :
  single_round_trip p q result ->
  (forall w, I w -> I (snd (supabase q w))) -> keeps I p.
Proof.
  intros Hp Hq w Hw. rewrite (Hp _ supabase w). cbn [final]. now apply Hq.
Qed.

End Keeps.

(* ================================================================== *)
(** * The stage                                                        *)
(* ================================================================== *)

Section Stages.

Import Postgres.

Lemma exec_profiles_frozen q d t :
  writes_profiles q = false -> profiles (snd (exec q d t)) = profiles d.
Proof.
  destruct q; try discriminate; intros _; cbn [exec]; break_exec; reflexivity.
Qed.

Lemma supabase_profiles_frozen q w :
  writes_profiles q = false -> profiles (db (snd (supabase q w))) = profiles (db w).
Proof.
  intros H. destruct (supabase_db q w) as [E|E]; rewrite E; [reflexivity|].
  now apply exec_profiles_frozen.
Qed.

Lemma stored_stage_profiles d d' uid :
  profiles d' = profiles d -> stored_stage d' uid = stored_stage d uid.
Proof. intros H. unfold stored_stage. now rewrite H. Qed.

Context (userId : string) (floor : UserStage).

Lemma frozen_keeps_stage q w :
  writes_profiles q = false ->
  stage_at_least userId floor w -> stage_at_least userId floor (snd (supabase q w)).
Proof.
  intros Hq Hw stage. rewrite (stored_stage_profiles (db w)); [apply Hw|].
  now apply supabase_profiles_frozen.
Qed.

(** The stage after an update of one user's row. *)
Lemma stored_stage_updated d uid updates now stage :
  stored_stage (set_profiles d (update_profiles uid updates now (profiles d))) userId
  = Some stage ->
  (uid = userId /\ exists p,
      stored_stage d userId = Some (Profile.current_stage p)
      /\ stage = Profile.current_stage (Profile.apply updates p))
  \/ (uid <> userId /\ stored_stage d userId = Some stage).
Proof.
  unfold stored_stage. cbn [set_profiles profiles].
  destruct (String.eqb_spec uid userId) as [->|Hne].
  - rewrite filter_update_profiles.
    destruct (filter (fun p => String.eqb (Profile.id p) userId) (profiles d))
      as [|p [|p' rest]]; cbn [map]; try discriminate.
    intros H. inversion H. left. split; [reflexivity|]. exists p. split; reflexivity.
  - rewrite filter_update_profiles_other by congruence.
    intros H. right. split; [exact Hne | exact H].
Qed.

(** Writing a stage at or after the floor keeps the floor. *)
Lemma stage_update_keeps uid stage w :
  stage_rank floor <= stage_rank stage ->
  stage_at_least userId floor w ->
  stage_at_least userId floor
    (snd (supabase (profiles_update uid [Profile.set_current_stage stage]) w)).
Proof.
  intros Hle Hw s'.
  destruct (supabase_db (profiles_update uid [Profile.set_current_stage stage]) w)
    as [E|E]; rewrite E; [apply Hw|].
  cbn [exec forallb assign_in_range andb reply snd].
  intros H. apply stored_stage_updated in H.
  destruct H as [[_ [p [_ ->]]] | [_ H]]; [exact Hle | now apply Hw].
Qed.

Lemma exec_profiles_select_data uid d t p :
  data (fst (exec (profiles_select uid) d t)) = Some p ->
  stored_stage d uid = Some (Profile.current_stage p).
Proof.
  cbn [exec]. unfold stored_stage.
  destruct (filter (fun p => String.eqb (Profile.id p) uid) (profiles d))
    as [|p0 [|p1 rest]]; cbn; try discriminate.
  intros H. now inversion H.
Qed.

(** [lockUniversity] never moves the stage of any user backward. *)
Lemma lockUniversity_keeps_stage uid universityId :
  keeps (stage_at_least userId floor) (Api.lockUniversity uid universityId).
Proof.
  intros w Hw. rewrite lockUniversity_run. cbv zeta.
  set (w1 := snd (supabase (locked_insert uid universityId) w)).
  assert (H1 : stage_at_least userId floor w1) by (now apply frozen_keeps_stage).
  set (w2 := snd (supabase (profiles_select uid) w1)).
  assert (H2 : stage_at_least userId floor w2) by (now apply frozen_keeps_stage).
  destruct (error (fst (supabase (locked_insert uid universityId) w)));
    [exact H1|].
  destruct (error (fst (supabase (profiles_select uid) w1))) eqn:E2; [exact H2|].
  destruct (data (fst (supabase (profiles_select uid) w1))) as [p|] eqn:Hp;
    [|exact H2].
  destruct (negb (UserStage_eqb (Profile.current_stage p) committed)
            && negb (UserStage_eqb (Profile.current_stage p) applying)) eqn:Econd;
    [|exact H2].
  assert (H3 : stage_at_least userId floor
                 (snd (supabase (profiles_update uid
                                   [Profile.set_current_stage committed]) w2))).
  { destruct (String.eqb_spec uid userId) as [->|Hne].
    - apply stage_update_keeps; [|exact H2].
      destruct (supabase_ok _ _ E2) as [R2 D2]. rewrite R2 in Hp.
      apply exec_profiles_select_data in Hp.
      pose proof (H1 _ Hp) as Hle.
      destruct (Profile.current_stage p); cbn in *; try lia; discriminate Econd.
    - intros s'.
      destruct (supabase_db (profiles_update uid [Profile.set_current_stage committed]) w2)
        as [E|E]; rewrite E; [apply H2|].
      cbn [exec forallb assign_in_range andb reply snd].
      intros H. apply stored_stage_updated in H.
      destruct H as [[Heq _] | [_ H]]; [contradiction | now apply H2]. }
  destruct (error (fst (supabase (profiles_update uid _) w2))); exact H3.
Qed.

End Stages.

(** Handlers and the profiles table. *)
Section HandlersAndProfiles.

Import Postgres.

(** A property of the service that is kept by the requests that write
    neither the profiles table nor the tables of the users' choices. *)
Context (I : World -> Prop).
Context (quiet_keeps :
  forall q w, writes_profiles q = false -> writes_choices q = false ->
              I w -> I (snd (supabase q w))).

Ltac frozen_leaf lemma :=
  eapply keeps_round_trip;
  [ apply lemma
  | intros; apply quiet_keeps; [reflexivity | reflexivity | assumption] ].

Ltac choice_leaf lemma H :=
  eapply keeps_round_trip; [apply lemma | intros; apply H; [reflexivity | assumption]].

Lemma getProfile_keeps uid : keeps I (Api.getProfile uid).
Proof. frozen_leaf getProfile_round_trip. Qed.

Lemma getUniversities_keeps filters : keeps I (Api.getUniversities filters).
Proof. frozen_leaf getUniversities_round_trip. Qed.

Lemma getShortlistedUniversities_keeps uid : keeps I (Api.getShortlistedUniversities uid).
Proof. frozen_leaf getShortlistedUniversities_round_trip. Qed.

Lemma getLockedUniversities_keeps uid : keeps I (Api.getLockedUniversities uid).
Proof. frozen_leaf getLockedUniversities_round_trip. Qed.

Lemma getTasks_keeps uid : keeps I (Api.getTasks uid).
Proof. frozen_leaf getTasks_round_trip. Qed.

Lemma addToShortlist_keeps uid unid category notes :
  choices_keep I -> keeps I (Api.addToShortlist uid unid category notes).
Proof. intros H. choice_leaf addToShortlist_round_trip H. Qed.

Lemma removeFromShortlist_keeps uid unid :
  choices_keep I -> keeps I (Api.removeFromShortlist uid unid).
Proof. intros H. choice_leaf removeFromShortlist_round_trip H. Qed.

Lemma unlockUniversity_keeps uid unid :
  choices_keep I -> keeps I (Api.unlockUniversity uid unid).
Proof. intros H. choice_leaf unlockUniversity_round_trip H. Qed.

Lemma createTask_keeps uid task : keeps I (Api.createTask uid task).
Proof. frozen_leaf createTask_round_trip. Qed.

Lemma toggleTaskCompletion_keeps taskId completed :
  keeps I (Api.toggleTaskCompletion taskId completed).
Proof. frozen_leaf toggleTaskCompletion_round_trip. Qed.

Lemma deleteTask_keeps taskId : keeps I (Api.deleteTask taskId).
Proof. frozen_leaf deleteTask_round_trip. Qed.

Lemma refreshProfile_keeps {S} : hkeeps I (@Auth.refreshProfile S).
Proof.
  intros u. unfold Auth.refreshProfile.
  destruct (Auth.user (fst u)); [|apply keeps_ret].
  apply keeps_bind; [apply keeps_settle, getProfile_keeps|].
  intros [p|e]; apply keeps_ret.
Qed.

Lemma universities_loadData_keeps ctx : hkeeps I (UniversitiesPage.loadData ctx).
Proof.
  unfold UniversitiesPage.loadData.
  destruct (Auth.user ctx); [|apply hkeeps_hret].
  apply hkeeps_hfinally; [|apply hkeeps_modify].
  apply hkeeps_htry; [|intros; apply hkeeps_hret].
  apply hkeeps_hbind.
  - apply hkeeps_lift, keeps_promise_all3;
      [apply getUniversities_keeps | apply getShortlistedUniversities_keeps
      | apply getLockedUniversities_keeps].
  - intros [[unis short] lock]. apply hkeeps_modify.
Qed.

Lemma handleRemoveFromShortlist_keeps ctx unid :
  choices_keep I ->
  hkeeps I (UniversitiesPage.handleRemoveFromShortlist ctx unid).
Proof.
  intros Hchoices. unfold UniversitiesPage.handleRemoveFromShortlist.
  destruct (Auth.user ctx); [|apply hkeeps_hret].
  apply hkeeps_htry; [|intros; apply hkeeps_hret].
  apply hkeeps_hbind; [apply hkeeps_lift, removeFromShortlist_keeps, Hchoices|].
  intros _. apply universities_loadData_keeps.
Qed.

Lemma handleUnlock_keeps ctx dialog :
  choices_keep I ->
  hkeeps I (UniversitiesPage.handleUnlock ctx dialog).
Proof.
  intros Hchoices. unfold UniversitiesPage.handleUnlock.
  destruct (Auth.user ctx); [|apply hkeeps_hret].
  destruct dialog; [|apply hkeeps_hret].
  apply hkeeps_htry; [|intros; apply hkeeps_hret].
  apply hkeeps_hbind; [apply hkeeps_lift, unlockUniversity_keeps, Hchoices|].
  intros _. apply universities_loadData_keeps.
Qed.

(** Adding to the shortlist keeps [I] when the stage update it may send
    does. *)
Lemma handleAddToShortlist_keeps ctx university category :
  choices_keep I ->
  (forall uid, Auth.user ctx = Some uid -> Auth.stage_is ctx exploring = true ->
               keeps I (Api.updateUserStage uid shortlisting)) ->
  hkeeps I (UniversitiesPage.handleAddToShortlist ctx university category).
Proof.
  intros Hchoices Hupdate. unfold UniversitiesPage.handleAddToShortlist.
  destruct (Auth.user ctx) as [uid|] eqn:Huser; [|apply hkeeps_hret].
  apply hkeeps_htry; [|intros; apply hkeeps_hret].
  apply hkeeps_hbind; [apply hkeeps_lift, addToShortlist_keeps, Hchoices|]. intros _.
  apply hkeeps_hbind; [apply universities_loadData_keeps|]. intros _.
  destruct (Auth.stage_is ctx exploring) eqn:Hstage; [|apply hkeeps_hret].
  apply hkeeps_hbind; [apply hkeeps_lift, Hupdate; auto|]. intros _.
  apply refreshProfile_keeps.
Qed.

(** Locking keeps [I] when [lockUniversity] does. *)
Lemma handleLock_keeps ctx unid :
  (forall uid, keeps I (Api.lockUniversity uid unid)) ->
  hkeeps I (UniversitiesPage.handleLock ctx unid).
Proof.
  intros Hlock. unfold UniversitiesPage.handleLock.
  destruct (Auth.user ctx) as [uid|]; [|apply hkeeps_hret].
  apply hkeeps_htry; [|intros; apply hkeeps_hret].
  apply hkeeps_hbind; [apply hkeeps_lift, Hlock|]. intros _.
  apply hkeeps_hbind; [apply universities_loadData_keeps|]. intros _.
  apply refreshProfile_keeps.
Qed.

Lemma generateDefaultTasks_keeps loadData uid locked :
  hkeeps I loadData ->
  hkeeps I (ApplicationPage.generateDefaultTasks loadData uid locked).
Proof.
  intros Hload. unfold ApplicationPage.generateDefaultTasks.
  apply hkeeps_htry; [|intros; apply hkeeps_hret].
  apply hkeeps_hbind; [|intros _; exact Hload].
  apply hkeeps_hfor_each. intros [[title description] priority].
  destruct locked as [|first rest].
  - apply hkeeps_lift, keeps_throw.
  - apply hkeeps_hbind; [apply hkeeps_lift, createTask_keeps|].
    intros _. apply hkeeps_hret.
Qed.

(** Loading the applications page keeps [I] when setting the stage to
    [applying] does. *)
Lemma application_loadData_keeps ctx fuel :
  (Auth.stage_is ctx committed = true ->
   forall uid, keeps I (Api.updateUserStage uid applying)) ->
  hkeeps I (ApplicationPage.loadData ctx fuel).
Proof.
  intros Hupdate. induction fuel as [|fuel IH]; cbn [ApplicationPage.loadData].
  - apply hkeeps_hret.
  - destruct (Auth.user ctx) as [uid|]; [|apply hkeeps_hret].
    apply hkeeps_hfinally; [|apply hkeeps_modify].
    apply hkeeps_htry; [|intros; apply hkeeps_hret].
    apply hkeeps_hbind.
    { apply hkeeps_lift, keeps_promise_all2;
        [apply getTasks_keeps | apply getLockedUniversities_keeps]. }
    intros [tasksList locked].
    apply hkeeps_hbind; [apply hkeeps_modify|]. intros _.
    apply hkeeps_hbind.
    { destruct ((0 <? List.length locked)%nat && Auth.stage_is ctx committed) eqn:Hcond;
        [|apply hkeeps_hret].
      apply andb_true_iff in Hcond. destruct Hcond as [_ Hcond].
      apply hkeeps_hbind; [apply hkeeps_lift, Hupdate, Hcond|]. intros _.
      apply refreshProfile_keeps. }
    intros _.
    destruct ((List.length tasksList =? 0)%nat && (0 <? List.length locked)%nat);
      [|apply hkeeps_hret].
    apply generateDefaultTasks_keeps. exact IH.
Qed.

Lemma handleCreateTask_keeps ctx fuel newTask :
  (Auth.stage_is ctx committed = true ->
   forall uid, keeps I (Api.updateUserStage uid applying)) ->
  hkeeps I (ApplicationPage.handleCreateTask ctx fuel newTask).
Proof.
  intros Hupdate. unfold ApplicationPage.handleCreateTask.
  destruct (Auth.user ctx) as [uid|]; [|apply hkeeps_hret].
  destruct (negb (Js.truthy_string (ApplicationPage.title newTask)));
    [apply hkeeps_hret|].
  apply hkeeps_htry; [|intros; apply hkeeps_hret].
  apply hkeeps_hbind; [apply hkeeps_lift, createTask_keeps|]. intros _.
  now apply application_loadData_keeps.
Qed.

Lemma handleToggleTask_keeps ctx fuel taskId completed_now :
  (Auth.stage_is ctx committed = true ->
   forall uid, keeps I (Api.updateUserStage uid applying)) ->
  hkeeps I (ApplicationPage.handleToggleTask ctx fuel taskId completed_now).
Proof.
  intros Hupdate. unfold ApplicationPage.handleToggleTask.
  apply hkeeps_htry; [|intros; apply hkeeps_hret].
  apply hkeeps_hbind; [apply hkeeps_lift, toggleTaskCompletion_keeps|]. intros _.
  now apply application_loadData_keeps.
Qed.

Lemma handleDeleteTask_keeps ctx fuel taskId :
  (Auth.stage_is ctx committed = true ->
   forall uid, keeps I (Api.updateUserStage uid applying)) ->
  hkeeps I (ApplicationPage.handleDeleteTask ctx fuel taskId).
Proof.
  intros Hupdate. unfold ApplicationPage.handleDeleteTask.
  apply hkeeps_htry; [|intros; apply hkeeps_hret].
  apply hkeeps_hbind; [apply hkeeps_lift, deleteTask_keeps|]. intros _.
  now apply application_loadData_keeps.
Qed.

Lemma handleSubmit_keeps ctx formData :
  (forall uid, keeps I (Api.completeOnboarding uid formData)) ->
  hkeeps I (OnboardingPage.handleSubmit ctx formData).
Proof.
  intros Hcomplete. unfold OnboardingPage.handleSubmit.
  destruct (Auth.user ctx) as [uid|]; [|apply hkeeps_hret].
  apply hkeeps_htry; [|intros; apply hkeeps_hret].
  apply hkeeps_hbind; [apply hkeeps_lift, Hcomplete|]. intros _.
  apply refreshProfile_keeps.
Qed.

End HandlersAndProfiles.

Section StageClaims.

Import Postgres.

Lemma stage_at_least_profiles userId floor w w' :
  profiles (db w') = profiles (db w) ->
  stage_at_least userId floor w -> stage_at_least userId floor w'.
Proof.
  intros H Hw stage. rewrite (stored_stage_profiles (db w)); [apply Hw | exact H].
Qed.

Lemma updateUserStage_keeps_stage userId floor uid stage :
  stage_rank floor <= stage_rank stage ->
  keeps (stage_at_least userId floor) (Api.updateUserStage uid stage).
Proof.
  intros Hle. eapply keeps_round_trip; [apply updateUserStage_round_trip|].
  intros w. now apply stage_update_keeps.
Qed.

Lemma stage_is_agrees ctx stage stored :
  context_agrees ctx stored -> Auth.stage_is ctx stage = true -> stored = stage.
Proof.
  unfold context_agrees, Auth.stage_is. intros Ha Hs.
  destruct (Auth.profile ctx) as [p|]; [|discriminate].
  rewrite <- (Ha p eq_refl).
  destruct (Profile.current_stage p), stage; try discriminate; reflexivity.
Qed.

Lemma apply_app updates1 updates2 p :
  Profile.apply (updates1 ++ updates2) p = Profile.apply updates2 (Profile.apply updates1 p).
Proof. unfold Profile.apply. apply fold_left_app. Qed.

(** Completing onboarding leaves the stage as it was or sets [exploring]. *)
Lemma completeOnboarding_stage userId before uid formData :
  keeps (fun w => forall stage, stored_stage (db w) userId = Some stage ->
                                stage = before \/ stage = exploring)
        (Api.completeOnboarding uid formData).
Proof.
  eapply keeps_round_trip; [apply completeOnboarding_round_trip|].
  intros w Hw stage.
  match goal with
  | |- context [supabase ?q w] => destruct (supabase_db q w) as [E|E]; rewrite E
  end; [apply Hw|].
  cbn [exec].
  destruct (forallb assign_in_range _); [|apply Hw].
  destruct (maybeSingle _) as [row [e|]]; cbn [snd reply]; [apply Hw|].
  intros H. apply stored_stage_updated in H.
  destruct H as [[_ [p [_ ->]]] | [_ H]]; [|now apply Hw].
  right. rewrite apply_app. reflexivity.
Qed.

(** Writing [shortlisting] leaves the stage at or after [before], or at
    [shortlisting]. *)
Lemma updateUserStage_shortlisting userId before uid :
  keeps (fun w => forall stage, stored_stage (db w) userId = Some stage ->
                                stage_rank before <= stage_rank stage
                                \/ stage = shortlisting)
        (Api.updateUserStage uid shortlisting).
Proof.
  eapply keeps_round_trip; [apply updateUserStage_round_trip|].
  intros w Hw stage.
  destruct (supabase_db (profiles_update uid [Profile.set_current_stage shortlisting]) w)
    as [E|E]; rewrite E; [apply Hw|].
  cbn [exec forallb assign_in_range andb reply snd].
  intros H. apply stored_stage_updated in H.
  destruct H as [[_ [p [_ ->]]] | [_ H]]; [now right | now apply Hw].
Qed.

(** C1, as the code has it, for an event handled to its end before the
    next.  Whatever the auth context holds, locking a university and
    loading the applications page (on opening it or after a change to the
    tasks) never leave the stored stage earlier in the order not_started,
    onboarding, exploring, shortlisting, committed, applying than it was,
    and neither does any other event of the universities page but one:
    adding to the shortlist writes [shortlisting] when the context's copy
    of the profile says [exploring].  That does not move the stage back
    when the copy is the stored stage; with a stale copy it can.
    Completing onboarding writes [exploring] whatever the stage was: after
    it the stage is the old one (when the write failed) or [exploring]. *)
Theorem C1_stage_moves (ev : App.Event) (app : App.t) (w : World)
  (userId : string) (before after : UserStage) :
  Auth.user (App.auth app) = Some userId ->
  stored_stage (db w) userId = Some before ->
  stored_stage (db (snd (App.step ev app w))) userId = Some after ->
  match ev with
  | App.SubmitOnboarding _ => after = before \/ after = exploring
  | App.ClickAddToShortlist _ _ =>
      (stage_rank before <= stage_rank after
       \/ (Auth.stage_is (App.auth app) exploring = true /\ after = shortlisting))
      /\ (context_agrees (App.auth app) before -> stage_rank before <= stage_rank after)
  | _ => stage_rank before <= stage_rank after
  end.
Proof.
  intros Huser Hbefore Hafter.
  assert (Hstart : stage_at_least userId before w).
  { intros stage H. rewrite Hbefore in H. inversion H. reflexivity. }
  assert (Hfrozen :
    forall q w, writes_profiles q = false -> writes_choices q = false ->
                stage_at_least userId before w ->
                stage_at_least userId before (snd (supabase q w))).
  { intros q w0 Hp _. now apply frozen_keeps_stage. }
  assert (Hchoices : choices_keep (stage_at_least userId before)).
  { intros q w0 Hc. apply frozen_keeps_stage. destruct q; try discriminate; reflexivity. }
  assert (Happlying : Auth.stage_is (App.auth app) committed = true -> forall uid,
            keeps (stage_at_least userId before) (Api.updateUserStage uid applying)).
  { intros _ uid. apply updateUserStage_keeps_stage. destruct before; cbn; lia. }
  destruct ev; cbn [App.step] in Hafter.
  - (* onboarding *)
    revert Hafter.
    match goal with
    | |- context [App.perform ?h ?a ?s ?w] =>
        pose proof (perform_world h a s w) as E;
        destruct (App.perform h a s w) as [[a' s'] w']
    end.
    cbn [snd] in *. rewrite E.
    apply (handleSubmit_keeps
             (fun w => forall stage, stored_stage (db w) userId = Some stage ->
                                     stage = before \/ stage = exploring)).
    + intros q w1 Hq _ H1 stage.
      rewrite (stored_stage_profiles (db w1)); [apply H1|].
      now apply supabase_profiles_frozen.
    + intros uid. apply completeOnboarding_stage.
    + intros stage H. rewrite Hbefore in H. inversion H. now left.
  - (* opening the universities page *)
    rewrite on_universities_world in Hafter. revert Hafter.
    apply (universities_loadData_keeps _ Hfrozen). exact Hstart.
  - (* adding to the shortlist *)
    destruct (_ && _) in Hafter.
    2:{ pose proof (Hstart _ Hafter). auto. }
    rewrite on_universities_world in Hafter. split.
    + destruct (Auth.stage_is (App.auth app) exploring) eqn:Hstage.
      * assert (H : stage_rank before <= stage_rank after \/ after = shortlisting);
          [|destruct H; auto].
        revert Hafter.
        apply (handleAddToShortlist_keeps
                 (fun w => forall stage, stored_stage (db w) userId = Some stage ->
                                         stage_rank before <= stage_rank stage
                                         \/ stage = shortlisting)).
        -- intros q w1 Hq _ H1 stage.
           rewrite (stored_stage_profiles (db w1)); [apply H1|].
           now apply supabase_profiles_frozen.
        -- intros q w1 Hq H1 stage.
           rewrite (stored_stage_profiles (db w1)); [apply H1|].
           apply supabase_profiles_frozen. destruct q; try discriminate; reflexivity.
        -- intros uid _ _. apply updateUserStage_shortlisting.
        -- intros stage H. left. now apply Hstart.
      * left. revert Hafter.
        apply (handleAddToShortlist_keeps _ Hfrozen); [exact Hchoices| |exact Hstart].
        intros uid _ H. congruence.
    + intros Hagree. revert Hafter.
      apply (handleAddToShortlist_keeps _ Hfrozen); [exact Hchoices| |exact Hstart].
      intros uid _ Hstage. apply updateUserStage_keeps_stage.
      rewrite (stage_is_agrees _ _ _ Hagree Hstage). cbn. lia.
  - (* removing from the shortlist *)
    destruct (_ && _) in Hafter.
    + rewrite on_universities_world in Hafter. revert Hafter.
      apply (handleRemoveFromShortlist_keeps _ Hfrozen); [exact Hchoices | exact Hstart].
    + apply Hstart. exact Hafter.
  - (* locking *)
    destruct (_ && _) in Hafter.
    + rewrite on_universities_world in Hafter. revert Hafter.
      apply (handleLock_keeps _ Hfrozen); [|exact Hstart].
      intros uid. apply lockUniversity_keeps_stage.
    + apply Hstart. exact Hafter.
  - (* unlocking *)
    destruct (_ && _) in Hafter.
    + rewrite on_universities_world in Hafter. revert Hafter.
      apply (handleUnlock_keeps _ Hfrozen); [exact Hchoices | exact Hstart].
    + apply Hstart. exact Hafter.
  - (* opening the applications page *)
    rewrite on_application_world in Hafter. revert Hafter.
    apply (application_loadData_keeps _ Hfrozen); [exact Happlying | exact Hstart].
  - rewrite on_application_world in Hafter. revert Hafter.
    apply (handleCreateTask_keeps _ Hfrozen); [exact Happlying | exact Hstart].
  - rewrite on_application_world in Hafter. revert Hafter.
    apply (handleToggleTask_keeps _ Hfrozen); [exact Happlying | exact Hstart].
  - rewrite on_application_world in Hafter. revert Hafter.
    apply (handleDeleteTask_keeps _ Hfrozen); [exact Happlying | exact Hstart].
Qed.

(** C1 on the sample store: Ann, exploring, opens the universities page
    and shortlists Alpha; the stage moves on to shortlisting.  Then she
    locks Alpha, with a context that knows nothing of a stage, and the
    stage moves on to committed. *)
Lemma C1_stage_moves_witness :
  let opened := App.step App.OpenUniversities (App.start (Sample.signed_in exploring))
                  (Sample.world exploring []) in
  let added := App.step (App.ClickAddToShortlist Sample.alpha dream)
                 (fst opened) (snd opened) in
  let blind := App.mk (Auth.mk (Some "u1") None) (App.universitiesPage (fst added))
                 (App.applicationPage (fst added)) in
  let locked := App.step (App.ClickLockChoice "a") blind (snd added) in
  stored_stage (db (snd opened)) "u1" = Some exploring
  /\ stored_stage (db (snd added)) "u1" = Some shortlisting
  /\ stage_rank exploring <= stage_rank shortlisting
  /\ stored_stage (db (snd locked)) "u1" = Some committed
  /\ stage_rank shortlisting <= stage_rank committed.
Proof.
  intros opened added blind locked.
  assert (H1 : stored_stage (db (snd opened)) "u1" = Some exploring)
    by (vm_compute; reflexivity).
  assert (H2 : stored_stage (db (snd added)) "u1" = Some shortlisting)
    by (vm_compute; reflexivity).
  assert (H3 : stored_stage (db (snd locked)) "u1" = Some committed)
    by (vm_compute; reflexivity).
  split; [exact H1|]. split; [exact H2|]. split.
  - refine (proj2 (C1_stage_moves (App.ClickAddToShortlist Sample.alpha dream)
                     (fst opened) (snd opened) "u1" exploring shortlisting _ H1 H2) _).
    + vm_compute. reflexivity.
    + intros p Hp. vm_compute in Hp. inversion Hp. reflexivity.
  - split; [exact H3|].
    exact (C1_stage_moves (App.ClickLockChoice "a") blind (snd added) "u1"
             shortlisting committed eq_refl H2 H3).
Defined.

(** C1 as stated fails in two places.  Completing onboarding: Ann is
    committed, submits the onboarding form again, and is back at
    exploring.  Adding to the shortlist: Ann, exploring, shortlists Alpha
    and locks it, and both times the refresh of the profile that ends the
    handler is lost in transport, so the stored stage is committed while
    the context still says exploring; she then shortlists Beta, and is
    back at shortlisting. *)
Lemma C1_stage_moves_back :
  (let w := Sample.world committed [] in
   let after := App.step (App.SubmitOnboarding Sample.form)
                  (App.start (Sample.signed_in committed)) w in
   stored_stage (db w) "u1" = Some committed
   /\ stored_stage (db (snd after)) "u1" = Some exploring
   /\ stage_rank exploring < stage_rank committed)
  /\ (let lost := Some Sample.network_error in
      let w := Sample.world exploring
                 (repeat None 8 ++ [lost] ++ repeat None 6 ++ [lost])%list in
      let locked := App.steps [App.OpenUniversities;
                               App.ClickAddToShortlist Sample.alpha dream;
                               App.ClickLockChoice "a"]
                      (App.start (Sample.signed_in exploring)) w in
      let after := App.step (App.ClickAddToShortlist Sample.beta target)
                     (fst locked) (snd locked) in
      stored_stage (db (snd locked)) "u1" = Some committed
      /\ Auth.stage_is (App.auth (fst locked)) exploring = true
      /\ stored_stage (db (snd after)) "u1" = Some shortlisting
      /\ stage_rank shortlisting < stage_rank committed).
Proof.
  split.
  - cbv zeta. split; [vm_compute; reflexivity|].
    split; [vm_compute; reflexivity|]. cbn. lia.
  - cbv zeta. split; [vm_compute; reflexivity|]. split; [vm_compute; reflexivity|].
    split; [vm_compute; reflexivity|]. cbn. lia.
Qed.

End StageClaims.

(* ================================================================== *)
(** * Running handlers: a program logic                                *)
(* ================================================================== *)

Section HandlerRuns.

Context {S : Type} (c : Client S).

Lemma run_settled {U A} (h : Handler U A) (u : U) (s : S) :
  run c (settled h u) s =
  mkRun (Fulfilled (fst (hrun c h u s))) (snd (hrun c h u s)) (log (run c (h u) s)).
Proof.
  unfold settled, hrun. rewrite run_bind, run_settle. cbn [outcome final log after run].
  unfold after. cbn [outcome final log fst snd]. now rewrite app_nil_r.
Qed.

Lemma hrun_hret {U A} (a : A) (u : U) (s : S) :
  hrun c (hret a) u s = (Fulfilled a, u, s).
Proof. reflexivity. Qed.

Lemma hrun_modify {U} (f : U -> U) (u : U) (s : S) :
  hrun c (modify f) u s = (Fulfilled tt, f u, s).
Proof. reflexivity. Qed.

Lemma hrun_lift {U A} (p : Prog A) (u : U) (s : S) :
  hrun c (lift p) u s = (outcome (run c p s), u, final (run c p s)).
Proof.
  unfold hrun, lift. rewrite run_bind, run_settle. reflexivity.
Qed.

Lemma hrun_hbind {U A B} (m : Handler U A) (f : A -> Handler U B) (u : U) (s : S) :
  hrun c (hbind m f) u s =
  match fst (fst (hrun c m u s)) with
  | Fulfilled a => hrun c (f a) (snd (fst (hrun c m u s))) (snd (hrun c m u s))
  | Rejected e => (Rejected e, snd (fst (hrun c m u s)), snd (hrun c m u s))
  end.
Proof.
  unfold hbind. unfold hrun at 1. rewrite run_bind, run_settled. cbn [outcome final log].
  destruct (fst (fst (hrun c m u s))) as [a|e]; [|reflexivity].
  cbn [after outcome final]. rewrite run_settled. reflexivity.
Qed.

Lemma hrun_htry {U A} (m : Handler U A) (h : Exn -> Handler U A) (u : U) (s : S) :
  hrun c (htry m h) u s =
  match fst (fst (hrun c m u s)) with
  | Fulfilled a => (Fulfilled a, snd (fst (hrun c m u s)), snd (hrun c m u s))
  | Rejected e => hrun c (h e) (snd (fst (hrun c m u s))) (snd (hrun c m u s))
  end.
Proof.
  unfold htry. unfold hrun at 1. rewrite run_bind, run_settled. cbn [outcome final log].
  destruct (fst (fst (hrun c m u s))) as [a|e]; [reflexivity|].
  cbn [after outcome final]. rewrite run_settled. reflexivity.
Qed.

Lemma hrun_hfinally {U A} (m : Handler U A) (fin : Handler U unit) (u : U) (s : S) :
  hrun c (hfinally m fin) u s =
  let r := hrun c m u s in
  let r2 := hrun c fin (snd (fst r)) (snd r) in
  (match fst (fst r2) with
   | Fulfilled _ => fst (fst r)
   | Rejected e => Rejected e
   end, snd (fst r2), snd r2).
Proof.
  unfold hfinally. unfold hrun at 1. rewrite run_bind, run_settled.
  cbn [outcome final log after]. rewrite run_bind, run_settled.
  cbn [outcome final log after fst snd].
  destruct (fst (fst (hrun c fin _ _))); reflexivity.
Qed.

End HandlerRuns.

Section HandlerLogic.

Import Postgres.

Lemma hhoare_conseq {U A} (P P' : U -> World -> Prop) (h : Handler U A)
  (Q Q' : Outcome A -> U -> World -> Prop) :
  hhoare P' h Q' ->
  (forall u w, P u w -> P' u w) ->
  (forall o u w, Q' o u w -> Q o u w) ->
  hhoare P h Q.
Proof. intros H HP HQ u w Hp. apply HQ, H, HP, Hp. Qed.

Lemma hhoare_hret {U A} (P : U -> World -> Prop) (a : A)
  (Q : Outcome A -> U -> World -> Prop) :
  (forall u w, P u w -> Q (Fulfilled a) u w) -> hhoare P (hret a) Q.
Proof. intros H u w Hp. rewrite hrun_hret. now apply H. Qed.

Lemma hhoare_modify {U} (P : U -> World -> Prop) (f : U -> U)
  (Q : Outcome unit -> U -> World -> Prop) :
  (forall u w, P u w -> Q (Fulfilled tt) (f u) w) -> hhoare P (modify f) Q.
Proof. intros H u w Hp. rewrite hrun_modify. now apply H. Qed.

Lemma hhoare_lift {U A} (P : U -> World -> Prop) (p : Prog A)
  (Q : Outcome A -> U -> World -> Prop) :
  (forall u w, P u w -> Q (outcome (run supabase p w)) u (final (run supabase p w))) ->
  hhoare P (lift p) Q.
Proof. intros H u w Hp. rewrite hrun_lift. cbn. now apply H. Qed.

Lemma hhoare_hbind {U A B} (P : U -> World -> Prop) (m : Handler U A)
  (f : A -> Handler U B) (R : Outcome A -> U -> World -> Prop)
  (Q : Outcome B -> U -> World -> Prop) :
  hhoare P m R ->
  (forall a, hhoare (R (Fulfilled a)) (f a) Q) ->
  (forall e u w, R (Rejected e) u w -> Q (Rejected e) u w) ->
  hhoare P (hbind m f) Q.
Proof.
  intros Hm Hf Hr u w Hp. rewrite hrun_hbind. specialize (Hm u w Hp).
  destruct (fst (fst (hrun supabase m u w))) as [a|e]; [now apply Hf | now apply Hr].
Qed.

Lemma hhoare_htry {U A} (P : U -> World -> Prop) (m : Handler U A)
  (h : Exn -> Handler U A) (R Q : Outcome A -> U -> World -> Prop) :
  hhoare P m R ->
  (forall a u w, R (Fulfilled a) u w -> Q (Fulfilled a) u w) ->
  (forall e, hhoare (R (Rejected e)) (h e) Q) ->
  hhoare P (htry m h) Q.
Proof.
  intros Hm Hok Hh u w Hp. rewrite hrun_htry. specialize (Hm u w Hp).
  destruct (fst (fst (hrun supabase m u w))) as [a|e]; [now apply Hok | now apply Hh].
Qed.

(** [finally] with a [setState]. *)
Lemma hhoare_hfinally_modify {U A} (P : U -> World -> Prop) (m : Handler U A)
  (f : U -> U) (R Q : Outcome A -> U -> World -> Prop) :
  hhoare P m R ->
  (forall o u w, R o u w -> Q o (f u) w) ->
  hhoare P (hfinally m (modify f)) Q.
Proof.
  intros Hm Hq u w Hp. rewrite hrun_hfinally. cbv zeta. rewrite hrun_modify.
  cbn [fst snd]. apply Hq, Hm, Hp.
Qed.

(** What a handler keeps, it keeps whatever the component state. *)
Lemma hkeeps_hhoare {U A} (I : World -> Prop) (h : Handler U A) :
  hkeeps I h -> hhoare (fun _ w => I w) h (fun _ _ w => I w).
Proof. intros H u w Hw. unfold hrun. cbn [snd]. now apply H. Qed.

End HandlerLogic.

(* ================================================================== *)
(** * The applications page                                            *)
(* ================================================================== *)

Section ApplicationsPage.

Import Postgres.

Lemma supabase_meta q w :
  faults (snd (supabase q w)) = tl (faults w)
  /\ received (snd (supabase q w)) = (received w ++ [q])%list
  /\ clock (snd (supabase q w)) = S (clock w).
Proof.
  destruct (supabase_cases q w) as [[e [_ H]] | [_ H]]; rewrite H; cbn; auto.
Qed.

Lemma supabase_fault q w e :
  hd None (faults w) = Some e ->
  error (fst (supabase q w)) = Some e /\ db (snd (supabase q w)) = db w.
Proof.
  intros H. unfold supabase. rewrite H. cbn. auto.
Qed.

Lemma supabase_no_fault q w :
  hd None (faults w) = None ->
  fst (supabase q w) = fst (exec q (db w) (clock w))
  /\ db (snd (supabase q w)) = snd (exec q (db w) (clock w)).
Proof.
  intros H. unfold supabase. rewrite H. destruct (exec q (db w) (clock w)). cbn. auto.
Qed.

Lemma supabase_read_db q w : is_read q = true -> db (snd (supabase q w)) = db w.
Proof.
  intros Hq. destruct (supabase_db q w) as [E|E]; rewrite E; [reflexivity|].
  now apply exec_read_tables.
Qed.

Lemma insert_by_length {A} (le : A -> A -> bool) x l :
  List.length (insert_by le x l) = S (List.length l).
Proof.
  induction l as [|y l IH]; cbn; [reflexivity|].
  destruct (le x y); cbn; [reflexivity | now rewrite IH].
Qed.

Lemma order_by_length {A} (le : A -> A -> bool) l :
  List.length (order_by le l) = List.length l.
Proof.
  unfold order_by. induction l as [|x l IH]; cbn; [reflexivity|].
  now rewrite insert_by_length, IH.
Qed.

Lemma filter_nonempty {A} (f : A -> bool) l :
  (0 <? List.length (filter f l))%nat = existsb f l.
Proof.
  induction l as [|x l IH]; cbn; [reflexivity|].
  destruct (f x); cbn; [reflexivity | exact IH].
Qed.

Lemma locked_rows_nonempty d uid :
  (0 <? List.length (locked_rows d uid))%nat
  = existsb (fun l => String.eqb (LockedUniversity.user_id l) uid)
            (user_locked_universities d).
Proof.
  unfold locked_rows. now rewrite length_map, order_by_length, filter_nonempty.
Qed.

Lemma tasks_rows_nonempty d uid :
  (0 <? List.length (tasks_rows d uid))%nat
  = existsb (fun k => String.eqb (Task.user_id k) uid) (tasks d).
Proof.
  unfold tasks_rows. now rewrite length_map, order_by_length, filter_nonempty.
Qed.

Context (userId : string).

Local Abbreviation q1 := (tasks_select userId).
Local Abbreviation q2 := (locked_select userId).
Local Abbreviation q3 := (profiles_update userId [Profile.set_current_stage applying]).

(** The two reads of the applications page's load. *)
Lemma application_reads w :
  let r := run supabase (promise_all2 (Api.getTasks userId)
                           (Api.getLockedUniversities userId)) w in
  db (final r) = db w
  /\ received (final r) = (received w ++ [q1; q2])%list
  /\ faults (final r) = tl (tl (faults w))
  /\ match outcome r with
     | Fulfilled (ts, ls) =>
         hd None (faults w) = None /\ hd None (tl (faults w)) = None
         /\ ts = tasks_rows (db w) userId /\ ls = locked_rows (db w) userId
     | Rejected _ => load_finds_locked userId w = false
     end.
Proof.
  cbv zeta. unfold promise_all2.
  rewrite run_bind, run_settle, (getTasks_round_trip userId _ supabase w).
  cbn [outcome final log after].
  rewrite run_bind, run_settle, (getLockedUniversities_round_trip userId _ supabase).
  cbn [outcome final log after].
  set (w1 := snd (supabase q1 w)).
  destruct (supabase_meta q1 w) as [F1 [R1 _]].
  destruct (supabase_meta q2 w1) as [F2 [R2 _]].
  assert (D1 : db w1 = db w) by (now apply supabase_read_db).
  assert (D2 : db (snd (supabase q2 w1)) = db w)
    by (rewrite supabase_read_db; [exact D1 | reflexivity]).
  fold w1 in F1, R1.
  assert (Hmeta : db (snd (supabase q2 w1)) = db w
                  /\ received (snd (supabase q2 w1)) = (received w ++ [q1; q2])%list
                  /\ faults (snd (supabase q2 w1)) = tl (tl (faults w))).
  { split; [exact D2|]. split.
    - rewrite R2, R1, <- app_assoc. reflexivity.
    - rewrite F2, F1. reflexivity. }
  destruct Hmeta as [M1 [M2 M3]].
  unfold load_finds_locked.
  destruct (hd None (faults w)) as [e1|] eqn:H1.
  { destruct (supabase_fault q1 w e1 H1) as [E1 _]. rewrite E1.
    destruct (error (fst (supabase q2 w1))); cbn [run outcome final]; auto. }
  destruct (supabase_no_fault q1 w H1) as [X1 _]. rewrite X1. cbn [exec fst reply error data].
  destruct (hd None (tl (faults w))) as [e2|] eqn:H2.
  { rewrite <- F1 in H2. destruct (supabase_fault q2 w1 e2 H2) as [E2 _]. rewrite E2.
    cbn [run outcome final]. auto. }
  rewrite <- F1 in H2. destruct (supabase_no_fault q2 w1 H2) as [X2 _]. rewrite X2.
  cbn [exec fst reply error data run outcome final Api.array_or_empty]. rewrite D1.
  repeat split; auto.
Qed.


Lemma hhoare_pure {U A} (fact : Prop) (P : U -> World -> Prop) (h : Handler U A)
  (Q : Outcome A -> U -> World -> Prop) :
  (fact -> hhoare P h Q) -> hhoare (fun u w => fact /\ P u w) h Q.
Proof. intros H u w [Hf Hp]. now apply H. Qed.

Lemma hhoare_any {U A} (P : U -> World -> Prop) (h : Handler U A) :
  hhoare P h (fun _ _ _ => True).
Proof. intros u w _. exact I. Qed.

(** A successful [createTask] leaves the user with a task on file. *)
Lemma createTask_adds task w :
  forall a, outcome (run supabase (Api.createTask userId task) w) = Fulfilled a ->
            has_tasks userId (final (run supabase (Api.createTask userId task) w)) = true.
Proof.
  intros a. rewrite (createTask_round_trip userId task _ supabase w). cbn [outcome final].
  unfold has_tasks.
  destruct (supabase_cases (task_request userId task) w) as [[e [_ H]] | [_ H]];
    rewrite H; cbn [fst snd error db]; [discriminate|].
  unfold task_request. cbn [exec].
  destruct (negb (has_profile (db w) userId) || negb _); cbn [fst snd reply error];
    [discriminate|].
  destruct (existsb _ (tasks (db w))); cbn [fst snd reply error]; [discriminate|].
  intros _. cbn [set_tasks tasks]. rewrite existsb_app. cbn [existsb Task.user_id].
  rewrite String.eqb_refl. cbn. now rewrite orb_true_r.
Qed.

(** When every round of a loop establishes [T] on success, a loop of at
    least one round that ran through has established [T]. *)
Lemma hfor_each_establishes {U X} (body : X -> Handler U unit) (T : World -> Prop)
  (xs : list X) :
  xs <> [] ->
  (forall x (P : U -> World -> Prop),
     hhoare P (body x) (fun o _ w => match o with
                                     | Fulfilled _ => T w
                                     | Rejected _ => True
                                     end)) ->
  forall P : U -> World -> Prop,
    hhoare P (hfor_each xs body)
      (fun o _ w => match o with
                    | Fulfilled _ => T w
                    | Rejected _ => True
                    end).
Proof.
  intros Hne Hbody. induction xs as [|x xs IH]; [contradiction|]. intros P.
  cbn [hfor_each]. destruct xs as [|y ys].
  - eapply hhoare_hbind; [apply Hbody | | intros e u w _; exact I].
    intros a. cbn [hfor_each]. apply hhoare_hret. intros u w H. exact H.
  - eapply hhoare_hbind; [apply (Hbody x P) | | intros e u w _; exact I].
    intros a. apply IH. discriminate.
Qed.

(** The body of the loop of [generateDefaultTasks]. *)
Lemma default_task_added {U} (locked : list LockedUniversity.t)
  (task : string * string * string) (P : U -> World -> Prop) :
  @hhoare U unit P
    (let '(title, description, priority) := task in
     match locked with
     | first :: _ =>
         lift (Api.createTask userId
                 (TaskInput.mk title (Some description)
                    (Some (LockedUniversity.university_id first)) None
                    (Some priority)))
         ~;; hret tt
     | [] =>
         lift (Throw (TypeError
           "Cannot read properties of undefined (reading 'university_id')"))
     end)
    (fun o _ w => match o with
                  | Fulfilled _ => has_tasks userId w = true
                  | Rejected _ => True
                  end).
Proof.
  destruct task as [[title description] priority]. destruct locked as [|first rest].
  - apply hhoare_lift. intros u w _. exact I.
  - eapply hhoare_hbind with
      (R := fun o _ w => match o with
                         | Fulfilled _ => has_tasks userId w = true
                         | Rejected _ => True
                         end).
    + apply hhoare_lift. intros u w _.
      destruct (outcome (run supabase _ w)) eqn:E; [|exact I].
      eapply createTask_adds. exact E.
    + intros a. apply hhoare_hret. intros u w H. exact H.
    + intros e u w _. exact I.
Qed.


(** The load, one level unfolded. *)
Lemma loadData_unfold ctx fuel :
  Auth.user ctx = Some userId ->
  ApplicationPage.loadData ctx (S fuel) =
  hfinally
    (htry
       (r <~ lift (promise_all2 (Api.getTasks userId)
                     (Api.getLockedUniversities userId)) ;;
        let '(tasksList, locked) := r in
        modify (fun v => (fst v, ApplicationPage.mkState tasksList locked
                                   (ApplicationPage.loading (snd v)))) ~;;
        stage_part userId ctx locked ~;;
        if (List.length tasksList =? 0)%nat && (0 <? List.length locked)%nat
        then ApplicationPage.generateDefaultTasks (ApplicationPage.loadData ctx fuel)
               userId locked
        else hret ApplicationPage.completed)
       (fun _ => hret ApplicationPage.completed))
    (modify (fun v => (fst v, ApplicationPage.mkState (ApplicationPage.tasks (snd v))
                                (ApplicationPage.lockedUniversities (snd v)) false))).
Proof. intros H. cbn [ApplicationPage.loadData]. rewrite H. reflexivity. Qed.

(** With a task on file the load does not generate tasks, so it comes
    back. *)
Lemma loadData_with_tasks_completes ctx fuel :
  Auth.user ctx = Some userId ->
  hhoare (fun _ w => has_tasks userId w = true)
    (ApplicationPage.loadData ctx (S fuel))
    (fun o _ _ => o = Fulfilled ApplicationPage.completed).
Proof.
  intros Huser. rewrite (loadData_unfold _ _ Huser).
  eapply hhoare_hfinally_modify; [|intros o u w H; exact H].
  eapply hhoare_htry with
    (R := fun o _ _ => match o with
                       | Fulfilled a => a = ApplicationPage.completed
                       | Rejected _ => True
                       end).
  - eapply hhoare_hbind with
      (R := fun o (_ : Auth.t * ApplicationPage.State) (_ : World) =>
              match o with
              | Fulfilled (ts, _) => (List.length ts =? 0)%nat = false
              | Rejected _ => True
              end).
    + apply hhoare_lift. intros u w Hw.
      destruct (application_reads w) as [_ [_ [_ H]]].
      destruct (outcome (run supabase _ w)) as [[ts ls]|e]; [|exact I].
      destruct H as [_ [_ [-> _]]].
      unfold has_tasks in Hw. rewrite <- tasks_rows_nonempty in Hw.
      destruct (tasks_rows (db w) userId); [discriminate Hw | reflexivity].
    + intros [ts ls].
      eapply hhoare_hbind with (R := fun _ _ _ => (List.length ts =? 0)%nat = false).
      * apply hhoare_modify. intros u w H. exact H.
      * intros a.
        eapply hhoare_hbind with (R := fun _ _ _ => (List.length ts =? 0)%nat = false).
        -- intros u w H. exact H.
        -- intros a'. intros u w H. rewrite H. cbn [andb]. rewrite hrun_hret. reflexivity.
        -- intros e u w _. exact I.
      * intros e u w _. exact I.
    + intros e u w _. exact I.
  - intros a u w H. now subst a.
  - intros e. apply hhoare_hret. reflexivity.
Qed.

(** The load comes back: two levels of its recursion are enough. *)
Lemma loadData_completes ctx fuel :
  Auth.user ctx = Some userId ->
  hhoare (fun _ _ => True)
    (ApplicationPage.loadData ctx (S (S fuel)))
    (fun o _ _ => o = Fulfilled ApplicationPage.completed).
Proof.
  intros Huser. rewrite (loadData_unfold _ _ Huser).
  eapply hhoare_hfinally_modify; [|intros o u w H; exact H].
  eapply hhoare_htry with
    (R := fun o _ _ => match o with
                       | Fulfilled a => a = ApplicationPage.completed
                       | Rejected _ => True
                       end).
  - eapply hhoare_hbind with (R := fun _ _ _ => True).
    + intros u w _. exact I.
    + intros [ts ls].
      eapply hhoare_hbind with (R := fun _ _ _ => True); [intros u w _; exact I | |
        intros e u w _; exact I].
      intros a.
      eapply hhoare_hbind with (R := fun _ _ _ => True); [intros u w _; exact I | |
        intros e u w _; exact I].
      intros a'.
      destruct ((List.length ts =? 0)%nat && (0 <? List.length ls)%nat);
        [|apply hhoare_hret; reflexivity].
      unfold ApplicationPage.generateDefaultTasks.
      eapply hhoare_htry with
        (R := fun o _ _ => match o with
                           | Fulfilled a => a = ApplicationPage.completed
                           | Rejected _ => True
                           end).
      * eapply hhoare_hbind.
        -- apply (hfor_each_establishes _ (fun w => has_tasks userId w = true));
             [discriminate|].
           intros task P. apply default_task_added.
        -- intros a''. eapply hhoare_conseq;
             [apply (loadData_with_tasks_completes ctx fuel Huser) | |].
           ++ intros u w H. exact H.
           ++ intros o u w ->. reflexivity.
        -- intros e u w _. exact I.
      * intros a'' u w H. exact H.
      * intros e. apply hhoare_hret. reflexivity.
    + intros e u w _. exact I.
  - intros a u w H. now subst a.
  - intros e. apply hhoare_hret. reflexivity.
Qed.


Lemma writes_profiles_stage_update q :
  writes_profiles q = false -> is_stage_update q = false.
Proof. destruct q; cbn; congruence. Qed.

Lemma no_stage_update_frozen before q w :
  writes_profiles q = false ->
  no_stage_update_since before w -> no_stage_update_since before (snd (supabase q w)).
Proof.
  intros Hq [new [Hr Hn]]. destruct (supabase_meta q w) as [_ [R _]].
  exists (new ++ [q])%list. split.
  - rewrite R, Hr, app_assoc. reflexivity.
  - apply Forall_app. split; [exact Hn|]. constructor; [|constructor].
    now apply writes_profiles_stage_update.
Qed.

(** Without a locked university found, the load sends its two reads and
    nothing else. *)
Lemma loadData_without_locked ctx fuel w0 :
  Auth.user ctx = Some userId ->
  load_finds_locked userId w0 = false ->
  hhoare (fun _ w => w = w0)
    (ApplicationPage.loadData ctx (S fuel))
    (fun _ _ w => received w = (received w0 ++ [q1; q2])%list).
Proof.
  intros Huser Hnone. rewrite (loadData_unfold _ _ Huser).
  eapply hhoare_hfinally_modify; [|intros o u w H; exact H].
  eapply hhoare_htry with
    (R := fun _ _ w => received w = (received w0 ++ [q1; q2])%list).
  - eapply hhoare_hbind with
      (R := fun o (_ : Auth.t * ApplicationPage.State) w =>
              received w = (received w0 ++ [q1; q2])%list
              /\ match o with
                 | Fulfilled (_, ls) => ls = []
                 | Rejected _ => True
                 end).
    + apply hhoare_lift. intros u w ->.
      destruct (application_reads w0) as [_ [Hr [_ H]]]. split; [exact Hr|].
      destruct (outcome (run supabase _ w0)) as [[ts ls]|e]; [|exact I].
      destruct H as [H1 [H2 [_ ->]]].
      unfold load_finds_locked in Hnone. rewrite H1, H2 in Hnone.
      rewrite <- locked_rows_nonempty in Hnone.
      destruct (locked_rows (db w0) userId); [reflexivity | discriminate Hnone].
    + intros [ts ls] u w [Hr ->].
      rewrite hrun_hbind, hrun_modify. cbn [fst snd].
      rewrite hrun_hbind. unfold stage_part. cbn [List.length Nat.ltb Nat.leb andb].
      rewrite hrun_hret. cbn [fst snd]. rewrite andb_false_r, hrun_hret. exact Hr.
    + intros e u w [Hr _]. exact Hr.
  - intros a u w H. exact H.
  - intros e. apply hhoare_hret. intros u w H. exact H.
Qed.

Lemma stored_stage_update_same d uid uid' now :
  stored_stage d uid = Some applying ->
  stored_stage (set_profiles d (update_profiles uid' [Profile.set_current_stage applying]
                                  now (profiles d))) uid = Some applying.
Proof.
  unfold stored_stage. cbn [set_profiles profiles].
  destruct (String.eqb_spec uid' uid) as [->|Hne].
  - rewrite filter_update_profiles.
    destruct (filter (fun p => String.eqb (Profile.id p) uid) (profiles d))
      as [|p [|p' rest]]; cbn [map]; try discriminate. reflexivity.
  - rewrite filter_update_profiles_other by congruence. auto.
Qed.

Lemma applying_since_frozen w0 q w :
  writes_profiles q = false ->
  applying_since userId w0 w -> applying_since userId w0 (snd (supabase q w)).
Proof.
  intros Hq [[rest Hr] Hs]. destruct (supabase_meta q w) as [_ [R _]]. split.
  - exists (rest ++ [q])%list. rewrite R, Hr, <- !app_assoc. reflexivity.
  - intros Hf stage Hstage.
    rewrite (stored_stage_profiles (db w)); [now apply (Hs Hf stage)|].
    now apply supabase_profiles_frozen.
Qed.

Lemma applying_since_update w0 uid' :
  keeps (applying_since userId w0) (Api.updateUserStage uid' applying).
Proof.
  eapply keeps_round_trip; [apply updateUserStage_round_trip|].
  intros w [[rest Hr] Hs].
  set (q := profiles_update uid' [Profile.set_current_stage applying]).
  destruct (supabase_meta q w) as [_ [R _]]. split.
  - exists (rest ++ [q])%list. rewrite R, Hr, <- !app_assoc. reflexivity.
  - intros Hf stage Hstage. specialize (Hs Hf stage Hstage).
    destruct (supabase_db q w) as [E|E]; rewrite E; [exact Hs|].
    unfold q. cbn [exec forallb assign_in_range andb reply snd].
    now apply stored_stage_update_same.
Qed.

(** With a locked university found and the context's stage [committed],
    the load sends the update of the stage as its third request, and the
    stage is [applying] from then on. *)
Lemma loadData_with_locked ctx fuel w0 :
  Auth.user ctx = Some userId ->
  load_finds_locked userId w0 = true ->
  Auth.stage_is ctx committed = true ->
  hhoare (fun _ w => w = w0)
    (ApplicationPage.loadData ctx (S fuel))
    (fun _ _ w => applying_since userId w0 w).
Proof.
  intros Huser Hfound Hstage. rewrite (loadData_unfold _ _ Huser).
  assert (Hkeep : forall A (h : Handler (Auth.t * ApplicationPage.State) A),
            hkeeps (applying_since userId w0) h ->
            hhoare (fun _ w => applying_since userId w0 w) h
                   (fun _ _ w => applying_since userId w0 w)).
  { intros A h Hh. now apply hkeeps_hhoare. }
  eapply hhoare_hfinally_modify; [|intros o u w H; exact H].
  eapply hhoare_htry with (R := fun _ _ w => applying_since userId w0 w).
  - eapply hhoare_hbind with
      (R := fun o (_ : Auth.t * ApplicationPage.State) w =>
              (db w = db w0
               /\ received w = (received w0 ++ [q1; q2])%list
               /\ faults w = tl (tl (faults w0)))
              /\ match o with
                 | Fulfilled (_, ls) => (0 <? List.length ls)%nat = true
                 | Rejected _ => False
                 end).
    + apply hhoare_lift. intros u w ->.
      destruct (application_reads w0) as [Hd [Hr [Hf H]]].
      split; [auto|].
      destruct (outcome (run supabase _ w0)) as [[ts ls]|e].
      * destruct H as [H1 [H2 [_ ->]]].
        unfold load_finds_locked in Hfound. rewrite H1, H2 in Hfound.
        now rewrite locked_rows_nonempty.
      * congruence.
    + intros [ts ls].
      eapply hhoare_hbind with
        (R := fun o (_ : Auth.t * ApplicationPage.State) w =>
                match o with
                | Fulfilled _ =>
                    (db w = db w0
                     /\ received w = (received w0 ++ [q1; q2])%list
                     /\ faults w = tl (tl (faults w0)))
                    /\ (0 <? List.length ls)%nat = true
                | Rejected _ => False
                end).
      * apply hhoare_modify. intros u w H. exact H.
      * intros a.
        eapply hhoare_hbind with (R := fun _ _ w => applying_since userId w0 w).
        -- intros u w [[Hd [Hr Hf]] Hls]. unfold stage_part. rewrite Hls, Hstage.
           cbn [andb].
           assert (Hpart :
             @hhoare (Auth.t * ApplicationPage.State) unit (fun _ w' => w' = w)
               (lift (Api.updateUserStage userId applying) ~;; Auth.refreshProfile)
               (fun _ _ w => applying_since userId w0 w));
             [|exact (Hpart u w eq_refl)].
           eapply hhoare_hbind with (R := fun _ _ w => applying_since userId w0 w);
             [| |intros e u' w' H; exact H].
           ++ apply hhoare_lift. intros u' w' ->.
              rewrite (updateUserStage_round_trip userId applying _ supabase w).
              cbn [final].
              destruct (supabase_meta q3 w) as [_ [R _]]. split.
              ** exists []. rewrite R, Hr, <- app_assoc. reflexivity.
              ** intros Hfault stage Hst. rewrite <- Hf in Hfault.
                 destruct (supabase_no_fault q3 w Hfault) as [_ D]. rewrite D.
                 cbn [exec forallb assign_in_range andb reply snd].
                 unfold stored_stage in *. cbn [set_profiles profiles].
                 rewrite filter_update_profiles. rewrite Hd.
                 destruct (filter (fun p => String.eqb (Profile.id p) userId)
                                  (profiles (db w0))) as [|p [|p' rest]];
                   cbn [map]; try discriminate. reflexivity.
           ++ intros a'. apply Hkeep. apply refreshProfile_keeps.
              intros q w' Hp _. now apply applying_since_frozen.
        -- intros a'.
           destruct ((List.length ts =? 0)%nat && (0 <? List.length ls)%nat);
             [|apply hhoare_hret; intros u w H; exact H].
           apply Hkeep. apply generateDefaultTasks_keeps.
           ++ intros q w' Hp _. now apply applying_since_frozen.
           ++ apply application_loadData_keeps.
              ** intros q w' Hp _. now apply applying_since_frozen.
              ** intros _ uid'. apply applying_since_update.
        -- intros e u w H. exact H.
      * intros e u w [].
    + intros e u w [_ []].
  - intros a u w H. exact H.
  - intros e. apply hhoare_hret. intros u w H. exact H.
Qed.


(** C5, as the code has it: the load of the applications page always
    comes back.  The stage it tests is the one in the copy of the profile
    that the page's auth context holds.  When the load finds at least one
    locked university (both of its reads succeed and the user has one on
    file) and that copy says [committed], the third request of the load is
    the update of the stage to [applying], and unless that update is lost
    in transport the stored stage is [applying] when the load is over;
    under any other combination no request of the load writes a stage.
    So when the context holds a copy whose stage is the stored one, the
    load updates the stage exactly when it finds a locked university and
    the user's stage is [committed]. *)
Theorem C5_applications_page_load (profile : option Profile.t)
  (u : Auth.t * ApplicationPage.State) (fuel : nat) (w : World) :
  let ctx := Auth.mk (Some userId) profile in
  let done := hrun supabase (ApplicationPage.loadData ctx (S (S fuel))) u w in
  fst (fst done) = Fulfilled ApplicationPage.completed
  /\ (if load_finds_locked userId w && Auth.stage_is ctx committed
      then applying_since userId w (snd done)
      else no_stage_update_since (received w) (snd done))
  /\ (forall stored,
        stored_stage (db w) userId = Some stored ->
        context_current ctx stored ->
        if load_finds_locked userId w && UserStage_eqb stored committed
        then applying_since userId w (snd done)
             /\ (hd None (tl (tl (faults w))) = None ->
                 stored_stage (db (snd done)) userId = Some applying)
        else no_stage_update_since (received w) (snd done)).
Proof.
  intros ctx done.
  assert (Hcode : if load_finds_locked userId w && Auth.stage_is ctx committed
                  then applying_since userId w (snd done)
                  else no_stage_update_since (received w) (snd done)).
  { subst done.
    destruct (load_finds_locked userId w) eqn:Hfound;
      destruct (Auth.stage_is ctx committed) eqn:Hstage; cbn [andb].
    + apply (loadData_with_locked ctx (S fuel) w eq_refl Hfound Hstage u w eq_refl).
    + unfold hrun. cbn [snd].
      apply (application_loadData_keeps (no_stage_update_since (received w))).
      * intros q w' Hp _. now apply no_stage_update_frozen.
      * rewrite Hstage. discriminate.
      * exists []. split; [now rewrite app_nil_r | constructor].
    + pose proof (loadData_without_locked ctx (S fuel) w eq_refl Hfound u w eq_refl) as H.
      cbn beta in H. exists [q1; q2]. split; [exact H|]. repeat constructor.
    + pose proof (loadData_without_locked ctx (S fuel) w eq_refl Hfound u w eq_refl) as H.
      cbn beta in H. exists [q1; q2]. split; [exact H|]. repeat constructor. }
  split; [|split].
  - apply (loadData_completes ctx fuel eq_refl u w I).
  - exact Hcode.
  - intros stored Hstored [p [Hp Hstage]].
    assert (E : Auth.stage_is ctx committed = UserStage_eqb stored committed).
    { unfold Auth.stage_is. subst ctx. cbn [Auth.profile] in *. now rewrite Hp, Hstage. }
    rewrite E in Hcode.
    destruct (load_finds_locked userId w && UserStage_eqb stored committed);
      [|exact Hcode].
    split; [exact Hcode|]. intros Hf. destruct Hcode as [_ H]. exact (H Hf stored Hstored).
Qed.

End ApplicationsPage.

(** C5 on the sample store: Ann is committed and the context knows it,
    and she has locked Alpha; opening the applications page moves her to
    applying. *)
Lemma C5_applications_page_load_witness :
  let d := Postgres.mkDb [Sample.ann committed] [Sample.alpha; Sample.beta; Sample.gamma]
             [ShortlistedUniversity.mk "s1" "u1" "a" dream None 0 None]
             [LockedUniversity.mk "l1" "u1" "a" 1 None] [] [] in
  let w := Postgres.mkWorld d 2 [] [] in
  let done := hrun Postgres.supabase
                (ApplicationPage.loadData (Sample.signed_in committed) 2)
                (Sample.signed_in committed, ApplicationPage.initial) w in
  Postgres.stored_stage (Postgres.db (snd done)) "u1" = Some applying.
Proof.
  intros d w done.
  destruct (C5_applications_page_load "u1" (Some (Sample.ann committed))
              (Sample.signed_in committed, ApplicationPage.initial) 0 w) as [_ [_ H]].
  specialize (H committed eq_refl (ex_intro _ (Sample.ann committed) (conj eq_refl eq_refl))).
  change (load_finds_locked "u1" w && UserStage_eqb committed committed) with true in H.
  cbv iota in H. exact (proj2 H eq_refl).
Defined.

(** C5 on the sample store, run through the session: the load comes back
    with the default tasks created. *)
Lemma applications_page_sample :
  let d := Postgres.mkDb [Sample.ann committed] [Sample.alpha; Sample.beta; Sample.gamma]
             [ShortlistedUniversity.mk "s1" "u1" "a" dream None 0 None]
             [LockedUniversity.mk "l1" "u1" "a" 1 None] [] [] in
  let after := App.step App.OpenApplication (App.start (Sample.signed_in committed))
                 (Postgres.mkWorld d 2 [] []) in
  Postgres.stored_stage (Postgres.db (snd after)) "u1" = Some applying
  /\ List.length (Postgres.tasks (Postgres.db (snd after))) = 5.
Proof. vm_compute. split; reflexivity. Qed.

(** C5 as stated fails when the context's copy of the profile is not the
    stored row.  Ann is committed and has locked Alpha, but the context
    holds no profile yet: no request is lost, the load finds the locked
    university, and the stage stays committed.  And with a stored stage of
    exploring and a stale copy that says committed, the load moves a user
    who is not committed to applying. *)
Lemma C5_stale_context :
  let locked := [LockedUniversity.mk "l1" "u1" "a" 1 None] in
  let shortlisted := [ShortlistedUniversity.mk "s1" "u1" "a" dream None 0 None] in
  let unis := [Sample.alpha; Sample.beta; Sample.gamma] in
  (let w := Postgres.mkWorld
              (Postgres.mkDb [Sample.ann committed] unis shortlisted locked [] []) 2 [] [] in
   let no_profile := Auth.mk (Some "u1") None in
   let done := hrun Postgres.supabase (ApplicationPage.loadData no_profile 2)
                 (no_profile, ApplicationPage.initial) w in
   load_finds_locked "u1" w = true
   /\ Postgres.stored_stage (Postgres.db w) "u1" = Some committed
   /\ Postgres.stored_stage (Postgres.db (snd done)) "u1" = Some committed
   /\ Forall (fun q => is_stage_update q = false) (Postgres.received (snd done)))
  /\ (let w := Postgres.mkWorld
                 (Postgres.mkDb [Sample.ann exploring] unis shortlisted locked [] []) 2 [] [] in
      let stale := Sample.signed_in committed in
      let done := hrun Postgres.supabase (ApplicationPage.loadData stale 2)
                    (stale, ApplicationPage.initial) w in
      Postgres.stored_stage (Postgres.db w) "u1" = Some exploring
      /\ Postgres.stored_stage (Postgres.db (snd done)) "u1" = Some applying).
Proof.
  cbv zeta. split.
  - split; [vm_compute; reflexivity|]. split; [vm_compute; reflexivity|].
    split; [vm_compute; reflexivity|].
    vm_compute. repeat constructor.
  - split; vm_compute; reflexivity.
Qed.

(* ================================================================== *)
(** * Locked universities and the shortlist                          *)
(* ================================================================== *)

Section Choices.

Import Postgres.

Lemma is_shortlisted_In d uid unid :
  is_shortlisted d uid unid = true
  <-> In (uid, unid) (map shortlist_key (user_shortlisted_universities d)).
Proof.
  unfold is_shortlisted. rewrite existsb_exists, in_map_iff.
  split; intros [s [H1 H2]]; exists s.
  - unfold shortlisted_key in H2. apply andb_true_iff in H2. destruct H2 as [Ha Hb].
    apply String.eqb_eq in Ha, Hb. unfold shortlist_key. split; [congruence | exact H1].
  - split; [exact H2|]. unfold shortlist_key in H1. inversion H1.
    unfold shortlisted_key. now rewrite !String.eqb_refl.
Qed.

Lemma is_locked_In d uid unid :
  is_locked d uid unid = true
  <-> In (uid, unid) (map locked_key_of (user_locked_universities d)).
Proof.
  unfold is_locked. rewrite existsb_exists, in_map_iff.
  split; intros [s [H1 H2]]; exists s.
  - unfold locked_key in H2. apply andb_true_iff in H2. destruct H2 as [Ha Hb].
    apply String.eqb_eq in Ha, Hb. unfold locked_key_of. split; [congruence | exact H1].
  - split; [exact H2|]. unfold locked_key_of in H1. inversion H1.
    unfold locked_key. now rewrite !String.eqb_refl.
Qed.

Lemma locked_within_shortlist_incl d :
  locked_within_shortlist d
  <-> incl (map locked_key_of (user_locked_universities d))
           (map shortlist_key (user_shortlisted_universities d)).
Proof.
  unfold locked_within_shortlist, incl. split.
  - intros H [uid unid] Hin. apply is_shortlisted_In, H, is_locked_In, Hin.
  - intros H uid unid Hl. apply is_shortlisted_In, H, is_locked_In, Hl.
Qed.

Lemma exec_choices_frozen q d t :
  writes_choices q = false -> choices (snd (exec q d t)) = choices d.
Proof.
  destruct q; try discriminate; intros _; unfold choices; cbn [exec]; break_exec;
    reflexivity.
Qed.

Lemma supabase_choices_frozen q w :
  writes_choices q = false -> choices (db (snd (supabase q w))) = choices (db w).
Proof.
  intros H. destruct (supabase_db q w) as [E|E]; rewrite E; [reflexivity|].
  now apply exec_choices_frozen.
Qed.

Lemma in_insert_by {A} (le : A -> A -> bool) (x a : A) (l : list A) :
  In a (insert_by le x l) <-> a = x \/ In a l.
Proof.
  induction l as [|y l IH]; cbn.
  - intuition.
  - destruct (le x y); cbn; [intuition|]. rewrite IH. intuition.
Qed.

Lemma in_order_by {A} (le : A -> A -> bool) (a : A) (l : list A) :
  In a (order_by le l) <-> In a l.
Proof.
  unfold order_by. induction l as [|y l IH]; cbn; [tauto|].
  rewrite in_insert_by, IH. intuition.
Qed.

(** What the page sees after a load is what is stored. *)
Lemma isShortlisted_rows d uid unid unis lock ld term filter :
  UniversitiesPage.isShortlisted
    (UniversitiesPage.mkState unis (shortlisted_rows d uid) lock ld term filter) unid
  = is_shortlisted d uid unid.
Proof.
  unfold UniversitiesPage.isShortlisted, is_shortlisted, shortlisted_rows.
  cbn [UniversitiesPage.shortlisted].
  apply eq_true_iff_eq. rewrite !existsb_exists. split.
  - intros [s [Hin Hs]]. apply in_map_iff in Hin. destruct Hin as [s0 [<- Hin]].
    apply in_order_by, filter_In in Hin. destruct Hin as [Hin Hu].
    exists s0. split; [exact Hin|]. unfold shortlisted_key. rewrite Hu. exact Hs.
  - intros [s [Hin Hs]]. unfold shortlisted_key in Hs.
    apply andb_true_iff in Hs. destruct Hs as [Hu Hx].
    exists (embed_shortlisted d s). split; [|exact Hx].
    apply in_map. apply in_order_by, filter_In. auto.
Qed.

Lemma isLocked_rows d uid unid unis short ld term filter :
  UniversitiesPage.isLocked
    (UniversitiesPage.mkState unis short (locked_rows d uid) ld term filter) unid
  = is_locked d uid unid.
Proof.
  unfold UniversitiesPage.isLocked, is_locked, locked_rows.
  cbn [UniversitiesPage.locked].
  apply eq_true_iff_eq. rewrite !existsb_exists. split.
  - intros [s [Hin Hs]]. apply in_map_iff in Hin. destruct Hin as [s0 [<- Hin]].
    apply in_order_by, filter_In in Hin. destruct Hin as [Hin Hu].
    exists s0. split; [exact Hin|]. unfold locked_key. rewrite Hu. exact Hs.
  - intros [s [Hin Hs]]. unfold locked_key in Hs.
    apply andb_true_iff in Hs. destruct Hs as [Hu Hx].
    exists (embed_locked d s). split; [|exact Hx].
    apply in_map. apply in_order_by, filter_In. auto.
Qed.

Lemma view_trusts_rows d uid unis ld term filter :
  view_trusts uid
    (UniversitiesPage.mkState unis (shortlisted_rows d uid) (locked_rows d uid)
       ld term filter) d.
Proof.
  intros unid. unfold UniversitiesPage.offers_remove_and_lock.
  rewrite isShortlisted_rows, isLocked_rows.
  destruct (is_shortlisted d uid unid), (is_locked d uid unid); cbn; intuition.
Qed.

Lemma view_trusts_choices uid st d d' :
  choices d' = choices d -> view_trusts uid st d -> view_trusts uid st d'.
Proof.
  unfold choices. intros H Hv unid Ho. inversion H as [[Hs Hl]].
  unfold is_shortlisted, is_locked. rewrite Hs, Hl. now apply Hv.
Qed.

Lemma locked_within_shortlist_choices d d' :
  choices d' = choices d -> locked_within_shortlist d -> locked_within_shortlist d'.
Proof.
  unfold choices. intros H Hv uid unid. inversion H as [[Hs Hl]].
  unfold is_shortlisted, is_locked. rewrite Hs, Hl. apply Hv.
Qed.

End Choices.

Section UniversitiesPageRuns.

Import Postgres.

Context (userId : string) (ctx : Auth.t) (Huser : Auth.user ctx = Some userId).

Lemma supabase_quiet q w :
  faults w = [] ->
  fst (supabase q w) = fst (exec q (db w) (clock w))
  /\ db (snd (supabase q w)) = snd (exec q (db w) (clock w))
  /\ faults (snd (supabase q w)) = [].
Proof.
  intros Hf.
  assert (H0 : hd None (faults w) = None) by (now rewrite Hf).
  destruct (supabase_no_fault q w H0) as [H1 H2].
  destruct (supabase_meta q w) as [H3 _].
  rewrite Hf in H3. auto.
Qed.

(** The three reads of the universities page's load, when none is lost. *)
Lemma universities_reads w :
  faults w = [] ->
  let r := run supabase (promise_all3 (Api.getUniversities None)
                           (Api.getShortlistedUniversities userId)
                           (Api.getLockedUniversities userId)) w in
  (exists unis,
     outcome r = Fulfilled (unis, shortlisted_rows (db w) userId,
                            locked_rows (db w) userId))
  /\ db (final r) = db w
  /\ faults (final r) = [].
Proof.
  intros Hf. cbv zeta. unfold promise_all3.
  rewrite run_bind, run_settle, (getUniversities_round_trip None _ supabase w).
  cbn [outcome final log after].
  rewrite run_bind, run_settle,
    (getShortlistedUniversities_round_trip userId _ supabase).
  cbn [outcome final log after].
  rewrite run_bind, run_settle, (getLockedUniversities_round_trip userId _ supabase).
  cbn [outcome final log after].
  set (qa := universities_request None).
  destruct (supabase_quiet qa w Hf) as [A1 [A2 A3]].
  set (w1 := snd (supabase qa w)) in *.
  destruct (supabase_quiet (shortlisted_select userId) w1 A3) as [B1 [B2 B3]].
  set (w2 := snd (supabase (shortlisted_select userId) w1)) in *.
  destruct (supabase_quiet (locked_select userId) w2 B3) as [C1 [C2 C3]].
  rewrite (exec_read_tables qa) in A2 by reflexivity.
  rewrite (exec_read_tables (shortlisted_select userId)) in B2 by reflexivity.
  rewrite (exec_read_tables (locked_select userId)) in C2 by reflexivity.
  rewrite A1, B1, C1.
  cbn [exec fst reply error data run outcome final Api.array_or_empty].
  unfold qa, universities_request. cbn [exec fst reply error data run outcome final].
  split; [|split].
  - eexists. rewrite B2, A2. reflexivity.
  - rewrite C2, B2, A2. reflexivity.
  - exact C3.
Qed.

(** The load of the universities page, when no request is lost: the page
    shows what is stored. *)
Lemma universities_loadData_run u w :
  faults w = [] ->
  exists unis,
    fst (hrun supabase (UniversitiesPage.loadData ctx) u w)
    = (Fulfilled tt,
       (fst u,
        UniversitiesPage.mkState unis (shortlisted_rows (db w) userId)
          (locked_rows (db w) userId) false
          (UniversitiesPage.searchTerm (snd u))
          (UniversitiesPage.countryFilter (snd u))))
    /\ db (snd (hrun supabase (UniversitiesPage.loadData ctx) u w)) = db w
    /\ faults (snd (hrun supabase (UniversitiesPage.loadData ctx) u w)) = [].
Proof.
  intros Hf. unfold UniversitiesPage.loadData. rewrite Huser.
  destruct (universities_reads w Hf) as [[unis Ho] [Hd Hfa]].
  exists unis.
  rewrite hrun_hfinally. cbv zeta. rewrite hrun_modify, hrun_htry, hrun_hbind, hrun_lift.
  cbn [fst snd]. rewrite Ho. rewrite hrun_modify. cbn [fst snd UniversitiesPage.universities
    UniversitiesPage.shortlisted UniversitiesPage.locked UniversitiesPage.searchTerm
    UniversitiesPage.countryFilter].
  auto.
Qed.

End UniversitiesPageRuns.

Section ChoiceTables.

Import Postgres.

Lemma update_profiles_ids uid updates now rows :
  map Profile.id (update_profiles uid updates now rows) = map Profile.id rows.
Proof.
  unfold update_profiles. rewrite map_map. apply map_ext. intros p.
  destruct (String.eqb (Profile.id p) uid); [|reflexivity].
  cbn [Profile.touch Profile.id]. apply apply_id.
Qed.

(** No request adds, removes or renames a profile row. *)
Lemma exec_profile_ids q d t :
  map Profile.id (profiles (snd (exec q d t))) = map Profile.id (profiles d).
Proof.
  destruct q; cbn [exec]; break_exec; try reflexivity; apply update_profiles_ids.
Qed.

Lemma supabase_profiles_keyed q w :
  profiles_keyed (db w) -> profiles_keyed (db (snd (supabase q w))).
Proof.
  unfold profiles_keyed. intros H.
  destruct (supabase_db q w) as [E|E]; rewrite E; [exact H|].
  now rewrite exec_profile_ids.
Qed.

Lemma supabase_faults_nil q w : faults w = [] -> faults (snd (supabase q w)) = [].
Proof. intros Hf. destruct (supabase_meta q w) as [H _]. now rewrite H, Hf. Qed.

Lemma existsb_map {A B} (f : B -> bool) (g : A -> B) (l : list A) :
  existsb f (map g l) = existsb (fun x => f (g x)) l.
Proof. induction l as [|x l IH]; cbn; [reflexivity | now rewrite IH]. Qed.

Lemma existsb_same {A} (f g : A -> bool) (l : list A) :
  (forall x, f x = g x) -> existsb f l = existsb g l.
Proof. intros H. induction l as [|x l IH]; cbn; [reflexivity | now rewrite H, IH]. Qed.

Lemma existsb_filter {A} (f g : A -> bool) (l : list A) :
  existsb f (filter g l) = true -> existsb f l = true.
Proof.
  rewrite !existsb_exists. intros [x [Hin Hx]]. apply filter_In in Hin.
  exists x. tauto.
Qed.

(** A harmless request leaves every shortlisted pair shortlisted and
    locks nothing. *)
Lemma exec_harmless q d t uid unid :
  harmless q = true ->
  (is_shortlisted d uid unid = true ->
   is_shortlisted (snd (exec q d t)) uid unid = true)
  /\ (is_locked (snd (exec q d t)) uid unid = true -> is_locked d uid unid = true).
Proof.
  intros Hq. destruct (writes_choices q) eqn:Hc.
  - destruct q; try discriminate; unfold is_shortlisted, is_locked; cbn [exec];
      break_exec; try tauto.
    + (* an added shortlist row *)
      split; [|tauto]. intros H. rewrite existsb_app, H. reflexivity.
    + (* a changed category *)
      split; [|tauto]. intros H. rewrite existsb_map. rewrite <- H.
      apply existsb_same. intros s.
      destruct (shortlisted_key userId universityId s); reflexivity.
    + (* a removed lock *)
      split; [tauto|]. apply existsb_filter.
  - pose proof (exec_choices_frozen q d t Hc) as E. unfold choices in E.
    inversion E as [[Hs Hl]]. unfold is_shortlisted, is_locked. rewrite Hs, Hl. tauto.
Qed.

Lemma supabase_harmless q w uid unid :
  harmless q = true ->
  (is_shortlisted (db w) uid unid = true ->
   is_shortlisted (db (snd (supabase q w))) uid unid = true)
  /\ (is_locked (db (snd (supabase q w))) uid unid = true ->
      is_locked (db w) uid unid = true).
Proof.
  intros Hq. destruct (supabase_db q w) as [E|E]; rewrite E; [tauto|].
  now apply exec_harmless.
Qed.

Lemma locked_within_shortlist_harmless q w :
  harmless q = true ->
  locked_within_shortlist (db w) -> locked_within_shortlist (db (snd (supabase q w))).
Proof.
  intros Hq H uid unid Hl. destruct (supabase_harmless q w uid unid Hq) as [Hs Hl'].
  apply Hs, H, Hl', Hl.
Qed.

Lemma view_trusts_harmless userId st q w :
  harmless q = true ->
  view_trusts userId st (db w) -> view_trusts userId st (db (snd (supabase q w))).
Proof.
  intros Hq H unid Ho. destruct (H unid Ho) as [Hs Hl].
  destruct (supabase_harmless q w userId unid Hq) as [Hs' Hl']. split; [now apply Hs'|].
  destruct (is_locked (db (snd (supabase q w))) userId unid); [|reflexivity].
  rewrite <- Hl. symmetry. now apply Hl'.
Qed.

Lemma tables_ok_harmless q w :
  harmless q = true -> tables_ok w -> tables_ok (snd (supabase q w)).
Proof.
  intros Hq [Hf [Hk Hl]]. split; [|split].
  - now apply supabase_faults_nil.
  - now apply supabase_profiles_keyed.
  - now apply locked_within_shortlist_harmless.
Qed.

Lemma session_ok_harmless userId u q w :
  harmless q = true -> session_ok userId u w -> session_ok userId u (snd (supabase q w)).
Proof.
  intros Hq [Hu [Ht Hv]]. split; [exact Hu|]. split.
  - now apply tables_ok_harmless.
  - now apply view_trusts_harmless.
Qed.

Lemma writes_choices_harmless q : writes_choices q = false -> harmless q = true.
Proof. destruct q; try discriminate; reflexivity. Qed.

(** Removing from the shortlist a pair that is not locked. *)
Lemma locked_within_shortlist_remove d uid unid :
  locked_within_shortlist d ->
  is_locked d uid unid = false ->
  locked_within_shortlist
    (set_shortlisted d
       (filter (fun s => negb (shortlisted_key uid unid s))
               (user_shortlisted_universities d))).
Proof.
  intros H Hfree uid' unid' Hl.
  assert (Hl' : is_locked d uid' unid' = true) by exact Hl.
  pose proof (H uid' unid' Hl') as Hs.
  unfold is_shortlisted in *. cbn [set_shortlisted user_shortlisted_universities].
  apply existsb_exists in Hs. destruct Hs as [s [Hin Hs]].
  apply existsb_exists. exists s. split; [|exact Hs].
  apply filter_In. split; [exact Hin|].
  destruct (shortlisted_key uid unid s) eqn:Hk; [|reflexivity].
  exfalso. unfold shortlisted_key in Hk, Hs.
  apply andb_true_iff in Hk, Hs. destruct Hk as [K1 K2], Hs as [S1 S2].
  apply String.eqb_eq in K1, K2, S1, S2.
  assert (uid' = uid) by congruence. assert (unid' = unid) by congruence.
  subst uid' unid'. congruence.
Qed.

(** Locking a pair that is shortlisted. *)
Lemma locked_within_shortlist_lock d uid unid row :
  locked_within_shortlist d ->
  is_shortlisted d uid unid = true ->
  locked_key_of row = (uid, unid) ->
  locked_within_shortlist (set_locked d (user_locked_universities d ++ [row])%list).
Proof.
  intros H Hs Hrow uid' unid' Hl.
  change (is_shortlisted d uid' unid' = true).
  unfold is_locked in Hl. cbn [set_locked user_locked_universities] in Hl.
  rewrite existsb_app in Hl. apply orb_true_iff in Hl. destruct Hl as [Hl|Hl].
  - now apply H.
  - cbn [existsb] in Hl. rewrite orb_false_r in Hl. unfold locked_key in Hl.
    unfold locked_key_of in Hrow. inversion Hrow as [[R1 R2]].
    apply andb_true_iff in Hl. destruct Hl as [L1 L2].
    apply String.eqb_eq in L1, L2. rewrite R1 in L1. rewrite R2 in L2. subst. exact Hs.
Qed.

(** A refused insert of a locked row leaves the tables as they were. *)
Lemma exec_locked_insert_refused (uid unid : string) d t e :
  error (fst (exec (locked_insert uid unid) d t)) = Some e ->
  snd (exec (locked_insert uid unid) d t) = d.
Proof.
  cbn [exec]. break_exec; try reflexivity. discriminate.
Qed.

Lemma keyed_filter (uid : string) rows :
  NoDup (map Profile.id rows) ->
  (List.length (filter (fun p => String.eqb (Profile.id p) uid) rows) <= 1)%nat.
Proof.
  induction rows as [|p rows IH]; cbn; [lia|]. intros Hnd.
  inversion Hnd as [|x l Hnotin Hnd']; subst.
  destruct (String.eqb_spec (Profile.id p) uid) as [E|E]; [|now apply IH].
  cbn. assert (Hnone : filter (fun p0 => String.eqb (Profile.id p0) uid) rows = []).
  { destruct (filter _ rows) as [|p' rest] eqn:Ef; [reflexivity|]. exfalso.
    assert (Hin : In p' (filter (fun p0 => String.eqb (Profile.id p0) uid) rows))
      by (rewrite Ef; now left).
    apply filter_In in Hin. destruct Hin as [Hin Hp']. apply String.eqb_eq in Hp'.
    apply Hnotin. rewrite E, <- Hp'. now apply in_map. }
  rewrite Hnone. cbn. lia.
Qed.

(** With unique profile ids, the read of an existing profile finds it. *)
Lemma exec_profiles_select_keyed (uid : string) d t :
  profiles_keyed d -> has_profile d uid = true ->
  exists p, fst (exec (profiles_select uid) d t) = mkResponse (Some p) None.
Proof.
  intros Hk Hhas. apply has_profile_filter in Hhas.
  pose proof (keyed_filter uid (profiles d) Hk) as Hlen. cbn [exec].
  destruct (filter (fun p => String.eqb (Profile.id p) uid) (profiles d))
    as [|p [|p' rest]]; [congruence | | cbn in Hlen; lia].
  exists p. reflexivity.
Qed.

End ChoiceTables.

(* ================================================================== *)
(** * Handlers and what they keep of the session                     *)
(* ================================================================== *)

Section HandlerInvariants.

Import Postgres.

Context {U : Type} (P : U -> World -> Prop).

Lemma hinv_hret {A} (a : A) : hinv P (@hret U A a).
Proof. apply hhoare_hret. auto. Qed.

Lemma hinv_modify (f : U -> U) :
  (forall u w, P u w -> P (f u) w) -> hinv P (modify f).
Proof. intros H. apply hhoare_modify. exact H. Qed.

Lemma hinv_lift {A} (p : Prog A) : (forall u, keeps (P u) p) -> hinv P (@lift U A p).
Proof. intros H. apply hhoare_lift. intros u w Hp. now apply H. Qed.

Lemma hinv_hbind {A B} (m : Handler U A) (f : A -> Handler U B) :
  hinv P m -> (forall a, hinv P (f a)) -> hinv P (hbind m f).
Proof. intros Hm Hf. apply (hhoare_hbind P m f (fun _ => P)); auto. Qed.

Lemma hinv_htry {A} (m : Handler U A) (h : Exn -> Handler U A) :
  hinv P m -> (forall e, hinv P (h e)) -> hinv P (htry m h).
Proof. intros Hm Hh. apply (hhoare_htry P m h (fun _ => P)); auto. Qed.

Lemma hinv_hfinally_modify {A} (m : Handler U A) (f : U -> U) :
  hinv P m -> (forall u w, P u w -> P (f u) w) -> hinv P (hfinally m (modify f)).
Proof. intros Hm Hf. apply (hhoare_hfinally_modify P m f (fun _ => P)); auto. Qed.

Lemma hinv_hfor_each {X} (xs : list X) (body : X -> Handler U unit) :
  (forall x, hinv P (body x)) -> hinv P (hfor_each xs body).
Proof.
  intros H. induction xs as [|x xs IH]; cbn [hfor_each].
  - apply hinv_hret.
  - apply hinv_hbind; [apply H | intros _; exact IH].
Qed.

(** A single round trip keeps what its request keeps. *)
Lemma hinv_round_trip {A} (p : Prog A) (q : Request) result :
  single_round_trip p q result ->
  (forall u w, P u w -> P u (snd (supabase q w))) ->
  hinv P (@lift U A p).
Proof.
  intros Hp Hq. apply hinv_lift. intros u.
  eapply keeps_round_trip; [exact Hp | apply Hq].
Qed.

End HandlerInvariants.

Section RefreshProfile.

Import Postgres.

(** [refreshProfile] keeps what the read of a profile keeps and what does
    not depend on the profile held by the context. *)
Lemma refreshProfile_hinv {S} (P : Auth.t * S -> World -> Prop) :
  (forall u w p, P u w -> P (Auth.mk (Auth.user (fst u)) p, snd u) w) ->
  (forall uid u w, P u w -> P u (snd (supabase (profiles_select uid) w))) ->
  hinv P (@Auth.refreshProfile S).
Proof.
  intros Hstate Hread u w Hp. unfold hrun, Auth.refreshProfile.
  specialize (Hstate u).
  destruct (Auth.user (fst u)) as [uid|] eqn:Hu.
  - specialize (Hread uid u w Hp).
    rewrite run_bind, run_settle, (getProfile_round_trip uid _ supabase w).
    cbn [outcome final log after].
    destruct (error (fst (supabase (profiles_select uid) w))); cbn.
    + exact Hread.
    + apply Hstate. exact Hread.
  - cbn. apply Hstate. exact Hp.
Qed.

End RefreshProfile.

Section SignedIn.

Import Postgres.

(** A property of the service kept by every request that leaves the
    tables of the users' choices alone. *)
Context (userId : string) (I : World -> Prop).
Context (calm_keeps :
  forall q w, writes_choices q = false -> I w -> I (snd (supabase q w))).

Local Ltac calm_leaf lemma :=
  eapply hinv_round_trip;
  [ apply lemma | intros u w [Hu Hw]; split; [exact Hu | now apply calm_keeps] ].

Local Ltac same_user :=
  let u := fresh "u" in let w := fresh "w" in let H := fresh "H" in
  intros u w H; exact H.

Lemma refreshProfile_signed_in {S} :
  hinv (signed_in userId I) (@Auth.refreshProfile S).
Proof.
  apply refreshProfile_hinv.
  - intros u w p H. exact H.
  - intros uid u w [Hu Hw]. split; [exact Hu | now apply calm_keeps].
Qed.

Lemma generateDefaultTasks_signed_in loadData uid locked :
  hinv (signed_in userId I) loadData ->
  hinv (signed_in userId I) (ApplicationPage.generateDefaultTasks loadData uid locked).
Proof.
  intros Hload. unfold ApplicationPage.generateDefaultTasks.
  apply hinv_htry; [|intros; apply hinv_hret].
  apply hinv_hbind; [|intros _; exact Hload].
  apply hinv_hfor_each. intros [[title description] priority].
  destruct locked as [|first rest].
  - apply hinv_lift. intros u. apply keeps_throw.
  - apply hinv_hbind; [calm_leaf createTask_round_trip|].
    intros _. apply hinv_hret.
Qed.

Lemma application_loadData_signed_in ctx fuel :
  hinv (signed_in userId I) (ApplicationPage.loadData ctx fuel).
Proof.
  induction fuel as [|fuel IH]; cbn [ApplicationPage.loadData].
  - apply hinv_hret.
  - destruct (Auth.user ctx) as [uid|]; [|apply hinv_hret].
    apply hinv_hfinally_modify; [|same_user].
    apply hinv_htry; [|intros; apply hinv_hret].
    apply hinv_hbind.
    { apply hinv_lift. intros u. apply keeps_promise_all2.
      - eapply keeps_round_trip; [apply getTasks_round_trip|].
        intros w [Hu Hw]. split; [exact Hu | now apply calm_keeps].
      - eapply keeps_round_trip; [apply getLockedUniversities_round_trip|].
        intros w [Hu Hw]. split; [exact Hu | now apply calm_keeps]. }
    intros [tasksList locked].
    apply hinv_hbind; [apply hinv_modify; same_user|]. intros _.
    apply hinv_hbind.
    { destruct ((0 <? List.length locked)%nat && Auth.stage_is ctx committed);
        [|apply hinv_hret].
      apply hinv_hbind; [calm_leaf updateUserStage_round_trip|]. intros _.
      apply refreshProfile_signed_in. }
    intros _.
    destruct ((List.length tasksList =? 0)%nat && (0 <? List.length locked)%nat);
      [|apply hinv_hret].
    apply generateDefaultTasks_signed_in. exact IH.
Qed.

Lemma handleCreateTask_signed_in ctx fuel newTask :
  hinv (signed_in userId I) (ApplicationPage.handleCreateTask ctx fuel newTask).
Proof.
  unfold ApplicationPage.handleCreateTask.
  destruct (Auth.user ctx) as [uid|]; [|apply hinv_hret].
  destruct (negb (Js.truthy_string (ApplicationPage.title newTask)));
    [apply hinv_hret|].
  apply hinv_htry; [|intros; apply hinv_hret].
  apply hinv_hbind; [calm_leaf createTask_round_trip|]. intros _.
  apply application_loadData_signed_in.
Qed.

Lemma handleToggleTask_signed_in ctx fuel taskId completed_now :
  hinv (signed_in userId I)
    (ApplicationPage.handleToggleTask ctx fuel taskId completed_now).
Proof.
  unfold ApplicationPage.handleToggleTask.
  apply hinv_htry; [|intros; apply hinv_hret].
  apply hinv_hbind; [calm_leaf toggleTaskCompletion_round_trip|]. intros _.
  apply application_loadData_signed_in.
Qed.

Lemma handleDeleteTask_signed_in ctx fuel taskId :
  hinv (signed_in userId I) (ApplicationPage.handleDeleteTask ctx fuel taskId).
Proof.
  unfold ApplicationPage.handleDeleteTask.
  apply hinv_htry; [|intros; apply hinv_hret].
  apply hinv_hbind; [calm_leaf deleteTask_round_trip|]. intros _.
  apply application_loadData_signed_in.
Qed.

Lemma handleSubmit_signed_in ctx formData :
  hinv (signed_in userId I) (OnboardingPage.handleSubmit ctx formData).
Proof.
  unfold OnboardingPage.handleSubmit.
  destruct (Auth.user ctx) as [uid|]; [|apply hinv_hret].
  apply hinv_htry; [|intros; apply hinv_hret].
  apply hinv_hbind; [calm_leaf completeOnboarding_round_trip|]. intros _.
  apply refreshProfile_signed_in.
Qed.

End SignedIn.

Section UniversitiesSession.

Import Postgres.

Context (userId : string) (ctx : Auth.t) (Hctx : Auth.user ctx = Some userId).

Local Ltac harmless_leaf lemma :=
  eapply hinv_round_trip;
  [ apply lemma | intros u w H; apply session_ok_harmless; [reflexivity | exact H] ].

(** After a load none of whose requests is lost, the buttons can be
    trusted again. *)
Lemma loadData_syncs :
  hhoare (signed_in userId tables_ok) (UniversitiesPage.loadData ctx)
         (fun _ => session_ok userId).
Proof.
  intros u w [Hu [Hf [Hk Hl]]].
  destruct (universities_loadData_run userId ctx Hctx u w Hf) as [unis [E [Hd Hf']]].
  rewrite E. cbn [fst snd]. split; [exact Hu|]. split.
  - split; [exact Hf'|]. rewrite Hd. tauto.
  - rewrite Hd. apply view_trusts_rows.
Qed.

Lemma loadData_session_ok : hinv (session_ok userId) (UniversitiesPage.loadData ctx).
Proof.
  eapply hhoare_conseq; [apply loadData_syncs | | auto].
  intros u w [Hu [Ht _]]. now split.
Qed.

Lemma refreshProfile_session_ok :
  hinv (session_ok userId) (@Auth.refreshProfile UniversitiesPage.State).
Proof.
  apply refreshProfile_hinv.
  - intros u w p H. exact H.
  - intros uid u w H. now apply session_ok_harmless.
Qed.

Lemma handleAddToShortlist_session_ok university category :
  hinv (session_ok userId) (UniversitiesPage.handleAddToShortlist ctx university category).
Proof.
  unfold UniversitiesPage.handleAddToShortlist. rewrite Hctx.
  apply hinv_htry; [|intros; apply hinv_hret].
  apply hinv_hbind; [harmless_leaf addToShortlist_round_trip|]. intros _.
  apply hinv_hbind; [apply loadData_session_ok|]. intros _.
  destruct (Auth.stage_is ctx exploring); [|apply hinv_hret].
  apply hinv_hbind; [harmless_leaf updateUserStage_round_trip|]. intros _.
  apply refreshProfile_session_ok.
Qed.

Lemma handleUnlock_session_ok dialog :
  hinv (session_ok userId) (UniversitiesPage.handleUnlock ctx dialog).
Proof.
  unfold UniversitiesPage.handleUnlock. rewrite Hctx.
  destruct dialog as [universityId|]; [|apply hinv_hret].
  apply hinv_htry; [|intros; apply hinv_hret].
  apply hinv_hbind; [harmless_leaf unlockUniversity_round_trip|]. intros _.
  apply loadData_session_ok.
Qed.

(** "Remove", clicked where the page offers it. *)
Lemma handleRemoveFromShortlist_session_ok universityId :
  hhoare (fun u w => session_ok userId u w
                     /\ UniversitiesPage.offers_remove_and_lock (snd u) universityId = true)
         (UniversitiesPage.handleRemoveFromShortlist ctx universityId)
         (fun _ => session_ok userId).
Proof.
  unfold UniversitiesPage.handleRemoveFromShortlist. rewrite Hctx.
  apply (hhoare_htry _ _ _ (fun _ => session_ok userId)); [| auto | intros; apply hinv_hret].
  apply (hhoare_hbind _ _ _
           (fun o u w => match o with
                         | Fulfilled _ => signed_in userId tables_ok u w
                         | Rejected _ => False
                         end));
    [| intros _; apply loadData_syncs | intros e u w []].
  apply hhoare_lift. intros u w [[Hu [[Hf [Hk Hl]] Hv]] Hoffer].
  rewrite (removeFromShortlist_round_trip userId universityId _ supabase w).
  cbn [outcome final].
  destruct (supabase_quiet (shortlisted_delete userId universityId) w Hf)
    as [R [D F]].
  rewrite R. cbn [exec reply fst error data].
  split; [exact Hu|]. split; [exact F|]. split.
  - now apply supabase_profiles_keyed.
  - rewrite D. cbn [exec reply snd]. apply locked_within_shortlist_remove; [exact Hl|].
    now destruct (Hv universityId Hoffer).
Qed.

(** What [lockUniversity] leaves when asked to lock a shortlisted pair:
    when it returns the tables are in order, and when it throws they are
    as they were. *)
Lemma lockUniversity_session universityId :
  hhoare (fun u w => session_ok userId u w
                     /\ UniversitiesPage.offers_remove_and_lock (snd u) universityId = true)
         (lift (Api.lockUniversity userId universityId))
         (fun o u w => match o with
                       | Fulfilled _ => signed_in userId tables_ok u w
                       | Rejected _ => session_ok userId u w
                       end).
Proof.
  apply hhoare_lift. intros u w [[Hu [[Hf [Hk Hl]] Hv]] Hoffer].
  destruct (Hv universityId Hoffer) as [Hshort Hfree].
  rewrite lockUniversity_run. cbv zeta.
  set (q1 := locked_insert userId universityId).
  set (q2 := profiles_select userId).
  set (q3 := profiles_update userId [Profile.set_current_stage committed]).
  destruct (supabase_quiet q1 w Hf) as [R1 [D1 F1]].
  set (w1 := snd (supabase q1 w)) in *.
  destruct (error (fst (supabase q1 w))) as [e|] eqn:E1; cbn [outcome final].
  - (* the insert is refused *)
    rewrite R1 in E1. apply exec_locked_insert_refused in E1.
    unfold q1 in D1. rewrite E1 in D1.
    split; [exact Hu|]. split.
    + split; [exact F1|]. rewrite D1. tauto.
    + rewrite D1. exact Hv.
  - rewrite R1 in E1. destruct (exec_locked_insert _ _ _ _ E1) as [Hhas [_ Hdb1]].
    unfold q1 in D1. rewrite Hdb1 in D1.
    assert (Hk1 : profiles_keyed (db w1)) by (now apply supabase_profiles_keyed).
    assert (Hl1 : locked_within_shortlist (db w1)).
    { rewrite D1.
      now apply (locked_within_shortlist_lock (db w) userId universityId). }
    assert (Hhas1 : has_profile (db w1) userId = true) by (rewrite D1; exact Hhas).
    destruct (supabase_quiet q2 w1 F1) as [R2 [D2 F2]].
    destruct (exec_profiles_select_keyed userId (db w1) (clock w1) Hk1 Hhas1) as [p Hp].
    change (profiles_select userId) with q2 in Hp.
    assert (Hok2 : tables_ok (snd (supabase q2 w1))).
    { apply tables_ok_harmless; [reflexivity|]. now split. }
    set (w2 := snd (supabase q2 w1)) in *.
    rewrite R2, Hp. cbn [error data].
    destruct (negb (UserStage_eqb (Profile.current_stage p) committed)
              && negb (UserStage_eqb (Profile.current_stage p) applying)).
    + destruct (supabase_quiet q3 w2 F2) as [R3 _].
      rewrite R3. cbn [exec forallb assign_in_range andb reply fst error outcome final].
      split; [exact Hu|]. apply tables_ok_harmless; [reflexivity | exact Hok2].
    + cbn [outcome final]. split; [exact Hu | exact Hok2].
Qed.

(** "Lock Choice", clicked where the page offers it. *)
Lemma handleLock_session_ok universityId :
  hhoare (fun u w => session_ok userId u w
                     /\ UniversitiesPage.offers_remove_and_lock (snd u) universityId = true)
         (UniversitiesPage.handleLock ctx universityId)
         (fun _ => session_ok userId).
Proof.
  unfold UniversitiesPage.handleLock. rewrite Hctx.
  apply (hhoare_htry _ _ _ (fun _ => session_ok userId)); [| auto | intros; apply hinv_hret].
  eapply hhoare_hbind; [apply lockUniversity_session | | intros e u w H; exact H].
  intros a. cbv beta iota.
  apply (hhoare_hbind _ _ _ (fun _ => session_ok userId));
    [apply loadData_syncs | intros _; apply refreshProfile_session_ok | auto].
Qed.

End UniversitiesSession.

Section Sessions.

Import Postgres.

Context (userId : string).

Lemma on_universities_ok (P : Auth.t * UniversitiesPage.State -> World -> Prop) h app w :
  hhoare P h (fun _ => session_ok userId) ->
  P (App.auth app, App.universitiesPage app) w ->
  app_ok userId (fst (App.on_universities h app w)) (snd (App.on_universities h app w)).
Proof. intros H Hp. exact (H _ _ Hp). Qed.

(** What the pages other than the universities page keep: the tables in
    order and the buttons of the universities page as trustworthy as they
    were. *)
Lemma store_calm st q w :
  writes_choices q = false ->
  tables_ok w /\ view_trusts userId st (db w) ->
  tables_ok (snd (supabase q w)) /\ view_trusts userId st (db (snd (supabase q w))).
Proof.
  intros Hq [Ht Hv]. apply writes_choices_harmless in Hq. split.
  - now apply tables_ok_harmless.
  - now apply view_trusts_harmless.
Qed.

Lemma on_application_ok h app w :
  hinv (signed_in userId
          (fun w => tables_ok w /\ view_trusts userId (App.universitiesPage app) (db w))) h ->
  app_ok userId app w ->
  app_ok userId (fst (App.on_application h app w)) (snd (App.on_application h app w)).
Proof. intros H Hp. exact (H (App.auth app, App.applicationPage app) w Hp). Qed.

Lemma start_ok a w :
  Auth.user a = Some userId -> tables_ok w -> app_ok userId (App.start a) w.
Proof.
  intros Hu Ht. split; [exact Hu|]. split; [exact Ht|]. intros unid H. discriminate H.
Qed.

(** Every event of a session in good order leaves it in good order. *)
Lemma step_ok ev app w :
  app_ok userId app w ->
  app_ok userId (fst (App.step ev app w)) (snd (App.step ev app w)).
Proof.
  intros H. assert (Hctx : Auth.user (App.auth app) = Some userId) by apply H.
  destruct ev; cbn [App.step].
  - (* onboarding *)
    exact (handleSubmit_signed_in userId _ (store_calm (App.universitiesPage app))
             (App.auth app) formData (App.auth app, tt) w H).
  - (* the universities page is opened *)
    apply (on_universities_ok (signed_in userId tables_ok));
      [now apply loadData_syncs|].
    destruct H as [Hu [Ht _]]. now split.
  - destruct (_ && _); [|exact H].
    apply (on_universities_ok (session_ok userId)); [|exact H].
    now apply handleAddToShortlist_session_ok.
  - destruct (_ && _) eqn:Hguard; [|exact H].
    apply andb_true_iff in Hguard. destruct Hguard as [_ Hoffer].
    eapply on_universities_ok;
      [now apply handleRemoveFromShortlist_session_ok | now split].
  - destruct (_ && _) eqn:Hguard; [|exact H].
    apply andb_true_iff in Hguard. destruct Hguard as [_ Hoffer].
    eapply on_universities_ok; [now apply handleLock_session_ok | now split].
  - destruct (_ && _); [|exact H].
    apply (on_universities_ok (session_ok userId)); [|exact H].
    now apply handleUnlock_session_ok.
  - apply (on_application_ok _ (App.mk (App.auth app) (App.universitiesPage app)
                                  ApplicationPage.initial)); [|exact H].
    apply application_loadData_signed_in. apply store_calm.
  - apply on_application_ok; [|exact H].
    apply handleCreateTask_signed_in. apply store_calm.
  - apply on_application_ok; [|exact H].
    apply handleToggleTask_signed_in. apply store_calm.
  - apply on_application_ok; [|exact H].
    apply handleDeleteTask_signed_in. apply store_calm.
Qed.

Lemma steps_ok evs app w :
  app_ok userId app w ->
  app_ok userId (fst (App.steps evs app w)) (snd (App.steps evs app w)).
Proof.
  revert app w. induction evs as [|ev evs IH]; intros app w H; [exact H|].
  cbn [App.steps]. pose proof (step_ok ev app w H) as H1.
  destruct (App.step ev app w) as [app' w']. now apply IH.
Qed.

End Sessions.

(** C4, as the code has it.  The check is the page's alone:
    [lockUniversity] does not look at the shortlist.  In a session of a
    signed-in user in which every event is handled to its end, reload
    included, before the next event, and in which no request is lost in
    transport, started on tables with unique profile ids in which every
    locked university is shortlisted: every locked university of every
    user is still shortlisted after any sequence of events of the pages,
    and the universities page offers "Remove" and "Lock Choice" only for a
    university that is stored as shortlisted and not locked. *)
Theorem C4_locked_within_shortlist (userId : string) (evs : list App.Event)
  (a : Auth.t) (w : Postgres.World) :
  Auth.user a = Some userId ->
  Postgres.faults w = [] ->
  profiles_keyed (Postgres.db w) ->
  locked_within_shortlist (Postgres.db w) ->
  let after := App.steps evs (App.start a) w in
  locked_within_shortlist (Postgres.db (snd after))
  /\ view_trusts userId (App.universitiesPage (fst after)) (Postgres.db (snd after)).
Proof.
  intros Hu Hf Hk Hl after.
  assert (Hstart : app_ok userId (App.start a) w).
  { apply start_ok; [exact Hu|]. split; [exact Hf|]. now split. }
  destruct (steps_ok userId evs (App.start a) w Hstart) as [_ [[_ [_ Hl']] Hv']].
  split; [exact Hl' | exact Hv'].
Qed.

(** C4 on the sample store: Ann opens the universities page, shortlists
    Alpha and locks it; Alpha is locked and shortlisted. *)
Lemma C4_locked_within_shortlist_witness :
  let after :=
    App.steps [App.OpenUniversities; App.ClickAddToShortlist Sample.alpha dream;
               App.ClickLockChoice "a"]
      (App.start (Sample.signed_in exploring)) (Sample.world exploring []) in
  Postgres.is_locked (Postgres.db (snd after)) "u1" "a" = true
  /\ locked_within_shortlist (Postgres.db (snd after)).
Proof.
  intros after. split; [vm_compute; reflexivity|].
  refine (proj1 (C4_locked_within_shortlist "u1"
            [App.OpenUniversities; App.ClickAddToShortlist Sample.alpha dream;
             App.ClickLockChoice "a"]
            (Sample.signed_in exploring) (Sample.world exploring []) _ _ _ _)).
  - reflexivity.
  - reflexivity.
  - unfold profiles_keyed. cbn. constructor; [intros [] | constructor].
  - intros uid unid H. vm_compute in H. discriminate H.
Defined.

(** C4 as stated fails in three ways.

    Through the page, with no request lost: Ann has shortlisted Alpha, and
    the card offers "Remove" and "Lock Choice".  She clicks "Remove" and,
    before the reload that ends its handler has come back, "Lock Choice":
    the handler of "Remove" sets no state before its reload returns, so
    the second click is made on the same render and with the same
    closure.  The service receives the delete, then the three requests of
    [lockUniversity], then the two reloads, all answered without an
    error, and Alpha is locked without being shortlisted.

    Through the page, one click after the other: Ann shortlists Alpha and
    removes it again; the removal is stored, but the first read of the
    reload that follows is lost in transport, so the page still shows
    Alpha as shortlisted and offers "Lock Choice"; she clicks it and Alpha
    is locked without being shortlisted.

    Through the data-access layer: [lockUniversity] locks a university
    that was never shortlisted. *)
Lemma C4_locked_outside_shortlist :
  (let shown :=
     App.steps [App.OpenUniversities; App.ClickAddToShortlist Sample.alpha dream]
       (App.start (Sample.signed_in exploring)) (Sample.world exploring []) in
   let u := (App.auth (fst shown), App.universitiesPage (fst shown)) in
   let r := run Postgres.supabase
              (overlap [true; false; false; false]
                 (UniversitiesPage.handleRemoveFromShortlist (fst u) "a" u)
                 (UniversitiesPage.handleLock (fst u) "a" u))
              (snd shown) in
   UniversitiesPage.offers_remove_and_lock (snd u) "a" = true
   /\ Forall (fun x => reported x = None) (log r)
   /\ Postgres.is_locked (Postgres.db (final r)) "u1" "a" = true
   /\ Postgres.is_shortlisted (Postgres.db (final r)) "u1" "a" = false
   /\ ~ locked_within_shortlist (Postgres.db (final r)))
  /\ (let after :=
        App.steps [App.OpenUniversities; App.ClickAddToShortlist Sample.alpha dream;
                   App.ClickRemove "a"; App.ClickLockChoice "a"]
          (App.start (Sample.signed_in exploring))
          (Sample.world exploring (repeat None 10 ++ [Some Sample.network_error])) in
      Postgres.is_locked (Postgres.db (snd after)) "u1" "a" = true
      /\ Postgres.is_shortlisted (Postgres.db (snd after)) "u1" "a" = false
      /\ ~ locked_within_shortlist (Postgres.db (snd after)))
  /\ (let r := run Postgres.supabase (Api.lockUniversity "u1" "a")
                 (Sample.world exploring []) in
      outcome r = Fulfilled tt
      /\ Postgres.is_locked (Postgres.db (final r)) "u1" "a" = true
      /\ Postgres.is_shortlisted (Postgres.db (final r)) "u1" "a" = false
      /\ ~ locked_within_shortlist (Postgres.db (final r))).
Proof.
  split; [|split].
  - intros shown u r.
    assert (H1 : Postgres.is_locked (Postgres.db (final r)) "u1" "a" = true)
      by (vm_compute; reflexivity).
    assert (H2 : Postgres.is_shortlisted (Postgres.db (final r)) "u1" "a" = false)
      by (vm_compute; reflexivity).
    split; [vm_compute; reflexivity|].
    split; [vm_compute; repeat constructor|].
    split; [exact H1|]. split; [exact H2|].
    intros H. specialize (H "u1" "a" H1). congruence.
  - intros after.
    assert (H1 : Postgres.is_locked (Postgres.db (snd after)) "u1" "a" = true)
      by (vm_compute; reflexivity).
    assert (H2 : Postgres.is_shortlisted (Postgres.db (snd after)) "u1" "a" = false)
      by (vm_compute; reflexivity).
    split; [exact H1|]. split; [exact H2|].
    intros H. specialize (H "u1" "a" H1). congruence.
  - intros r.
    assert (H1 : Postgres.is_locked (Postgres.db (final r)) "u1" "a" = true)
      by (vm_compute; reflexivity).
    assert (H2 : Postgres.is_shortlisted (Postgres.db (final r)) "u1" "a" = false)
      by (vm_compute; reflexivity).
    split; [vm_compute; reflexivity|].
    split; [exact H1|]. split; [exact H2|].
    intros H. specialize (H "u1" "a" H1). congruence.
Qed.

(* ================================================================== *)
(** * Reads: filters, order and limits                                 *)
(* ================================================================== *)

Section Ordering.

Import Postgres.

Context {A : Type} (le : A -> A -> bool).
Context (le_total : forall x y, le x y = false -> le y x = true).
Context (le_trans : forall x y z, le x y = true -> le y z = true -> le x z = true).

Local Abbreviation R := (fun a b => le a b = true).

Lemma insert_by_sorted x l :
  StronglySorted R l -> StronglySorted R (insert_by le x l).
Proof.
  induction l as [|y l IH]; intros Hs; cbn [insert_by].
  - repeat constructor.
  - apply StronglySorted_inv in Hs. destruct Hs as [Hl Hy].
    destruct (le x y) eqn:Hxy.
    + constructor; [constructor; assumption|].
      constructor; [exact Hxy|].
      rewrite Forall_forall in *. intros z Hz. apply (le_trans x y z Hxy). now apply Hy.
    + constructor; [now apply IH|].
      rewrite Forall_forall in *. intros z Hz. apply in_insert_by in Hz.
      destruct Hz as [->|Hz]; [now apply le_total | now apply Hy].
Qed.

Lemma order_by_sorted l : StronglySorted R (order_by le l).
Proof.
  unfold order_by. induction l as [|x l IH]; cbn [fold_right]; [constructor|].
  now apply insert_by_sorted.
Qed.

End Ordering.

Section SortedLists.

Context {A : Type} (R : A -> A -> Prop).

Lemma StronglySorted_app_inv (l1 l2 : list A) :
  StronglySorted R (l1 ++ l2) ->
  StronglySorted R l1 /\ StronglySorted R l2
  /\ forall x y, In x l1 -> In y l2 -> R x y.
Proof.
  induction l1 as [|a l1 IH]; cbn [app]; intros Hs.
  - split; [constructor|]. split; [exact Hs|]. intros x y [].
  - apply StronglySorted_inv in Hs. destruct Hs as [Hs Ha].
    destruct (IH Hs) as [H1 [H2 H12]]. rewrite Forall_forall in Ha.
    split; [|split; [exact H2|]].
    + constructor; [exact H1|]. rewrite Forall_forall. intros z Hz.
      apply Ha, in_or_app. now left.
    + intros x y [<-|Hx] Hy; [apply Ha, in_or_app; now right | now apply H12].
Qed.

Lemma StronglySorted_firstn n (l : list A) :
  StronglySorted R l -> StronglySorted R (firstn n l).
Proof.
  intros Hs. rewrite <- (firstn_skipn n l) in Hs.
  now apply StronglySorted_app_inv in Hs.
Qed.

(** In a sorted list, what a prefix leaves out comes after all it holds. *)
Lemma firstn_sorted_before n (l : list A) x y :
  StronglySorted R l -> In x (firstn n l) -> In y l -> ~ In y (firstn n l) -> R x y.
Proof.
  intros Hs Hx Hy Hout. rewrite <- (firstn_skipn n l) in Hs, Hy.
  apply StronglySorted_app_inv in Hs. destruct Hs as [_ [_ H]].
  apply in_app_or in Hy. destruct Hy as [Hy|Hy]; [contradiction | now apply H].
Qed.

Lemma StronglySorted_map {B} (f : B -> A) (l : list B) :
  StronglySorted (fun a b => R (f a) (f b)) l -> StronglySorted R (map f l).
Proof.
  induction 1 as [|a l Hs IH Ha]; cbn [map]; constructor; [exact IH|].
  rewrite Forall_forall in *. intros z Hz. apply in_map_iff in Hz.
  destruct Hz as [b [<- Hb]]. now apply Ha.
Qed.

Lemma StronglySorted_weaken (R' : A -> A -> Prop) (l : list A) :
  (forall a b, R a b -> R' a b) -> StronglySorted R l -> StronglySorted R' l.
Proof.
  intros H. induction 1 as [|a l Hs IH Ha]; constructor; [exact IH|].
  rewrite Forall_forall in *. auto.
Qed.

End SortedLists.

Section Reads.

Import Postgres.

Lemma le_nulls_last_total a b : le_nulls_last a b = false -> le_nulls_last b a = true.
Proof. destruct a, b; cbn; try congruence. intros H. apply Z.leb_le. apply Z.leb_gt in H. lia. Qed.

Lemma le_nulls_last_trans a b c :
  le_nulls_last a b = true -> le_nulls_last b c = true -> le_nulls_last a c = true.
Proof.
  destruct a, b, c; cbn; try congruence. rewrite !Z.leb_le. lia.
Qed.

Lemma by_ranking_ranked_before a b : by_ranking a b = true -> ranked_before a b.
Proof.
  unfold by_ranking, ranked_before, le_nulls_last.
  destruct (University.ranking a), (University.ranking b); try easy. apply Z.leb_le.
Qed.

Lemma order_by_ranking_sorted l : StronglySorted ranked_before (order_by by_ranking l).
Proof.
  apply (StronglySorted_weaken (fun a b => by_ranking a b = true));
    [apply by_ranking_ranked_before|].
  apply order_by_sorted; unfold by_ranking.
  - intros x y. apply le_nulls_last_total.
  - intros x y z. apply le_nulls_last_trans.
Qed.

Lemma existsb_eqb_In (x : string) (l : list string) :
  existsb (String.eqb x) l = true <-> In x l.
Proof.
  rewrite existsb_exists. split.
  - intros [y [Hy E]]. apply String.eqb_eq in E. now subst.
  - intros H. exists x. split; [exact H | apply String.eqb_refl].
Qed.

(** The [WHERE] clause [getUniversities] builds says what the filters ask. *)
Lemma university_matches_passes filters u :
  university_matches
    (match filters with Some f => Api.nonempty_filter (Filters.countries f) | None => None end)
    (match filters with Some f => Api.nonempty_filter (Filters.programs f) | None => None end)
    (match filters with Some f => Api.truthy_number (Filters.budgetMax f) | None => None end)
    u = true
  <-> passes_filters filters u.
Proof.
  unfold university_matches, passes_filters.
  destruct filters as [[countries programs budget]|]; cbn [Filters.countries
    Filters.programs Filters.budgetMax]; [|cbn; tauto].
  rewrite !andb_true_iff.
  assert (H1 : match Api.nonempty_filter countries with
               | Some cs => existsb (String.eqb (University.country u)) cs
               | None => true
               end = true
               <-> match countries with
                   | Some (c :: cs) => In (University.country u) (c :: cs)
                   | _ => True
                   end).
  { destruct countries as [[|c cs]|]; cbn [Api.nonempty_filter List.length Nat.ltb Nat.leb];
      try tauto. apply existsb_eqb_In. }
  assert (H2 : match Api.nonempty_filter programs with
               | Some ps => existsb (fun p => existsb (String.eqb p) ps) (University.programs u)
               | None => true
               end = true
               <-> match programs with
                   | Some (p :: ps) =>
                       exists x, In x (University.programs u) /\ In x (p :: ps)
                   | _ => True
                   end).
  { destruct programs as [[|p ps]|]; cbn [Api.nonempty_filter List.length Nat.ltb Nat.leb];
      try tauto.
    rewrite existsb_exists. split; intros [x [Hx Hy]]; exists x; split; try exact Hx;
      now apply existsb_eqb_In. }
  assert (H3 : match Api.truthy_number budget with
               | Some b => match University.tuition_fee_min u with
                           | Some f => (f <=? b)%Z
                           | None => false
                           end
               | None => true
               end = true
               <-> match budget with
                   | Some b =>
                       b = 0%Z
                       \/ exists fee, University.tuition_fee_min u = Some fee /\ (fee <= b)%Z
                   | None => True
                   end).
  { destruct budget as [b|]; cbn [Api.truthy_number]; [|tauto].
    destruct (Z.eqb_spec b 0) as [E|E]; [tauto|].
    destruct (University.tuition_fee_min u) as [f|].
    - rewrite Z.leb_le. split; [eauto|]. intros [H|[fee [Hf Hle]]]; [contradiction|].
      now inversion Hf.
    - split; [discriminate|]. intros [H|[fee [Hf _]]]; [contradiction | discriminate]. }
  tauto.
Qed.

End Reads.

(** X1: [getUniversities], when its request is not lost, returns exactly
    the stored universities that pass the filters, ordered by ranking with
    the unranked last.  An empty list of countries or programs and a
    budget of zero are not applied as filters; with a budget, a university
    whose lowest tuition fee is unknown is left out. *)
Theorem X1_getUniversities_filters (filters : option Filters.t) (w : Postgres.World) :
  hd None (Postgres.faults w) = None ->
  exists rows,
    outcome (run Postgres.supabase (Api.getUniversities filters) w) = Fulfilled rows
    /\ (forall u, In u rows
                  <-> In u (Postgres.universities (Postgres.db w))
                      /\ passes_filters filters u)
    /\ StronglySorted ranked_before rows.
Proof.
  intros Hf.
  rewrite (getUniversities_round_trip filters _ Postgres.supabase w). cbn [outcome].
  destruct (supabase_no_fault (universities_request filters) w Hf) as [R _].
  rewrite R. unfold universities_request. cbn [Postgres.exec Postgres.reply fst error data
    Api.array_or_empty].
  eexists. split; [reflexivity|]. split.
  - intros u. rewrite in_order_by, filter_In, university_matches_passes. tauto.
  - apply order_by_ranking_sorted.
Qed.

(** X1 on the sample store: with Germany as the only country and a budget
    of zero, Ann gets Beta before Alpha and not Gamma. *)
Lemma X1_getUniversities_filters_witness :
  exists rows,
    outcome (run Postgres.supabase
               (Api.getUniversities (Some (Filters.mk (Some ["Germany"]) (Some []) (Some 0%Z))))
               (Sample.world exploring []))
    = Fulfilled rows
    /\ (In Sample.beta rows /\ ~ In Sample.gamma rows)
    /\ StronglySorted ranked_before rows.
Proof.
  destruct (X1_getUniversities_filters
              (Some (Filters.mk (Some ["Germany"]) (Some []) (Some 0%Z)))
              (Sample.world exploring []) eq_refl) as [rows [Hout [Hin Hs]]].
  exists rows. split; [exact Hout|]. split; [|exact Hs]. split.
  - apply Hin. split; [cbn; tauto|]. cbn. intuition.
  - intros H. apply Hin in H. destruct H as [_ [H _]]. cbn in H.
    destruct H as [H|[]]. discriminate H.
Defined.

Lemma search_matches_found term u :
  Postgres.search_matches term u = true <-> term_found term u.
Proof.
  unfold Postgres.search_matches, Postgres.ilike, term_found.
  rewrite !orb_true_iff, !includes_lower_spec.
  destruct (University.city u) as [city|].
  - rewrite includes_lower_spec. split.
    + intros [[H|H]|H]; auto. right. right. eauto.
    + intros [H|[H|[c [[= <-] H]]]]; auto.
  - split.
    + intros [[H|H]|H]; auto. discriminate H.
    + intros [H|[H|[c [E _]]]]; auto. discriminate E.
Qed.

(** X2: [searchUniversities] with a term of ASCII letters, digits and
    spaces, when its request is not lost, returns at most twenty
    universities, all of them stored, ordered by ranking with the unranked
    last.  When the stored names, countries and cities are ASCII text,
    every university returned has the term in its name, country or city,
    case-insensitively, and when fewer than twenty are returned they are
    all the stored universities that have it. *)
Theorem X2_searchUniversities_limit (searchTerm : string) (w : Postgres.World) :
  hd None (Postgres.faults w) = None ->
  plain_term searchTerm = true ->
  exists rows,
    outcome (run Postgres.supabase (Api.searchUniversities searchTerm) w) = Fulfilled rows
    /\ List.length rows <= 20
    /\ (forall u, In u rows -> In u (Postgres.universities (Postgres.db w)))
    /\ StronglySorted ranked_before rows
    /\ (universities_ascii (Postgres.db w) ->
        (forall u, In u rows -> term_found searchTerm u)
        /\ (List.length rows < 20 ->
            forall u, In u (Postgres.universities (Postgres.db w)) ->
                      term_found searchTerm u -> In u rows)).
Proof.
  intros Hf _.
  rewrite (searchUniversities_round_trip searchTerm _ Postgres.supabase w). cbn [outcome].
  destruct (supabase_no_fault (universities_search searchTerm) w Hf) as [R _].
  rewrite R. cbn [Postgres.exec Postgres.reply fst error data Api.array_or_empty].
  eexists. split; [reflexivity|]. split; [|split; [|split]].
  - rewrite length_firstn. lia.
  - intros u Hu. apply In_firstn, in_order_by, filter_In in Hu. tauto.
  - apply StronglySorted_firstn, order_by_ranking_sorted.
  - intros _. split.
    + intros u Hu. apply In_firstn, in_order_by, filter_In in Hu.
      now apply search_matches_found.
    + intros Hlen u Hu Hfound.
      rewrite firstn_all2.
      * apply in_order_by, filter_In. split; [exact Hu|].
        now apply search_matches_found.
      * rewrite length_firstn in Hlen. lia.
Qed.

(** X2 on the sample store: the term "LYON" finds Gamma and nothing
    else. *)
Lemma X2_searchUniversities_limit_witness :
  outcome (run Postgres.supabase (Api.searchUniversities "LYON") (Sample.world exploring []))
  = Fulfilled [Sample.gamma]
  /\ term_found "LYON" Sample.gamma.
Proof.
  destruct (X2_searchUniversities_limit "LYON" (Sample.world exploring []) eq_refl eq_refl)
    as [rows [Hout [_ [_ [_ Hfound]]]]].
  assert (E : rows = [Sample.gamma]).
  { vm_compute in Hout. now inversion Hout. }
  split; [rewrite Hout, E; reflexivity|].
  apply Hfound; [|rewrite E; now left].
  intros u Hu.
  assert (Hascii : forall s, forallb (fun c => (nat_of_ascii c <? 128)%nat)
                               (list_ascii_of_string s) = true -> ascii_text s).
  { intros s H. apply Forall_forall. intros c Hc.
    rewrite forallb_forall in H. apply Nat.ltb_lt, H, Hc. }
  destruct Hu as [<-|[<-|[<-|[]]]];
    (split; [apply Hascii; reflexivity|]); (split; [apply Hascii; reflexivity|]);
    intros city E'; inversion E'; subst; apply Hascii; reflexivity.
Defined.

Section ChatReads.

Import Postgres.

Lemma created_at_sorted (l : list ChatMessage.t) :
  StronglySorted not_newer
    (order_by (fun a b => (ChatMessage.created_at a <=? ChatMessage.created_at b)%nat) l).
Proof.
  apply (StronglySorted_weaken
           (fun a b => (ChatMessage.created_at a <=? ChatMessage.created_at b)%nat = true)).
  - intros a b H. apply Nat.leb_le in H. exact H.
  - apply order_by_sorted.
    + intros x y H. apply Nat.leb_le. apply Nat.leb_gt in H. lia.
    + intros x y z. rewrite !Nat.leb_le. lia.
Qed.

End ChatReads.

(** X3: [getChatMessages], when its request is not lost, returns the
    user's stored messages oldest first and stops at [limit] (50 when no
    limit is given): it returns [limit] messages or all of them, whichever
    is fewer, and every stored message it leaves out is at least as new as
    every one it returns. *)
Theorem X3_getChatMessages_oldest_first (userId : string) (limit : option nat)
  (w : Postgres.World) :
  hd None (Postgres.faults w) = None ->
  exists rows,
    outcome (run Postgres.supabase (Api.getChatMessages userId limit) w) = Fulfilled rows
    /\ List.length rows
       = Nat.min (match limit with Some n => n | None => 50 end)
                 (List.length (messages_of (Postgres.db w) userId))
    /\ (forall m, In m rows -> In m (messages_of (Postgres.db w) userId))
    /\ StronglySorted not_newer rows
    /\ (forall m r, In m (messages_of (Postgres.db w) userId) -> ~ In m rows ->
                    In r rows -> not_newer r m).
Proof.
  intros Hf.
  rewrite (getChatMessages_round_trip userId limit _ Postgres.supabase w). cbn [outcome].
  set (n := match limit with Some n => n | None => 50 end).
  destruct (supabase_no_fault (chat_select userId n) w Hf) as [R _].
  rewrite R. cbn [Postgres.exec Postgres.reply fst error data Api.array_or_empty].
  fold (messages_of (Postgres.db w) userId).
  eexists. split; [reflexivity|]. split; [|split; [|split]].
  - now rewrite length_firstn, order_by_length.
  - intros m Hm. now apply In_firstn, in_order_by in Hm.
  - apply StronglySorted_firstn, created_at_sorted.
  - intros m r Hm Hout Hr.
    apply (firstn_sorted_before not_newer n _ r m (created_at_sorted _) Hr);
      [now apply in_order_by | exact Hout].
Qed.

(** X3 with a limit of one on a store holding two messages of Ann: one
    message is returned, and it is not newer than the one left out. *)
Lemma X3_getChatMessages_oldest_first_witness :
  let older := ChatMessage.mk "m1" "u1" chat_user "hello" "{}" 1 in
  let newer := ChatMessage.mk "m2" "u1" chat_assistant "hi" "{}" 2 in
  let w := Postgres.mkWorld
             (Postgres.mkDb [Sample.ann exploring] [] [] [] [] [newer; older]) 3 [] [] in
  exists rows,
    outcome (run Postgres.supabase (Api.getChatMessages "u1" (Some 1)) w) = Fulfilled rows
    /\ List.length rows = 1
    /\ (In newer rows -> False).
Proof.
  intros older newer w.
  destruct (X3_getChatMessages_oldest_first "u1" (Some 1) w eq_refl)
    as [rows [Hout [Hlen [_ [_ Hleft]]]]].
  assert (Hlen1 : List.length rows = 1) by exact Hlen. clear Hlen.
  exists rows. split; [exact Hout|]. split; [exact Hlen1|].
  intros Hnew.
  assert (Hold : ~ In older rows).
  { intros Hold. destruct rows as [|a [|b rest]]; try discriminate Hlen1.
    destruct Hnew as [Ea|[]], Hold as [Eb|[]].
    assert (E : newer = older) by congruence. unfold newer, older in E. discriminate E. }
  assert (H : not_newer newer older).
  { apply (Hleft older newer); [|exact Hold|exact Hnew]. cbn. auto. }
  unfold not_newer in H. cbn in H. lia.
Defined.

(* ================================================================== *)
(** * Writes to the tables of the users' choices                       *)
(* ================================================================== *)

Section LockedTable.

Import Postgres.

Lemma locked_key_false_not_in uid unid l :
  existsb (locked_key uid unid) l = false -> ~ In (uid, unid) (map locked_key_of l).
Proof.
  induction l as [|s l IH]; simpl; [tauto|].
  rewrite orb_false_iff. intros [Hs Hl] [H|H]; [|now apply IH].
  unfold locked_key_of in H. inversion H; subst.
  unfold locked_key in Hs. now rewrite !String.eqb_refl in Hs.
Qed.

Lemma exec_keeps_locked_unique q d t :
  locked_unique d -> locked_unique (snd (exec q d t)).
Proof.
  unfold locked_unique.
  intros H. destruct q; cbn [exec]; break_exec; try exact H.
  - (* insert *)
    rewrite map_app. apply NoDup_app; [exact H | repeat constructor; simpl; tauto |].
    intros a Ha [Hb|[]]. subst a.
    apply orb_false_iff in Heqb0. destruct Heqb0 as [Hk _].
    revert Ha. now apply locked_key_false_not_in.
  - (* delete *)
    now apply NoDup_map_filter.
Qed.

Lemma supabase_keeps_locked_unique q w :
  locked_unique (db w) -> locked_unique (db (snd (supabase q w))).
Proof.
  intros H. destruct (supabase_db q w) as [E|E]; rewrite E; [exact H|].
  now apply exec_keeps_locked_unique.
Qed.

End LockedTable.

(** X4: the locked table holds a pair of user and university at most
    once.  From any locked table without duplicates, the empty one
    included: [lockUniversity] leaves it without duplicates, and on a pair
    that is already locked it throws after its first request, sends
    neither the read of the profile nor an update of the stage, and leaves
    the tables as they were; and no body of requests, no sequence of
    requests in whatever order they reach the service, and no sequence of
    session events leads to a locked table with duplicates. *)
Theorem X4_locked_is_a_set (w : Postgres.World) (userId universityId : string) :
  locked_unique (Postgres.db w) ->
  let r := run Postgres.supabase (Api.lockUniversity userId universityId) w in
  locked_unique (Postgres.db (final r))
  /\ (Postgres.is_locked (Postgres.db w) userId universityId = true ->
      (exists e, outcome r = Rejected (DbError e))
      /\ Postgres.db (final r) = Postgres.db w
      /\ sent r = [locked_insert userId universityId])
  /\ (forall (A : Type) (p : Prog A),
        locked_unique (Postgres.db (final (run Postgres.supabase p w))))
  /\ (forall requests, locked_unique (Postgres.db (Postgres.serve requests w)))
  /\ (forall evs app, locked_unique (Postgres.db (snd (App.steps evs app w)))).
Proof.
  intros Hu r.
  assert (Hstep : forall q w0, locked_unique (Postgres.db w0) ->
                               locked_unique (Postgres.db (snd (Postgres.supabase q w0))))
    by (intros q w0; apply supabase_keeps_locked_unique).
  split; [|split; [|split; [|split]]].
  - apply (run_invariant (fun w => locked_unique (Postgres.db w))); assumption.
  - intros Hin. subst r. rewrite lockUniversity_run. cbv zeta.
    assert (Herr : exists e,
               error (fst (Postgres.supabase (locked_insert userId universityId) w))
               = Some e
               /\ Postgres.db (snd (Postgres.supabase (locked_insert userId universityId) w))
                  = Postgres.db w).
    { destruct (supabase_cases (locked_insert userId universityId) w)
        as [[e [_ H]] | [_ H]];
        rewrite H; cbn [fst snd error Postgres.db]; [eauto|].
      cbn [Postgres.exec]. unfold Postgres.is_locked in Hin. rewrite Hin. cbn [orb].
      destruct (negb (Postgres.has_profile (Postgres.db w) userId)
                || negb (Postgres.has_university (Postgres.db w) universityId));
        cbn [fst snd Postgres.reply error]; eauto. }
    destruct Herr as [e [He Hd]]. rewrite He. cbn [outcome final sent log map request].
    split; [eauto|]. split; [exact Hd | reflexivity].
  - intros A p. apply (run_invariant (fun w => locked_unique (Postgres.db w))); assumption.
  - intros requests.
    apply (serve_invariant (fun w => locked_unique (Postgres.db w))); assumption.
  - intros evs app.
    apply (steps_invariant (fun w => locked_unique (Postgres.db w))); assumption.
Qed.

(** X4 on the sample store.  Ann has locked Alpha, and locking it again
    is rejected.  And from the empty locked table: two inserts of the same
    pair, as two overlapping clicks on "Lock Choice" send them, leave one
    row. *)
Lemma X4_locked_is_a_set_witness :
  let w := Postgres.mkWorld
             (Postgres.mkDb [Sample.ann committed] [Sample.alpha]
                [ShortlistedUniversity.mk "s1" "u1" "a" dream None 0 None]
                [LockedUniversity.mk "l1" "u1" "a" 1 None] [] []) 2 [] [] in
  let twice := Postgres.serve [locked_insert "u1" "a"; locked_insert "u1" "a"]
                 (Sample.world exploring []) in
  (exists e, outcome (run Postgres.supabase (Api.lockUniversity "u1" "a") w)
             = Rejected (DbError e))
  /\ Postgres.db (final (run Postgres.supabase (Api.lockUniversity "u1" "a") w))
     = Postgres.db w
  /\ locked_unique (Postgres.db twice)
  /\ List.length (Postgres.user_locked_universities (Postgres.db twice)) = 1.
Proof.
  intros w twice.
  assert (Hu : locked_unique (Postgres.db w)).
  { unfold locked_unique. cbn. constructor; [intros [] | constructor]. }
  assert (Hempty : locked_unique (Postgres.db (Sample.world exploring []))) by constructor.
  destruct (X4_locked_is_a_set w "u1" "a" Hu) as [_ [H _]].
  destruct (H eq_refl) as [H1 [H2 _]].
  destruct (X4_locked_is_a_set (Sample.world exploring []) "u1" "a" Hempty)
    as [_ [_ [_ [H4 _]]]].
  split; [exact H1|]. split; [exact H2|].
  split; [apply H4 | vm_compute; reflexivity].
Defined.

Section ChoiceWrites.

Import Postgres.

Lemma locked_key_eq uid unid uid' unid' l :
  locked_key uid unid l = true -> locked_key uid' unid' l = true ->
  (uid', unid') = (uid, unid).
Proof.
  unfold locked_key. rewrite !andb_true_iff, !String.eqb_eq. intros [<- <-] [<- <-].
  reflexivity.
Qed.

Lemma shortlisted_key_eq uid unid uid' unid' s :
  shortlisted_key uid unid s = true -> shortlisted_key uid' unid' s = true ->
  (uid', unid') = (uid, unid).
Proof.
  unfold shortlisted_key. rewrite !andb_true_iff, !String.eqb_eq. intros [<- <-] [<- <-].
  reflexivity.
Qed.

Lemma existsb_filter_neg {A} (f g : A -> bool) (l : list A) :
  (forall x, f x = true -> g x = false) ->
  existsb f (filter (fun x => negb (g x)) l) = existsb f l.
Proof.
  intros H. induction l as [|x l IH]; cbn; [reflexivity|].
  destruct (g x) eqn:Hg; cbn; rewrite IH; [|reflexivity].
  destruct (f x) eqn:Hf; [|reflexivity]. apply H in Hf. congruence.
Qed.

Lemma existsb_filter_self {A} (f : A -> bool) (l : list A) :
  existsb f (filter (fun x => negb (f x)) l) = false.
Proof.
  induction l as [|x l IH]; cbn; [reflexivity|].
  destruct (f x) eqn:Hf; cbn; [exact IH|]. now rewrite Hf, IH.
Qed.

End ChoiceWrites.

(** X5: [unlockUniversity], when its request is not lost, never throws
    (also when the pair was not locked), leaves the pair unlocked and every
    other pair as it was, and touches neither the shortlist nor the
    profiles: the user's stage stays what it was, unlocking does not move
    it back from [committed] or [applying]. *)
Theorem X5_unlock_keeps_stage (w : Postgres.World) (userId universityId : string) :
  hd None (Postgres.faults w) = None ->
  let r := run Postgres.supabase (Api.unlockUniversity userId universityId) w in
  outcome r = Fulfilled tt
  /\ Postgres.is_locked (Postgres.db (final r)) userId universityId = false
  /\ (forall uid unid, (uid, unid) <> (userId, universityId) ->
        Postgres.is_locked (Postgres.db (final r)) uid unid
        = Postgres.is_locked (Postgres.db w) uid unid)
  /\ Postgres.user_shortlisted_universities (Postgres.db (final r))
     = Postgres.user_shortlisted_universities (Postgres.db w)
  /\ (forall uid, Postgres.stored_stage (Postgres.db (final r)) uid
                  = Postgres.stored_stage (Postgres.db w) uid).
Proof.
  intros Hf r. subst r.
  rewrite (unlockUniversity_round_trip userId universityId _ Postgres.supabase w).
  cbn [outcome final].
  destruct (supabase_no_fault (locked_delete userId universityId) w Hf) as [R D].
  rewrite R, D. cbn [Postgres.exec Postgres.reply fst snd error data].
  split; [reflexivity|]. split; [|split; [|split]].
  - unfold Postgres.is_locked. cbn [Postgres.set_locked Postgres.user_locked_universities].
    apply existsb_filter_self.
  - intros uid unid Hne. unfold Postgres.is_locked.
    cbn [Postgres.set_locked Postgres.user_locked_universities].
    apply existsb_filter_neg. intros l Hl.
    destruct (Postgres.locked_key userId universityId l) eqn:Hk; [|reflexivity].
    exfalso. apply Hne. exact (locked_key_eq _ _ _ _ l Hk Hl).
  - reflexivity.
  - intros uid. reflexivity.
Qed.

(** X5 on the sample store: Ann, committed, unlocks her only locked
    university and is still committed. *)
Lemma X5_unlock_keeps_stage_witness :
  let w := Postgres.mkWorld
             (Postgres.mkDb [Sample.ann committed] [Sample.alpha]
                [ShortlistedUniversity.mk "s1" "u1" "a" dream None 0 None]
                [LockedUniversity.mk "l1" "u1" "a" 1 None] [] []) 2 [] [] in
  let r := run Postgres.supabase (Api.unlockUniversity "u1" "a") w in
  Postgres.is_locked (Postgres.db (final r)) "u1" "a" = false
  /\ Postgres.stored_stage (Postgres.db (final r)) "u1" = Some committed.
Proof.
  intros w r.
  destruct (X5_unlock_keeps_stage w "u1" "a" eq_refl) as [_ [H1 [_ [_ H2]]]].
  split; [exact H1|]. unfold r. rewrite (H2 "u1"). reflexivity.
Defined.

(** X6: [removeFromShortlist], when its request is not lost, never throws
    (also when the pair was not shortlisted), leaves the pair off the
    shortlist and every other pair as it was, and does not look at or
    touch the locked table: a university that is locked stays locked when
    it is removed from the shortlist. *)
Theorem X6_remove_keeps_locks (w : Postgres.World) (userId universityId : string) :
  hd None (Postgres.faults w) = None ->
  let r := run Postgres.supabase (Api.removeFromShortlist userId universityId) w in
  outcome r = Fulfilled tt
  /\ Postgres.is_shortlisted (Postgres.db (final r)) userId universityId = false
  /\ (forall uid unid, (uid, unid) <> (userId, universityId) ->
        Postgres.is_shortlisted (Postgres.db (final r)) uid unid
        = Postgres.is_shortlisted (Postgres.db w) uid unid)
  /\ Postgres.user_locked_universities (Postgres.db (final r))
     = Postgres.user_locked_universities (Postgres.db w)
  /\ sent r = [shortlisted_delete userId universityId].
Proof.
  intros Hf r. subst r.
  rewrite (removeFromShortlist_round_trip userId universityId _ Postgres.supabase w).
  cbn [outcome final sent log map request].
  destruct (supabase_no_fault (shortlisted_delete userId universityId) w Hf) as [R D].
  rewrite R, D. cbn [Postgres.exec Postgres.reply fst snd error data].
  split; [reflexivity|]. split; [|split; [|split]].
  - unfold Postgres.is_shortlisted.
    cbn [Postgres.set_shortlisted Postgres.user_shortlisted_universities].
    apply existsb_filter_self.
  - intros uid unid Hne. unfold Postgres.is_shortlisted.
    cbn [Postgres.set_shortlisted Postgres.user_shortlisted_universities].
    apply existsb_filter_neg. intros l Hl.
    destruct (Postgres.shortlisted_key userId universityId l) eqn:Hk; [|reflexivity].
    exfalso. apply Hne. exact (shortlisted_key_eq _ _ _ _ l Hk Hl).
  - reflexivity.
  - reflexivity.
Qed.

(** X6 on the sample store: Ann removes Alpha, which she has locked, from
    her shortlist; Alpha is still locked. *)
Lemma X6_remove_keeps_locks_witness :
  let w := Postgres.mkWorld
             (Postgres.mkDb [Sample.ann committed] [Sample.alpha]
                [ShortlistedUniversity.mk "s1" "u1" "a" dream None 0 None]
                [LockedUniversity.mk "l1" "u1" "a" 1 None] [] []) 2 [] [] in
  let r := run Postgres.supabase (Api.removeFromShortlist "u1" "a") w in
  Postgres.is_shortlisted (Postgres.db (final r)) "u1" "a" = false
  /\ Postgres.is_locked (Postgres.db (final r)) "u1" "a" = true.
Proof.
  intros w r.
  destruct (X6_remove_keeps_locks w "u1" "a" eq_refl) as [_ [H1 [_ [H2 _]]]].
  split; [exact H1|]. unfold Postgres.is_locked, r. rewrite H2. reflexivity.
Defined.

Section ShortlistRoundTrip.

Import Postgres.

Lemma has_university_find d (unid : string) :
  has_university d unid = true ->
  exists u, find_university d unid = Some u /\ University.id u = unid
            /\ In u (universities d).
Proof.
  unfold has_university, find_university. intros H.
  apply existsb_exists in H. destruct H as [x [Hx Hid]].
  destruct (find (fun u => String.eqb (University.id u) unid) (universities d)) as [u|] eqn:Hf.
  - apply find_some in Hf. destruct Hf as [Hin E]. apply String.eqb_eq in E. eauto.
  - exfalso. apply (find_none _ _ Hf) in Hx. congruence.
Qed.

(** The tables after a successful insert into the shortlist. *)
Lemma exec_shortlisted_insert (uid unid : string) category notes d t :
  error (fst (exec (shortlisted_insert uid unid category notes) d t)) = None ->
  has_university d unid = true
  /\ is_shortlisted d uid unid = false
  /\ snd (exec (shortlisted_insert uid unid category notes) d t)
     = set_shortlisted d
         (user_shortlisted_universities d
          ++ [ShortlistedUniversity.mk (gen_random_uuid t) uid unid category notes t None])%list.
Proof.
  cbn [exec]. unfold is_shortlisted.
  destruct (has_profile d uid); cbn [negb orb]; [|discriminate].
  destruct (has_university d unid); cbn [negb]; [|discriminate].
  destruct (existsb (shortlisted_key uid unid) (user_shortlisted_universities d));
    cbn [orb]; [discriminate|].
  destruct (existsb _ (user_shortlisted_universities d)); [discriminate|].
  auto.
Qed.

End ShortlistRoundTrip.

(** X7: what [addToShortlist] stores, [getShortlistedUniversities] reads
    back.  After an [addToShortlist] that returned, in a session that
    loses no request, the pair was not shortlisted before, and the user's
    shortlist as read holds a row for the university with the category
    given, the notes given (an empty string as [null]) and the university
    itself embedded. *)
Theorem X7_shortlist_round_trip (w : Postgres.World) (userId universityId : string)
  (category : UniversityCategory) (notes : option string) :
  Postgres.faults w = [] ->
  let added :=
    run Postgres.supabase (Api.addToShortlist userId universityId category notes) w in
  outcome added = Fulfilled tt ->
  Postgres.is_shortlisted (Postgres.db w) userId universityId = false
  /\ exists rows row u,
       outcome (run Postgres.supabase (Api.getShortlistedUniversities userId) (final added))
       = Fulfilled rows
       /\ In row rows
       /\ ShortlistedUniversity.user_id row = userId
       /\ ShortlistedUniversity.university_id row = universityId
       /\ ShortlistedUniversity.category row = category
       /\ ShortlistedUniversity.notes row = Js.or_null notes
       /\ ShortlistedUniversity.university row = Some u
       /\ University.id u = universityId
       /\ In u (Postgres.universities (Postgres.db w)).
Proof.
  intros Hf added. subst added.
  rewrite (addToShortlist_round_trip userId universityId category notes _
             Postgres.supabase w).
  cbn [outcome final].
  set (q := shortlisted_insert userId universityId category (Js.or_null notes)).
  destruct (supabase_quiet q w Hf) as [R [D F]].
  destruct (error (fst (Postgres.supabase q w))) eqn:E; [discriminate|]. intros _.
  rewrite R in E. subst q.
  destruct (exec_shortlisted_insert _ _ _ _ _ _ E) as [Hu [Hfresh Hdb]].
  rewrite Hdb in D. split; [exact Hfresh|].
  destruct (has_university_find _ _ Hu) as [u [Hfind [Hid Hin]]].
  set (w1 := snd (Postgres.supabase _ w)) in *.
  rewrite (getShortlistedUniversities_round_trip userId _ Postgres.supabase w1).
  cbn [outcome].
  destruct (supabase_quiet (shortlisted_select userId) w1 F) as [R1 _].
  rewrite R1. cbn [Postgres.exec Postgres.reply fst error data Api.array_or_empty].
  set (new := ShortlistedUniversity.mk (Postgres.gen_random_uuid (Postgres.clock w)) userId
                universityId category (Js.or_null notes) (Postgres.clock w) None) in *.
  eexists. exists (Postgres.embed_shortlisted (Postgres.db w1) new), u.
  split; [reflexivity|]. split.
  - apply in_map. apply in_order_by, filter_In. split.
    + rewrite D. cbn [Postgres.set_shortlisted Postgres.user_shortlisted_universities].
      apply in_or_app. right. now left.
    + cbn [new ShortlistedUniversity.user_id]. apply String.eqb_refl.
  - cbn [Postgres.embed_shortlisted new ShortlistedUniversity.user_id
         ShortlistedUniversity.university_id ShortlistedUniversity.category
         ShortlistedUniversity.notes ShortlistedUniversity.university].
    repeat (split; [reflexivity|]). split; [|auto].
    rewrite D. exact Hfind.
Qed.

(** X7 on the sample store: Ann shortlists Alpha as a dream school with
    empty notes and reads it back. *)
Lemma X7_shortlist_round_trip_witness :
  let added := run Postgres.supabase (Api.addToShortlist "u1" "a" dream (Some ""))
                   (Sample.world exploring []) in
  exists rows row,
    outcome (run Postgres.supabase (Api.getShortlistedUniversities "u1") (final added))
    = Fulfilled rows
    /\ In row rows
    /\ ShortlistedUniversity.category row = dream
    /\ ShortlistedUniversity.notes row = None
    /\ ShortlistedUniversity.university row = Some Sample.alpha.
Proof.
  intros added.
  destruct (X7_shortlist_round_trip (Sample.world exploring []) "u1" "a" dream (Some "")
              eq_refl eq_refl)
    as [_ [rows [row [u [Hout [Hin [_ [_ [Hc [Hn [Hu [Hid Hstored]]]]]]]]]]]].
  exists rows, row. split; [exact Hout|]. split; [exact Hin|]. split; [exact Hc|].
  split; [exact Hn|]. rewrite Hu. f_equal.
  cbn in Hstored. destruct Hstored as [<-|[<-|[<-|[]]]]; [reflexivity | | ];
    discriminate Hid.
Defined.

Section ProfileWrites.

Import Postgres.

Lemma update_profiles_absent uid updates now rows :
  existsb (fun p => String.eqb (Profile.id p) uid) rows = false ->
  update_profiles uid updates now rows = rows.
Proof.
  unfold update_profiles. induction rows as [|p rows IH]; cbn; [reflexivity|].
  rewrite orb_false_iff. intros [Hp Hr]. now rewrite Hp, IH.
Qed.

Lemma absent_filter uid rows :
  existsb (fun p => String.eqb (Profile.id p) uid) rows = false ->
  filter (fun p => String.eqb (Profile.id p) uid) rows = [].
Proof.
  induction rows as [|p rows IH]; cbn; [reflexivity|].
  rewrite orb_false_iff. intros [Hp Hr]. now rewrite Hp, IH.
Qed.

Lemma set_profiles_same d : set_profiles d (profiles d) = d.
Proof. destruct d; reflexivity. Qed.

Lemma spread_in_range form :
  fits_columns form ->
  forallb assign_in_range
    (OnboardingData.spread form
     ++ [Profile.set_onboarding_completed true; Profile.set_current_stage exploring])%list
  = true.
Proof.
  intros [Hg [Hmin Hmax]].
  cbn [OnboardingData.spread app forallb assign_in_range int4_in_range andb].
  replace (Z.abs (to_numeric2 (OnboardingData.gpa form)) <? 1000)%Z with true
    by (symmetry; apply Z.ltb_lt; exact Hg).
  replace (-2147483648 <=? OnboardingData.budget_min form)%Z with true
    by (symmetry; apply Z.leb_le; lia).
  replace (OnboardingData.budget_min form <=? 2147483647)%Z with true
    by (symmetry; apply Z.leb_le; lia).
  replace (-2147483648 <=? OnboardingData.budget_max form)%Z with true
    by (symmetry; apply Z.leb_le; lia).
  replace (OnboardingData.budget_max form <=? 2147483647)%Z with true
    by (symmetry; apply Z.leb_le; lia).
  reflexivity.
Qed.

Lemma spread_out_of_range form :
  ~ fits_columns form ->
  forallb assign_in_range
    (OnboardingData.spread form
     ++ [Profile.set_onboarding_completed true; Profile.set_current_stage exploring])%list
  = false.
Proof.
  intros Hno. destruct (forallb _ _) eqn:E; [|reflexivity]. exfalso. apply Hno.
  cbn in E. rewrite !andb_true_iff, !Z.leb_le, Z.ltb_lt in E.
  unfold fits_columns. lia.
Qed.

End ProfileWrites.

(** X8: a write to the profile of a user who has no profile row is
    silent.  When its request is not lost, [updateUserStage] returns
    without an error, [completeOnboarding] with a form whose numbers fit
    their columns resolves to [null], and in both cases the tables are as
    they were: nothing tells the caller that no row was written. *)
Theorem X8_profile_write_without_row (w : Postgres.World) (userId : string)
  (stage : UserStage) (form : OnboardingData.t) :
  hd None (Postgres.faults w) = None ->
  Postgres.has_profile (Postgres.db w) userId = false ->
  fits_columns form ->
  (let r := run Postgres.supabase (Api.updateUserStage userId stage) w in
   outcome r = Fulfilled tt /\ Postgres.db (final r) = Postgres.db w)
  /\ (let r := run Postgres.supabase (Api.completeOnboarding userId form) w in
      outcome r = Fulfilled None /\ Postgres.db (final r) = Postgres.db w).
Proof.
  intros Hf Hno Hfit. unfold Postgres.has_profile in Hno. split.
  - intros r. subst r.
    rewrite (updateUserStage_round_trip userId stage _ Postgres.supabase w).
    cbn [outcome final].
    destruct (supabase_no_fault (profiles_update userId [Profile.set_current_stage stage])
                w Hf) as [R D].
    rewrite R, D. cbn [Postgres.exec forallb Postgres.assign_in_range andb
      Postgres.reply fst snd error].
    rewrite (update_profiles_absent _ _ _ _ Hno), set_profiles_same. auto.
  - intros r. subst r.
    rewrite (completeOnboarding_round_trip userId form _ Postgres.supabase w).
    cbn [outcome final].
    match goal with
    | |- context [Postgres.supabase ?q w] =>
        destruct (supabase_no_fault q w Hf) as [R D]
    end.
    rewrite R, D. cbn [Postgres.exec].
    rewrite (spread_in_range form Hfit), (update_profiles_absent _ _ _ _ Hno),
      (absent_filter _ _ Hno).
    cbn [Postgres.maybeSingle Postgres.reply fst snd error data].
    rewrite set_profiles_same. auto.
Qed.

(** X8 on the sample store: there is no profile for "u2". *)
Lemma X8_profile_write_without_row_witness :
  let r := run Postgres.supabase (Api.completeOnboarding "u2" Sample.form)
               (Sample.world exploring []) in
  outcome r = Fulfilled None /\ Postgres.db (final r) = Sample.db exploring.
Proof.
  assert (Hfit : fits_columns Sample.form) by (unfold fits_columns; cbn; lia).
  exact (proj2 (X8_profile_write_without_row (Sample.world exploring []) "u2" committed
                  Sample.form eq_refl eq_refl Hfit)).
Defined.

Section OnboardingWrites.

Import Postgres.

Lemma the_profile_filter d uid p :
  the_profile d uid = Some p ->
  filter (fun p => String.eqb (Profile.id p) uid) (profiles d) = [p].
Proof.
  unfold the_profile.
  destruct (filter _ (profiles d)) as [|p0 [|p1 rest]]; try discriminate.
  now intros [= ->].
Qed.

End OnboardingWrites.

(** X9: what [completeOnboarding] stores, [getProfile] reads back.  For
    a user with a profile row and a form whose numbers fit their columns,
    in a session that loses no request, [completeOnboarding] returns the
    updated row: it holds the values of the form, the GPA as the column
    keeps it, rounded to hundredths (3.555 typed into the form is stored
    and read back as 3.56); it has [onboarding_completed] set and the
    stage [exploring], keeps its id, email, role and creation time, and
    carries the time of the update; [getProfile] then returns the same
    row. *)
Theorem X9_completeOnboarding_round_trip (w : Postgres.World) (userId : string)
  (form : OnboardingData.t) (p : Profile.t) :
  Postgres.faults w = [] ->
  the_profile (Postgres.db w) userId = Some p ->
  fits_columns form ->
  let r := run Postgres.supabase (Api.completeOnboarding userId form) w in
  exists p',
    outcome r = Fulfilled (Some p')
    /\ outcome (run Postgres.supabase (Api.getProfile userId) (final r))
       = Fulfilled (Some p')
    /\ p' = Profile.mk (Profile.id p) (Profile.email p) (Profile.role p)
              (Some (OnboardingData.full_name form)) exploring true
              (Some (OnboardingData.current_education_level form))
              (Some (OnboardingData.field_of_study form))
              (Some (to_numeric2 (OnboardingData.gpa form)))
              (OnboardingData.test_scores form)
              (Some (OnboardingData.target_degree form))
              (OnboardingData.preferred_countries form)
              (OnboardingData.preferred_fields form)
              (Some (OnboardingData.budget_min form))
              (Some (OnboardingData.budget_max form))
              (OnboardingData.exams_taken form)
              (OnboardingData.exams_planned form)
              (Profile.created_at p) (Postgres.clock w).
Proof.
  intros Hf Hp Hfit r. subst r. apply the_profile_filter in Hp.
  rewrite (completeOnboarding_round_trip userId form _ Postgres.supabase w).
  cbn [outcome final].
  match goal with
  | |- context [Postgres.supabase ?q w] => destruct (supabase_quiet q w Hf) as [R [D F]]
  end.
  rewrite R. cbn [Postgres.exec].
  rewrite (spread_in_range form Hfit), filter_update_profiles, Hp.
  cbn [map Postgres.maybeSingle Postgres.reply fst snd error data].
  eexists. split; [reflexivity|]. split; [|reflexivity].
  match goal with
  | |- context [run Postgres.supabase _ ?w1] =>
      rewrite (getProfile_round_trip userId _ Postgres.supabase w1);
      destruct (supabase_quiet (profiles_select userId) w1 F) as [R1 _];
      cbn [outcome]; rewrite R1, D
  end.
  cbn [Postgres.exec].
  rewrite (spread_in_range form Hfit), filter_update_profiles, Hp.
  cbn [map Postgres.maybeSingle Postgres.reply fst snd error data Postgres.set_profiles
       Postgres.profiles].
  rewrite filter_update_profiles, Hp. reflexivity.
Qed.

(** X9 on the sample store: Ann, not yet started, completes onboarding
    with a GPA of 3.555; the row holds 3.56. *)
Lemma X9_completeOnboarding_round_trip_witness :
  let form := OnboardingData.mk "Ann" "Bachelor" "Physics" (Js.mkNumber 3555 3) []
                "Master" ["Germany"] ["Physics"] 1000%Z 40000%Z ["GRE"] ["TOEFL"] in
  let r := run Postgres.supabase (Api.completeOnboarding "u1" form)
               (Sample.world not_started []) in
  exists p',
    outcome r = Fulfilled (Some p')
    /\ Profile.current_stage p' = exploring
    /\ Profile.gpa p' = Some 356%Z
    /\ Profile.email p' = Some "ann@example.org".
Proof.
  intros form r.
  assert (Hfit : fits_columns form) by (unfold fits_columns; vm_compute; repeat split; congruence).
  destruct (X9_completeOnboarding_round_trip (Sample.world not_started []) "u1"
              form (Sample.ann not_started) eq_refl eq_refl Hfit)
    as [p' [Hout [_ Hp']]].
  exists p'. split; [exact Hout|]. rewrite Hp'. vm_compute. auto.
Defined.

(** X10: a form whose numbers do not fit their columns (a GPA of 10.00
    or more in absolute value, a budget outside 32 bits) makes
    [completeOnboarding] throw, when its request is not lost, and nothing
    is stored: the profile keeps its stage and stays without the form's
    other values as well. *)
Theorem X10_completeOnboarding_out_of_range (w : Postgres.World) (userId : string)
  (form : OnboardingData.t) :
  hd None (Postgres.faults w) = None ->
  ~ fits_columns form ->
  let r := run Postgres.supabase (Api.completeOnboarding userId form) w in
  (exists e, outcome r = Rejected (DbError e))
  /\ Postgres.db (final r) = Postgres.db w.
Proof.
  intros Hf Hno r. subst r.
  rewrite (completeOnboarding_round_trip userId form _ Postgres.supabase w).
  cbn [outcome final].
  match goal with
  | |- context [Postgres.supabase ?q w] => destruct (supabase_no_fault q w Hf) as [R D]
  end.
  rewrite R, D. cbn [Postgres.exec].
  rewrite (spread_out_of_range form Hno). cbn [Postgres.reply fst snd error].
  eauto.
Qed.

(** X10 on the sample store: a GPA of 35 (typed for 3.5) is rejected. *)
Lemma X10_completeOnboarding_out_of_range_witness :
  let form := OnboardingData.mk "Ann" "Bachelor" "Physics" (Js.mkNumber 35 0) [] "Master"
                [] [] 0%Z 0%Z [] [] in
  let r := run Postgres.supabase (Api.completeOnboarding "u1" form)
               (Sample.world not_started []) in
  (exists e, outcome r = Rejected (DbError e))
  /\ Postgres.stored_stage (Postgres.db (final r)) "u1" = Some not_started.
Proof.
  intros form r.
  assert (Hno : ~ fits_columns form).
  { unfold fits_columns, form. intros [H _]. vm_compute in H. discriminate H. }
  destruct (X10_completeOnboarding_out_of_range (Sample.world not_started []) "u1" form
              eq_refl Hno) as [H1 H2].
  split; [exact H1|]. unfold r. rewrite H2. reflexivity.
Defined.

(* ================================================================== *)
(** * Tasks                                                            *)
(* ================================================================== *)

(** X11: [createTask], when its request is not lost, either stores
    exactly one new row and returns it, or throws and stores nothing.
    The row belongs to the user, is not completed, holds [null] where the
    description, the university or the due date was absent or empty, and
    has the priority ["medium"] when none was given; a university it names
    is a stored one, since naming another makes the call throw. *)
Theorem X11_createTask_row (w : Postgres.World) (userId : string) (task : TaskInput.t) :
  hd None (Postgres.faults w) = None ->
  let r := run Postgres.supabase (Api.createTask userId task) w in
  match outcome r with
  | Fulfilled (Some row) =>
      row = new_task_row userId task (Postgres.gen_random_uuid (Postgres.clock w))
              (Postgres.clock w)
      /\ Postgres.tasks (Postgres.db (final r)) = (Postgres.tasks (Postgres.db w) ++ [row])%list
      /\ (forall unid, Task.university_id row = Some unid ->
                       Postgres.has_university (Postgres.db w) unid = true)
  | Fulfilled None => False
  | Rejected _ => Postgres.db (final r) = Postgres.db w
  end.
Proof.
  intros Hf r. subst r.
  rewrite (createTask_round_trip userId task _ Postgres.supabase w). cbn [outcome final].
  destruct (supabase_no_fault (task_request userId task) w Hf) as [R D].
  rewrite R, D. unfold task_request. cbn [Postgres.exec].
  destruct (Postgres.has_profile (Postgres.db w) userId); cbn [negb orb];
    [|reflexivity].
  destruct (Postgres.task_fk_ok (Postgres.db w) _) eqn:Hfk; cbn [negb];
    [|reflexivity].
  destruct (existsb _ (Postgres.tasks (Postgres.db w)));
    cbn [Postgres.reply fst snd error data]; [reflexivity|].
  split; [reflexivity|]. split; [reflexivity|].
  intros unid Hu. unfold Postgres.task_fk_ok in Hfk.
  cbn [Task.university_id] in Hfk, Hu. now rewrite Hu in Hfk.
Qed.

(** X11 on the sample store: a task for Alpha with an empty description
    and no priority. *)
Lemma X11_createTask_row_witness :
  let task := TaskInput.mk "Essay" (Some "") (Some "a") None None in
  let r := run Postgres.supabase (Api.createTask "u1" task) (Sample.world committed []) in
  exists row,
    outcome r = Fulfilled (Some row)
    /\ Task.description row = None
    /\ Task.priority row = "medium"
    /\ Task.completed row = false.
Proof.
  intros task r.
  pose proof (X11_createTask_row (Sample.world committed []) "u1" task eq_refl) as H.
  cbv zeta in H. fold r in H.
  destruct (outcome r) as [[row|]|e] eqn:E; [| contradiction | vm_compute in E; discriminate E].
  destruct H as [Hrow _]. exists row. split; [reflexivity|]. rewrite Hrow. cbn. auto.
Defined.

Section TaskWrites.

Import Postgres.

Lemma task_apply_completed completed now k :
  Task.touch now (Task.apply [Task.set_completed completed] k)
  = Task.mk (Task.id k) (Task.user_id k) (Task.university_id k) (Task.title k)
      (Task.description k) completed (Task.due_date k) (Task.priority k)
      (Task.created_at k) now (Task.university k).
Proof. reflexivity. Qed.

Lemma toggled_fk_ok d (taskId : string) completed now rows :
  forallb (task_fk_ok d) rows = true ->
  forallb (task_fk_ok d)
    (map (fun k => if String.eqb (Task.id k) taskId
                   then Task.touch now (Task.apply [Task.set_completed completed] k)
                   else k) rows) = true.
Proof.
  induction rows as [|k rows IH]; cbn [map forallb]; [reflexivity|].
  rewrite !andb_true_iff. intros [Hk Hr]. split; [|now apply IH].
  destruct (String.eqb (Task.id k) taskId); exact Hk.
Qed.

End TaskWrites.

(** X12: [toggleTaskCompletion], when its request is not lost and the
    stored tasks name stored universities, returns without an error and
    rewrites exactly the tasks with the given id: they get the completion
    flag given and the time of the update, and keep everything else; every
    other task is left as it is, and the list keeps its length and order.
    With an id that no task has, it still returns without an error. *)
Theorem X12_toggleTaskCompletion (w : Postgres.World) (taskId : string) (completed : bool) :
  hd None (Postgres.faults w) = None ->
  tasks_refer (Postgres.db w) ->
  let r := run Postgres.supabase (Api.toggleTaskCompletion taskId completed) w in
  outcome r = Fulfilled tt
  /\ Postgres.tasks (Postgres.db (final r))
     = map (fun k => if String.eqb (Task.id k) taskId
                     then Task.mk (Task.id k) (Task.user_id k) (Task.university_id k)
                            (Task.title k) (Task.description k) completed
                            (Task.due_date k) (Task.priority k) (Task.created_at k)
                            (Postgres.clock w) (Task.university k)
                     else k)
           (Postgres.tasks (Postgres.db w))
  /\ (forall k, In k (Postgres.tasks (Postgres.db (final r))) -> Task.id k = taskId ->
                Task.completed k = completed)
  /\ (forall k, Task.id k <> taskId ->
                (In k (Postgres.tasks (Postgres.db (final r)))
                 <-> In k (Postgres.tasks (Postgres.db w)))).
Proof.
  intros Hf Hfk r. subst r.
  rewrite (toggleTaskCompletion_round_trip taskId completed _ Postgres.supabase w).
  cbn [outcome final].
  destruct (supabase_no_fault (tasks_update taskId [Task.set_completed completed]) w Hf)
    as [R D].
  rewrite R, D. cbn [Postgres.exec].
  rewrite (toggled_fk_ok _ taskId completed (Postgres.clock w) _ Hfk).
  cbn [Postgres.reply fst snd error Postgres.set_tasks Postgres.tasks].
  split; [reflexivity|]. split; [reflexivity|]. split.
  - intros k Hin Hid. apply in_map_iff in Hin. destruct Hin as [k0 [E Hin]].
    destruct (String.eqb (Task.id k0) taskId) eqn:Hk0.
    + subst k. reflexivity.
    + subst k0. apply String.eqb_neq in Hk0. contradiction.
  - intros k Hne. rewrite in_map_iff. split.
    + intros [k0 [E Hin]].
      destruct (String.eqb_spec (Task.id k0) taskId) as [Hk0|Hk0].
      * subst k. cbn in Hne. contradiction.
      * now subst k0.
    + intros Hin. exists k. split; [|exact Hin].
      apply String.eqb_neq in Hne. now rewrite Hne.
Qed.

(** X12 on a store with two tasks of Ann: the first is completed, the
    second is left alone. *)
Lemma X12_toggleTaskCompletion_witness :
  let t1 := Task.mk "t1" "u1" None "Essay" None false None "high" 1 1 None in
  let t2 := Task.mk "t2" "u1" (Some "a") "Forms" None false None "medium" 2 2 None in
  let w := Postgres.mkWorld
             (Postgres.mkDb [Sample.ann applying] [Sample.alpha] [] [] [t1; t2] []) 3 [] [] in
  let r := run Postgres.supabase (Api.toggleTaskCompletion "t1" true) w in
  outcome r = Fulfilled tt /\ In t2 (Postgres.tasks (Postgres.db (final r))).
Proof.
  intros t1 t2 w r.
  destruct (X12_toggleTaskCompletion w "t1" true eq_refl eq_refl) as [H1 [_ [_ H2]]].
  split; [exact H1|]. apply (H2 t2); [discriminate|]. cbn. auto.
Defined.

(** X13: [deleteTask], when its request is not lost, returns without an
    error, removes the tasks with the given id and keeps every other task;
    with an id that no task has the tables are as they were. *)
Theorem X13_deleteTask (w : Postgres.World) (taskId : string) :
  hd None (Postgres.faults w) = None ->
  let r := run Postgres.supabase (Api.deleteTask taskId) w in
  outcome r = Fulfilled tt
  /\ (forall k, In k (Postgres.tasks (Postgres.db (final r)))
                <-> In k (Postgres.tasks (Postgres.db w)) /\ Task.id k <> taskId)
  /\ ((forall k, In k (Postgres.tasks (Postgres.db w)) -> Task.id k <> taskId) ->
      Postgres.db (final r) = Postgres.db w).
Proof.
  intros Hf r. subst r.
  rewrite (deleteTask_round_trip taskId _ Postgres.supabase w). cbn [outcome final].
  destruct (supabase_no_fault (tasks_delete taskId) w Hf) as [R D].
  rewrite R, D. cbn [Postgres.exec Postgres.reply fst snd error Postgres.set_tasks
    Postgres.tasks].
  split; [reflexivity|]. split.
  - intros k. rewrite filter_In, negb_true_iff, String.eqb_neq. tauto.
  - intros Hnone.
    assert (E : filter (fun k => negb (String.eqb (Task.id k) taskId))
                  (Postgres.tasks (Postgres.db w))
                = Postgres.tasks (Postgres.db w)).
    { induction (Postgres.tasks (Postgres.db w)) as [|k l IH]; cbn; [reflexivity|].
      assert (Hk : Task.id k <> taskId) by (apply Hnone; now left).
      apply String.eqb_neq in Hk. rewrite Hk. cbn. f_equal. apply IH.
      intros k0 Hk0. apply Hnone. now right. }
    rewrite E. destruct (Postgres.db w); reflexivity.
Qed.

(** X13 on a store with one task: deleting another id changes nothing. *)
Lemma X13_deleteTask_witness :
  let t1 := Task.mk "t1" "u1" None "Essay" None false None "high" 1 1 None in
  let w := Postgres.mkWorld
             (Postgres.mkDb [Sample.ann applying] [Sample.alpha] [] [] [t1] []) 3 [] [] in
  let r := run Postgres.supabase (Api.deleteTask "t9") w in
  outcome r = Fulfilled tt /\ Postgres.db (final r) = Postgres.db w.
Proof.
  intros t1 w r.
  destruct (X13_deleteTask w "t9" eq_refl) as [H1 [_ H2]].
  split; [exact H1|]. apply H2. intros k [<-|[]]. discriminate.
Defined.

Section TaskReads.

Import Postgres.

Lemma by_due_date_total a b : by_due_date a b = false -> by_due_date b a = true.
Proof.
  unfold by_due_date.
  destruct (Task.due_date a) as [x|], (Task.due_date b) as [y|]; try congruence.
  - rewrite (String.compare_antisym y x).
    destruct (String.compare x y) eqn:E; cbn [CompOpp]; try congruence.
    intros H. apply Nat.leb_le. apply Nat.leb_gt in H. lia.
  - intros H. apply Nat.leb_le. apply Nat.leb_gt in H. lia.
Qed.

(** Where [ORDER BY due_date NULLS LAST] puts the tasks without a date. *)
Lemma by_due_date_dated_first a b : by_due_date a b = true -> dated_first a b.
Proof.
  unfold by_due_date, dated_first. intros H Ha. rewrite Ha in H.
  destruct (Task.due_date b); [discriminate | reflexivity].
Qed.

Lemma insert_by_dated_first x l :
  StronglySorted dated_first l -> StronglySorted dated_first (insert_by by_due_date x l).
Proof.
  induction l as [|y l IH]; intros Hs; cbn [insert_by].
  - repeat constructor.
  - apply StronglySorted_inv in Hs. destruct Hs as [Hl Hy].
    destruct (by_due_date x y) eqn:Hxy.
    + constructor; [constructor; assumption|].
      constructor; [now apply by_due_date_dated_first|].
      rewrite Forall_forall in *. intros z Hz Hx.
      apply (Hy z Hz). now apply (by_due_date_dated_first x y).
    + constructor; [now apply IH|].
      rewrite Forall_forall in *. intros z Hz. apply in_insert_by in Hz.
      destruct Hz as [->|Hz]; [|now apply Hy].
      apply by_due_date_dated_first. now apply by_due_date_total.
Qed.

Lemma order_by_dated_first l : StronglySorted dated_first (order_by by_due_date l).
Proof.
  unfold order_by. induction l as [|x l IH]; cbn [fold_right]; [constructor|].
  now apply insert_by_dated_first.
Qed.

End TaskReads.

(** X14: [getTasks], when its request is not lost, returns the user's
    stored tasks and no others, each once per stored row, with the tasks
    that have a due date before those that have none, and each with the
    university it names embedded. *)
Theorem X14_getTasks_dated_first (userId : string) (w : Postgres.World) :
  hd None (Postgres.faults w) = None ->
  exists rows,
    outcome (run Postgres.supabase (Api.getTasks userId) w) = Fulfilled rows
    /\ List.length rows
       = List.length (filter (fun k => String.eqb (Task.user_id k) userId)
                        (Postgres.tasks (Postgres.db w)))
    /\ (forall row, In row rows <->
          exists k, In k (Postgres.tasks (Postgres.db w))
                    /\ Task.user_id k = userId
                    /\ row = Postgres.embed_task (Postgres.db w) k)
    /\ StronglySorted dated_first rows.
Proof.
  intros Hf.
  rewrite (getTasks_round_trip userId _ Postgres.supabase w). cbn [outcome].
  destruct (supabase_no_fault (tasks_select userId) w Hf) as [R _].
  rewrite R. cbn [Postgres.exec Postgres.reply fst error data Api.array_or_empty].
  eexists. split; [reflexivity|]. split; [|split].
  - now rewrite length_map, order_by_length.
  - intros row. rewrite in_map_iff. split.
    + intros [k [E Hk]]. apply in_order_by, filter_In in Hk. destruct Hk as [Hk Hu].
      apply String.eqb_eq in Hu. eauto.
    + intros [k [Hk [Hu E]]]. exists k. split; [now symmetry|].
      apply in_order_by, filter_In. split; [exact Hk|]. now apply String.eqb_eq.
  - apply StronglySorted_map.
    apply (StronglySorted_weaken dated_first); [|apply order_by_dated_first].
    intros a b H. exact H.
Qed.

(** X14 on a store with an undated and a dated task of Ann: both are
    returned, the dated one not after the undated one. *)
Lemma X14_getTasks_dated_first_witness :
  let t1 := Task.mk "t1" "u1" None "Essay" None false None "high" 1 1 None in
  let t2 := Task.mk "t2" "u1" (Some "a") "Forms" None false (Some "2026-12-01") "medium"
              2 2 None in
  let w := Postgres.mkWorld
             (Postgres.mkDb [Sample.ann applying] [Sample.alpha] [] [] [t1; t2] []) 3 [] [] in
  exists rows,
    outcome (run Postgres.supabase (Api.getTasks "u1") w) = Fulfilled rows
    /\ List.length rows = 2
    /\ StronglySorted dated_first rows.
Proof.
  intros t1 t2 w.
  destruct (X14_getTasks_dated_first "u1" w eq_refl) as [rows [Hout [Hlen [_ Hs]]]].
  exists rows. split; [exact Hout|]. split; [exact Hlen | exact Hs].
Defined.

(* ================================================================== *)
(** * The counsellor page                                              *)
(* ================================================================== *)

Section CounsellorPageWrites.

Import Postgres.

Context (userId : string) (w0 : World).

Lemma chat_page_request_keeps q w :
  chat_page_request userId q = true ->
  only_chat_appended userId w0 w -> only_chat_appended userId w0 (snd (supabase q w)).
Proof.
  intros Hq H. unfold only_chat_appended in *.
  destruct (supabase_db q w) as [E|E]; rewrite E; [exact H|].
  unfold chat_page_request in Hq. apply orb_true_iff in Hq. destruct Hq as [Hq|Hq].
  - now rewrite (exec_read_tables q _ _ Hq).
  - destruct q; try discriminate. apply String.eqb_eq in Hq. subst userId0.
    destruct H as [Ho [new [Hc Hn]]]. cbn [exec]. break_exec; try (split; eauto).
    exists (new ++ [ChatMessage.mk (gen_random_uuid (clock w)) userId role content metadata
                      (clock w)])%list.
    split; [now rewrite Hc, app_assoc|].
    apply Forall_app. split; [exact Hn|]. repeat constructor.
Qed.

Lemma only_chat_appended_refl : only_chat_appended userId w0 w0.
Proof. split; [reflexivity|]. exists []. split; [now rewrite app_nil_r | constructor]. Qed.

Local Ltac page_leaf lemma :=
  apply hkeeps_lift; eapply keeps_round_trip;
  [ apply lemma
  | intros w Hw; apply chat_page_request_keeps;
    [ cbn; rewrite ?String.eqb_refl; reflexivity | exact Hw ] ].

Lemma generateAIResponse_keeps_chat userMessage uid :
  keeps (only_chat_appended userId w0) (Counsellor.generateAIResponse userMessage uid).
Proof.
  intros w Hw.
  apply (all_calls_invariant (fun q => is_read q = true)
           (only_chat_appended userId w0)); [| apply generateAIResponse_reads | exact Hw].
  intros q w1 Hq. apply chat_page_request_keeps. unfold chat_page_request.
  now rewrite Hq.
Qed.

Context (ctx : Auth.t) (Hctx : Auth.user ctx = Some userId).

Lemma loadMessages_keeps :
  hkeeps (only_chat_appended userId w0) (CounsellorPage.loadMessages ctx).
Proof.
  unfold CounsellorPage.loadMessages. rewrite Hctx.
  apply hkeeps_hfinally; [|apply hkeeps_modify].
  apply hkeeps_htry; [|intros; apply hkeeps_hret].
  apply hkeeps_hbind; [page_leaf getChatMessages_round_trip|]. intros msgs.
  apply hkeeps_hbind; [apply hkeeps_modify|]. intros _.
  destruct (List.length msgs =? 0)%nat; [|apply hkeeps_hret].
  apply hkeeps_hbind; [page_leaf createChatMessage_round_trip|].
  intros [m|]; [apply hkeeps_modify | apply hkeeps_hret].
Qed.

Lemma handleSend_keeps input :
  hkeeps (only_chat_appended userId w0) (CounsellorPage.handleSend ctx input).
Proof.
  unfold CounsellorPage.handleSend. rewrite Hctx.
  destruct (Js.truthy_string (Js.trim input)); [|apply hkeeps_hret].
  apply hkeeps_hbind; [apply hkeeps_modify|]. intros _.
  apply hkeeps_hbind; [apply hkeeps_modify|]. intros _.
  apply hkeeps_hfinally; [|apply hkeeps_modify].
  apply hkeeps_htry; [|intros; apply hkeeps_hret].
  apply hkeeps_hbind; [page_leaf createChatMessage_round_trip|]. intros userMsg.
  apply hkeeps_hbind;
    [destruct userMsg; [apply hkeeps_modify | apply hkeeps_hret]|]. intros _.
  apply hkeeps_hbind; [apply hkeeps_lift, generateAIResponse_keeps_chat|].
  intros aiResponse.
  apply hkeeps_hbind; [page_leaf createChatMessage_round_trip|].
  intros [m|]; [apply hkeeps_modify | apply hkeeps_hret].
Qed.

End CounsellorPageWrites.

(** X15: the counsellor page writes nothing but chat messages.  Whatever
    the answers of the service, loading the page, sending a message and
    pressing a key leave the profiles, the universities, the shortlist,
    the locked universities and the tasks as they were, and change the
    stored messages only by appending messages of the signed-in user: the
    counsellor's replies offer to shortlist universities or create tasks,
    but the page never does. *)
Theorem X15_counsellor_page_writes (ctx : Auth.t) (userId input key : string)
  (shiftKey : bool) (u : Auth.t * CounsellorPage.State) (w : Postgres.World) :
  Auth.user ctx = Some userId ->
  only_chat_appended userId w
    (snd (hrun Postgres.supabase (CounsellorPage.loadMessages ctx) u w))
  /\ only_chat_appended userId w
       (snd (hrun Postgres.supabase (CounsellorPage.handleSend ctx input) u w))
  /\ only_chat_appended userId w
       (snd (hrun Postgres.supabase
               (CounsellorPage.handleKeyPress ctx input key shiftKey) u w)).
Proof.
  intros Hctx. unfold hrun. cbn [snd]. split; [|split].
  - apply (loadMessages_keeps userId w ctx Hctx u w), only_chat_appended_refl.
  - apply (handleSend_keeps userId w ctx Hctx input u w), only_chat_appended_refl.
  - unfold CounsellorPage.handleKeyPress.
    destruct (String.eqb key "Enter" && negb shiftKey).
    + apply (handleSend_keeps userId w ctx Hctx input u w), only_chat_appended_refl.
    + apply only_chat_appended_refl.
Qed.

(** X15 on the sample store: Ann asks for recommendations; her shortlist
    is still empty. *)
Lemma X15_counsellor_page_writes_witness :
  let done := hrun Postgres.supabase
                (CounsellorPage.handleSend (Sample.signed_in exploring)
                   "please recommend universities")
                (Sample.signed_in exploring, CounsellorPage.initial)
                (Sample.world exploring []) in
  Postgres.user_shortlisted_universities (Postgres.db (snd done)) = []
  /\ Postgres.tasks (Postgres.db (snd done)) = [].
Proof.
  intros done.
  destruct (X15_counsellor_page_writes (Sample.signed_in exploring) "u1"
              "please recommend universities" "Enter" false
              (Sample.signed_in exploring, CounsellorPage.initial)
              (Sample.world exploring []) eq_refl) as [_ [[H _] _]].
  fold done in H. unfold other_tables in H.
  split.
  - exact (f_equal (fun t => snd (fst (fst t))) H).
  - exact (f_equal (fun t => snd t) H).
Defined.

Section CounsellorPageState.

Import Postgres.

(** No request removes or rewrites a stored message. *)
Lemma chat_kept q w x :
  In x (chat_messages (db w)) -> In x (chat_messages (db (snd (supabase q w)))).
Proof.
  intros H. destruct (supabase_db q w) as [E|E]; rewrite E; [exact H|].
  destruct q; cbn [exec]; break_exec; try exact H.
  apply in_or_app. now left.
Qed.

Lemma shown_stored_kept {A} st (p : Prog A) : keeps (shown_stored st) p.
Proof.
  intros w Hw. apply (run_invariant (shown_stored st)); [|exact Hw].
  intros q w1 H m Hm. apply chat_kept. now apply H.
Qed.

(** What [createChatMessage] returns is the stored row. *)
Lemma createChatMessage_stored uid role content w :
  let r := run supabase (Api.createChatMessage uid role content None) w in
  match outcome r with
  | Fulfilled (Some m) =>
      message_by uid role m /\ ChatMessage.content m = content
      /\ In m (chat_messages (db (final r)))
  | Fulfilled None => False
  | Rejected _ => True
  end.
Proof.
  cbv zeta. rewrite (createChatMessage_round_trip uid role content None _ supabase w).
  cbn [outcome final]. unfold chat_request.
  destruct (supabase_cases (chat_insert_returning uid role content "{}") w)
    as [[e [_ H]] | [_ H]]; rewrite H; cbn [fst snd error data db]; [exact I|].
  cbn [exec]. break_exec; cbn [fst snd reply error data]; try exact I.
  split; [split; reflexivity|]. split; [reflexivity|].
  cbn [set_chat_messages chat_messages]. apply in_or_app. right. now left.
Qed.

Context (userId : string) (ctx : Auth.t) (Hctx : Auth.user ctx = Some userId).
Context (text : string) (shown : list ChatMessage.t) (initialLoading : bool).
Context (all_stored : Prop).

(** While [handleSend] runs: the input is cleared, the messages shown
    are those at the start followed by [new], and all are stored if those
    at the start were ([all_stored]). *)
Local Abbreviation sending K :=
  (fun (u : Auth.t * CounsellorPage.State) (w : World) =>
     CounsellorPage.input (snd u) = ""
     /\ CounsellorPage.initialLoading (snd u) = initialLoading
     /\ (exists new, CounsellorPage.messages (snd u) = (shown ++ new)%list /\ K new)
     /\ (all_stored -> shown_stored (snd u) w)).

Lemma sending_run {A} (K : list ChatMessage.t -> Prop) (p : Prog A) u w :
  sending K u w -> sending K u (final (run supabase p w)).
Proof.
  intros [Hi [Hl [Hn Hs]]].
  split; [exact Hi|]. split; [exact Hl|]. split; [exact Hn|].
  intros Hall. now apply shown_stored_kept, Hs.
Qed.

Lemma sending_append (K K' : list ChatMessage.t -> Prop) m :
  (forall new, K new -> K' (new ++ [m])%list) ->
  hhoare (fun u w => sending K u w /\ In m (chat_messages (db w)))
         (modify (CounsellorPage.setMessages (fun prev => prev ++ [m])%list))
         (fun _ => sending K').
Proof.
  intros HK. apply hhoare_modify. intros u w [[Hi [Hl [[new [Hm Hn]] Hs]]] Hin].
  cbn [CounsellorPage.setMessages snd CounsellorPage.input CounsellorPage.initialLoading
       CounsellorPage.messages].
  split; [exact Hi|]. split; [exact Hl|]. split.
  - exists (new ++ [m])%list. split; [now rewrite Hm, app_assoc | now apply HK].
  - intros Hall x Hx. cbn [CounsellorPage.messages] in Hx. apply in_app_or in Hx.
    destruct Hx as [Hx|[<-|[]]]; [now apply (Hs Hall) | exact Hin].
Qed.

(** The [try] block of [handleSend]. *)
Lemma send_body :
  hhoare (sending (fun new => new = []))
    (userMsg <~ lift (Api.createChatMessage userId chat_user text None) ;;
     match userMsg with
     | Some m => modify (CounsellorPage.setMessages (fun prev => prev ++ [m])%list)
     | None => hret tt
     end ~;;
     aiResponse <~ lift (Counsellor.generateAIResponse text userId) ;;
     aiMsg <~ lift (Api.createChatMessage userId chat_assistant aiResponse None) ;;
     match aiMsg with
     | Some m => modify (CounsellorPage.setMessages (fun prev => prev ++ [m])%list)
     | None => hret tt
     end)
    (fun _ => sending (sent_rows userId text)).
Proof.
  apply (hhoare_hbind _ _ _
           (fun o u w =>
              sending (fun new => new = []) u w
              /\ match o with
                 | Fulfilled (Some m) =>
                     message_by userId chat_user m /\ ChatMessage.content m = text
                     /\ In m (chat_messages (db w))
                 | Fulfilled None => False
                 | Rejected _ => True
                 end)).
  - apply hhoare_lift. intros u w H. split.
    + now apply (sending_run (fun new => new = [])).
    + apply createChatMessage_stored.
  - intros [mu|]; [|intros u w [_ []]].
    apply (hhoare_hbind _ _ _
             (fun _ u w => sending (fun new => new = [mu]) u w
                           /\ message_by userId chat_user mu
                           /\ ChatMessage.content mu = text)).
    + intros u w [H [Hby [Hc Hin]]]. split; [|now split].
      apply (sending_append (fun new => new = []) (fun new => new = [mu]) mu);
        [now intros new -> | now split].
    + intros _.
      apply (hhoare_hbind _ _ _
               (fun _ u w => sending (fun new => new = [mu]) u w
                             /\ message_by userId chat_user mu
                             /\ ChatMessage.content mu = text)).
      * apply hhoare_lift. intros u w [H Hmu]. split; [|exact Hmu].
        now apply (sending_run (fun new => new = [mu])).
      * intros aiResponse.
        apply (hhoare_hbind _ _ _
                 (fun o u w =>
                    (sending (fun new => new = [mu]) u w
                     /\ message_by userId chat_user mu /\ ChatMessage.content mu = text)
                    /\ match o with
                       | Fulfilled (Some m) =>
                           message_by userId chat_assistant m
                           /\ In m (chat_messages (db w))
                       | Fulfilled None => False
                       | Rejected _ => True
                       end)).
        -- apply hhoare_lift. intros u w [H Hmu]. split.
           ++ split; [|exact Hmu].
              now apply (sending_run (fun new => new = [mu])).
           ++ pose proof (createChatMessage_stored userId chat_assistant aiResponse w)
                as Hst. cbv zeta in Hst.
              destruct (outcome _) as [[m|]|e]; tauto.
        -- intros [ma|]; [|intros u w [_ []]].
           intros u w [[H [Hby Hc]] [Hma Hin]].
           apply (sending_append (fun new => new = [mu]) (sent_rows userId text) ma);
             [|now split].
           intros new ->. right. exists mu. split; [exact Hby|]. split; [exact Hc|].
           right. exists ma. now split.
        -- intros e u w [[[Hi [Hl [[new [Hm ->]] Hs]]] [Hby Hc]] _].
           split; [exact Hi|]. split; [exact Hl|]. split; [|exact Hs].
           exists [mu]. split; [exact Hm|]. right. exists mu. auto.
      * intros e u w [[Hi [Hl [[new [Hm ->]] Hs]]] [Hby Hc]].
        split; [exact Hi|]. split; [exact Hl|]. split; [|exact Hs].
        exists [mu]. split; [exact Hm|]. right. exists mu. auto.
    + intros e u w [[Hi [Hl [[new [Hm ->]] Hs]]] [Hby Hc]].
      split; [exact Hi|]. split; [exact Hl|]. split; [|exact Hs].
      exists [mu]. split; [exact Hm|]. right. exists mu. auto.
  - intros e u w [[Hi [Hl [[new [Hm ->]] Hs]]] _].
    split; [exact Hi|]. split; [exact Hl|]. split; [|exact Hs].
    exists []. split; [exact Hm|]. now left.
Qed.

End CounsellorPageState.

(** X16: what [handleSend] does to the page.  It never rejects.  With an
    input that is empty or nothing but white space (the white space of
    JavaScript, outside ASCII as well) it sends nothing and changes
    nothing.  Otherwise, however the requests fail, it ends with the
    input cleared and the loading flag off; the messages shown before are
    still shown, in order, followed by nothing, by the user's message (the
    trimmed input), or by the user's message and then one of the
    assistant.  And if every message shown before was a stored one, so is
    every message shown after. *)
Theorem X16_handleSend_messages (ctx : Auth.t) (userId input : string)
  (u : Auth.t * CounsellorPage.State) (w : Postgres.World) :
  Auth.user ctx = Some userId ->
  let r := hrun Postgres.supabase (CounsellorPage.handleSend ctx input) u w in
  let st := snd (snd (fst r)) in
  fst (fst r) = Fulfilled tt
  /\ CounsellorPage.initialLoading st = CounsellorPage.initialLoading (snd u)
  /\ (if Js.truthy_string (Js.trim input)
      then CounsellorPage.loading st = false
           /\ CounsellorPage.input st = EmptyString
           /\ exists new,
                CounsellorPage.messages st = (CounsellorPage.messages (snd u) ++ new)%list
                /\ sent_rows userId (Js.trim input) new
      else snd (fst r) = u /\ snd r = w)
  /\ (shown_stored (snd u) w -> shown_stored st (snd r)).
Proof.
  intros Hctx r st. subst st r.
  unfold CounsellorPage.handleSend. rewrite Hctx.
  destruct (Js.truthy_string (Js.trim input)).
  2:{ rewrite hrun_hret. cbn [fst snd]. auto. }
  set (text := Js.trim input).
  set (shown := CounsellorPage.messages (snd u)).
  set (il := CounsellorPage.initialLoading (snd u)).
  set (all_stored := shown_stored (snd u) w).
  set (sending := fun (K : list ChatMessage.t -> Prop)
                      (u' : Auth.t * CounsellorPage.State) (w' : Postgres.World) =>
     CounsellorPage.input (snd u') = EmptyString
     /\ CounsellorPage.initialLoading (snd u') = il
     /\ (exists new, CounsellorPage.messages (snd u') = (shown ++ new)%list /\ K new)
     /\ (all_stored -> shown_stored (snd u') w')).
  match goal with
  | |- context [hrun Postgres.supabase ?h u w] =>
      assert (Hh : hhoare (fun u' w' => u' = u /\ w' = w) h
                     (fun o u' w' => o = Fulfilled tt
                                     /\ sending (sent_rows userId text) u' w'
                                     /\ CounsellorPage.loading (snd u') = false))
  end.
  { apply (hhoare_hbind _ _ _
             (fun o u' w' => match o with
                             | Fulfilled _ => sending (fun new => new = []) u' w'
                             | Rejected _ => False
                             end)).
    - apply hhoare_modify. intros u' w' [-> ->].
      split; [reflexivity|]. split; [reflexivity|]. split; [|intros H; exact H].
      exists []. split; [|reflexivity]. cbn. now rewrite app_nil_r.
    - intros _.
      apply (hhoare_hbind _ _ _
               (fun o u' w' => match o with
                               | Fulfilled _ => sending (fun new => new = []) u' w'
                               | Rejected _ => False
                               end)).
      + apply hhoare_modify. intros u' w' H. exact H.
      + intros _.
        apply (hhoare_hfinally_modify _ _ _
                 (fun o u' w' => o = Fulfilled tt /\ sending (sent_rows userId text) u' w')).
        * apply (hhoare_htry _ _ _ (fun _ => sending (sent_rows userId text))).
          -- apply (send_body userId text shown il all_stored).
          -- intros [] u' w' H. now split.
          -- intros e. apply hhoare_hret. intros u' w' H. now split.
        * intros o u' w' [Ho H]. split; [exact Ho|]. split; [exact H | reflexivity].
      + intros e u' w' [].
    - intros e u' w' []. }
  destruct (Hh u w (conj eq_refl eq_refl)) as [Ho [[Hi [Hl [Hn Hs]]] Hld]].
  split; [exact Ho|]. split; [exact Hl|]. split; [|exact Hs].
  split; [exact Hld|]. split; [exact Hi | exact Hn].
Qed.

(** X16 on the sample store, from a fresh page: Ann sends "help" between
    an ideographic space (U+3000) and a no-break space (U+00A0), and the
    message stored is "help"; an input of one ideographic space sends
    nothing. *)
Lemma X16_handleSend_messages_witness :
  let wide := Js.utf8 [227; 128; 128] in
  let r := hrun Postgres.supabase
             (CounsellorPage.handleSend (Sample.signed_in exploring)
                (wide ++ " help" ++ Js.utf8 [194; 160]))
             (Sample.signed_in exploring, CounsellorPage.initial)
             (Sample.world exploring []) in
  let blank := hrun Postgres.supabase
                 (CounsellorPage.handleSend (Sample.signed_in exploring) wide)
                 (Sample.signed_in exploring, CounsellorPage.initial)
                 (Sample.world exploring []) in
  (CounsellorPage.loading (snd (snd (fst r))) = false
   /\ exists new, CounsellorPage.messages (snd (snd (fst r))) = new
                  /\ sent_rows "u1" "help" new)
  /\ snd blank = Sample.world exploring [].
Proof.
  intros wide r blank. split.
  - destruct (X16_handleSend_messages (Sample.signed_in exploring) "u1"
                (wide ++ " help" ++ Js.utf8 [194; 160])
                (Sample.signed_in exploring, CounsellorPage.initial)
                (Sample.world exploring []) eq_refl) as [_ [_ [H _]]].
    change (Js.trim (wide ++ " help" ++ Js.utf8 [194; 160])) with "help" in H.
    change (Js.truthy_string "help") with true in H. cbv iota in H.
    destruct H as [Hl [_ [new [Hm Hn]]]].
    split; [exact Hl|]. exists new. split; [exact Hm | exact Hn].
  - destruct (X16_handleSend_messages (Sample.signed_in exploring) "u1" wide
                (Sample.signed_in exploring, CounsellorPage.initial)
                (Sample.world exploring []) eq_refl) as [_ [_ [H _]]].
    change (Js.truthy_string (Js.trim wide)) with false in H. cbv iota in H.
    exact (proj2 H).
Defined.

Section LoadMessages.

Import Postgres.

Lemma firstn_length_zero {A} n (l : list A) :
  (List.length (firstn (S n) l) =? 0)%nat = match l with [] => true | _ => false end.
Proof. destruct l; reflexivity. Qed.

Lemma order_by_nil_iff {A} (le : A -> A -> bool) (l : list A) :
  match order_by le l with [] => true | _ => false end
  = match l with [] => true | _ => false end.
Proof.
  pose proof (order_by_length le l) as H.
  destruct l, (order_by le _); cbn in H; try reflexivity; discriminate H.
Qed.

End LoadMessages.

(** X17: one run of [loadMessages], taken from its first request to its
    end with no other run in flight and no request lost, creates the
    welcome message only for a user who has no message.  It ends with the
    page marked as loaded; when the user has a stored message, it writes
    nothing and shows what [getChatMessages] returns; when the user has
    none, it asks for the welcome message to be stored and, unless the
    database refuses, shows exactly that message, written by the
    assistant, with the user's name or "there" in it.  This is a fact of
    one run and not of the page: the effect starts a run when the user is
    known and another when the profile arrives, and on the sample store,
    when the second run reads before the first has written, both find no
    message and the user is left with two welcome messages, one to
    "there" and one to Ann, with no request refused. *)
Theorem X17_loadMessages_welcome (ctx : Auth.t) (userId : string)
  (u : Auth.t * CounsellorPage.State) (w : Postgres.World) :
  Auth.user ctx = Some userId ->
  Postgres.faults w = [] ->
  let r := hrun Postgres.supabase (CounsellorPage.loadMessages ctx) u w in
  let st := snd (snd (fst r)) in
  fst (fst r) = Fulfilled tt
  /\ CounsellorPage.initialLoading st = false
  /\ match messages_of (Postgres.db w) userId with
     | _ :: _ =>
         Postgres.db (snd r) = Postgres.db w
         /\ outcome (run Postgres.supabase (Api.getChatMessages userId None) w)
            = Fulfilled (CounsellorPage.messages st)
     | [] =>
         (Postgres.db (snd r) = Postgres.db w /\ CounsellorPage.messages st = [])
         \/ exists m,
              Postgres.chat_messages (Postgres.db (snd r))
              = (Postgres.chat_messages (Postgres.db w) ++ [m])%list
              /\ CounsellorPage.messages st = [m]
              /\ message_by userId chat_assistant m
              /\ ChatMessage.content m = CounsellorPage.welcome (Auth.profile ctx)
     end
  /\ (let before_profile := Auth.mk (Some "u1"%string) None in
      let with_profile := Sample.signed_in exploring in
      let both :=
        run Postgres.supabase
          (overlap [true; false]
             (CounsellorPage.loadMessages before_profile
                (before_profile, CounsellorPage.initial))
             (CounsellorPage.loadMessages with_profile
                (with_profile, CounsellorPage.initial)))
          (Sample.world exploring []) in
      messages_of (Postgres.db (Sample.world exploring [])) "u1" = []
      /\ map ChatMessage.content (messages_of (Postgres.db (final both)) "u1")
         = [CounsellorPage.welcome None;
            CounsellorPage.welcome (Some (Sample.ann exploring))]
      /\ Forall (fun x => reported x = None) (log both)).
Proof.
  intros Hctx Hf r st. subst st r.
  match goal with
  | |- ?A /\ ?B /\ ?C /\ ?E =>
      assert (HE : E)
        by (split; [reflexivity|];
            split; [vm_compute; reflexivity | vm_compute; repeat constructor]);
      cut (A /\ B /\ C);
        [intros [a [b c]]; exact (conj a (conj b (conj c HE)))|]; clear HE
  end.
  unfold CounsellorPage.loadMessages. rewrite Hctx.
  rewrite hrun_hfinally. cbv zeta. rewrite hrun_modify, hrun_htry, hrun_hbind, hrun_lift.
  rewrite (getChatMessages_round_trip userId None _ Postgres.supabase w).
  cbn [outcome final fst snd].
  destruct (supabase_quiet (chat_select userId 50) w Hf) as [R [D F]].
  rewrite (exec_read_tables (chat_select userId 50)) in D by reflexivity.
  set (w1 := snd (Postgres.supabase (chat_select userId 50) w)) in *.
  rewrite R. cbn [Postgres.exec Postgres.reply fst snd error data Api.array_or_empty].
  fold (messages_of (Postgres.db w) userId).
  rewrite hrun_hbind, hrun_modify. cbn [fst snd].
  rewrite firstn_length_zero, order_by_nil_iff.
  destruct (messages_of (Postgres.db w) userId) as [|m0 rest] eqn:Hstored.
  - (* no message yet *)
    rewrite hrun_hbind, hrun_lift.
    rewrite (createChatMessage_round_trip userId chat_assistant
               (CounsellorPage.welcome (Auth.profile ctx)) None _ Postgres.supabase w1).
    cbn [outcome final fst snd]. unfold chat_request.
    set (q := chat_insert_returning userId chat_assistant
                (CounsellorPage.welcome (Auth.profile ctx)) "{}").
    destruct (supabase_quiet q w1 F) as [R2 [D2 _]].
    rewrite R2. subst q. cbn [Postgres.exec] in *. rewrite D in *.
    destruct (negb (Postgres.has_profile (Postgres.db w) userId)).
    + cbn [Postgres.reply fst snd error data] in *. rewrite hrun_hret. cbn [fst snd].
      split; [reflexivity|]. split; [reflexivity|]. left. split; [exact D2 | reflexivity].
    + destruct (existsb _ (Postgres.chat_messages (Postgres.db w))).
      * cbn [Postgres.reply fst snd error data] in *. rewrite hrun_hret. cbn [fst snd].
        split; [reflexivity|]. split; [reflexivity|]. left.
        split; [exact D2 | reflexivity].
      * cbn [Postgres.reply fst snd error data] in *. rewrite hrun_modify. cbn [fst snd].
        split; [reflexivity|]. split; [reflexivity|]. right. eexists.
        split; [rewrite D2; reflexivity|]. split; [reflexivity|].
        split; [split; reflexivity | reflexivity].
  - rewrite hrun_hret. cbn [fst snd].
    split; [reflexivity|]. split; [reflexivity|]. split; [exact D|].
    reflexivity.
Qed.

(** X17 on the sample store: Ann has no message and is welcomed by name;
    a second load, started after the first has come back, creates
    nothing. *)
Lemma X17_loadMessages_welcome_witness :
  let first := hrun Postgres.supabase (CounsellorPage.loadMessages (Sample.signed_in exploring))
                 (Sample.signed_in exploring, CounsellorPage.initial)
                 (Sample.world exploring []) in
  let second := hrun Postgres.supabase
                  (CounsellorPage.loadMessages (Sample.signed_in exploring))
                  (Sample.signed_in exploring, CounsellorPage.initial) (snd first) in
  List.length (Postgres.chat_messages (Postgres.db (snd first))) = 1
  /\ Postgres.db (snd second) = Postgres.db (snd first).
Proof.
  intros first second. split; [vm_compute; reflexivity|].
  pose proof (X17_loadMessages_welcome (Sample.signed_in exploring) "u1"
                (Sample.signed_in exploring, CounsellorPage.initial) (snd first)
                eq_refl eq_refl) as [_ [_ [H _]]].
  fold second in H.
  destruct (messages_of (Postgres.db (snd first)) "u1") eqn:E;
    [vm_compute in E; discriminate E|].
  exact (proj1 H).
Defined.

(* ================================================================== *)
(** * The onboarding form                                              *)
(* ================================================================== *)

Section OnboardingForm.

Lemma array_includes_In xs x : Js.array_includes xs x = true <-> In x xs.
Proof.
  unfold Js.array_includes. rewrite existsb_exists. split.
  - intros [y [Hy E]]. apply String.eqb_eq in E. now subst.
  - intros H. exists x. split; [exact H | apply String.eqb_refl].
Qed.

Lemma array_of_updateField field value prev :
  OnboardingPage.array_of field (OnboardingPage.updateField field value prev) = value.
Proof. destruct field; reflexivity. Qed.

Lemma array_of_updateField_other field field' value prev :
  field' <> field ->
  OnboardingPage.array_of field' (OnboardingPage.updateField field value prev)
  = OnboardingPage.array_of field' prev.
Proof. destruct field, field'; try reflexivity; intros H; now contradiction H. Qed.

Lemma In_remove_item (xs : list string) (item x : string) :
  In x (filter (fun i => negb (String.eqb i item)) xs) <-> In x xs /\ x <> item.
Proof. rewrite filter_In, negb_true_iff, String.eqb_neq. tauto. Qed.

End OnboardingForm.

(** X18: [toggleArrayItem] flips whether [item] is in the array of
    [field] and nothing else: every other value stays in or out as it
    was, an array without duplicates stays without duplicates, and the
    other three arrays and the scalar fields of the form are untouched.
    A value that is taken out is taken out at every position. *)
Theorem X18_toggleArrayItem (formData : OnboardingData.t)
  (field : OnboardingPage.ArrayField) (item : string) :
  let after := OnboardingPage.toggleArrayItem formData field item formData in
  (In item (OnboardingPage.array_of field after)
   <-> ~ In item (OnboardingPage.array_of field formData))
  /\ (forall other, other <> item ->
        (In other (OnboardingPage.array_of field after)
         <-> In other (OnboardingPage.array_of field formData)))
  /\ (NoDup (OnboardingPage.array_of field formData) ->
      NoDup (OnboardingPage.array_of field after))
  /\ (forall field', field' <> field ->
        OnboardingPage.array_of field' after = OnboardingPage.array_of field' formData)
  /\ (OnboardingData.full_name after, OnboardingData.current_education_level after,
      OnboardingData.field_of_study after, OnboardingData.gpa after,
      OnboardingData.test_scores after, OnboardingData.target_degree after,
      OnboardingData.budget_min after, OnboardingData.budget_max after)
     = (OnboardingData.full_name formData, OnboardingData.current_education_level formData,
        OnboardingData.field_of_study formData, OnboardingData.gpa formData,
        OnboardingData.test_scores formData, OnboardingData.target_degree formData,
        OnboardingData.budget_min formData, OnboardingData.budget_max formData).
Proof.
  intros after. subst after. unfold OnboardingPage.toggleArrayItem.
  set (xs := OnboardingPage.array_of field formData).
  destruct (Js.array_includes xs item) eqn:Hinc.
  - apply array_includes_In in Hinc.
    split; [|split; [|split; [|split]]].
    + rewrite array_of_updateField, In_remove_item. tauto.
    + intros other Hne. rewrite array_of_updateField, In_remove_item. tauto.
    + intros Hnd. rewrite array_of_updateField. now apply NoDup_filter.
    + intros field' Hne. now apply array_of_updateField_other.
    + destruct field; reflexivity.
  - assert (Hout : ~ In item xs).
    { intros H. apply array_includes_In in H. congruence. }
    split; [|split; [|split; [|split]]].
    + rewrite array_of_updateField, in_app_iff. cbn. tauto.
    + intros other Hne. rewrite array_of_updateField, in_app_iff. cbn.
      split; [intros [H|[H|[]]]; [exact H | congruence] | tauto].
    + intros Hnd. rewrite array_of_updateField.
      apply NoDup_app; [exact Hnd | repeat constructor; cbn; tauto |].
      intros a Ha [<-|[]]. contradiction.
    + intros field' Hne. now apply array_of_updateField_other.
    + destruct field; reflexivity.
Qed.

Section OnboardingSteps.

Lemma click_in_range c step :
  1 <= step <= 4 -> 1 <= OnboardingPage.click c step <= 4.
Proof.
  intros H. destruct c; cbn [OnboardingPage.click].
  - unfold OnboardingPage.handleNext. cbn [OnboardingPage.STEPS List.length].
    destruct (Nat.ltb_spec step 4); lia.
  - unfold OnboardingPage.handleBack. destruct (Nat.ltb_spec 1 step); lia.
Qed.

Lemma fold_click_in_range clicks step :
  1 <= step <= 4 ->
  1 <= fold_left (fun s c => OnboardingPage.click c s) clicks step <= 4.
Proof.
  revert step. induction clicks as [|c clicks IH]; intros step H; cbn [fold_left];
    [exact H|].
  apply IH. now apply click_in_range.
Qed.

End OnboardingSteps.

(** X19: whatever sequence of clicks on "Next" and "Back" the user makes
    from the first step, the current step stays between 1 and 4: "Back" on
    the first step and "Next" on the last do nothing.  So the card header
    always finds its entry of [STEPS], and it is the entry with the id of
    the current step. *)
Theorem X19_onboarding_step_in_range (clicks : list OnboardingPage.Click) :
  1 <= step_after clicks <= 4
  /\ exists title description,
       OnboardingPage.current_step_info (step_after clicks)
       = Some (step_after clicks, title, description).
Proof.
  assert (H : 1 <= step_after clicks <= 4) by (apply fold_click_in_range; lia).
  split; [exact H|].
  unfold OnboardingPage.current_step_info.
  destruct (step_after clicks) as [|[|[|[|[|n]]]]]; try lia; cbn; eauto.
Qed.

(* ================================================================== *)
(** * The dashboard                                                    *)
(* ================================================================== *)

(** X20: the flags of the journey steps follow the declared order of the
    stages.  The step of stage [s] is shown as completed exactly when the
    user's stage is later than [s], as current exactly when it is [s], and
    as locked (its button disabled) exactly when the user's stage is
    earlier; so for a user at [not_started] or [onboarding], for whom
    [indexOf] returns [-1], all four steps are locked. *)
Theorem X20_journey_flags (currentStage s : UserStage) (index : nat) :
  nth_error DashboardPage.stages index = Some s ->
  DashboardPage.isCompleted currentStage index
  = (stage_rank s <? stage_rank currentStage)%nat
  /\ DashboardPage.isCurrent currentStage index
     = (stage_rank s =? stage_rank currentStage)%nat
  /\ DashboardPage.isLocked currentStage index
     = (stage_rank currentStage <? stage_rank s)%nat.
Proof.
  intros H.
  destruct index as [|[|[|[|n]]]]; cbn in H;
    try (destruct n; discriminate H);
    injection H as <-; destruct currentStage; repeat split; reflexivity.
Qed.

(** X20 for a user who has not started: the first step is locked. *)
Lemma X20_journey_flags_witness :
  DashboardPage.isLocked not_started 0 = true
  /\ DashboardPage.isCurrent not_started 0 = false
  /\ DashboardPage.isCompleted not_started 0 = false.
Proof.
  destruct (X20_journey_flags not_started exploring 0 eq_refl) as [H1 [H2 H3]].
  rewrite H1, H2, H3. repeat split; reflexivity.
Defined.

Section DashboardCounts.

Import Postgres.

Lemma filter_insert_by_length {A} (f : A -> bool) (le : A -> A -> bool) x l :
  List.length (filter f (insert_by le x l)) = List.length (filter f (x :: l)).
Proof.
  induction l as [|y l IH]; cbn [insert_by]; [reflexivity|].
  destruct (le x y); [reflexivity|].
  cbn [filter] in *. destruct (f y), (f x); cbn [List.length] in *; lia.
Qed.

Lemma filter_order_by_length {A} (f : A -> bool) (le : A -> A -> bool) l :
  List.length (filter f (order_by le l)) = List.length (filter f l).
Proof.
  unfold order_by. induction l as [|x l IH]; cbn [fold_right]; [reflexivity|].
  rewrite filter_insert_by_length. cbn [filter]. destruct (f x); cbn [List.length]; lia.
Qed.

Lemma filter_map_length {A B} (f : B -> bool) (g : A -> B) l :
  List.length (filter f (map g l)) = List.length (filter (fun x => f (g x)) l).
Proof.
  induction l as [|x l IH]; cbn; [reflexivity|]. destruct (f (g x)); cbn; lia.
Qed.

Lemma filter_filter_length {A} (f g : A -> bool) l :
  List.length (filter f (filter g l)) = List.length (filter (fun x => g x && f x) l).
Proof.
  induction l as [|x l IH]; cbn; [reflexivity|].
  destruct (g x); cbn; [destruct (f x); cbn; lia | exact IH].
Qed.

(** The three reads of the dashboard, when none is lost. *)
Lemma dashboard_reads uid w :
  faults w = [] ->
  let r := run supabase (promise_all3 (Api.getShortlistedUniversities uid)
                           (Api.getLockedUniversities uid) (Api.getTasks uid)) w in
  outcome r = Fulfilled (shortlisted_rows (db w) uid, locked_rows (db w) uid,
                         tasks_rows (db w) uid)
  /\ db (final r) = db w.
Proof.
  intros Hf. cbv zeta. unfold promise_all3.
  rewrite run_bind, run_settle, (getShortlistedUniversities_round_trip uid _ supabase w).
  cbn [outcome final log after].
  rewrite run_bind, run_settle, (getLockedUniversities_round_trip uid _ supabase).
  cbn [outcome final log after].
  rewrite run_bind, run_settle, (getTasks_round_trip uid _ supabase).
  cbn [outcome final log after].
  destruct (supabase_quiet (shortlisted_select uid) w Hf) as [A1 [A2 A3]].
  set (w1 := snd (supabase (shortlisted_select uid) w)) in *.
  destruct (supabase_quiet (locked_select uid) w1 A3) as [B1 [B2 B3]].
  set (w2 := snd (supabase (locked_select uid) w1)) in *.
  destruct (supabase_quiet (tasks_select uid) w2 B3) as [C1 [C2 C3]].
  rewrite (exec_read_tables (shortlisted_select uid)) in A2 by reflexivity.
  rewrite (exec_read_tables (locked_select uid)) in B2 by reflexivity.
  rewrite (exec_read_tables (tasks_select uid)) in C2 by reflexivity.
  rewrite A1, B1, C1.
  cbn [exec fst reply error data run outcome final Api.array_or_empty].
  split.
  - rewrite B2, A2. reflexivity.
  - rewrite C2, B2, A2. reflexivity.
Qed.

End DashboardCounts.

(** X21: the dashboard loads nothing for a profile whose onboarding is
    not completed: it sends no request and goes to the onboarding page.
    For a completed profile, in a session that loses no request, the load
    writes nothing and leaves the counters equal to the numbers of stored
    shortlist rows, locked rows and tasks of that user, with the number of
    completed tasks, which is at most the total, and the loading flag
    off. *)
Theorem X21_dashboard_counts (profile : Profile.t) (st : DashboardPage.State)
  (w : Postgres.World) :
  Postgres.faults w = [] ->
  let r := hrun Postgres.supabase (DashboardPage.effect (Some profile)) st w in
  let st' := snd (fst r) in
  let mine (user_id : string) := String.eqb user_id (Profile.id profile) in
  if Profile.onboarding_completed profile
  then fst (fst r) = Fulfilled DashboardPage.stay
       /\ Postgres.db (snd r) = Postgres.db w
       /\ DashboardPage.loading st' = false
       /\ DashboardPage.shortlistCount st'
          = List.length (filter (fun s => mine (ShortlistedUniversity.user_id s))
                           (Postgres.user_shortlisted_universities (Postgres.db w)))
       /\ DashboardPage.lockedCount st'
          = List.length (filter (fun l => mine (LockedUniversity.user_id l))
                           (Postgres.user_locked_universities (Postgres.db w)))
       /\ DashboardPage.taskStats_total st'
          = List.length (filter (fun k => mine (Task.user_id k))
                           (Postgres.tasks (Postgres.db w)))
       /\ DashboardPage.taskStats_completed st'
          = List.length (filter (fun k => mine (Task.user_id k) && Task.completed k)
                           (Postgres.tasks (Postgres.db w)))
       /\ DashboardPage.taskStats_completed st' <= DashboardPage.taskStats_total st'
  else r = (Fulfilled DashboardPage.to_onboarding, st, w).
Proof.
  intros Hf r st' mine. subst st' r mine. unfold DashboardPage.effect.
  destruct (Profile.onboarding_completed profile); cbn [negb]; [|apply hrun_hret].
  destruct (dashboard_reads (Profile.id profile) w Hf) as [Ho Hd].
  rewrite hrun_hbind. unfold DashboardPage.loadData.
  rewrite hrun_hfinally. cbv zeta. rewrite hrun_modify, hrun_htry, hrun_hbind, hrun_lift.
  cbn [fst snd]. rewrite Ho. rewrite hrun_modify. cbn [fst snd]. rewrite hrun_hret.
  cbn [fst snd DashboardPage.loading DashboardPage.shortlistCount
       DashboardPage.lockedCount DashboardPage.taskStats_total
       DashboardPage.taskStats_completed].
  split; [reflexivity|]. split; [exact Hd|]. split; [reflexivity|].
  assert (Hc : List.length (filter Task.completed (tasks_rows (Postgres.db w)
                                                     (Profile.id profile)))
               = List.length
                   (filter (fun k => String.eqb (Task.user_id k) (Profile.id profile)
                                     && Task.completed k)
                      (Postgres.tasks (Postgres.db w)))).
  { unfold tasks_rows. rewrite filter_map_length.
    rewrite (filter_order_by_length (fun x => Task.completed (Postgres.embed_task _ x))).
    now rewrite filter_filter_length. }
  unfold shortlisted_rows, locked_rows. rewrite !length_map, !order_by_length.
  split; [reflexivity|]. split; [reflexivity|].
  split; [unfold tasks_rows; now rewrite length_map, order_by_length|].
  split; [exact Hc|]. rewrite Hc. unfold tasks_rows. rewrite length_map, order_by_length.
  clear. induction (Postgres.tasks (Postgres.db w)) as [|k l IH]; cbn; [lia|].
  destruct (String.eqb (Task.user_id k) (Profile.id profile)); cbn; [|exact IH].
  destruct (Task.completed k); cbn; lia.
Qed.

(** X21 on the sample store: Ann has completed onboarding and has
    nothing on file. *)
Lemma X21_dashboard_counts_witness :
  let r := hrun Postgres.supabase (DashboardPage.effect (Some (Sample.ann exploring)))
             DashboardPage.initial (Sample.world exploring []) in
  fst (fst r) = Fulfilled DashboardPage.stay
  /\ DashboardPage.loading (snd (fst r)) = false
  /\ DashboardPage.shortlistCount (snd (fst r)) = 0.
Proof.
  intros r.
  pose proof (X21_dashboard_counts (Sample.ann exploring) DashboardPage.initial
                (Sample.world exploring []) eq_refl) as H.
  cbv zeta in H. change (Profile.onboarding_completed (Sample.ann exploring)) with true in H.
  cbv iota in H. destruct H as [H1 [_ [H2 [H3 _]]]].
  split; [exact H1|]. split; [exact H2 | exact H3].
Defined.

(* ================================================================== *)
(** * The universities page: what it shows                             *)
(* ================================================================== *)

Section CountryFilter.








End CountryFilter.


Section ShownChoices.

Import Postgres.

Lemma NoDup_key_eq {A B} (key : A -> B) (l : list A) a b :
  NoDup (map key l) -> In a l -> In b l -> key a = key b -> a = b.
Proof.
  induction l as [|x l IH]; cbn; [tauto|]. intros Hnd Ha Hb E.
  inversion Hnd as [|? ? Hx Hl]; subst.
  destruct Ha as [<-|Ha], Hb as [<-|Hb]; [reflexivity | | | now apply IH].
  - exfalso. apply Hx. rewrite E. now apply in_map.
  - exfalso. apply Hx. rewrite <- E. now apply in_map.
Qed.

(** The category the page finds among the rows it loaded is the stored
    one. *)
Lemma getShortlistCategory_rows d uid unid unis lock ld term country :
  shortlist_unique d ->
  UniversitiesPage.getShortlistCategory
    (UniversitiesPage.mkState unis (shortlisted_rows d uid) lock ld term country) unid
  = stored_category d uid unid.
Proof.
  intros Hu. unfold UniversitiesPage.getShortlistCategory, stored_category.
  cbn [UniversitiesPage.shortlisted]. unfold shortlisted_rows.
  destruct (find (shortlisted_key uid unid) (user_shortlisted_universities d))
    as [s2|] eqn:F2;
    destruct (find _ (map _ _)) as [s1|] eqn:F1; try reflexivity.
  - apply find_some in F1, F2. destruct F1 as [Hin1 E1], F2 as [Hin2 K2].
    apply in_map_iff in Hin1. destruct Hin1 as [s [<- Hin1]].
    apply in_order_by, filter_In in Hin1. destruct Hin1 as [Hin1 Hu1].
    cbn [embed_shortlisted ShortlistedUniversity.category
         ShortlistedUniversity.university_id] in *.
    apply String.eqb_eq in E1, Hu1. unfold shortlisted_key in K2.
    apply andb_true_iff in K2. destruct K2 as [K2a K2b]. apply String.eqb_eq in K2a, K2b.
    assert (E : s = s2).
    { apply (NoDup_key_eq shortlist_key _ s s2 Hu Hin1 Hin2).
      unfold shortlist_key. congruence. }
    now subst.
  - exfalso. apply find_some in F2. destruct F2 as [Hin2 K2].
    unfold shortlisted_key in K2. apply andb_true_iff in K2. destruct K2 as [K2a K2b].
    assert (Hin : In (embed_shortlisted d s2)
                    (map (embed_shortlisted d)
                       (order_by (fun a b => (ShortlistedUniversity.created_at b
                                              <=? ShortlistedUniversity.created_at a)%nat)
                          (filter (fun s => String.eqb (ShortlistedUniversity.user_id s) uid)
                                  (user_shortlisted_universities d))))).
    { apply in_map, in_order_by, filter_In. now split. }
    apply (find_none _ _ F1) in Hin.
    cbn [embed_shortlisted ShortlistedUniversity.university_id] in Hin. congruence.
  - exfalso. apply find_some in F1. destruct F1 as [Hin1 E1].
    apply in_map_iff in Hin1. destruct Hin1 as [s [<- Hin1]].
    apply in_order_by, filter_In in Hin1. destruct Hin1 as [Hin1 Hu1].
    apply (find_none _ _ F2) in Hin1. unfold shortlisted_key in Hin1.
    cbn [embed_shortlisted ShortlistedUniversity.university_id] in E1.
    now rewrite Hu1, E1 in Hin1.
Qed.

End ShownChoices.

(** X23: after a load that loses no request, the universities page shows
    the signed-in user's stored choices: a university counts as
    shortlisted, or as locked, on the page exactly when it is stored as
    such for that user, the category badge shows the stored category (the
    shortlist holding each pair once), and so each card offers "Add to
    Shortlist", "Remove" and "Lock Choice", or "Unlock" according to what
    is stored.  The search term and the country filter are kept. *)
Theorem X23_universities_page_shows_store (ctx : Auth.t) (userId : string)
  (u : Auth.t * UniversitiesPage.State) (w : Postgres.World) :
  Auth.user ctx = Some userId ->
  Postgres.faults w = [] ->
  shortlist_unique (Postgres.db w) ->
  let r := hrun Postgres.supabase (UniversitiesPage.loadData ctx) u w in
  let st := snd (snd (fst r)) in
  Postgres.db (snd r) = Postgres.db w
  /\ UniversitiesPage.loading st = false
  /\ UniversitiesPage.searchTerm st = UniversitiesPage.searchTerm (snd u)
  /\ UniversitiesPage.countryFilter st = UniversitiesPage.countryFilter (snd u)
  /\ forall universityId,
       UniversitiesPage.isShortlisted st universityId
       = Postgres.is_shortlisted (Postgres.db w) userId universityId
       /\ UniversitiesPage.isLocked st universityId
          = Postgres.is_locked (Postgres.db w) userId universityId
       /\ UniversitiesPage.getShortlistCategory st universityId
          = stored_category (Postgres.db w) userId universityId.
Proof.
  intros Hctx Hf Hu r st. subst st r.
  destruct (universities_loadData_run userId ctx Hctx u w Hf) as [unis [E [Hd _]]].
  rewrite E. cbn [fst snd UniversitiesPage.loading UniversitiesPage.searchTerm
    UniversitiesPage.countryFilter].
  split; [exact Hd|]. split; [reflexivity|]. split; [reflexivity|].
  split; [reflexivity|]. intros universityId.
  rewrite isShortlisted_rows, isLocked_rows, getShortlistCategory_rows by exact Hu.
  auto.
Qed.

(** X23 on the sample store with Alpha shortlisted as a dream school. *)
Lemma X23_universities_page_shows_store_witness :
  let w := Postgres.mkWorld (Sample.db_with_alpha_shortlisted exploring) 1 [] [] in
  let r := hrun Postgres.supabase (UniversitiesPage.loadData (Sample.signed_in exploring))
             (Sample.signed_in exploring, UniversitiesPage.initial) w in
  UniversitiesPage.getShortlistCategory (snd (snd (fst r))) "a" = Some dream
  /\ UniversitiesPage.offers_remove_and_lock (snd (snd (fst r))) "a" = true.
Proof.
  intros w r.
  assert (Hu : shortlist_unique (Postgres.db w)).
  { unfold shortlist_unique. cbn. constructor; [intros [] | constructor]. }
  destruct (X23_universities_page_shows_store (Sample.signed_in exploring) "u1"
              (Sample.signed_in exploring, UniversitiesPage.initial) w eq_refl eq_refl Hu)
    as [_ [_ [_ [_ H]]]].
  destruct (H "a") as [H1 [H2 H3]]. fold r in H1, H2, H3.
  split; [rewrite H3; reflexivity|].
  unfold UniversitiesPage.offers_remove_and_lock. rewrite H1, H2. reflexivity.
Defined.

(* ================================================================== *)
(** * New users                                                        *)
(* ================================================================== *)

(** X24: the trigger that creates the profile of a confirmed user.  A
    confirmation handled alone, with nothing written between the count
    and the insert: for an id that has no profile yet it appends one row
    and changes nothing else; the row has the id and email of the user,
    the stage [not_started], onboarding not completed and no form values,
    and its role is [admin] exactly when the profiles table was empty; for
    an id that has a profile it reports an error and changes nothing.  So
    confirmations handled one at a time keep profile ids unique and never
    lead from at most one admin to more than one.  The function takes no
    lock: when the transactions of two confirmations overlap on an empty
    table, both count no profile and both users become admins. *)
Theorem X24_first_user_is_admin (new_id : string) (new_email : option string)
  (now : Timestamp) (d : Postgres.Db) :
  let result := Postgres.handle_new_user new_id new_email now d in
  (if Postgres.has_profile d new_id
   then fst result <> None /\ snd result = d
   else fst result = None
        /\ exists p,
             snd result = Postgres.set_profiles d (Postgres.profiles d ++ [p])%list
             /\ Profile.id p = new_id /\ Profile.email p = new_email
             /\ Profile.current_stage p = not_started
             /\ Profile.onboarding_completed p = false
             /\ Profile.full_name p = None /\ Profile.gpa p = None
             /\ (Profile.role p = role_admin <-> Postgres.profiles d = []))
  /\ (profiles_keyed d -> profiles_keyed (snd result))
  /\ (List.length (admins d) <= 1 -> List.length (admins (snd result)) <= 1)
  /\ (forall other_id other_email,
        other_id <> new_id -> Postgres.profiles d = [] ->
        List.length
          (admins (Postgres.handle_new_users_overlapping new_id other_id
                     new_email other_email now d)) = 2).
Proof.
  intros result. subst result. unfold Postgres.handle_new_user, Postgres.insert_profile.
  split; [|split; [|split]].
  - destruct (Postgres.has_profile d new_id) eqn:Hhas; cbn [fst snd].
    + split; [discriminate | reflexivity].
    + split; [reflexivity|]. eexists. split; [reflexivity|].
      cbn [Profile.id Profile.email Profile.current_stage Profile.onboarding_completed
           Profile.full_name Profile.gpa Profile.role].
      repeat (split; [reflexivity|]).
      unfold Postgres.count_profiles.
      destruct (Postgres.profiles d); cbn; split; congruence.
  - destruct (Postgres.has_profile d new_id) eqn:Hhas; cbn [fst snd]; [auto|].
    unfold profiles_keyed. cbn [Postgres.set_profiles Postgres.profiles].
    intros Hk. rewrite map_app. apply NoDup_app; [exact Hk | repeat constructor; cbn; tauto|].
    intros a Ha [<-|[]]. cbn [Profile.id] in Ha.
    unfold Postgres.has_profile in Hhas. apply in_map_iff in Ha.
    destruct Ha as [p [Hp Hin]].
    assert (Hex : existsb (fun p => String.eqb (Profile.id p) new_id) (Postgres.profiles d)
                  = true).
    { apply existsb_exists. exists p. split; [exact Hin | now apply String.eqb_eq]. }
    congruence.
  - destruct (Postgres.has_profile d new_id) eqn:Hhas; cbn [fst snd]; [auto|].
    unfold admins, Postgres.count_profiles.
    cbn [Postgres.set_profiles Postgres.profiles].
    rewrite filter_app, length_app.
    destruct (Postgres.profiles d) as [|p0 rest]; cbn; [lia|].
    intros H. lia.
  - intros other_id other_email Hne Hempty.
    unfold Postgres.handle_new_users_overlapping, Postgres.insert_profile,
      Postgres.count_profiles, Postgres.has_profile, admins.
    rewrite Hempty. cbn [existsb List.length Nat.eqb snd Postgres.set_profiles
                         Postgres.profiles app Profile.id orb].
    apply String.eqb_neq in Hne. rewrite String.eqb_sym in Hne. rewrite Hne.
    reflexivity.
Qed.

(** X24 on an empty store: the first user to sign up becomes the one
    admin; two users confirmed in overlapping transactions are both
    admins. *)
Lemma X24_first_user_is_admin_witness :
  let d := Postgres.mkDb [] [] [] [] [] [] in
  let d' := snd (Postgres.handle_new_user "u1" (Some "ann@example.org") 0 d) in
  profiles_keyed d'
  /\ List.length (admins d') <= 1
  /\ List.length
       (admins (Postgres.handle_new_users_overlapping "u1" "u2" (Some "ann@example.org")
                  None 0 d)) = 2.
Proof.
  intros d d'.
  destruct (X24_first_user_is_admin "u1" (Some "ann@example.org") 0 d) as [_ [H1 [H2 H3]]].
  split; [apply H1; constructor|].
  split; [apply H2; repeat constructor|].
  apply H3; [discriminate | reflexivity].
Defined.

(* ================================================================== *)
(** * The applications page: default tasks                             *)
(* ================================================================== *)

Section FreshIds.

Import Postgres.

Lemma to_uint_nonnil n : Nat.to_uint n <> Decimal.Nil.
Proof.
  intros H. assert (E : n = 0).
  { rewrite <- (Unsigned.of_to n), H. reflexivity. }
  subst n. discriminate H.
Qed.

Lemma gen_random_uuid_inj a b : gen_random_uuid a = gen_random_uuid b -> a = b.
Proof.
  unfold gen_random_uuid. cbn [String.append]. intros H.
  injection H as H.
  apply (f_equal NilZero.uint_of_string) in H.
  rewrite !NilZero.usu in H by apply to_uint_nonnil.
  injection H as H. apply (f_equal Nat.of_uint) in H.
  now rewrite !Unsigned.of_to in H.
Qed.

End FreshIds.

Section Generating.

Import Postgres.

Context (userId : string) (w0 : World).

Lemma has_profile_ids d d' uid :
  map Profile.id (profiles d') = map Profile.id (profiles d) ->
  has_profile d' uid = has_profile d uid.
Proof.
  intros H. unfold has_profile.
  rewrite <- (existsb_map (fun i => String.eqb i uid) Profile.id (profiles d')).
  rewrite <- (existsb_map (fun i => String.eqb i uid) Profile.id (profiles d)).
  now rewrite H.
Qed.

Lemma exec_keeps_tasks_and_locks q d t :
  keeps_tasks_and_locks q = true ->
  tasks (snd (exec q d t)) = tasks d
  /\ user_locked_universities (snd (exec q d t)) = user_locked_universities d
  /\ universities (snd (exec q d t)) = universities d.
Proof.
  destruct q; try discriminate; intros _; cbn [exec]; break_exec; auto.
Qed.

Lemma task_ids_fresh_later T a b : a <= b -> task_ids_fresh T a -> task_ids_fresh T b.
Proof. intros Hab H k Hk t Ht. apply (H k Hk). lia. Qed.

Lemma generating_calm T q w :
  keeps_tasks_and_locks q = true ->
  generating userId w0 T w -> generating userId w0 T (snd (supabase q w)).
Proof.
  intros Hq [Hf [Ht [Hl [Hu [Hp [Hk Hfr]]]]]].
  destruct (supabase_quiet q w Hf) as [_ [D F]].
  destruct (supabase_meta q w) as [_ [_ C]].
  destruct (exec_keeps_tasks_and_locks q (db w) (clock w) Hq) as [E1 [E2 E3]].
  unfold generating. rewrite D, E1, E2, E3, C.
  split; [exact F|]. split; [exact Ht|]. split; [exact Hl|]. split; [exact Hu|].
  split; [|split].
  - rewrite <- Hp. apply has_profile_ids, exec_profile_ids.
  - rewrite <- D. now apply supabase_profiles_keyed.
  - apply (task_ids_fresh_later T (clock w)); [lia | exact Hfr].
Qed.

Lemma generating_keeps {A} T (p : Prog A) :
  all_calls (fun q => keeps_tasks_and_locks q = true) p ->
  keeps (generating userId w0 T) p.
Proof.
  intros Hp w Hw.
  apply (all_calls_invariant (fun q => keeps_tasks_and_locks q = true)
           (generating userId w0 T)); [|exact Hp|exact Hw].
  intros q w1 Hq. now apply generating_calm.
Qed.

Lemma fresh_not_stored T now :
  task_ids_fresh T now ->
  existsb (fun k => String.eqb (Task.id k) (gen_random_uuid now)) T = false.
Proof.
  intros H. destruct (existsb _ T) eqn:E; [|reflexivity]. exfalso.
  apply existsb_exists in E. destruct E as [k [Hk E]]. apply String.eqb_eq in E.
  exact (H k Hk now (le_n _) E).
Qed.

(** One default task is stored. *)
Lemma generating_insert T universityId (task : string * string * string) w :
  has_university (db w0) universityId = true ->
  generating userId w0 T w ->
  let input := TaskInput.mk (fst (fst task)) (Some (snd (fst task))) (Some universityId)
                 None (Some (snd task)) in
  let r := run supabase (Api.createTask userId input) w in
  exists row,
    outcome r = Fulfilled (Some row)
    /\ generating userId w0 (T ++ [row])%list (final r)
    /\ (snd task <> EmptyString -> default_row userId universityId task row).
Proof.
  intros Huni [Hf [Ht [Hl [Hu [Hp [Hk Hfr]]]]]] input r. subst r.
  rewrite (createTask_round_trip userId input _ supabase w). cbn [outcome final].
  destruct (supabase_quiet (task_request userId input) w Hf) as [R [D F]].
  destruct (supabase_meta (task_request userId input) w) as [_ [_ C]].
  rewrite R. unfold task_request in *. cbn [exec] in *. rewrite Hp in *.
  cbn [negb orb] in *.
  assert (Hfk : task_fk_ok (db w)
                  (Task.mk (gen_random_uuid (clock w)) userId
                     (Js.or_null (TaskInput.university_id input)) (TaskInput.title input)
                     (Js.or_null (TaskInput.description input)) false
                     (Js.or_null (TaskInput.due_date input))
                     match Js.or_null (TaskInput.priority input) with
                     | Some p => p
                     | None => "medium"
                     end (clock w) (clock w) None) = true).
  { unfold task_fk_ok. cbn [Task.university_id input TaskInput.university_id Js.or_null].
    destruct (Js.truthy_string universityId); [|reflexivity].
    unfold has_university in *. now rewrite Hu. }
  rewrite Hfk in *. cbn [negb] in *.
  rewrite Ht, (fresh_not_stored T (clock w) Hfr) in *.
  cbn [reply fst snd error data] in *.
  eexists. split; [reflexivity|]. split.
  - unfold generating. rewrite D, C.
    cbn [set_tasks tasks user_locked_universities universities].
    split; [exact F|]. split; [reflexivity|]. split; [exact Hl|]. split; [exact Hu|].
    split; [|split].
    + rewrite <- Hp. apply has_profile_ids. reflexivity.
    + exact Hk.
    + intros k Hin t Hle. apply in_app_or in Hin. destruct Hin as [Hin|[<-|[]]].
      * apply (Hfr k Hin). lia.
      * cbn [Task.id]. intros E. apply gen_random_uuid_inj in E. lia.
  - intros Hprio. unfold default_row.
    cbn [Task.user_id Task.title Task.description Task.priority Task.university_id
         Task.completed Task.due_date input TaskInput.title TaskInput.description
         TaskInput.university_id TaskInput.due_date TaskInput.priority].
    repeat (split; [reflexivity|]). split; [|repeat split; reflexivity].
    cbn [Js.or_null]. destruct (snd task); [contradiction | reflexivity].
Qed.

End Generating.

Section DefaultTasksLoad.

Import Postgres.

Context (userId : string) (ctx : Auth.t) (Hctx : Auth.user ctx = Some userId).
Context (w0 : World) (first : LockedUniversity.t) (rest : list LockedUniversity.t).
Context (Hlocked : locked_rows (db w0) userId = first :: rest).
Context (Huni : has_university (db w0) (LockedUniversity.university_id first) = true).

Lemma locked_rows_same d :
  user_locked_universities d = user_locked_universities (db w0) ->
  universities d = universities (db w0) ->
  locked_rows d userId = first :: rest.
Proof.
  intros Hl Hu. rewrite <- Hlocked. unfold locked_rows. rewrite Hl.
  apply map_ext. intros l. unfold embed_locked, find_university. now rewrite Hu.
Qed.

Lemma exec_profiles_select_ok uid d t :
  profiles_keyed d -> error (fst (exec (profiles_select uid) d t)) = None.
Proof.
  intros Hk. pose proof (keyed_filter uid (profiles d) Hk) as Hlen. cbn [exec].
  destruct (filter _ (profiles d)) as [|p [|p' l]]; cbn in *; try reflexivity. lia.
Qed.

(** The two reads of the load. *)
Lemma application_reads_quiet T w :
  generating userId w0 T w ->
  let r := run supabase (promise_all2 (Api.getTasks userId)
                           (Api.getLockedUniversities userId)) w in
  outcome r = Fulfilled (tasks_rows (db w) userId, first :: rest)
  /\ generating userId w0 T (final r).
Proof.
  intros G. cbv zeta. split.
  - destruct G as [Hf [Ht [Hl [Hu _]]]].
    unfold promise_all2.
    rewrite run_bind, run_settle, (getTasks_round_trip userId _ supabase w).
    cbn [outcome final log after].
    rewrite run_bind, run_settle, (getLockedUniversities_round_trip userId _ supabase).
    cbn [outcome final log after].
    destruct (supabase_quiet (tasks_select userId) w Hf) as [A1 [A2 A3]].
    set (w1 := snd (supabase (tasks_select userId) w)) in *.
    destruct (supabase_quiet (locked_select userId) w1 A3) as [B1 [B2 B3]].
    rewrite (exec_read_tables (tasks_select userId)) in A2 by reflexivity.
    rewrite A1, B1.
    cbn [exec fst reply error data run outcome final Api.array_or_empty].
    rewrite A2. fold (locked_rows (db w) userId). fold (tasks_rows (db w) userId).
    now rewrite (locked_rows_same (db w) Hl Hu).
  - apply generating_keeps; [|exact G].
    unfold promise_all2. apply all_calls_bind.
    { apply all_calls_settle.
      unfold Api.getTasks. cbn. split; [reflexivity|]. intros r. now destruct (error r). }
    intros o1. apply all_calls_bind.
    { apply all_calls_settle.
      unfold Api.getLockedUniversities. cbn. split; [reflexivity|]. intros r.
      now destruct (error r). }
    intros o2. destruct o1, o2; exact I.
Qed.

(** [refreshProfile] while the default tasks are generated. *)
Lemma refreshProfile_generating T st :
  hhoare (fun u w => snd u = st /\ generating userId w0 T w)
    (@Auth.refreshProfile ApplicationPage.State)
    (fun o u w => match o with
                  | Fulfilled _ => snd u = st /\ generating userId w0 T w
                  | Rejected _ => False
                  end).
Proof.
  intros u w [Hs G]. unfold hrun, Auth.refreshProfile.
  destruct (Auth.user (fst u)) as [uid|]; [|cbn; now split].
  rewrite run_bind, run_settle, (getProfile_round_trip uid _ supabase w).
  cbn [outcome final log after].
  assert (G' : generating userId w0 T (snd (supabase (profiles_select uid) w)))
    by (now apply generating_calm).
  destruct G as [Hf [_ [_ [_ [_ [Hk _]]]]]].
  destruct (supabase_quiet (profiles_select uid) w Hf) as [R _].
  rewrite R, (exec_profiles_select_ok uid _ _ Hk). cbn. now split.
Qed.

(** The part of the load that may set the stage. *)
Lemma stage_part_generating T st locked :
  hhoare (fun u w => snd u = st /\ generating userId w0 T w)
    (stage_part userId ctx locked)
    (fun o u w => match o with
                  | Fulfilled _ => snd u = st /\ generating userId w0 T w
                  | Rejected _ => False
                  end).
Proof.
  unfold stage_part.
  destruct ((0 <? List.length locked)%nat && Auth.stage_is ctx committed);
    [|apply hhoare_hret; auto].
  apply (hhoare_hbind _ _ _
           (fun (o : Outcome unit) u w =>
              match o with
              | Fulfilled _ => snd u = st /\ generating userId w0 T w
              | Rejected _ => False
              end));
    [| intros a; apply refreshProfile_generating | intros e u w H; exact H].
  apply hhoare_lift. intros u w [Hs G].
  rewrite (updateUserStage_round_trip userId applying _ supabase w). cbn [outcome final].
  assert (G' : generating userId w0 T
                 (snd (supabase (profiles_update userId [Profile.set_current_stage applying])
                         w)))
    by (now apply generating_calm).
  destruct G as [Hf _].
  destruct (supabase_quiet (profiles_update userId [Profile.set_current_stage applying])
              w Hf) as [R _].
  rewrite R. cbn [exec forallb assign_in_range andb reply fst error]. now split.
Qed.

(** The loop of [generateDefaultTasks]. *)
Lemma default_tasks_loop st (xs : list (string * string * string)) :
  Forall (fun task : string * string * string => snd task <> EmptyString) xs ->
  forall T,
  hhoare (fun (u : Auth.t * ApplicationPage.State) w =>
            snd u = st /\ generating userId w0 T w)
    (hfor_each xs
       (fun task =>
          let '(title, description, priority) := task in
          lift (Api.createTask userId
                  (TaskInput.mk title (Some description)
                     (Some (LockedUniversity.university_id first)) None (Some priority)))
          ~;; hret tt))
    (fun o u w =>
       match o with
       | Fulfilled _ =>
           snd u = st
           /\ exists rows,
                generating userId w0 (T ++ rows)%list w
                /\ Forall2 (default_row userId (LockedUniversity.university_id first))
                     xs rows
       | Rejected _ => False
       end).
Proof.
  induction 1 as [|task xs Hprio Hxs IH]; intros T; cbn [hfor_each].
  - apply hhoare_hret. intros u w [Hs G]. split; [exact Hs|].
    exists []. rewrite app_nil_r. split; [exact G | constructor].
  - apply (hhoare_hbind _ _ _
             (fun o u w =>
                match o with
                | Fulfilled _ =>
                    exists row,
                      (snd u = st /\ generating userId w0 (T ++ [row])%list w)
                      /\ default_row userId (LockedUniversity.university_id first) task row
                | Rejected _ => False
                end)).
    + destruct task as [[title description] priority].
      apply (hhoare_hbind _ _ _
               (fun o u w =>
                  match o with
                  | Fulfilled _ =>
                      exists row,
                        (snd u = st /\ generating userId w0 (T ++ [row])%list w)
                        /\ default_row userId (LockedUniversity.university_id first)
                             (title, description, priority) row
                  | Rejected _ => False
                  end)).
      * apply hhoare_lift. intros u w [Hs G].
        destruct (generating_insert userId w0 T (LockedUniversity.university_id first)
                    (title, description, priority) w Huni G) as [row [Ho [G' Hrow]]].
        cbn [fst snd] in Ho, G', Hrow. rewrite Ho. exists row. auto.
      * intros a. apply hhoare_hret. intros u w H. exact H.
      * intros e u w [].
    + intros a u w [row [[Hs G] Hrow]].
      pose proof (IH (T ++ [row])%list u w (conj Hs G)) as H.
      destruct (fst (fst (hrun supabase _ u w))) as [b|e]; [|exact H].
      destruct H as [Hs' [rows [G' Hrows]]]. split; [exact Hs'|].
      exists (row :: rows). rewrite <- app_assoc in G'. split; [exact G'|].
      now constructor.
    + intros e u w [].
Qed.

Lemma hhoare_known {U A} (P : U -> World -> Prop) (phi : Prop) (h : Handler U A)
  (Q : Outcome A -> U -> World -> Prop) :
  (forall u w, P u w -> phi) -> (phi -> hhoare P h Q) -> hhoare P h Q.
Proof. intros H1 H2 u w Hp. exact (H2 (H1 u w Hp) u w Hp). Qed.

Lemma task_rows_of_same T w :
  generating userId w0 T w -> tasks_rows (db w) userId = task_rows_of (db w0) userId T.
Proof.
  intros [_ [Ht [_ [Hu _]]]]. unfold tasks_rows, task_rows_of. rewrite Ht.
  apply map_ext. intros k. unfold embed_task, find_university. now rewrite Hu.
Qed.

Lemma task_rows_of_length d T :
  List.length (task_rows_of d userId T)
  = List.length (filter (fun k => String.eqb (Task.user_id k) userId) T).
Proof. unfold task_rows_of. now rewrite length_map, order_by_length. Qed.

(** The first three steps of the load: the two reads, [setTasks] and
    [setLockedUniversities], and the stage. *)
Lemma load_reads_generating T st0 :
  hhoare (fun (u : Auth.t * ApplicationPage.State) w =>
            snd u = st0 /\ generating userId w0 T w)
    (lift (promise_all2 (Api.getTasks userId) (Api.getLockedUniversities userId)))
    (fun o u w =>
       match o with
       | Fulfilled a =>
           a = (task_rows_of (db w0) userId T, first :: rest)
           /\ snd u = st0 /\ generating userId w0 T w
       | Rejected _ => False
       end).
Proof.
  apply hhoare_lift. intros u w [Hs G].
  destruct (application_reads_quiet T w G) as [Ho G']. cbv zeta in Ho, G'.
  rewrite Ho. split; [|now split]. now rewrite (task_rows_of_same T w G).
Qed.

(** A load that finds tasks shows them and comes back. *)
Lemma load_with_tasks_generating T st0 fuel :
  task_rows_of (db w0) userId T <> [] ->
  hhoare (fun (u : Auth.t * ApplicationPage.State) w =>
            snd u = st0 /\ generating userId w0 T w)
    (ApplicationPage.loadData ctx (S fuel))
    (fun o u w =>
       o = Fulfilled ApplicationPage.completed
       /\ snd u = ApplicationPage.mkState (task_rows_of (db w0) userId T) (first :: rest)
                    false
       /\ generating userId w0 T w).
Proof.
  intros Hne. rewrite (loadData_unfold userId ctx fuel Hctx).
  set (st1 := ApplicationPage.mkState (task_rows_of (db w0) userId T) (first :: rest)
                (ApplicationPage.loading st0)).
  apply (hhoare_hfinally_modify _ _ _
           (fun o u w => o = Fulfilled ApplicationPage.completed
                         /\ snd u = st1 /\ generating userId w0 T w)).
  2:{ intros o u w [Ho [Hs G]]. split; [exact Ho|]. split; [|exact G].
      cbn [snd]. now rewrite Hs. }
  apply (hhoare_htry _ _ _
           (fun o u w => match o with
                         | Fulfilled c => c = ApplicationPage.completed
                                          /\ snd u = st1 /\ generating userId w0 T w
                         | Rejected _ => False
                         end)).
  2:{ intros a u w [-> H]. now split. }
  2:{ intros e u w []. }
  eapply hhoare_hbind; [apply (load_reads_generating T st0) | | intros e u w []].
  intros a. apply hhoare_known with (phi := a = (task_rows_of (db w0) userId T, first :: rest)).
  { intros u w [H _]. exact H. }
  intros ->.
  apply (hhoare_hbind _ _ _
           (fun (o : Outcome unit) u w =>
              match o with
              | Fulfilled _ => snd u = st1 /\ generating userId w0 T w
              | Rejected _ => False
              end)).
  2:{ intros _.
      apply (hhoare_hbind _ _ _
               (fun (o : Outcome unit) u w =>
                  match o with
                  | Fulfilled _ => snd u = st1 /\ generating userId w0 T w
                  | Rejected _ => False
                  end)).
      - apply stage_part_generating.
      - intros _.
        destruct (task_rows_of (db w0) userId T) as [|k ks] eqn:E; [now elim Hne|].
        cbn [List.length Nat.eqb andb]. apply hhoare_hret. intros u w H. now split.
      - intros e u w []. }
  2:{ intros e u w []. }
  apply hhoare_modify. intros u w [_ [Hs G]]. cbn [snd fst]. rewrite Hs. now split.
Qed.

(** The rows of the user's tasks once the default tasks are stored. *)
Lemma default_rows_stored T rows (xs : list (string * string * string)) :
  task_rows_of (db w0) userId T = [] ->
  Forall2 (default_row userId (LockedUniversity.university_id first)) xs rows ->
  List.length (task_rows_of (db w0) userId (T ++ rows)) = List.length xs.
Proof.
  intros Hnil Hrows. rewrite task_rows_of_length, filter_app, length_app.
  rewrite <- (task_rows_of_length (db w0) T), Hnil. cbn [List.length Nat.add].
  induction Hrows as [|x r xs rows Hr _ IH]; [reflexivity|].
  cbn [filter]. destruct Hr as [Hu _]. rewrite Hu, String.eqb_refl. cbn [List.length].
  now rewrite IH.
Qed.

(** A load that finds a locked university and no task stores the default
    tasks, loads again and shows them. *)
Lemma load_generates T st0 :
  task_rows_of (db w0) userId T = [] ->
  hhoare (fun (u : Auth.t * ApplicationPage.State) w =>
            snd u = st0 /\ generating userId w0 T w)
    (ApplicationPage.loadData ctx 2)
    (fun o u w =>
       o = Fulfilled ApplicationPage.completed
       /\ exists rows,
            Forall2 (default_row userId (LockedUniversity.university_id first))
              ApplicationPage.defaultTasks rows
            /\ snd u = ApplicationPage.mkState
                         (task_rows_of (db w0) userId (T ++ rows)) (first :: rest) false
            /\ generating userId w0 (T ++ rows)%list w).
Proof.
  intros Hnil. rewrite (loadData_unfold userId ctx 1 Hctx).
  set (st1 := ApplicationPage.mkState [] (first :: rest) (ApplicationPage.loading st0)).
  set (Q := fun (o : Outcome ApplicationPage.Completion)
                (u : Auth.t * ApplicationPage.State) w =>
              o = Fulfilled ApplicationPage.completed
              /\ exists rows,
                   Forall2 (default_row userId (LockedUniversity.university_id first))
                     ApplicationPage.defaultTasks rows
                   /\ (exists l, snd u = ApplicationPage.mkState
                                  (task_rows_of (db w0) userId (T ++ rows))
                                  (first :: rest) l)
                   /\ generating userId w0 (T ++ rows)%list w).
  apply (hhoare_hfinally_modify _ _ _ Q).
  2:{ intros o u w [Ho [rows [Hrows [[l Hs] G]]]]. split; [exact Ho|]. exists rows.
      split; [exact Hrows|]. split; [|exact G]. cbn [snd]. now rewrite Hs. }
  apply (hhoare_htry _ _ _
           (fun o u w => match o with
                         | Fulfilled c => Q (Fulfilled c) u w
                         | Rejected _ => False
                         end)).
  2:{ intros a u w H. exact H. }
  2:{ intros e u w []. }
  eapply hhoare_hbind; [apply (load_reads_generating T st0) | | intros e u w []].
  intros a. apply hhoare_known with (phi := a = (task_rows_of (db w0) userId T, first :: rest)).
  { intros u w [H _]. exact H. }
  intros ->. rewrite Hnil.
  apply (hhoare_hbind _ _ _
           (fun (o : Outcome unit) u w =>
              match o with
              | Fulfilled _ => snd u = st1 /\ generating userId w0 T w
              | Rejected _ => False
              end)).
  { apply hhoare_modify. intros u w [_ [Hs G]]. cbn [snd fst]. rewrite Hs. now split. }
  2:{ intros e u w []. }
  intros _.
  apply (hhoare_hbind _ _ _
           (fun (o : Outcome unit) u w =>
              match o with
              | Fulfilled _ => snd u = st1 /\ generating userId w0 T w
              | Rejected _ => False
              end)).
  { apply stage_part_generating. }
  2:{ intros e u w []. }
  intros _. cbn [List.length Nat.eqb Nat.ltb Nat.leb andb].
  unfold ApplicationPage.generateDefaultTasks.
  apply (hhoare_htry _ _ _
           (fun o u w => match o with
                         | Fulfilled c => Q (Fulfilled c) u w
                         | Rejected _ => False
                         end)).
  2:{ intros a u w H. exact H. }
  2:{ intros e u w []. }
  apply (hhoare_hbind _ _ _
           (fun (o : Outcome unit) u w =>
              match o with
              | Fulfilled _ =>
                  snd u = st1
                  /\ exists rows,
                       generating userId w0 (T ++ rows)%list w
                       /\ Forall2 (default_row userId
                                     (LockedUniversity.university_id first))
                            ApplicationPage.defaultTasks rows
              | Rejected _ => False
              end)).
  { apply default_tasks_loop.
    repeat constructor; discriminate. }
  2:{ intros e u w []. }
  intros _ u w [Hs [rows [G Hrows]]].
  assert (Hne : task_rows_of (db w0) userId (T ++ rows) <> []).
  { intros E. pose proof (default_rows_stored T rows _ Hnil Hrows) as Hlen.
    rewrite E in Hlen. discriminate Hlen. }
  destruct (load_with_tasks_generating (T ++ rows) st1 0 Hne u w (conj Hs G))
    as [Ho [Hs' G']].
  rewrite Ho. split; [reflexivity|]. exists rows. split; [exact Hrows|].
  split; [|exact G']. eexists. exact Hs'.
Qed.

End DefaultTasksLoad.

(** X25: one load of the applications page, taken from its first request
    to its end with no other handler in flight, for a signed-in user whose
    store is ready for the default tasks ([ready_for_defaults]: no request
    is lost, the user has a profile row and no other row has its id, the
    user has no task, and the ids the service will generate are not those
    of stored tasks), who has a locked university, the most recently
    locked one being a stored university.  The load comes back after one
    nested load: it has stored one row for each of the five default
    tasks, all for the most recently locked university, not completed and
    without a due date; it shows the user's stored tasks, which are these
    five, and the locked universities, and is no longer loading.  This is
    a fact of one load and not of the page: the Delete buttons stay
    enabled while a deletion is in flight, and on the sample store, when
    Ann deletes her two tasks one right after the other and both reloads
    read before either writes, each reload finds no task and stores the
    five default tasks, which leaves ten, with no request refused. *)
Theorem X25_default_tasks_generated (ctx : Auth.t) (userId : string)
  (first : LockedUniversity.t) (rest : list LockedUniversity.t)
  (u : Auth.t * ApplicationPage.State) (w : Postgres.World) :
  Auth.user ctx = Some userId ->
  ready_for_defaults userId w ->
  locked_rows (Postgres.db w) userId = first :: rest ->
  Postgres.has_university (Postgres.db w) (LockedUniversity.university_id first) = true ->
  let r := hrun Postgres.supabase (ApplicationPage.loadData ctx 2) u w in
  let st := snd (snd (fst r)) in
  fst (fst r) = Fulfilled ApplicationPage.completed
  /\ (exists rows,
        Postgres.tasks (Postgres.db (snd r)) = (Postgres.tasks (Postgres.db w) ++ rows)%list
        /\ Forall2 (default_row userId (LockedUniversity.university_id first))
             ApplicationPage.defaultTasks rows)
  /\ ApplicationPage.tasks st = tasks_rows (Postgres.db (snd r)) userId
  /\ List.length (ApplicationPage.tasks st) = 5
  /\ ApplicationPage.lockedUniversities st = first :: rest
  /\ ApplicationPage.loading st = false
  /\ (let ann := Sample.signed_in applying in
      let task id := Task.mk id "u1" (Some "a"%string) "Essay" None false None "high" 0 0 None in
      let locked := LockedUniversity.mk "l1" "u1" "a" 0 None in
      let shown := (ann, ApplicationPage.mkState [task "t1"%string; task "t2"%string]
                           [locked] false) in
      let w := Postgres.mkWorld
                 (Postgres.mkDb [Sample.ann applying]
                    [Sample.alpha; Sample.beta; Sample.gamma] []
                    [locked] [task "t1"%string; task "t2"%string] [])
                 0 [] [] in
      let both :=
        run Postgres.supabase
          (overlap [true; false; true; true; false; false]
             (ApplicationPage.handleDeleteTask ann 2 "t1" shown)
             (ApplicationPage.handleDeleteTask ann 2 "t2" shown)) w in
      List.length (tasks_rows (Postgres.db (final both)) "u1") = 10
      /\ map Task.title (Postgres.tasks (Postgres.db (final both)))
         = (map (fun d => fst (fst d)) ApplicationPage.defaultTasks
            ++ map (fun d => fst (fst d)) ApplicationPage.defaultTasks)%list
      /\ Forall (fun x => reported x = None) (log both)).
Proof.
  intros Hctx [Hf [Hp [Hk [Hnone Hfresh]]]] Hlocked Huni r st.
  match goal with
  | |- ?A /\ ?B /\ ?C /\ ?D /\ ?F /\ ?L /\ ?E =>
      assert (HE : E)
        by (split; [vm_compute; reflexivity|];
            split; [vm_compute; reflexivity | vm_compute; repeat constructor]);
      cut (A /\ B /\ C /\ D /\ F /\ L);
        [intros [a [b [c [d [f l]]]]];
         exact (conj a (conj b (conj c (conj d (conj f (conj l HE))))))|];
      clear HE
  end.
  assert (G : generating userId w (Postgres.tasks (Postgres.db w)) w)
    by (repeat split; assumption).
  assert (Hnil : task_rows_of (Postgres.db w) userId (Postgres.tasks (Postgres.db w)) = [])
    by exact Hnone.
  destruct (load_generates userId ctx Hctx w first rest Hlocked Huni
              (Postgres.tasks (Postgres.db w)) (snd u) Hnil u w (conj eq_refl G))
    as [Ho [rows [Hrows [Hs G']]]].
  fold r in Ho, Hs, G'. fold st in Hs.
  split; [exact Ho|]. split.
  { exists rows. split; [|exact Hrows]. now destruct G' as [_ [Ht _]]. }
  rewrite Hs. cbn [ApplicationPage.tasks ApplicationPage.lockedUniversities
                     ApplicationPage.loading].
  split; [symmetry; exact (task_rows_of_same userId w _ _ G')|].
  split; [|now split].
  exact (default_rows_stored userId w first _ rows _ Hnil Hrows).
Qed.

(** X25 on the sample store, where Ann has committed to Alpha and has no
    task. *)
Lemma X25_default_tasks_generated_witness :
  let w := Postgres.mkWorld
             (Postgres.mkDb [Sample.ann committed]
                [Sample.alpha; Sample.beta; Sample.gamma] []
                [LockedUniversity.mk "l1" "u1" "a" 0 None] [] [])
             0 [] [] in
  let r := hrun Postgres.supabase
             (ApplicationPage.loadData (Sample.signed_in committed) 2)
             (Sample.signed_in committed, ApplicationPage.initial) w in
  fst (fst r) = Fulfilled ApplicationPage.completed
  /\ List.length (ApplicationPage.tasks (snd (snd (fst r)))) = 5
  /\ ApplicationPage.loading (snd (snd (fst r))) = false.
Proof.
  intros w r.
  assert (Hready : ready_for_defaults "u1" w).
  { split; [reflexivity|]. split; [reflexivity|]. split.
    - unfold profiles_keyed. cbn. constructor; [intros [] | constructor].
    - split; [reflexivity|]. intros k []. }
  destruct (X25_default_tasks_generated (Sample.signed_in committed) "u1"
              (LockedUniversity.mk "l1" "u1" "a" 0 (Some Sample.alpha)) []
              (Sample.signed_in committed, ApplicationPage.initial) w
              eq_refl Hready eq_refl eq_refl) as [H1 [_ [_ [H2 [_ [H3 _]]]]]].
  split; [exact H1|]. split; [exact H2 | exact H3].
Defined.

(* ================================================================== *)
(** * Changing the category of a shortlisted university                *)
(* ================================================================== *)

Section CategoryWrites.

Import Postgres.

Lemma find_map_same {A} (key : A -> bool) (f : A -> A) (l : list A) :
  (forall s, key (f s) = key s) ->
  find key (map f l) = option_map f (find key l).
Proof.
  intros Hkey. induction l as [|s l IH]; [reflexivity|].
  cbn [map find]. rewrite Hkey. destruct (key s); [reflexivity | exact IH].
Qed.

Lemma existsb_map_same {A} (key : A -> bool) (f : A -> A) (l : list A) :
  (forall s, key (f s) = key s) ->
  existsb key (map f l) = existsb key l.
Proof.
  intros Hkey. induction l as [|s l IH]; [reflexivity|].
  cbn [map existsb]. now rewrite Hkey, IH.
Qed.

Lemma exec_shortlisted_update uid unid category d t :
  exists f,
    exec (shortlisted_update uid unid category) d t
    = (mkResponse None None,
       set_shortlisted d (map f (user_shortlisted_universities d)))
    /\ (forall uid' unid' s, shortlisted_key uid' unid' (f s) = shortlisted_key uid' unid' s)
    /\ (forall s, shortlisted_key uid unid s = true ->
                  ShortlistedUniversity.category (f s) = category)
    /\ (forall s, shortlisted_key uid unid s = false -> f s = s).
Proof.
  eexists. split; [reflexivity|]. split; [|split].
  - intros uid' unid' s. now destruct (shortlisted_key uid unid s).
  - intros s Hs. now rewrite Hs.
  - intros s Hs. now rewrite Hs.
Qed.

End CategoryWrites.

(** X26: [updateShortlistCategory], when its request is not lost, never
    throws, also when the pair is not on the shortlist, in which case
    nothing is stored for it; a pair on the shortlist gets the new
    category; every other pair keeps its category, the same pairs are on
    the shortlist as before, and the locked table is not touched. *)
Theorem X26_updateShortlistCategory (w : Postgres.World) (userId universityId : string)
  (category : UniversityCategory) :
  hd None (Postgres.faults w) = None ->
  let r := run Postgres.supabase
             (Api.updateShortlistCategory userId universityId category) w in
  outcome r = Fulfilled tt
  /\ stored_category (Postgres.db (final r)) userId universityId
     = match stored_category (Postgres.db w) userId universityId with
       | Some _ => Some category
       | None => None
       end
  /\ (forall uid unid, (uid, unid) <> (userId, universityId) ->
        stored_category (Postgres.db (final r)) uid unid
        = stored_category (Postgres.db w) uid unid)
  /\ (forall uid unid,
        Postgres.is_shortlisted (Postgres.db (final r)) uid unid
        = Postgres.is_shortlisted (Postgres.db w) uid unid)
  /\ Postgres.user_locked_universities (Postgres.db (final r))
     = Postgres.user_locked_universities (Postgres.db w)
  /\ sent r = [shortlisted_update userId universityId category].
Proof.
  intros Hf r. subst r.
  rewrite (updateShortlistCategory_round_trip userId universityId category _
             Postgres.supabase w).
  cbn [outcome final sent log map request].
  destruct (supabase_no_fault (shortlisted_update userId universityId category) w Hf)
    as [R D].
  destruct (exec_shortlisted_update userId universityId category (Postgres.db w)
              (Postgres.clock w)) as [f [E [Hkey [Hset Hkeep]]]].
  rewrite R, D, E. cbn [fst snd error].
  split; [reflexivity|]. split; [|split; [|split; [|split]]].
  - unfold stored_category.
    cbn [Postgres.set_shortlisted Postgres.user_shortlisted_universities].
    rewrite (find_map_same _ f _ (Hkey userId universityId)).
    destruct (find _ (Postgres.user_shortlisted_universities (Postgres.db w)))
      as [s|] eqn:Hs; [|reflexivity].
    cbn [option_map]. apply find_some in Hs. destruct Hs as [_ Hs].
    now rewrite (Hset s Hs).
  - intros uid unid Hne. unfold stored_category.
    cbn [Postgres.set_shortlisted Postgres.user_shortlisted_universities].
    rewrite (find_map_same _ f _ (Hkey uid unid)).
    destruct (find _ (Postgres.user_shortlisted_universities (Postgres.db w)))
      as [s|] eqn:Hs; [|reflexivity].
    cbn [option_map]. apply find_some in Hs. destruct Hs as [_ Hs].
    destruct (Postgres.shortlisted_key userId universityId s) eqn:Hk.
    + exfalso. apply Hne. exact (shortlisted_key_eq _ _ _ _ s Hk Hs).
    + now rewrite (Hkeep s Hk).
  - intros uid unid. unfold Postgres.is_shortlisted.
    cbn [Postgres.set_shortlisted Postgres.user_shortlisted_universities].
    apply existsb_map_same, Hkey.
  - reflexivity.
  - reflexivity.
Qed.

(** X26 on the sample store: Ann moves Alpha from dream to safe, and
    changes the category of Beta, which she has not shortlisted. *)
Lemma X26_updateShortlistCategory_witness :
  let w := Postgres.mkWorld (Sample.db_with_alpha_shortlisted exploring) 1 [] [] in
  stored_category
    (Postgres.db (final (run Postgres.supabase
                           (Api.updateShortlistCategory "u1" "a" safe) w))) "u1" "a"
  = Some safe
  /\ stored_category
       (Postgres.db (final (run Postgres.supabase
                              (Api.updateShortlistCategory "u1" "b" safe) w))) "u1" "b"
     = None.
Proof.
  intros w.
  destruct (X26_updateShortlistCategory w "u1" "a" safe eq_refl) as [_ [H1 _]].
  destruct (X26_updateShortlistCategory w "u1" "b" safe eq_refl) as [_ [H2 _]].
  split; [exact H1 | exact H2].
Defined.
